(** * Employee feedback system: statistics aggregation and period availability

    A shallow embedding of the two computations of the application and of
    the handlers around them:

    - the [departmentStats] loop of [GET /api/feedbacks] (Server/server.js),
    - the two filters of the [AvailableFeedbacks] component,
    - both once more over a store of objects addressed by reference, where
      a write through one reference is seen through every other,
    - the row decoding of [GET /api/feedbacks] and [GET /api/available-feedbacks],
    - the insertions of [POST /api/feedbacks] against the tables of
      Server/db/new_schema.sql,
    - the [onSubmit] transformation of the [FeedbackForm] component,
    - the figures that the [AdminDashboard] component derives from the
      response,
    - [GET /api/feedbacks/department/:department],
    - the handlers of the feedback periods and of the question templates,
      with what the [FeedbackQuestionManager] component keeps of them,
    - signing up, logging in, the [authenticateToken] middleware and
      [GET /api/auth/verify], with the [ProtectedRoute] component.

    JavaScript numbers that hold ratings, sums and counts are integers here
    ([Z]); a quotient [a / b] of two such numbers is kept as the exact
    rational [a # b] ([Q]), of which the JavaScript double is the nearest
    representable value.  Where a statement depends on it, the additions
    are followed to stay among the safe integers, and the rounding of a
    quotient, a product or a sum is a function of which the statement uses
    that it keeps the order and leaves the safe integers as they are. *)

From Stdlib Require Import List String Ascii Bool ZArith QArith Lia.
From Stdlib Require Import DecimalString.
From Stdlib Require DecimalFacts DecimalN.
From Stdlib Require Import Permutation Sorted Lqa Qround.
Import ListNotations.

Local Open Scope string_scope.
Local Open Scope list_scope.
Local Open Scope Z_scope.

(** ** Data model *)

(** One element of [feedback.questions]: the question of the period together
    with the rating and the comment of the employee. *)
Record FeedbackQuestion : Type := mkFeedbackQuestion {
  q_id : string;
  q_text : string;
  q_rating : Z;
  q_comment : option string
}.

(** The object built for each row by [GET /api/feedbacks]. *)
Record Feedback : Type := mkFeedback {
  f_id : string;
  userId : string;
  userName : string;
  userEmail : string;
  userDepartment : string;
  targetDepartment : string;
  questions : list FeedbackQuestion;
  additionalComment : option string;
  createdAt : Z
}.

(** The accumulator object stored in [questionMap]. *)
Record QuestionTotals : Type := mkQuestionTotals {
  questionId : string;
  questionText : string;
  totalRating : Z;
  count : Z
}.

(** One element of [questionStats]. *)
Record QuestionStat : Type := mkQuestionStat {
  qs_questionId : string;
  qs_questionText : string;
  qs_averageRating : Q
}.

(** One element of [departmentStats]. *)
Record DepartmentStat : Type := mkDepartmentStat {
  department : string;
  averageRating : Q;
  totalFeedbacks : nat;
  questionStats : list QuestionStat
}.

(** ** The JavaScript [Map] used as [questionMap]

    A [Map] iterates in insertion order, so it is an association list whose
    keys are pairwise distinct; [set] on a new key appends. *)
Module JsMap.

Definition t (V : Type) : Type := list (string * V).

Definition empty {V : Type} : t V := [].

Fixpoint has {V : Type} (m : t V) (k : string) : bool :=
  match m with
  | [] => false
  | (k', _) :: m' => if String.eqb k' k then true else has m' k
  end.

Fixpoint set {V : Type} (m : t V) (k : string) (v : V) : t V :=
  match m with
  | [] => [(k, v)]
  | (k', v') :: m' =>
      if String.eqb k' k then (k', v) :: m' else (k', v') :: set m' k v
  end.

(** [const stats = m.get(k); stats.x = ...]: the object held by the map is
    mutated through the reference that [get] returned, so the entry
    changes in place.  Nothing happens when the key is absent. *)
Fixpoint mutate {V : Type} (m : t V) (k : string) (f : V -> V) : t V :=
  match m with
  | [] => []
  | (k', v) :: m' =>
      if String.eqb k' k then (k', f v) :: m' else (k', v) :: mutate m' k f
  end.

(** [m.forEach(v => out.push(g v))] *)
Definition values {V : Type} (m : t V) : list V := map snd m.

End JsMap.

(** ** StatsAggregator: the [departmentStats] loop of [GET /api/feedbacks] *)

Definition departments : list string :=
  ["IT"; "Accounts"; "Material"; "HR"; "Production";
   "Refinery Engg"; "CGPP engg"; "Civil"; "Mechanical Engg";
   "Electrical Engg"; "Instrument"; "Technical"; "WCM"; "Safety"].

(** [n > 0 ? total / n : 0] *)
Definition guarded_quotient (total n : Z) : Q :=
  if 0 <? n then Qmake total (Z.to_pos n) else 0%Q.

(** Body of [feedback.questions.forEach(q => ...)] of the first pass. *)
Definition collect_question
    (questionMap : JsMap.t QuestionTotals) (q : FeedbackQuestion)
    : JsMap.t QuestionTotals :=
  let questionMap1 :=
    if negb (JsMap.has questionMap (q_id q)) then
      JsMap.set questionMap (q_id q)
        {| questionId := q_id q; questionText := q_text q;
           totalRating := 0; count := 0 |}
    else questionMap in
  JsMap.mutate questionMap1 (q_id q)
    (fun stats =>
       {| questionId := questionId stats;
          questionText := questionText stats;
          totalRating := totalRating stats + q_rating q;
          count := count stats + 1 |}).

(** [departmentFeedbacks.forEach(feedback => feedback.questions.forEach(...))] *)
Definition collect_questions (departmentFeedbacks : list Feedback)
    : JsMap.t QuestionTotals :=
  fold_left
    (fun questionMap feedback =>
       fold_left collect_question (questions feedback) questionMap)
    departmentFeedbacks JsMap.empty.

(** [questionMap.forEach(stats => questionStats.push({...}))] *)
Definition question_stat_of (stats : QuestionTotals) : QuestionStat :=
  {| qs_questionId := questionId stats;
     qs_questionText := questionText stats;
     qs_averageRating := guarded_quotient (totalRating stats) (count stats) |}.

Definition push_question_stats (questionMap : JsMap.t QuestionTotals)
    : list QuestionStat :=
  fold_left (fun questionStats stats => questionStats ++ [question_stat_of stats])
    (JsMap.values questionMap) [].

(** The second pass: [totalRating] and [totalQuestions]. *)
Definition overall_totals (departmentFeedbacks : list Feedback) : Z * Z :=
  fold_left
    (fun acc feedback =>
       fold_left
         (fun '(totalRating, totalQuestions) question =>
            (totalRating + q_rating question, totalQuestions + 1))
         (questions feedback) acc)
    departmentFeedbacks (0, 0).

(** [feedbacks.filter(f => f.targetDepartment === department)] *)
Definition departmentFeedbacks_of (feedbacks : list Feedback) (dept : string)
    : list Feedback :=
  filter (fun f => String.eqb (targetDepartment f) dept) feedbacks.

(** Body of [departments.forEach(department => ...)]: the entry pushed for
    one department. *)
Definition department_stat (feedbacks : list Feedback) (dept : string)
    : DepartmentStat :=
  let departmentFeedbacks := departmentFeedbacks_of feedbacks dept in
  if Nat.eqb (List.length departmentFeedbacks) 0 then
    {| department := dept; averageRating := 0%Q;
       totalFeedbacks := 0%nat; questionStats := [] |}
  else
    let questionMap := collect_questions departmentFeedbacks in
    let questionStats := push_question_stats questionMap in
    let '(totalRating, totalQuestions) := overall_totals departmentFeedbacks in
    {| department := dept;
       averageRating := guarded_quotient totalRating totalQuestions;
       totalFeedbacks := List.length departmentFeedbacks;
       questionStats := questionStats |}.

Definition departmentStats (feedbacks : list Feedback) : list DepartmentStat :=
  fold_left
    (fun departmentStats dept => departmentStats ++ [department_stat feedbacks dept])
    departments [].

(** *** The aggregation in the words of the specification

    "Within each partition, group the embedded question-rating pairs by
    question identifier, sum ratings and counts, divide to get per-question
    average (0 when count is 0)"; "the sum of all ratings across all
    questions in that partition divided by the total number of ratings". *)

(** All question-rating pairs of the feedbacks that target [dept]. *)
Definition partition_ratings (feedbacks : list Feedback) (dept : string)
    : list FeedbackQuestion :=
  flat_map questions (departmentFeedbacks_of feedbacks dept).

Definition sum_ratings (qs : list FeedbackQuestion) : Z :=
  fold_right Z.add 0 (map q_rating qs).

(** The pairs of one group. *)
Definition group_of (k : string) (qs : list FeedbackQuestion)
    : list FeedbackQuestion :=
  filter (fun q => String.eqb (q_id q) k) qs.

(** Identifiers in the order in which they are first met. *)
Fixpoint first_encounters (ids : list string) : list string :=
  match ids with
  | [] => []
  | k :: ks => k :: filter (fun k' => negb (String.eqb k k')) (first_encounters ks)
  end.

(** Text of the first pair of a group. *)
Definition first_text (k : string) (qs : list FeedbackQuestion) : string :=
  match group_of k qs with
  | q :: _ => q_text q
  | [] => EmptyString
  end.

(** Sum divided by count, 0 when the count is 0. *)
Definition spec_average (sum : Z) (n : nat) : Q :=
  match n with
  | O => 0%Q
  | S _ => Qmake sum (Pos.of_nat n)
  end.

Definition spec_questionStats (qs : list FeedbackQuestion) : list QuestionStat :=
  map (fun k =>
         {| qs_questionId := k;
            qs_questionText := first_text k qs;
            qs_averageRating :=
              spec_average (sum_ratings (group_of k qs))
                           (List.length (group_of k qs)) |})
      (first_encounters (map q_id qs)).

(** The entry of [departmentStats] for a department, when there is one. *)
Definition stat_for (stats : list DepartmentStat) (dept : string)
    : option DepartmentStat :=
  find (fun e => String.eqb (department e) dept) stats.

(** ** JSON text

    [JSON.parse] and [JSON.stringify] are the engine's; the handlers are
    written against them.  [JSON_parse s = None] stands for a [SyntaxError];
    the result type is the one the handler goes on to use, so a text that
    parses to something else than such a list is outside this model. *)
Class JsonParse (A : Type) := JSON_parse : string -> option A.
Class JsonStringify (A : Type) := JSON_stringify : A -> string.

(** ** Tables of Server/db/new_schema.sql *)

Record UserRow : Type := mkUserRow {
  U_ID : string;
  U_EMAIL : string;
  U_NAME : string;
  U_DEPARTMENT : string;
  U_IS_ADMIN : Z
}.

Record FeedbackPeriodRow : Type := mkFeedbackPeriodRow {
  FP_ID : string;
  FP_DEPARTMENT : string;
  FP_START_DATE : Z;
  FP_END_DATE : Z;
  FP_QUESTIONS : option string;
  FP_ACTIVE : Z;
  FP_CREATED_AT : Z
}.

Record FeedbackRow : Type := mkFeedbackRow {
  FB_ID : string;
  FB_USER_ID : string;
  FB_USER_NAME : string;
  FB_USER_EMAIL : string;
  FB_USER_DEPARTMENT : string;
  FB_TARGET_DEPARTMENT : string;
  FB_QUESTIONS : option string;
  FB_ADDITIONAL_COMMENT : option string;
  FB_CREATED_AT : Z
}.

Record FeedbackQuestionRow : Type := mkFeedbackQuestionRow {
  FQ_ID : string;
  FQ_FEEDBACK_ID : string;
  FQ_TEXT : string;
  FQ_RATING : Z;
  FQ_COMMENTS : option string;
  FQ_CREATED_AT : Z
}.

(** The database: the tables read or written by the handlers below and the
    two sequences they draw identifiers from (the next value of each). *)
Record Db : Type := mkDb {
  db_users : list UserRow;
  db_departments : list string;
  db_feedback_periods : list FeedbackPeriodRow;
  db_feedbacks : list FeedbackRow;
  db_feedback_questions : list FeedbackQuestionRow;
  db_feedback_seq : N;
  db_feedback_question_seq : N
}.

(** [ORDER BY]: a stable insertion sort; [before x y] says that [x] may
    precede [y]. *)
Fixpoint insert_by {A : Type} (before : A -> A -> bool) (x : A) (l : list A)
    : list A :=
  match l with
  | [] => [x]
  | y :: l' => if before x y then x :: l else y :: insert_by before x l'
  end.

Definition order_by {A : Type} (before : A -> A -> bool) (rows : list A)
    : list A :=
  fold_right (insert_by before) [] rows.

(** ** Row decoding of [GET /api/feedbacks] *)

(** A question of a period or of a template. *)
Record Question : Type := mkQuestion {
  qn_id : string;
  qn_text : string;
  qn_type : string
}.

(** The object returned for a period by [GET /api/available-feedbacks]. *)
Record FeedbackPeriod : Type := mkFeedbackPeriod {
  fp_id : string;
  fp_department : string;
  fp_startDate : Z;
  fp_endDate : Z;
  fp_active : bool;
  fp_questions : list Question;
  fp_createdAt : Z
}.

(** [let questions = []; try { if (clob) questions = JSON.parse(...) } catch {}] *)
Definition parse_clob {A : Type} `{JsonParse (list A)} (clob : option string)
    : list A :=
  match clob with
  | Some questionsString =>
      match JSON_parse questionsString with
      | Some parsed => parsed
      | None => []
      end
  | None => []
  end.

Record FeedbacksResponse : Type := mkFeedbacksResponse {
  r_feedbacks : list Feedback;
  r_departmentStats : list DepartmentStat;
  r_totalFeedbacks : nat
}.

Section FeedbacksHandler.

Context `{JsonParse (list FeedbackQuestion)}.

(** Body of [result.rows.map(async row => ...)]. *)
Definition feedback_of_row (row : FeedbackRow) : Feedback :=
  {| f_id := FB_ID row;
     userId := FB_USER_ID row;
     userName := FB_USER_NAME row;
     userEmail := FB_USER_EMAIL row;
     userDepartment := FB_USER_DEPARTMENT row;
     targetDepartment := FB_TARGET_DEPARTMENT row;
     questions := parse_clob (FB_QUESTIONS row);
     additionalComment := FB_ADDITIONAL_COMMENT row;
     createdAt := FB_CREATED_AT row |}.

(** From the fetched rows to the response body. *)
Definition feedbacks_response (rows : list FeedbackRow) : FeedbacksResponse :=
  let feedbacks := map feedback_of_row rows in
  {| r_feedbacks := feedbacks;
     r_departmentStats := departmentStats feedbacks;
     r_totalFeedbacks := List.length feedbacks |}.

(** [SELECT ... FROM feedbacks f ORDER BY f.created_at DESC] *)
Definition select_feedbacks (db : Db) : list FeedbackRow :=
  order_by (fun x y => FB_CREATED_AT y <=? FB_CREATED_AT x) (db_feedbacks db).

(** [GET /api/feedbacks]: the response and the database it leaves. *)
Definition get_feedbacks (db : Db) : FeedbacksResponse * Db :=
  let rows := select_feedbacks db in
  (feedbacks_response rows, db).

End FeedbacksHandler.

(** ** [GET /api/available-feedbacks] *)

Record AvailableData : Type := mkAvailableData {
  d_feedbackPeriods : list FeedbackPeriod;
  d_submittedDepartments : list string
}.

Inductive AvailableResponse : Type :=
| AvailableOk (data : AvailableData)
| AvailableBadRequest (error : string).

Section AvailableHandler.

Context `{JsonParse (list Question)}.

Definition period_of_row (row : FeedbackPeriodRow) : FeedbackPeriod :=
  {| fp_id := FP_ID row;
     fp_department := FP_DEPARTMENT row;
     fp_startDate := FP_START_DATE row;
     fp_endDate := FP_END_DATE row;
     fp_active := FP_ACTIVE row =? 1;
     fp_questions := parse_clob (FP_QUESTIONS row);
     fp_createdAt := FP_CREATED_AT row |}.

(** [WHERE active = 1 AND end_date > SYSTIMESTAMP ORDER BY end_date ASC] *)
Definition select_active_periods (now : Z) (db : Db) : list FeedbackPeriodRow :=
  order_by (fun x y => FP_END_DATE x <=? FP_END_DATE y)
    (filter (fun row => (FP_ACTIVE row =? 1) && (now <? FP_END_DATE row))
            (db_feedback_periods db)).

(** [SELECT target_department FROM feedbacks WHERE user_id = :userId] *)
Definition select_submitted (user : string) (db : Db) : list FeedbackRow :=
  filter (fun row => String.eqb (FB_USER_ID row) user) (db_feedbacks db).

(** The handler; [userId] is [req.query.userId], absent or empty when
    falsy. *)
Definition get_available_feedbacks (now : Z) (userId : option string) (db : Db)
    : AvailableResponse * Db :=
  match userId with
  | None => (AvailableBadRequest "User ID is required", db)
  | Some EmptyString => (AvailableBadRequest "User ID is required", db)
  | Some user =>
      let periods := map period_of_row (select_active_periods now db) in
      let submittedDepartments :=
        map FB_TARGET_DEPARTMENT (select_submitted user db) in
      (AvailableOk {| d_feedbackPeriods := periods;
                      d_submittedDepartments := submittedDepartments |}, db)
  end.

End AvailableHandler.

(** ** [POST /api/feedbacks] *)

(** A question of the request body; a field is [None] when the body does not
    carry it (or carries [null]). *)
Record SubmittedQuestion : Type := mkSubmittedQuestion {
  sq_id : option string;
  sq_text : option string;
  sq_type : option string;
  sq_rating : option Z;
  sq_comment : option string
}.

(** [req.body] *)
Record SubmitBody : Type := mkSubmitBody {
  b_userId : option string;
  b_userName : option string;
  b_userEmail : option string;
  b_userDepartment : option string;
  b_targetDepartment : option string;
  b_questions : option (list SubmittedQuestion);
  b_additionalComment : option string
}.

Inductive Failure : Type :=
| ORA_01400 (column : string)      (* cannot insert NULL *)
| ORA_12899 (column : string)      (* value too large for column *)
| ORA_02291 (constraint : string)  (* parent key not found *)
| TypeError (message : string).

Inductive SubmitResponse : Type :=
| SubmitOk (id : string) (message : string)
| SubmitError (status : Z) (error : Failure).

(** Statements of one transaction: a failure carries the state reached, of
    which a rollback keeps what is not transactional. *)
Definition Tx (A : Type) : Type := Db -> (Failure + A) * Db.

Definition tx_ret {A : Type} (a : A) : Tx A := fun db => (inr a, db).

Definition tx_fail {A : Type} (e : Failure) : Tx A := fun db => (inl e, db).

Definition tx_bind {A B : Type} (m : Tx A) (k : A -> Tx B) : Tx B :=
  fun db =>
    match m db with
    | (inr a, db') => k a db'
    | (inl e, db') => (inl e, db')
    end.

Declare Scope tx_scope.
Delimit Scope tx_scope with tx.
Notation "x <- m ;; k" := (tx_bind m (fun x => k))
  (at level 100, m at next level, right associativity) : tx_scope.
Notation "m ;;; k" := (tx_bind m (fun _ => k))
  (at level 100, right associativity) : tx_scope.

(** [for (const x of xs) { await body x }] *)
Fixpoint tx_for_each {A : Type} (xs : list A) (body : A -> Tx unit) : Tx unit :=
  match xs with
  | [] => tx_ret tt
  | x :: xs' => tx_bind (body x) (fun _ => tx_for_each xs' body)
  end.

(** Decimal text of a sequence value. *)
Definition decimal (n : N) : string := NilEmpty.string_of_uint (N.to_uint n).

(** [LPAD(s, n, pad)]: [s] padded on the left to [n] characters, or cut to
    its first [n] characters when it is longer. *)
Definition LPAD (s : string) (n : nat) (pad : ascii) : string :=
  if Nat.leb n (String.length s) then substring 0 n s
  else String.append (string_of_list_ascii (repeat pad (n - String.length s))) s.

(** [seq.NEXTVAL] *)
Definition feedback_seq_NEXTVAL : Tx N :=
  fun db =>
    (inr (db_feedback_seq db),
     {| db_users := db_users db;
        db_departments := db_departments db;
        db_feedback_periods := db_feedback_periods db;
        db_feedbacks := db_feedbacks db;
        db_feedback_questions := db_feedback_questions db;
        db_feedback_seq := N.succ (db_feedback_seq db);
        db_feedback_question_seq := db_feedback_question_seq db |}).

Definition feedback_question_seq_NEXTVAL : Tx N :=
  fun db =>
    (inr (db_feedback_question_seq db),
     {| db_users := db_users db;
        db_departments := db_departments db;
        db_feedback_periods := db_feedback_periods db;
        db_feedbacks := db_feedbacks db;
        db_feedback_questions := db_feedback_questions db;
        db_feedback_seq := db_feedback_seq db;
        db_feedback_question_seq := N.succ (db_feedback_question_seq db) |}).

(** A bound value for a [NOT NULL] column of at most [size] characters
    ([size = None] for a CLOB).  Oracle reads the empty string as NULL. *)
Definition not_null (column : string) (size : option nat) (v : option string)
    : Tx string :=
  match v with
  | None => tx_fail (ORA_01400 column)
  | Some EmptyString => tx_fail (ORA_01400 column)
  | Some s =>
      match size with
      | Some n =>
          if Nat.leb (String.length s) n then tx_ret s
          else tx_fail (ORA_12899 column)
      | None => tx_ret s
      end
  end.

Definition not_null_number (column : string) (v : option Z) : Tx Z :=
  match v with
  | None => tx_fail (ORA_01400 column)
  | Some n => tx_ret n
  end.

(** A foreign key: the value is one of the parent keys. *)
Definition references (constraint : string) (v : string) (keys : Db -> list string)
    : Tx unit :=
  fun db =>
    if existsb (String.eqb v) (keys db) then (inr tt, db)
    else (inl (ORA_02291 constraint), db).

(** [x || null] on an optional string: the empty string is falsy. *)
Definition or_null (v : option string) : option string :=
  match v with
  | Some EmptyString => None
  | _ => v
  end.

Definition append_feedback (row : FeedbackRow) : Tx unit :=
  fun db =>
    (inr tt,
     {| db_users := db_users db;
        db_departments := db_departments db;
        db_feedback_periods := db_feedback_periods db;
        db_feedbacks := db_feedbacks db ++ [row];
        db_feedback_questions := db_feedback_questions db;
        db_feedback_seq := db_feedback_seq db;
        db_feedback_question_seq := db_feedback_question_seq db |}).

Definition append_feedback_question (row : FeedbackQuestionRow) : Tx unit :=
  fun db =>
    (inr tt,
     {| db_users := db_users db;
        db_departments := db_departments db;
        db_feedback_periods := db_feedback_periods db;
        db_feedbacks := db_feedbacks db;
        db_feedback_questions := db_feedback_questions db ++ [row];
        db_feedback_seq := db_feedback_seq db;
        db_feedback_question_seq := db_feedback_question_seq db |}).

(** What a rollback restores: the tables; sequence values already drawn are
    not given back. *)
Definition rollback (before reached : Db) : Db :=
  {| db_users := db_users before;
     db_departments := db_departments before;
     db_feedback_periods := db_feedback_periods before;
     db_feedbacks := db_feedbacks before;
     db_feedback_questions := db_feedback_questions before;
     db_feedback_seq := db_feedback_seq reached;
     db_feedback_question_seq := db_feedback_question_seq reached |}.

Section SubmitHandler.

Context `{JsonStringify (list SubmittedQuestion)}.

Local Open Scope tx_scope.

(** [INSERT INTO feedbacks (...) VALUES (...) RETURNING id INTO :id] *)
Definition insert_feedback (now : Z) (body : SubmitBody) : Tx string :=
  n <- feedback_seq_NEXTVAL ;;
  let id := String.append "FB" (LPAD (decimal n) 8 "0") in
  let questionsJson := option_map JSON_stringify (b_questions body) in
  user_id <- not_null "USER_ID" (Some 36%nat) (b_userId body) ;;
  user_name <- not_null "USER_NAME" (Some 255%nat) (b_userName body) ;;
  user_email <- not_null "USER_EMAIL" (Some 255%nat) (b_userEmail body) ;;
  user_department <-
    not_null "USER_DEPARTMENT" (Some 100%nat) (b_userDepartment body) ;;
  target_department <-
    not_null "TARGET_DEPARTMENT" (Some 100%nat) (b_targetDepartment body) ;;
  questions <- not_null "QUESTIONS" None questionsJson ;;
  references "FK_FB_USER" user_id (fun db => map U_ID (db_users db)) ;;;
  references "FK_FB_USER_DEPT" user_department db_departments ;;;
  references "FK_FB_TARGET_DEPT" target_department db_departments ;;;
  append_feedback
    {| FB_ID := id;
       FB_USER_ID := user_id;
       FB_USER_NAME := user_name;
       FB_USER_EMAIL := user_email;
       FB_USER_DEPARTMENT := user_department;
       FB_TARGET_DEPARTMENT := target_department;
       FB_QUESTIONS := Some questions;
       FB_ADDITIONAL_COMMENT := or_null (b_additionalComment body);
       FB_CREATED_AT := now |} ;;;
  tx_ret id.

(** [INSERT INTO feedback_questions (...) VALUES (...)] *)
Definition insert_feedback_question (now : Z) (feedbackId : string)
    (question : SubmittedQuestion) : Tx unit :=
  n <- feedback_question_seq_NEXTVAL ;;
  let id := String.append "FQ" (LPAD (decimal n) 8 "0") in
  text <- not_null "TEXT" None (sq_text question) ;;
  rating <- not_null_number "RATING" (sq_rating question) ;;
  references "FK_FQ_FEEDBACK" feedbackId (fun db => map FB_ID (db_feedbacks db)) ;;;
  append_feedback_question
    {| FQ_ID := id;
       FQ_FEEDBACK_ID := feedbackId;
       FQ_TEXT := text;
       FQ_RATING := rating;
       FQ_COMMENTS := or_null (sq_comment question);
       FQ_CREATED_AT := now |}.

(** The statements between [getConnection] and [commit]. *)
Definition submit_transaction (now : Z) (body : SubmitBody) : Tx string :=
  feedbackId <- insert_feedback now body ;;
  match b_questions body with
  | Some questions =>
      tx_for_each questions (insert_feedback_question now feedbackId)
  | None => tx_fail (TypeError "questions is not iterable")
  end ;;;
  tx_ret feedbackId.

(** The handler: commit and answer with the new identifier, or roll back
    and answer 500. *)
Definition post_feedbacks (now : Z) (body : SubmitBody) (db : Db)
    : SubmitResponse * Db :=
  match submit_transaction now body db with
  | (inr feedbackId, db') =>
      (SubmitOk feedbackId "Feedback submitted successfully", db')
  | (inl err, db') => (SubmitError 500 err, rollback db db')
  end.

End SubmitHandler.

(** ** The [AvailableFeedbacks] component *)

Record User : Type := mkUser {
  u_id : string;
  u_name : string;
  u_email : string;
  u_department : string
}.

(** The [useState] cells of the component. *)
Record AvailableState : Type := mkAvailableState {
  loading : bool;
  feedbackPeriods : list FeedbackPeriod;
  submittedDepartments : list string;
  error : option string
}.

Definition initial_state : AvailableState :=
  {| loading := true; feedbackPeriods := [];
     submittedDepartments := []; error := None |}.

(** [data.feedbackPeriods.filter(period => period.department !== currentUser.department)] *)
Definition filteredPeriods (currentUser : User) (periods : list FeedbackPeriod)
    : list FeedbackPeriod :=
  filter (fun period =>
            negb (String.eqb (fp_department period) (u_department currentUser)))
         periods.

(** [xs.includes(x)] *)
Definition includes (xs : list string) (x : string) : bool :=
  existsb (fun y => String.eqb y x) xs.

(** The effect: [fetched] is the decoded body of the answer, [None] when the
    request fails or the answer is not [ok]. *)
Definition fetchAvailableFeedbacks (currentUser : option User)
    (fetched : option AvailableData) (st : AvailableState) : AvailableState :=
  match currentUser with
  | None =>
      {| loading := false; feedbackPeriods := feedbackPeriods st;
         submittedDepartments := submittedDepartments st;
         error := Some "User not authenticated" |}
  | Some user =>
      if String.eqb (u_id user) EmptyString then
        {| loading := false; feedbackPeriods := feedbackPeriods st;
           submittedDepartments := submittedDepartments st;
           error := Some "User not authenticated" |}
      else
        match fetched with
        | Some data =>
            {| loading := false;
               feedbackPeriods := filteredPeriods user (d_feedbackPeriods data);
               submittedDepartments := d_submittedDepartments data;
               error := None |}
        | None =>
            {| loading := false; feedbackPeriods := feedbackPeriods st;
               submittedDepartments := submittedDepartments st;
               error := Some "Failed to load available feedbacks" |}
        end
  end.

(** [feedbackPeriods.filter(period => !submittedDepartments.includes(period.department))] *)
Definition availablePeriods (st : AvailableState) : list FeedbackPeriod :=
  filter (fun period => negb (includes (submittedDepartments st) (fp_department period)))
         (feedbackPeriods st).

Inductive View : Type :=
| Spinner
| ErrorCard (message : string)
| FeedbackForms (available : list FeedbackPeriod) (completed : list string).

Definition render (st : AvailableState) : View :=
  if loading st then Spinner
  else match error st with
       | Some message => ErrorCard message
       | None => FeedbackForms (availablePeriods st) (submittedDepartments st)
       end.

(** AvailabilityFilter: what the component lists for a signed-in user once
    the periods and the submitted departments have been fetched. *)
Definition AvailabilityFilter (periods : list FeedbackPeriod)
    (submitted : list string) (currentUser : User) : list FeedbackPeriod :=
  availablePeriods
    {| loading := false;
       feedbackPeriods := filteredPeriods currentUser periods;
       submittedDepartments := submitted;
       error := None |}.

(** ** The [FeedbackForm] component *)

(** [parseInt(s, 10)]; [None] is [NaN].  White space is the ASCII part of
    the white space of the language. *)
Definition is_white_space (c : ascii) : bool :=
  let n := nat_of_ascii c in
  ((9 <=? n)%nat && (n <=? 13)%nat) || (n =? 32)%nat.

Fixpoint trim_start (s : string) : string :=
  match s with
  | String c s' => if is_white_space c then trim_start s' else s
  | EmptyString => EmptyString
  end.

Definition digit_of (c : ascii) : option Z :=
  let n := nat_of_ascii c in
  if ((48 <=? n)%nat && (n <=? 57)%nat)%bool then Some (Z.of_nat (n - 48)) else None.

Fixpoint parse_digits (s : string) (acc : option Z) : option Z :=
  match s with
  | String c s' =>
      match digit_of c with
      | Some d =>
          parse_digits s'
            (Some (10 * match acc with Some a => a | None => 0 end + d))
      | None => acc
      end
  | EmptyString => acc
  end.

Definition parseInt (s : string) : option Z :=
  match trim_start s with
  | String "-" s' => option_map Z.opp (parse_digits s' None)
  | String "+" s' => parse_digits s' None
  | s' => parse_digits s' None
  end.

(** [[1, 2, 3, 4, 5].map(value => <input type="radio" value={value} />)] *)
Definition rating_values : list Z := [1; 2; 3; 4; 5].

Definition radio_value (value : Z) : string := decimal (Z.to_N value).

Definition radio_values : list string := map radio_value rating_values.

(** [data[question.id]] *)
Record QuestionFormData : Type := mkQuestionFormData {
  rating : option string;
  comment : option string
}.

Record FormValues : Type := mkFormValues {
  by_question : string -> option QuestionFormData;
  fv_additionalComment : option string
}.

(** [x || ''] *)
Definition or_empty (v : option string) : string :=
  match v with
  | Some s => s
  | None => EmptyString
  end.

(** Body of [feedbackPeriod.questions.map(question => ...)]; [None] is the
    thrown "Missing rating for question". *)
Definition feedback_question_of (data : FormValues) (question : Question)
    : option SubmittedQuestion :=
  match by_question data (qn_id question) with
  | None => None
  | Some formQuestion =>
      match rating formQuestion with
      | None => None
      | Some EmptyString => None
      | Some r =>
          Some {| sq_id := Some (qn_id question);
                  sq_text := Some (qn_text question);
                  sq_type := Some (qn_type question);
                  sq_rating := parseInt r;
                  sq_comment := Some (or_empty (comment formQuestion)) |}
      end
  end.

Fixpoint map_throwing {A B : Type} (f : A -> option B) (xs : list A)
    : option (list B) :=
  match xs with
  | [] => Some []
  | x :: xs' =>
      match f x with
      | None => None
      | Some y =>
          match map_throwing f xs' with
          | None => None
          | Some ys => Some (y :: ys)
          end
      end
  end.

(** [onSubmit], up to the body handed to [fetch]; [None] when it returns
    early or throws before the request. *)
Definition onSubmit (currentUser : option User)
    (feedbackPeriod : option FeedbackPeriod) (data : FormValues)
    : option SubmitBody :=
  match currentUser, feedbackPeriod with
  | Some user, Some period =>
      match map_throwing (feedback_question_of data) (fp_questions period) with
      | None => None
      | Some feedbackQuestions =>
          if String.eqb (u_id user) EmptyString || String.eqb (u_name user) EmptyString
             || String.eqb (u_email user) EmptyString || String.eqb (u_department user) EmptyString
          then None
          else if String.eqb (fp_department period) EmptyString then None
          else
            Some {| b_userId := Some (u_id user);
                    b_userName := Some (u_name user);
                    b_userEmail := Some (u_email user);
                    b_userDepartment := Some (u_department user);
                    b_targetDepartment := Some (fp_department period);
                    b_questions := Some feedbackQuestions;
                    b_additionalComment :=
                      Some (or_empty (fv_additionalComment data)) |}
      end
  | _, _ => None
  end.

(** ** Definitions used by the proofs *)

(** The accumulator that the specification's grouping gives to [k]. *)
Definition totals_of (qs : list FeedbackQuestion) (k : string) : QuestionTotals :=
  {| questionId := k;
     questionText := first_text k qs;
     totalRating := sum_ratings (group_of k qs);
     count := Z.of_nat (List.length (group_of k qs)) |}.

Definition totals_map (qs : list FeedbackQuestion) : JsMap.t QuestionTotals :=
  map (fun k => (k, totals_of qs k)) (first_encounters (map q_id qs)).

(** The database after the header row has been appended. *)
Definition with_feedback (db : Db) (row : FeedbackRow) : Db :=
  {| db_users := db_users db;
     db_departments := db_departments db;
     db_feedback_periods := db_feedback_periods db;
     db_feedbacks := db_feedbacks db ++ [row];
     db_feedback_questions := db_feedback_questions db;
     db_feedback_seq := N.succ (db_feedback_seq db);
     db_feedback_question_seq := db_feedback_question_seq db |}.

(** The header row that a body leads to, given the checked values. *)
Definition header_row (now : Z) (n : N) (body : SubmitBody)
    (user target questionsJson : string) : FeedbackRow :=
  {| FB_ID := String.append "FB" (LPAD (decimal n) 8 "0");
     FB_USER_ID := user;
     FB_USER_NAME := or_empty (b_userName body);
     FB_USER_EMAIL := or_empty (b_userEmail body);
     FB_USER_DEPARTMENT := or_empty (b_userDepartment body);
     FB_TARGET_DEPARTMENT := target;
     FB_QUESTIONS := Some questionsJson;
     FB_ADDITIONAL_COMMENT := or_null (b_additionalComment body);
     FB_CREATED_AT := now |}.

(** The database after question rows have been appended. *)
Definition with_questions (db : Db) (rows : list FeedbackQuestionRow) : Db :=
  {| db_users := db_users db;
     db_departments := db_departments db;
     db_feedback_periods := db_feedback_periods db;
     db_feedbacks := db_feedbacks db;
     db_feedback_questions := db_feedback_questions db ++ rows;
     db_feedback_seq := db_feedback_seq db;
     db_feedback_question_seq :=
       (db_feedback_question_seq db + N.of_nat (List.length rows))%N |}.

Definition question_row (now : Z) (n : N) (fid text : string) (r : Z)
    (q : SubmittedQuestion) : FeedbackQuestionRow :=
  {| FQ_ID := String.append "FQ" (LPAD (decimal n) 8 "0");
     FQ_FEEDBACK_ID := fid;
     FQ_TEXT := text;
     FQ_RATING := r;
     FQ_COMMENTS := or_null (sq_comment q);
     FQ_CREATED_AT := now |}.


(** ** Sample data *)

Definition sample_question (id : string) (rating : Z) : FeedbackQuestion :=
  {| q_id := id; q_text := String.append "Question " id;
     q_rating := rating; q_comment := None |}.

Definition sample_feedback (id target : string) (qs : list FeedbackQuestion)
    : Feedback :=
  {| f_id := id; userId := "U1"; userName := "Asha"; userEmail := "asha@example.com";
     userDepartment := "IT"; targetDepartment := target; questions := qs;
     additionalComment := None; createdAt := 0 |}.

(** F1 = {q1: 5, q2: 3} and F2 = {q1: 1}, both about HR, and one feedback
    without questions about Civil. *)
Definition F1 : Feedback :=
  sample_feedback "FB00000001" "HR" [sample_question "q1" 5; sample_question "q2" 3].

Definition F2 : Feedback :=
  sample_feedback "FB00000002" "HR" [sample_question "q1" 1].

Definition F3 : Feedback := sample_feedback "FB00000003" "Civil" [].

Definition sample_feedbacks : list Feedback := [F1; F3; F2].

(** A decoder for the texts of the examples: the empty array, one stored
    question list, and a syntax error for anything else. *)
Definition quoted (s : string) : string :=
  String (ascii_of_nat 34) (String.append s (String (ascii_of_nat 34) EmptyString)).

Definition sample_json : string :=
  String.concat EmptyString
    ["[{"; quoted "id"; ":"; quoted "q1"; ","; quoted "rating"; ":4}]"].

Definition sample_JSON_parse : JsonParse (list FeedbackQuestion) :=
  fun s =>
    if String.eqb s "[]" then Some []
    else if String.eqb s sample_json then Some [sample_question "q1" 4]
    else None.

Definition sample_row (id target : string) (clob : option string) : FeedbackRow :=
  {| FB_ID := id; FB_USER_ID := "U1"; FB_USER_NAME := "Asha";
     FB_USER_EMAIL := "asha@example.com"; FB_USER_DEPARTMENT := "IT";
     FB_TARGET_DEPARTMENT := target; FB_QUESTIONS := clob;
     FB_ADDITIONAL_COMMENT := None; FB_CREATED_AT := 0 |}.

Definition bad_row : FeedbackRow :=
  sample_row "FB00000002" "HR" (Some "[{id:").

Definition good_row : FeedbackRow :=
  sample_row "FB00000001" "HR" (Some sample_json).

Definition sample_period (id dept : string) : FeedbackPeriod :=
  {| fp_id := id; fp_department := dept; fp_startDate := 0; fp_endDate := 100;
     fp_active := true; fp_questions := []; fp_createdAt := 0 |}.

(** A serializer for the examples: it writes the ratings only. *)
Definition sample_JSON_stringify : JsonStringify (list SubmittedQuestion) :=
  fun qs =>
    String.concat EmptyString
      ["["; String.concat ","
              (map (fun q =>
                      String.concat EmptyString
                        ["{"; quoted "rating"; ":";
                         match sq_rating q with
                         | Some r =>
                             if r <? 0 then String.append "-" (decimal (Z.to_N (- r)))
                             else decimal (Z.to_N r)
                         | None => "null"
                         end; "}"])
                   qs); "]"].

Definition sample_JSON_parse_questions : JsonParse (list Question) :=
  fun s => if String.eqb s "[]" then Some [] else None.

Definition sample_db : Db :=
  {| db_users :=
       [{| U_ID := "U1"; U_EMAIL := "asha@example.com"; U_NAME := "Asha";
           U_DEPARTMENT := "IT"; U_IS_ADMIN := 0 |}];
     db_departments := departments;
     db_feedback_periods :=
       [{| FP_ID := "FP00000001"; FP_DEPARTMENT := "HR"; FP_START_DATE := 0;
           FP_END_DATE := 100; FP_QUESTIONS := Some "[]"; FP_ACTIVE := 1;
           FP_CREATED_AT := 0 |}];
     db_feedbacks := [];
     db_feedback_questions := [];
     db_feedback_seq := 1;
     db_feedback_question_seq := 1 |}.

Definition sample_user : User :=
  {| u_id := "U1"; u_name := "Asha"; u_email := "asha@example.com";
     u_department := "IT" |}.

Definition sample_body (rating : Z) : SubmitBody :=
  {| b_userId := Some "U1"; b_userName := Some "Asha";
     b_userEmail := Some "asha@example.com"; b_userDepartment := Some "IT";
     b_targetDepartment := Some "HR";
     b_questions :=
       Some [{| sq_id := Some "q1"; sq_text := Some "Was the department helpful?";
                sq_type := Some "rating";
                sq_rating := Some rating; sq_comment := None |}];
     b_additionalComment := None |}.

Definition sample_form_period : FeedbackPeriod :=
  {| fp_id := "FP00000001"; fp_department := "HR"; fp_startDate := 0;
     fp_endDate := 100; fp_active := true;
     fp_questions :=
       [{| qn_id := "q1"; qn_text := "Was the department helpful?";
           qn_type := "rating" |}];
     fp_createdAt := 0 |}.

Definition sample_form_values : FormValues :=
  {| by_question :=
       fun k => if String.eqb k "q1"
                then Some {| rating := Some "4"; comment := None |}
                else None;
     fv_additionalComment := None |}.

(** The body that [onSubmit] builds from the sample form. *)
Definition sample_body_of_form : SubmitBody :=
  {| b_userId := Some "U1"; b_userName := Some "Asha";
     b_userEmail := Some "asha@example.com"; b_userDepartment := Some "IT";
     b_targetDepartment := Some "HR";
     b_questions :=
       Some [{| sq_id := Some "q1"; sq_text := Some "Was the department helpful?";
                sq_type := Some "rating";
                sq_rating := Some 4; sq_comment := Some EmptyString |}];
     b_additionalComment := Some EmptyString |}.

(** ** The [AdminDashboard] component

    The overview and the feedback list that the administrator sees, computed
    from the answer of [GET /api/feedbacks]. *)

(** [departmentStats.reduce((acc, curr) => acc + curr.totalFeedbacks, 0)] *)
Definition stats_total (stats : list DepartmentStat) : nat :=
  fold_left (fun acc curr => (acc + totalFeedbacks curr)%nat) stats 0%nat.

(** [departmentStats.reduce((acc, curr) => acc + curr.averageRating * curr.totalFeedbacks, 0)] *)
Definition stats_weighted (stats : list DepartmentStat) : Q :=
  fold_left
    (fun acc curr =>
       (acc + averageRating curr * inject_Z (Z.of_nat (totalFeedbacks curr)))%Q)
    stats 0%Q.

(** The card "Departments with Feedback". *)
Definition departments_with_feedback (stats : list DepartmentStat) : nat :=
  List.length (filter (fun d => (0 <? totalFeedbacks d)%nat) stats).

(** The card "Average Rating Overall", before [toFixed(1)]. *)
Definition average_rating_overall (stats : list DepartmentStat) : Q :=
  (stats_weighted stats / inject_Z (Z.of_nat (Nat.max 1 (stats_total stats))))%Q.

(** [departmentStats.sort((a, b) => b.totalFeedbacks - a.totalFeedbacks)]:
    the array sort is stable. *)
Definition sort_by_totalFeedbacks (stats : list DepartmentStat) : list DepartmentStat :=
  order_by (fun a b => (totalFeedbacks b <=? totalFeedbacks a)%nat) stats.

(** [selectedDepartment], [None] for ['all']. *)
Definition filteredFeedbacks (selectedDepartment : option string)
    (feedbacks : list Feedback) : list Feedback :=
  match selectedDepartment with
  | None => feedbacks
  | Some dept => filter (fun f => String.eqb (targetDepartment f) dept) feedbacks
  end.

(** [departmentStats.find(d => selectedDepartment !== 'all' && d.department === selectedDepartment)] *)
Definition selected_stats (selectedDepartment : option string)
    (stats : list DepartmentStat) : option DepartmentStat :=
  find (fun d =>
          match selectedDepartment with
          | None => false
          | Some dept => String.eqb (department d) dept
          end)
       stats.

(** ** What [POST /api/feedbacks] accepts *)

(** A bound string passes a [NOT NULL] column of the given size. *)
Definition fits (size : option nat) (v : option string) : bool :=
  match v with
  | None => false
  | Some s =>
      negb (String.eqb s EmptyString)
      && match size with
         | Some n => Nat.leb (String.length s) n
         | None => true
         end
  end.

Definition question_fits (q : SubmittedQuestion) : bool :=
  fits None (sq_text q)
  && match sq_rating q with Some _ => true | None => false end.

(** The conditions under which the header row is inserted. *)
Definition header_fits `{JsonStringify (list SubmittedQuestion)}
    (body : SubmitBody) (db : Db) : bool :=
  fits (Some 36%nat) (b_userId body)
  && fits (Some 255%nat) (b_userName body)
  && fits (Some 255%nat) (b_userEmail body)
  && fits (Some 100%nat) (b_userDepartment body)
  && fits (Some 100%nat) (b_targetDepartment body)
  && fits None (option_map JSON_stringify (b_questions body))
  && existsb (String.eqb (or_empty (b_userId body))) (map U_ID (db_users db))
  && existsb (String.eqb (or_empty (b_userDepartment body))) (db_departments db)
  && existsb (String.eqb (or_empty (b_targetDepartment body))) (db_departments db).

(** The conditions under which the statements of a submission all succeed. *)
Definition acceptable `{JsonStringify (list SubmittedQuestion)}
    (body : SubmitBody) (db : Db) : bool :=
  header_fits body db
  && match b_questions body with
     | Some qs => forallb question_fits qs
     | None => false
     end.

(** The header row stored for a body that fits. *)
Definition stored_header `{JsonStringify (list SubmittedQuestion)}
    (now : Z) (n : N) (body : SubmitBody) : FeedbackRow :=
  {| FB_ID := String.append "FB" (LPAD (decimal n) 8 "0");
     FB_USER_ID := or_empty (b_userId body);
     FB_USER_NAME := or_empty (b_userName body);
     FB_USER_EMAIL := or_empty (b_userEmail body);
     FB_USER_DEPARTMENT := or_empty (b_userDepartment body);
     FB_TARGET_DEPARTMENT := or_empty (b_targetDepartment body);
     FB_QUESTIONS := Some (or_empty (option_map JSON_stringify (b_questions body)));
     FB_ADDITIONAL_COMMENT := or_null (b_additionalComment body);
     FB_CREATED_AT := now |}.

(** The tables of two databases are the same. *)
Definition same_tables (db db' : Db) : Prop :=
  db_users db' = db_users db
  /\ db_departments db' = db_departments db
  /\ db_feedback_periods db' = db_feedback_periods db
  /\ db_feedbacks db' = db_feedbacks db
  /\ db_feedback_questions db' = db_feedback_questions db.

(** ** Identifiers

    ['FB' || LPAD(feedback_seq.NEXTVAL, 8, '0')] as a function of the
    sequence value. *)
Definition feedback_id (n : N) : string :=
  String.append "FB" (LPAD (decimal n) 8 "0").

(** Every feedback row carries the identifier of a sequence value already
    drawn, and no two rows carry the same one. *)
Definition feedback_ids_from_sequence (db : Db) : Prop :=
  NoDup (map FB_ID (db_feedbacks db))
  /\ forall row, In row (db_feedbacks db) ->
       exists k, (k < db_feedback_seq db)%N /\ FB_ID row = feedback_id k.

(** ** [GET /api/feedbacks/department/:department] *)

(** A row of [feedbacks f LEFT JOIN feedback_questions q ON f.id = q.feedback_id]:
    the feedback, and the question row joined to it, if any (the columns of
    [q] are NULL otherwise). *)
Record JoinedRow : Type := mkJoinedRow {
  j_feedback : FeedbackRow;
  j_question : option FeedbackQuestionRow
}.

(** A CLOB column read without [getData()]: the handle, whose content is the
    text. *)
Inductive Lob : Type := LobOf (content : string).

Record DepartmentQuestion : Type := mkDepartmentQuestion {
  dq_id : string;
  dq_text : Lob;
  dq_rating : Z
}.

Record DepartmentFeedback : Type := mkDepartmentFeedback {
  df_id : string;
  df_userId : string;
  df_userName : string;
  df_userEmail : string;
  df_userDepartment : string;
  df_targetDepartment : string;
  df_additionalComment : option Lob;
  df_createdAt : Z;
  df_questions : list DepartmentQuestion
}.

(** The rows of the join for one feedback, question rows in table order. *)
Definition join_questions (questions : list FeedbackQuestionRow) (f : FeedbackRow)
    : list JoinedRow :=
  match filter (fun q => String.eqb (FB_ID f) (FQ_FEEDBACK_ID q)) questions with
  | [] => [{| j_feedback := f; j_question := None |}]
  | matching => map (fun q => {| j_feedback := f; j_question := Some q |}) matching
  end.

(** [... WHERE f.target_department = :department ORDER BY f.created_at DESC] *)
Definition select_department_feedbacks (dept : string) (db : Db) : list JoinedRow :=
  flat_map (join_questions (db_feedback_questions db))
    (order_by (fun x y => FB_CREATED_AT y <=? FB_CREATED_AT x)
       (filter (fun f => String.eqb (FB_TARGET_DEPARTMENT f) dept) (db_feedbacks db))).

(** The object set in [feedbackMap] for a new identifier. *)
Definition department_feedback_of (row : JoinedRow) : DepartmentFeedback :=
  let f := j_feedback row in
  {| df_id := FB_ID f;
     df_userId := FB_USER_ID f;
     df_userName := FB_USER_NAME f;
     df_userEmail := FB_USER_EMAIL f;
     df_userDepartment := FB_USER_DEPARTMENT f;
     df_targetDepartment := FB_TARGET_DEPARTMENT f;
     df_additionalComment := option_map LobOf (FB_ADDITIONAL_COMMENT f);
     df_createdAt := FB_CREATED_AT f;
     df_questions := [] |}.

Definition department_question_of (q : FeedbackQuestionRow) : DepartmentQuestion :=
  {| dq_id := FQ_ID q; dq_text := LobOf (FQ_TEXT q); dq_rating := FQ_RATING q |}.

(** [feedbackMap.get(row.ID).questions.push(...)] *)
Definition push_question (q : FeedbackQuestionRow) (f : DepartmentFeedback)
    : DepartmentFeedback :=
  {| df_id := df_id f;
     df_userId := df_userId f;
     df_userName := df_userName f;
     df_userEmail := df_userEmail f;
     df_userDepartment := df_userDepartment f;
     df_targetDepartment := df_targetDepartment f;
     df_additionalComment := df_additionalComment f;
     df_createdAt := df_createdAt f;
     df_questions := df_questions f ++ [department_question_of q] |}.

(** Body of [result.rows.forEach(row => ...)]. *)
Definition collect_row (feedbackMap : JsMap.t DepartmentFeedback) (row : JoinedRow)
    : JsMap.t DepartmentFeedback :=
  let id := FB_ID (j_feedback row) in
  let feedbackMap1 :=
    if negb (JsMap.has feedbackMap id) then
      JsMap.set feedbackMap id (department_feedback_of row)
    else feedbackMap in
  match j_question row with
  | Some q =>
      if negb (String.eqb (FQ_ID q) EmptyString) then
        JsMap.mutate feedbackMap1 id (push_question q)
      else feedbackMap1
  | None => feedbackMap1
  end.

(** From the rows of the join to the response body. *)
Definition department_feedbacks_response (rows : list JoinedRow)
    : list DepartmentFeedback :=
  JsMap.values (fold_left collect_row rows JsMap.empty).

Definition get_department_feedbacks (dept : string) (db : Db)
    : list DepartmentFeedback * Db :=
  (department_feedbacks_response (select_department_feedbacks dept db), db).

(** The feedback object that the grouping should give for a feedback row. *)
Definition grouped_feedback (questions : list FeedbackQuestionRow) (f : FeedbackRow)
    : DepartmentFeedback :=
  {| df_id := FB_ID f;
     df_userId := FB_USER_ID f;
     df_userName := FB_USER_NAME f;
     df_userEmail := FB_USER_EMAIL f;
     df_userDepartment := FB_USER_DEPARTMENT f;
     df_targetDepartment := FB_TARGET_DEPARTMENT f;
     df_additionalComment := option_map LobOf (FB_ADDITIONAL_COMMENT f);
     df_createdAt := FB_CREATED_AT f;
     df_questions :=
       map department_question_of
         (filter (fun q => negb (String.eqb (FQ_ID q) EmptyString))
            (filter (fun q => String.eqb (FB_ID f) (FQ_FEEDBACK_ID q)) questions)) |}.

(** ** Feedback periods: the administrator's handlers *)

(** A date field of a request body, as [new Date(x)] reads it. *)
Inductive BodyDate : Type :=
| DateMissing            (* undefined, or a value that is no date *)
| DateNull               (* null *)
| DateValue (time : Z).  (* a number, or a text that is a date *)

(** [new Date(x)]: its time value, [None] for an Invalid Date.
    [new Date(null)] is the epoch. *)
Definition new_Date (x : BodyDate) : option Z :=
  match x with
  | DateMissing => None
  | DateNull => Some 0
  | DateValue time => Some time
  end.

(** The [questions] field of a request body. *)
Inductive BodyQuestions : Type :=
| QuestionsMissing                          (* undefined *)
| QuestionsNull                             (* null *)
| QuestionsArray (questions : list Question)
| QuestionsOther (json : string).           (* another value, with its JSON text *)

(** [JSON.stringify(questions)]; [None] is [undefined]. *)
Definition stringify_questions `{JsonStringify (list Question)}
    (questions : BodyQuestions) : option string :=
  match questions with
  | QuestionsMissing => None
  | QuestionsNull => Some "null"
  | QuestionsArray qs => Some (JSON_stringify qs)
  | QuestionsOther json => Some json
  end.

(** [req.body] of [POST /api/feedback-periods]. *)
Record PeriodBody : Type := mkPeriodBody {
  pb_department : option string;
  pb_startDate : BodyDate;
  pb_endDate : BodyDate;
  pb_questions : BodyQuestions
}.

(** The object that the handler answers with: the fields of the body as
    they came, the dates as [new Date] read them. *)
Record CreatedPeriod : Type := mkCreatedPeriod {
  cp_id : string;
  cp_department : option string;
  cp_startDate : option Z;
  cp_endDate : option Z;
  cp_questions : BodyQuestions;
  cp_active : bool;
  cp_createdAt : Z
}.

Inductive PeriodResponse : Type :=
| PeriodCreated (status : Z) (period : CreatedPeriod)
| PeriodError (status : Z) (error : string).

(** What makes an [INSERT] fail, beyond a [Failure]. *)
Inductive InsertFailure : Type :=
| Raised (e : Failure)
| ORA_00001 (constraint : string)   (* unique constraint violated *)
| ORA_02290 (constraint : string)   (* check constraint violated *)
| NoTimestamp (column : string).    (* the bind gives the column no timestamp *)

Definition raised {A : Type} (r : (Failure + A) * Db) : InsertFailure + A :=
  match r with
  | (inr a, _) => inr a
  | (inl e, _) => inl (Raised e)
  end.

Definition pf_bind {A B : Type} (m : InsertFailure + A) (k : A -> InsertFailure + B)
    : InsertFailure + B :=
  match m with
  | inr a => k a
  | inl e => inl e
  end.

Declare Scope pf_scope.
Delimit Scope pf_scope with pf.
Notation "x <- m ;; k" := (pf_bind m (fun x => k))
  (at level 100, m at next level, right associativity) : pf_scope.

Definition with_period (db : Db) (row : FeedbackPeriodRow) : Db :=
  {| db_users := db_users db;
     db_departments := db_departments db;
     db_feedback_periods := db_feedback_periods db ++ [row];
     db_feedbacks := db_feedbacks db;
     db_feedback_questions := db_feedback_questions db;
     db_feedback_seq := db_feedback_seq db;
     db_feedback_question_seq := db_feedback_question_seq db |}.

Definition set_periods (db : Db) (rows : list FeedbackPeriodRow) : Db :=
  {| db_users := db_users db;
     db_departments := db_departments db;
     db_feedback_periods := rows;
     db_feedbacks := db_feedbacks db;
     db_feedback_questions := db_feedback_questions db;
     db_feedback_seq := db_feedback_seq db;
     db_feedback_question_seq := db_feedback_question_seq db |}.

Section PeriodHandlers.

Context `{JsonParse (list Question)} `{JsonStringify (list Question)}.

(** The timestamp that the database driver hands to a [TIMESTAMP] column
    for a bound [Date] with the given time value ([None] for an Invalid
    Date); [None] when no timestamp reaches the column, because the driver
    refuses the value, the database cannot hold it, or NULL is sent.  The
    driver is not part of the sources. *)
Variable bind_date : option Z -> option Z.

Local Open Scope pf_scope.

(** [INSERT INTO feedback_periods (id, department, start_date, end_date,
    questions, active, created_at) VALUES (:id, :department, :startDate,
    :endDate, :questions, 1, SYSTIMESTAMP)] against the constraints of the
    table: the [NOT NULL] columns with their sizes, the primary key, the
    foreign key on the department and [chk_fp_dates]. *)
Definition insert_period (now : Z) (id : string) (department : option string)
    (startDate endDate : option Z) (questions : option string) (db : Db)
    : InsertFailure + Db :=
  id <- raised (not_null "ID" (Some 36%nat) (Some id) db) ;;
  department <- raised (not_null "DEPARTMENT" (Some 100%nat) department db) ;;
  start_date <- match bind_date startDate with
                | Some t => inr t
                | None => inl (NoTimestamp "START_DATE")
                end ;;
  end_date <- match bind_date endDate with
              | Some t => inr t
              | None => inl (NoTimestamp "END_DATE")
              end ;;
  questions <- raised (not_null "QUESTIONS" None questions db) ;;
  _ <- (if existsb (String.eqb id) (map FP_ID (db_feedback_periods db))
        then inl (ORA_00001 "FEEDBACK_PERIODS_PK") else inr tt) ;;
  _ <- raised (references "FK_FP_DEPARTMENT" department db_departments db) ;;
  _ <- (if start_date <? end_date then inr tt
        else inl (ORA_02290 "CHK_FP_DATES")) ;;
  inr (with_period db
         {| FP_ID := id; FP_DEPARTMENT := department;
            FP_START_DATE := start_date; FP_END_DATE := end_date;
            FP_QUESTIONS := Some questions;
            FP_ACTIVE := 1; FP_CREATED_AT := now |}).

(** [POST /api/feedback-periods]; [periodId] is the value of [uuidv4()]. *)
Definition create_period (periodId : string) (now : Z) (body : PeriodBody) (db : Db)
    : PeriodResponse * Db :=
  let questionsJson := stringify_questions (pb_questions body) in
  match insert_period now periodId (pb_department body)
          (new_Date (pb_startDate body)) (new_Date (pb_endDate body))
          questionsJson db with
  | inr db' =>
      (PeriodCreated 201
         {| cp_id := periodId;
            cp_department := pb_department body;
            cp_startDate := new_Date (pb_startDate body);
            cp_endDate := new_Date (pb_endDate body);
            cp_questions := pb_questions body;
            cp_active := true;
            cp_createdAt := now |},
       db')
  | inl _ => (PeriodError 500 "Failed to create feedback period", db)
  end.

(** The conditions under which the [INSERT] succeeds. *)
Definition period_insertable (periodId : string) (body : PeriodBody) (db : Db) : bool :=
  fits (Some 36%nat) (Some periodId)
  && negb (existsb (String.eqb periodId) (map FP_ID (db_feedback_periods db)))
  && fits (Some 100%nat) (pb_department body)
  && existsb (String.eqb (or_empty (pb_department body))) (db_departments db)
  && fits None (stringify_questions (pb_questions body))
  && match bind_date (new_Date (pb_startDate body)),
           bind_date (new_Date (pb_endDate body)) with
     | Some startDate, Some endDate => startDate <? endDate
     | _, _ => false
     end.

(** The row that a successful [INSERT] appends. *)
Definition created_row (periodId : string) (now : Z) (body : PeriodBody)
    : FeedbackPeriodRow :=
  {| FP_ID := periodId;
     FP_DEPARTMENT := or_empty (pb_department body);
     FP_START_DATE :=
       match bind_date (new_Date (pb_startDate body)) with Some t => t | None => 0 end;
     FP_END_DATE :=
       match bind_date (new_Date (pb_endDate body)) with Some t => t | None => 0 end;
     FP_QUESTIONS := stringify_questions (pb_questions body);
     FP_ACTIVE := 1;
     FP_CREATED_AT := now |}.

Local Close Scope pf_scope.

(** [UPDATE feedback_periods SET active = :newActive WHERE id = :id] with
    [newActive = currentActive ? 0 : 1]. *)
Definition toggle_period (id : string) (currentActive : bool) (db : Db) : bool * Db :=
  (true,
   set_periods db
     (map (fun row =>
             if String.eqb (FP_ID row) id then
               {| FP_ID := FP_ID row; FP_DEPARTMENT := FP_DEPARTMENT row;
                  FP_START_DATE := FP_START_DATE row; FP_END_DATE := FP_END_DATE row;
                  FP_QUESTIONS := FP_QUESTIONS row;
                  FP_ACTIVE := if currentActive then 0 else 1;
                  FP_CREATED_AT := FP_CREATED_AT row |}
             else row)
          (db_feedback_periods db))).

(** [DELETE FROM feedback_periods WHERE id = :id] *)
Definition delete_period (id : string) (db : Db) : bool * Db :=
  (true,
   set_periods db
     (filter (fun row => negb (String.eqb (FP_ID row) id)) (db_feedback_periods db))).

(** [GET /api/feedback-periods]: [SELECT * FROM feedback_periods ORDER BY created_at DESC] *)
Definition list_periods (db : Db) : list FeedbackPeriod :=
  map period_of_row
    (order_by (fun x y => FP_CREATED_AT y <=? FP_CREATED_AT x) (db_feedback_periods db)).

(** [GET /api/feedback-periods/:id]: [WHERE id = :id AND active = 1];
    [None] is the answer 404. *)
Definition get_period (id : string) (userId : option string) (db : Db)
    : option FeedbackPeriod :=
  match filter (fun row => String.eqb (FP_ID row) id && (FP_ACTIVE row =? 1))
               (db_feedback_periods db) with
  | [] => None
  | period :: _ => Some (period_of_row period)
  end.

End PeriodHandlers.

(** The [FeedbackQuestionManager] component: its list after a toggle and
    after a deletion that the server answered with success. *)
Definition manager_toggled (periodId : string) (currentActive : bool)
    (periods : list FeedbackPeriod) : list FeedbackPeriod :=
  map (fun period =>
         if String.eqb (fp_id period) periodId then
           {| fp_id := fp_id period; fp_department := fp_department period;
              fp_startDate := fp_startDate period; fp_endDate := fp_endDate period;
              fp_active := negb currentActive; fp_questions := fp_questions period;
              fp_createdAt := fp_createdAt period |}
         else period)
      periods.

Definition manager_deleted (periodId : string) (periods : list FeedbackPeriod)
    : list FeedbackPeriod :=
  filter (fun period => negb (String.eqb (fp_id period) periodId)) periods.

(** Every stored period ends after it starts. *)
Definition periods_end_after_start (db : Db) : Prop :=
  forall row, In row (db_feedback_periods db) -> FP_START_DATE row < FP_END_DATE row.

(** ** Accounts: [POST /api/auth/signup], [POST /api/auth/login],
    [GET /api/auth/verify] and the [authenticateToken] middleware *)

(** A row of [users] together with its [password] column. *)
Record AccountRow : Type := mkAccountRow {
  A_USER : UserRow;
  A_PASSWORD : string
}.

(** The [users] table as these handlers see it, the departments its foreign
    key refers to, and the next value of [user_id_seq]. *)
Record Accounts : Type := mkAccounts {
  acc_users : list AccountRow;
  acc_departments : list string;
  acc_user_id_seq : N
}.

(** What the handlers sign into a token: signing up gives a [name] and no
    [role], logging in a [role] and no [name]. *)
Record TokenPayload : Type := mkTokenPayload {
  tp_id : string;
  tp_email : string;
  tp_name : option string;
  tp_department : string;
  tp_isAdmin : bool;
  tp_role : option string
}.

(** The user object of a response. *)
Record AuthUser : Type := mkAuthUser {
  au_id : string;
  au_email : string;
  au_name : string;
  au_department : string;
  au_isAdmin : bool;
  au_role : option string
}.

Inductive AuthResponse : Type :=
| AuthOk (token : string) (user : AuthUser)
| AuthError (status : Z) (error : string).

Inductive VerifyResponse : Type :=
| VerifyOk (user : AuthUser)
| VerifyError (status : Z) (error : string).

Record SignupBody : Type := mkSignupBody {
  sb_email : option string;
  sb_password : option string;
  sb_name : option string;
  sb_department : option string
}.

Record LoginBody : Type := mkLoginBody {
  lb_email : option string;
  lb_password : option string
}.

(** [!v] for a text that may be missing. *)
Definition missing (v : option string) : bool :=
  String.eqb (or_empty v) EmptyString.

(** ['USR' || LPAD(user_id_seq.NEXTVAL, 8, '0')] *)
Definition user_id (n : N) : string :=
  String.append "USR" (LPAD (decimal n) 8 "0").

(** [s.split(' ')] *)
Fixpoint split_on_space (s : string) : list string :=
  match s with
  | EmptyString => [EmptyString]
  | String c s' =>
      if Ascii.eqb c " "%char then EmptyString :: split_on_space s'
      else match split_on_space s' with
           | [] => [String c EmptyString]
           | w :: ws => String c w :: ws
           end
  end.

Fixpoint contains_space (s : string) : bool :=
  match s with
  | EmptyString => false
  | String c s' => Ascii.eqb c " "%char || contains_space s'
  end.

Definition with_account (acc : Accounts) (seq : N) (rows : list AccountRow) : Accounts :=
  {| acc_users := rows;
     acc_departments := acc_departments acc;
     acc_user_id_seq := seq |}.

Section AuthHandlers.

(** [bcrypt.hash(password, 10)] with the salt it draws, [bcrypt.compare],
    and [jwt.sign] and [jwt.verify] under the server's secret at a given
    time; [jwt_verify] gives [None] where the library reports an error. *)
Variable bcrypt_hash : string -> string -> string.
Variable bcrypt_compare : string -> string -> bool.
Variable jwt_sign : Z -> TokenPayload -> string.
Variable jwt_verify : Z -> string -> option TokenPayload.

(** The constraints of [users] on the row to insert: the primary key, the
    unique e-mail address, the [NOT NULL] columns with their sizes and the
    foreign key on the department. *)
Definition account_insertable (id email password name department : string)
    (acc : Accounts) : bool :=
  fits (Some 36%nat) (Some id)
  && negb (existsb (String.eqb id) (map (fun r => U_ID (A_USER r)) (acc_users acc)))
  && fits (Some 255%nat) (Some email)
  && negb (existsb (String.eqb email) (map (fun r => U_EMAIL (A_USER r)) (acc_users acc)))
  && fits (Some 255%nat) (Some password)
  && fits (Some 255%nat) (Some name)
  && fits (Some 100%nat) (Some department)
  && existsb (String.eqb department) (acc_departments acc).

(** [POST /api/auth/signup] *)
Definition signup (salt : string) (now : Z) (body : SignupBody) (acc : Accounts)
    : AuthResponse * Accounts :=
  if missing (sb_email body) || missing (sb_password body)
     || missing (sb_name body) || missing (sb_department body)
  then (AuthError 400 "All fields are required", acc)
  else
    let email := or_empty (sb_email body) in
    let password := or_empty (sb_password body) in
    let name := or_empty (sb_name body) in
    let department := or_empty (sb_department body) in
    match filter (fun r => String.eqb (U_EMAIL (A_USER r)) email) (acc_users acc) with
    | _ :: _ => (AuthError 400 "Email already in use", acc)
    | [] =>
        let hashedPassword := bcrypt_hash salt password in
        let userId := user_id (acc_user_id_seq acc) in
        let seq := N.succ (acc_user_id_seq acc) in
        if account_insertable userId email hashedPassword name department acc then
          (AuthOk
             (jwt_sign now
                {| tp_id := userId; tp_email := email; tp_name := Some name;
                   tp_department := department; tp_isAdmin := false;
                   tp_role := None |})
             {| au_id := userId; au_email := email; au_name := name;
                au_department := department; au_isAdmin := false;
                au_role := None |},
           with_account acc seq
             (acc_users acc
              ++ [{| A_USER := {| U_ID := userId; U_EMAIL := email; U_NAME := name;
                                  U_DEPARTMENT := department; U_IS_ADMIN := 0 |};
                     A_PASSWORD := hashedPassword |}]))
        else (AuthError 500 "Failed to create account",
              with_account acc seq (acc_users acc))
    end.

(** The row that an accepted sign-up stores. *)
Definition signed_up_row (salt : string) (body : SignupBody) (acc : Accounts)
    : AccountRow :=
  {| A_USER := {| U_ID := user_id (acc_user_id_seq acc);
                  U_EMAIL := or_empty (sb_email body);
                  U_NAME := or_empty (sb_name body);
                  U_DEPARTMENT := or_empty (sb_department body);
                  U_IS_ADMIN := 0 |};
     A_PASSWORD := bcrypt_hash salt (or_empty (sb_password body)) |}.

(** [isAdmin ? 'admin' : 'user'] *)
Definition role_of (isAdmin : bool) : string :=
  if isAdmin then "admin" else "user".

(** [POST /api/auth/login] *)
Definition login (now : Z) (body : LoginBody) (acc : Accounts) : AuthResponse :=
  if missing (lb_email body) || missing (lb_password body)
  then AuthError 400 "Email and password are required"
  else
    match filter (fun r => String.eqb (U_EMAIL (A_USER r)) (or_empty (lb_email body)))
                 (acc_users acc) with
    | [] => AuthError 401 "Invalid email or password"
    | row :: _ =>
        let user := A_USER row in
        if bcrypt_compare (or_empty (lb_password body)) (A_PASSWORD row) then
          let isAdmin := U_IS_ADMIN user =? 1 in
          AuthOk
            (jwt_sign now
               {| tp_id := U_ID user; tp_email := U_EMAIL user; tp_name := None;
                  tp_department := U_DEPARTMENT user; tp_isAdmin := isAdmin;
                  tp_role := Some (role_of isAdmin) |})
            {| au_id := U_ID user; au_email := U_EMAIL user; au_name := U_NAME user;
               au_department := U_DEPARTMENT user; au_isAdmin := isAdmin;
               au_role := Some (role_of isAdmin) |}
        else AuthError 401 "Invalid email or password"
    end.

(** [authHeader && authHeader.split(' ')[1]] *)
Definition token_of_header (authHeader : option string) : option string :=
  match authHeader with
  | None => None
  | Some h =>
      if String.eqb h EmptyString then Some EmptyString
      else nth_error (split_on_space h) 1
  end.

(** [authenticateToken]: the answer it sends, or the user it puts in
    [req.user] before calling [next()]. *)
Definition authenticateToken (now : Z) (authHeader : option string)
    : (Z * string) + TokenPayload :=
  let token := token_of_header authHeader in
  if missing token then inl (401, "Authentication token required")
  else match jwt_verify now (or_empty token) with
       | None => inl (403, "Invalid or expired token")
       | Some user => inr user
       end.

(** [GET /api/auth/verify] behind [authenticateToken] *)
Definition verify (now : Z) (authHeader : option string) (acc : Accounts)
    : VerifyResponse :=
  match authenticateToken now authHeader with
  | inl (status, error) => VerifyError status error
  | inr reqUser =>
      match filter (fun r => String.eqb (U_ID (A_USER r)) (tp_id reqUser))
                   (acc_users acc) with
      | [] => VerifyError 401 "User not found"
      | row :: _ =>
          let user := A_USER row in
          VerifyOk {| au_id := U_ID user; au_email := U_EMAIL user;
                      au_name := U_NAME user; au_department := U_DEPARTMENT user;
                      au_isAdmin := U_IS_ADMIN user =? 1; au_role := None |}
      end
  end.

End AuthHandlers.

(** ** The [ProtectedRoute] component *)

Record RouteState : Type := mkRouteState {
  rs_loading : bool;
  rs_isAuthenticated : bool;
  rs_isAdmin : bool
}.

Definition route_initial : RouteState :=
  {| rs_loading := true; rs_isAuthenticated := false; rs_isAdmin := false |}.

(** What [fetch] of [/auth/verify] came to: an answer that is [ok], with
    the [isAdmin] of its body, an answer that is not, or an exception. *)
Inductive VerifyFetch : Type :=
| FetchedOk (isAdmin : bool)
| FetchedNotOk
| FetchThrew.

(** [verifyAuth]: the state after the effect and the token left in
    [localStorage]; [fetched] maps the [Authorization] header sent to the
    outcome of the request. *)
Definition verifyAuth (token : option string) (fetched : string -> VerifyFetch)
    (st : RouteState) : RouteState * option string :=
  if missing token then
    ({| rs_loading := false; rs_isAuthenticated := rs_isAuthenticated st;
        rs_isAdmin := rs_isAdmin st |}, token)
  else
    match fetched (String.append "Bearer " (or_empty token)) with
    | FetchedOk isAdmin =>
        ({| rs_loading := false; rs_isAuthenticated := true; rs_isAdmin := isAdmin |},
         token)
    | FetchedNotOk =>
        ({| rs_loading := false; rs_isAuthenticated := false; rs_isAdmin := false |},
         None)
    | FetchThrew =>
        ({| rs_loading := false; rs_isAuthenticated := false; rs_isAdmin := false |},
         token)
    end.

Inductive Rendered : Type :=
| LoadingSpinner
| Navigate (to : string)
| Children.

Definition ProtectedRoute (requireAdmin : bool) (st : RouteState) : Rendered :=
  if rs_loading st then LoadingSpinner
  else if negb (rs_isAuthenticated st) then Navigate "/login"
  else if requireAdmin && negb (rs_isAdmin st) then Navigate "/"
  else Children.

(** The request of [verifyAuth] answered by [GET /api/auth/verify]. *)
Definition fetch_verify (jwt_verify : Z -> string -> option TokenPayload)
    (now : Z) (acc : Accounts) (header : string) : VerifyFetch :=
  match verify jwt_verify now (Some header) acc with
  | VerifyOk user => FetchedOk (au_isAdmin user)
  | VerifyError _ _ => FetchedNotOk
  end.

(** No two accounts share an e-mail address or an identifier, and every
    identifier comes from a value of the sequence already drawn. *)
Definition accounts_consistent (acc : Accounts) : Prop :=
  NoDup (map (fun r => U_EMAIL (A_USER r)) (acc_users acc))
  /\ NoDup (map (fun r => U_ID (A_USER r)) (acc_users acc))
  /\ forall row, In row (acc_users acc) ->
       exists k, (k < acc_user_id_seq acc)%N /\ U_ID (A_USER row) = user_id k.

(** The administrators among the accounts. *)
Definition administrators (acc : Accounts) : list AccountRow :=
  filter (fun r => U_IS_ADMIN (A_USER r) =? 1) (acc_users acc).

Definition sample_JSON_stringify_questions : JsonStringify (list Question) :=
  fun qs => match qs with [] => "[]" | _ => "[...]" end.

Definition sample_period_body : PeriodBody :=
  {| pb_department := Some "Civil"; pb_startDate := DateNull;
     pb_endDate := DateValue 200; pb_questions := QuestionsArray [] |}.

(** A driver that hands over every date as it is and refuses an Invalid
    Date. *)
Definition sample_bind_date (time : option Z) : option Z := time.

(** Stand-ins for the examples: a "hash" that keeps the salt and the
    password apart with a [$], and a "token" that is the identifier it was
    signed for. *)
Definition sample_hash (salt password : string) : string :=
  String.append salt (String.append "$" password).

Definition sample_compare (password hashed : string) : bool :=
  match index 0 "$" hashed with
  | Some n => String.eqb (substring (S n) (String.length hashed - S n) hashed) password
  | None => false
  end.

Definition sample_sign (now : Z) (payload : TokenPayload) : string := tp_id payload.

Definition sample_verify (now : Z) (token : string) : option TokenPayload :=
  Some {| tp_id := token; tp_email := EmptyString; tp_name := None;
          tp_department := EmptyString; tp_isAdmin := false; tp_role := None |}.

Definition sample_accounts : Accounts :=
  {| acc_users :=
       [{| A_USER := {| U_ID := "USR00000001"; U_EMAIL := "root@example.com";
                        U_NAME := "Root"; U_DEPARTMENT := "IT"; U_IS_ADMIN := 1 |};
           A_PASSWORD := "s$secret" |}];
     acc_departments := departments;
     acc_user_id_seq := 2 |}.

Definition sample_signup_body : SignupBody :=
  {| sb_email := Some "asha@example.com"; sb_password := Some "pw";
     sb_name := Some "Asha"; sb_department := Some "HR" |}.

(** ** Question templates *)

Record TemplateRow : Type := mkTemplateRow {
  QT_ID : string;
  QT_DEPARTMENT : string;
  QT_QUESTIONS : option string;
  QT_CREATED_AT : Z
}.

(** The [question_templates] table, the departments its foreign key refers
    to, and the next value of [question_template_seq]. *)
Record Templates : Type := mkTemplates {
  tpl_rows : list TemplateRow;
  tpl_departments : list string;
  tpl_seq : N
}.

(** [req.body] of [POST /api/question-templates]; [tb_questions] is [None]
    when [questions] is not an array. *)
Record TemplateBody : Type := mkTemplateBody {
  tb_department : option string;
  tb_questions : option (list Question)
}.

Record Template : Type := mkTemplate {
  t_id : string;
  t_department : string;
  t_questions : list Question;
  t_createdAt : Z
}.

Inductive TemplateResponse : Type :=
| TemplateCreated (status : Z) (template : Template)
| TemplateError (status : Z) (error : string).

(** ['QT' || LPAD(question_template_seq.NEXTVAL, 8, '0')], the identifier
    that [trg_question_templates_id] gives a row inserted without one. *)
Definition template_id (n : N) : string :=
  String.append "QT" (LPAD (decimal n) 8 "0").

(** [q.id && q.text && q.type] *)
Definition question_complete (q : Question) : bool :=
  negb (String.eqb (qn_id q) EmptyString)
  && negb (String.eqb (qn_text q) EmptyString)
  && negb (String.eqb (qn_type q) EmptyString).

Definition with_templates (tpl : Templates) (seq : N) (rows : list TemplateRow)
    : Templates :=
  {| tpl_rows := rows; tpl_departments := tpl_departments tpl; tpl_seq := seq |}.

Section TemplateHandlers.

Context `{JsonParse (list Question)} `{JsonStringify (list Question)}.

(** The constraints of the table on the row to insert. *)
Definition template_insertable (id department questionsString : string)
    (tpl : Templates) : bool :=
  fits (Some 36%nat) (Some id)
  && negb (existsb (String.eqb id) (map QT_ID (tpl_rows tpl)))
  && fits (Some 100%nat) (Some department)
  && existsb (String.eqb department) (tpl_departments tpl)
  && fits None (Some questionsString).

(** [POST /api/question-templates] *)
Definition create_template (now : Z) (body : TemplateBody) (tpl : Templates)
    : TemplateResponse * Templates :=
  match tb_questions body with
  | None => (TemplateError 400 "Department and questions are required", tpl)
  | Some questions =>
      if missing (tb_department body) || (List.length questions =? 0)%nat
      then (TemplateError 400 "Department and questions are required", tpl)
      else if negb (forallb question_complete questions)
      then (TemplateError 400 "Each question must have id, text, and type", tpl)
      else
        let department := or_empty (tb_department body) in
        let questionsString := JSON_stringify questions in
        let id := template_id (tpl_seq tpl) in
        let seq := N.succ (tpl_seq tpl) in
        if template_insertable id department questionsString tpl then
          (TemplateCreated 201
             {| t_id := id; t_department := department; t_questions := questions;
                t_createdAt := now |},
           with_templates tpl seq
             (tpl_rows tpl
              ++ [{| QT_ID := id; QT_DEPARTMENT := department;
                     QT_QUESTIONS := Some questionsString;
                     QT_CREATED_AT := now |}]))
        else (TemplateError 500 "Failed to create template",
              with_templates tpl seq (tpl_rows tpl))
  end.

Definition template_of_row (template : TemplateRow) : Template :=
  {| t_id := QT_ID template;
     t_department := QT_DEPARTMENT template;
     t_questions := parse_clob (QT_QUESTIONS template);
     t_createdAt := QT_CREATED_AT template |}.

(** [GET /api/question-templates/:department]; [None] is the answer 404. *)
Definition get_template (department : string) (tpl : Templates) : option Template :=
  match filter (fun row => String.eqb (QT_DEPARTMENT row) department) (tpl_rows tpl) with
  | [] => None
  | template :: _ => Some (template_of_row template)
  end.

(** [GET /api/question-templates]: [ORDER BY created_at DESC] *)
Definition list_templates (tpl : Templates) : list Template :=
  map template_of_row
    (order_by (fun x y => QT_CREATED_AT y <=? QT_CREATED_AT x) (tpl_rows tpl)).

(** [DELETE /api/question-templates/:id] *)
Definition delete_template (id : string) (tpl : Templates) : bool * Templates :=
  (true,
   with_templates tpl (tpl_seq tpl)
     (filter (fun row => negb (String.eqb (QT_ID row) id)) (tpl_rows tpl))).

End TemplateHandlers.

Definition sample_JSON_stringify_template : JsonStringify (list Question) :=
  fun qs => String.concat ";" (map qn_text qs).

Definition sample_JSON_parse_template : JsonParse (list Question) :=
  fun s =>
    if String.eqb s "How clear were the answers?"
    then Some [{| qn_id := "q1"; qn_text := "How clear were the answers?";
                  qn_type := "rating" |}]
    else None.

Definition sample_templates : Templates :=
  {| tpl_rows :=
       [{| QT_ID := "QT00000001"; QT_DEPARTMENT := "IT"; QT_QUESTIONS := Some "{";
           QT_CREATED_AT := 5 |}];
     tpl_departments := departments;
     tpl_seq := 2 |}.

Definition sample_template_body : TemplateBody :=
  {| tb_department := Some "HR";
     tb_questions :=
       Some [{| qn_id := "q1"; qn_text := "How clear were the answers?";
                qn_type := "rating" |}] |}.

(** ** Numbers that hold integers

    A JavaScript number is a binary64 value: it holds every integer up to
    [MAX_SAFE_INTEGER] in absolute value, and [a + b] on two such integers
    is their sum whenever the sum is such an integer too.  Beyond that
    range a sum is rounded, so the sums of the aggregation above, which
    are kept in [Z], are those of the code as long as every one of them
    stays within the range.  The loops below are the two passes with this
    condition checked at every [+=] and [++]. *)
Definition MAX_SAFE_INTEGER : Z := 2 ^ 53 - 1.

Definition safe_integer (n : Z) : bool := Z.abs n <=? MAX_SAFE_INTEGER.

(** [a + b] where binary64 gives the sum; [None] where it may round. *)
Definition exact_add (a b : Z) : option Z :=
  if safe_integer a && safe_integer b && safe_integer (a + b)
  then Some (a + b)
  else None.

(** [questionMap.get(k)] *)
Fixpoint map_get {V : Type} (m : JsMap.t V) (k : string) : option V :=
  match m with
  | [] => None
  | (k', v) :: m' => if String.eqb k' k then Some v else map_get m' k
  end.

(** Body of the first pass, [None] once a sum is not exact. *)
Definition collect_question_exact
    (questionMap : JsMap.t QuestionTotals) (q : FeedbackQuestion)
    : option (JsMap.t QuestionTotals) :=
  let questionMap1 :=
    if negb (JsMap.has questionMap (q_id q)) then
      JsMap.set questionMap (q_id q)
        {| questionId := q_id q; questionText := q_text q;
           totalRating := 0; count := 0 |}
    else questionMap in
  match map_get questionMap1 (q_id q) with
  | Some stats =>
      match exact_add (totalRating stats) (q_rating q), exact_add (count stats) 1 with
      | Some total, Some n =>
          Some (JsMap.mutate questionMap1 (q_id q)
                  (fun stats =>
                     {| questionId := questionId stats;
                        questionText := questionText stats;
                        totalRating := total;
                        count := n |}))
      | _, _ => None
      end
  | None => None
  end.

Definition collect_questions_exact (departmentFeedbacks : list Feedback)
    : option (JsMap.t QuestionTotals) :=
  fold_left
    (fun questionMap feedback =>
       fold_left
         (fun questionMap q =>
            match questionMap with
            | Some m => collect_question_exact m q
            | None => None
            end)
         (questions feedback) questionMap)
    departmentFeedbacks (Some JsMap.empty).

(** The second pass, [None] once a sum is not exact. *)
Definition overall_totals_exact (departmentFeedbacks : list Feedback)
    : option (Z * Z) :=
  fold_left
    (fun acc feedback =>
       fold_left
         (fun acc question =>
            match acc with
            | Some (totalRating, totalQuestions) =>
                match exact_add totalRating (q_rating question),
                      exact_add totalQuestions 1 with
                | Some total, Some n => Some (total, n)
                | _, _ => None
                end
            | None => None
            end)
         (questions feedback) acc)
    departmentFeedbacks (Some (0, 0)).

(** The absolute values of the ratings, summed. *)
Definition sum_abs_ratings (qs : list FeedbackQuestion) : Z :=
  fold_right Z.add 0 (map (fun q => Z.abs (q_rating q)) qs).

(** The ratings are few and small enough for every sum over them to be a
    safe integer. *)
Definition exactly_summable (qs : list FeedbackQuestion) : Prop :=
  Z.of_nat (List.length qs) + sum_abs_ratings qs <= MAX_SAFE_INTEGER.

(** ** Quotients and products of numbers

    A quotient, a product or a sum of two numbers is the number nearest to
    the exact result.  Of that rounding the statements use that it keeps the
    order and leaves the safe integers as they are, nothing else. *)
Definition keeps_order (round : Q -> Q) : Prop :=
  forall x y : Q, (x <= y)%Q -> (round x <= round y)%Q.

Definition keeps_safe_integers (round : Q -> Q) : Prop :=
  forall n : Z, Z.abs n <= MAX_SAFE_INTEGER -> (round (inject_Z n) == inject_Z n)%Q.

(** [departmentStats.reduce((acc, curr) => acc + curr.averageRating * curr.totalFeedbacks, 0)]
    on numbers: [curr.averageRating] is the rounded quotient that the
    handler computed, and the product and the sum are rounded in turn. *)
Definition stats_weighted_rounded (round : Q -> Q) (stats : list DepartmentStat) : Q :=
  fold_left
    (fun acc curr =>
       round (acc + round (round (averageRating curr)
                           * inject_Z (Z.of_nat (totalFeedbacks curr))))%Q)
    stats 0%Q.

(** The card "Average Rating Overall" on numbers, before [toFixed(1)]. *)
Definition average_rating_overall_rounded (round : Q -> Q)
    (stats : list DepartmentStat) : Q :=
  round (stats_weighted_rounded round stats
         / inject_Z (Z.of_nat (Nat.max 1 (stats_total stats))))%Q.

(** A rounding for the examples: down to the next multiple of 1/1024. *)
Definition sample_round (x : Q) : Q := Qmake (Qfloor (x * inject_Z 1024)) 1024.

(** A text of decimal digits only. *)
Definition decimal_digits (s : string) : bool :=
  forallb (fun c => match digit_of c with Some _ => true | None => false end)
    (list_ascii_of_string s).

(** ** The aggregation and the filter over a store of objects

    The arrays and objects that the two computations read and build are
    cells of one store, addressed by reference, so that a write through one
    reference is seen through every other: the array [feedbacks] and its
    feedback objects, the accumulators that [questionMap] holds, the arrays
    that [filter] returns, the arrays [feedbackPeriods] and
    [submittedDepartments] of the component.  A run takes the store it
    finds and returns the store it leaves. *)
Module Store.

Definition ref : Type := nat.

Inductive object : Type :=
| FeedbackObject (feedback : Feedback)
| TotalsObject (stats : QuestionTotals)
| PeriodObject (period : FeedbackPeriod)
| ArrayObject (elements : list ref)
| StringsObject (elements : list string).

Definition t : Type := list object.

Definition read (s : t) (r : ref) : option object := nth_error s r.

(** A new object: the store grows by one cell. *)
Definition alloc (s : t) (o : object) : ref * t := (List.length s, s ++ [o]).

(** An assignment through a reference: the cell changes in place. *)
Fixpoint write (s : t) (r : ref) (o : object) : t :=
  match s, r with
  | [], _ => []
  | _ :: s', O => o :: s'
  | x :: s', S r' => x :: write s' r' o
  end.

End Store.

(** A run of JavaScript over the store; [None] is a thrown [TypeError]. *)
Definition Js (A : Type) : Type := Store.t -> option (A * Store.t).

Definition js_ret {A : Type} (a : A) : Js A := fun s => Some (a, s).

Definition js_throw {A : Type} : Js A := fun _ => None.

Definition js_bind {A B : Type} (m : Js A) (k : A -> Js B) : Js B :=
  fun s =>
    match m s with
    | Some (a, s') => k a s'
    | None => None
    end.

Declare Scope js_scope.
Delimit Scope js_scope with js.
Notation "x <- m ;; k" := (js_bind m (fun x => k))
  (at level 100, m at next level, right associativity) : js_scope.

Definition js_read (r : Store.ref) : Js Store.object :=
  fun s =>
    match Store.read s r with
    | Some o => Some (o, s)
    | None => None
    end.

Definition js_alloc (o : Store.object) : Js Store.ref :=
  fun s => Some (Store.alloc s o).

Definition js_write (r : Store.ref) (o : Store.object) : Js unit :=
  fun s => Some (tt, Store.write s r o).

(** [xs.forEach(x => ...)] with the variables that the body updates. *)
Fixpoint js_fold {A B : Type} (body : B -> A -> Js B) (xs : list A) (b : B) : Js B :=
  match xs with
  | [] => js_ret b
  | x :: xs' => js_bind (body b x) (fun b' => js_fold body xs' b')
  end.

Section StoreRuns.

Local Open Scope js_scope.

(** The object behind a reference, of the kind that the code goes on to
    use; an object of another kind ends the run as a [TypeError] does. *)
Definition read_array (r : Store.ref) : Js (list Store.ref) :=
  o <- js_read r ;;
  match o with
  | Store.ArrayObject elements => js_ret elements
  | _ => js_throw
  end.

Definition read_feedback (r : Store.ref) : Js Feedback :=
  o <- js_read r ;;
  match o with
  | Store.FeedbackObject feedback => js_ret feedback
  | _ => js_throw
  end.

Definition read_totals (r : Store.ref) : Js QuestionTotals :=
  o <- js_read r ;;
  match o with
  | Store.TotalsObject stats => js_ret stats
  | _ => js_throw
  end.

Definition read_period (r : Store.ref) : Js FeedbackPeriod :=
  o <- js_read r ;;
  match o with
  | Store.PeriodObject period => js_ret period
  | _ => js_throw
  end.

Definition read_strings (r : Store.ref) : Js (list string) :=
  o <- js_read r ;;
  match o with
  | Store.StringsObject elements => js_ret elements
  | _ => js_throw
  end.

(** [array.filter(keep)]: a new array of the elements that [keep] holds
    for; the elements themselves are shared with [array]. *)
Definition array_filter (keep : Store.ref -> Js bool) (array : Store.ref)
    : Js Store.ref :=
  elements <- read_array array ;;
  kept <- js_fold
            (fun kept element =>
               b <- keep element ;;
               js_ret (if b then kept ++ [element] else kept))
            elements [] ;;
  js_alloc (Store.ArrayObject kept).

(** Body of [feedback.questions.forEach(q => ...)] of the first pass:
    [questionMap] holds references, and [stats.totalRating += q.rating;
    stats.count++] writes through the reference that [get] returned. *)
Definition collect_question_in (questionMap : JsMap.t Store.ref)
    (q : FeedbackQuestion) : Js (JsMap.t Store.ref) :=
  questionMap1 <-
    (if negb (JsMap.has questionMap (q_id q)) then
       r <- js_alloc
              (Store.TotalsObject
                 {| questionId := q_id q; questionText := q_text q;
                    totalRating := 0; count := 0 |}) ;;
       js_ret (JsMap.set questionMap (q_id q) r)
     else js_ret questionMap) ;;
  match map_get questionMap1 (q_id q) with
  | Some stats =>
      t <- read_totals stats ;;
      _ <- js_write stats
             (Store.TotalsObject
                {| questionId := questionId t;
                   questionText := questionText t;
                   totalRating := totalRating t + q_rating q;
                   count := count t + 1 |}) ;;
      js_ret questionMap1
  | None => js_throw
  end.

(** [departmentFeedbacks.forEach(feedback => feedback.questions.forEach(...))] *)
Definition collect_questions_in (departmentFeedbacks : list Store.ref)
    : Js (JsMap.t Store.ref) :=
  js_fold
    (fun questionMap feedback =>
       f <- read_feedback feedback ;;
       js_fold collect_question_in (questions f) questionMap)
    departmentFeedbacks JsMap.empty.

(** [questionMap.forEach(stats => questionStats.push({...}))] *)
Definition push_question_stats_in (questionMap : JsMap.t Store.ref)
    : Js (list QuestionStat) :=
  js_fold
    (fun questionStats stats =>
       t <- read_totals stats ;;
       js_ret (questionStats ++ [question_stat_of t]))
    (JsMap.values questionMap) [].

(** The second pass. *)
Definition overall_totals_in (departmentFeedbacks : list Store.ref) : Js (Z * Z) :=
  js_fold
    (fun acc feedback =>
       f <- read_feedback feedback ;;
       js_ret
         (fold_left
            (fun '(totalRating, totalQuestions) question =>
               (totalRating + q_rating question, totalQuestions + 1))
            (questions f) acc))
    departmentFeedbacks (0, 0).

(** Body of [departments.forEach(department => ...)]. *)
Definition department_stat_in (feedbacks : Store.ref) (dept : string)
    : Js DepartmentStat :=
  departmentFeedbacks <-
    array_filter
      (fun r => f <- read_feedback r ;;
                js_ret (String.eqb (targetDepartment f) dept))
      feedbacks ;;
  elements <- read_array departmentFeedbacks ;;
  if Nat.eqb (List.length elements) 0 then
    js_ret {| department := dept; averageRating := 0%Q;
              totalFeedbacks := 0%nat; questionStats := [] |}
  else
    questionMap <- collect_questions_in elements ;;
    questionStats <- push_question_stats_in questionMap ;;
    totals <- overall_totals_in elements ;;
    js_ret {| department := dept;
              averageRating := guarded_quotient (fst totals) (snd totals);
              totalFeedbacks := List.length elements;
              questionStats := questionStats |}.

(** StatsAggregator over the store: the [departmentStats] that the handler
    serializes, for the array behind [feedbacks]. *)
Definition departmentStats_in (feedbacks : Store.ref) : Js (list DepartmentStat) :=
  js_fold
    (fun departmentStats dept =>
       e <- department_stat_in feedbacks dept ;;
       js_ret (departmentStats ++ [e]))
    departments [].

(** AvailabilityFilter over the store: the two [filter] calls of the
    component on the arrays behind [periods] and [submitted]. *)
Definition AvailabilityFilter_in (periods submitted : Store.ref) (currentUser : User)
    : Js Store.ref :=
  filteredPeriods <-
    array_filter
      (fun r => period <- read_period r ;;
                js_ret (negb (String.eqb (fp_department period)
                                         (u_department currentUser))))
      periods ;;
  array_filter
    (fun r => period <- read_period r ;;
              submittedDepartments <- read_strings submitted ;;
              js_ret (negb (includes submittedDepartments (fp_department period))))
    filteredPeriods.

End StoreRuns.

(** The array behind [array] holds references to the given objects. *)
Definition holds (s : Store.t) (array : Store.ref) (values : list Store.object) : Prop :=
  exists elements,
    Store.read s array = Some (Store.ArrayObject elements)
    /\ Forall2 (fun r o => Store.read s r = Some o) elements values.

(** A store with an array of two feedbacks, for the examples. *)
Definition sample_store : Store.t :=
  [Store.FeedbackObject F1; Store.FeedbackObject F2; Store.ArrayObject [0%nat; 1%nat];
   Store.PeriodObject (sample_period "FP00000001" "IT");
   Store.PeriodObject (sample_period "FP00000002" "HR");
   Store.ArrayObject [3%nat; 4%nat];
   Store.StringsObject ["Civil"]].

(** [questionMap] over the store and [questionMap] by value go together:
    the same keys in the same order, each reference one of the cells
    allocated from [base] on, holding the accumulator of its key, and no
    two keys sharing a cell. *)
Definition tracks (base : nat) (s : Store.t) (m : JsMap.t Store.ref)
    (mp : JsMap.t QuestionTotals) : Prop :=
  Forall2
    (fun e ep =>
       fst e = fst ep /\ (base <= snd e)%nat
       /\ Store.read s (snd e) = Some (Store.TotalsObject (snd ep)))
    m mp
  /\ NoDup (map snd m).

(** ** [POST /api/feedbacks] with the primary keys, for any [questions]

    The statements of the handler once more, now with the primary keys of
    the two tables among the constraints and with [req.body.questions] as
    any JSON value, by what [JSON.stringify] and [for ... of] make of it.
    The other fields are strings (and the rating of a question an integer)
    where the body carries them, as before. *)

(** [req.body.questions] *)
Inductive QuestionsValue : Type :=
| QuestionsUndefined
    (* the body carries no [questions] *)
| QuestionsNullValue
    (* null *)
| QuestionsString (text : string)
    (* a string *)
| QuestionsElements (elements : list (option SubmittedQuestion))
    (* an array; [None] is an element null, and an element that is no
       object is a question with none of the fields *)
| QuestionsNotIterable (json : string).
    (* a number, a boolean or an object that is no array, with its JSON text *)

(** [req.body] *)
Record ReceivedBody : Type := mkReceivedBody {
  r_userId : option string;
  r_userName : option string;
  r_userEmail : option string;
  r_userDepartment : option string;
  r_targetDepartment : option string;
  r_questions : QuestionsValue;
  r_additionalComment : option string
}.

Inductive ReceivedResponse : Type :=
| ReceivedOk (id : string) (message : string)
| ReceivedError (status : Z) (error : InsertFailure).

(** Statements of one transaction that can also fail on a key. *)
Definition Ins (A : Type) : Type := Db -> (InsertFailure + A) * Db.

Definition ins_ret {A : Type} (a : A) : Ins A := fun db => (inr a, db).

Definition ins_fail {A : Type} (e : InsertFailure) : Ins A := fun db => (inl e, db).

Definition ins_bind {A B : Type} (m : Ins A) (k : A -> Ins B) : Ins B :=
  fun db =>
    match m db with
    | (inr a, db') => k a db'
    | (inl e, db') => (inl e, db')
    end.

Definition of_tx {A : Type} (m : Tx A) : Ins A :=
  fun db =>
    match m db with
    | (inr a, db') => (inr a, db')
    | (inl e, db') => (inl (Raised e), db')
    end.

Declare Scope ins_scope.
Delimit Scope ins_scope with ins.
Notation "x <- m ;; k" := (ins_bind m (fun x => k))
  (at level 100, m at next level, right associativity) : ins_scope.
Notation "m ;;; k" := (ins_bind m (fun _ => k))
  (at level 100, right associativity) : ins_scope.

(** [for (const x of xs) { await body x }] *)
Fixpoint ins_for_each {A : Type} (xs : list A) (body : A -> Ins unit) : Ins unit :=
  match xs with
  | [] => ins_ret tt
  | x :: xs' => ins_bind (body x) (fun _ => ins_for_each xs' body)
  end.

(** A primary key: the value is none of the keys of the table. *)
Definition primary_key (constraint : string) (v : string) (keys : Db -> list string)
    : Ins unit :=
  fun db =>
    if existsb (String.eqb v) (keys db) then (inl (ORA_00001 constraint), db)
    else (inr tt, db).

(** ['FQ' || LPAD(feedback_question_seq.NEXTVAL, 8, '0')] as a function of
    the sequence value. *)
Definition question_id (n : N) : string :=
  String.append "FQ" (LPAD (decimal n) 8 "0").

(** A character of a string, as a question: it has none of the fields. *)
Definition no_fields : SubmittedQuestion :=
  {| sq_id := None; sq_text := None; sq_type := None;
     sq_rating := None; sq_comment := None |}.

(** What [for (const question of questions)] iterates over: the elements of
    an array, the characters of a string; [None] when the value is not
    iterable. *)
Definition iterate (questions : QuestionsValue)
    : option (list (option SubmittedQuestion)) :=
  match questions with
  | QuestionsElements elements => Some elements
  | QuestionsString text =>
      Some (map (fun _ => Some no_fields) (list_ascii_of_string text))
  | QuestionsUndefined | QuestionsNullValue | QuestionsNotIterable _ => None
  end.

Section ReceivedHandler.

Context `{JsonStringify (list (option SubmittedQuestion))}.

(** The escapes that [JSON.stringify] writes for the characters of a
    string, between the quotes. *)
Variable escape : string -> string.

Local Open Scope ins_scope.

(** [JSON.stringify(questions)]; [None] is [undefined]. *)
Definition stringify_value (questions : QuestionsValue) : option string :=
  match questions with
  | QuestionsUndefined => None
  | QuestionsNullValue => Some "null"
  | QuestionsString text => Some (quoted (escape text))
  | QuestionsElements elements => Some (JSON_stringify elements)
  | QuestionsNotIterable json => Some json
  end.

(** [INSERT INTO feedbacks (...) VALUES (...) RETURNING id INTO :id]
    against the constraints of the table: the [NOT NULL] columns with
    their sizes, the primary key and the three foreign keys. *)
Definition insert_feedback_keyed (now : Z) (body : ReceivedBody) : Ins string :=
  n <- of_tx feedback_seq_NEXTVAL ;;
  let id := feedback_id n in
  let questionsJson := stringify_value (r_questions body) in
  user_id <- of_tx (not_null "USER_ID" (Some 36%nat) (r_userId body)) ;;
  user_name <- of_tx (not_null "USER_NAME" (Some 255%nat) (r_userName body)) ;;
  user_email <- of_tx (not_null "USER_EMAIL" (Some 255%nat) (r_userEmail body)) ;;
  user_department <-
    of_tx (not_null "USER_DEPARTMENT" (Some 100%nat) (r_userDepartment body)) ;;
  target_department <-
    of_tx (not_null "TARGET_DEPARTMENT" (Some 100%nat) (r_targetDepartment body)) ;;
  questions <- of_tx (not_null "QUESTIONS" None questionsJson) ;;
  primary_key "FEEDBACKS_PK" id (fun db => map FB_ID (db_feedbacks db)) ;;;
  of_tx (references "FK_FB_USER" user_id (fun db => map U_ID (db_users db))) ;;;
  of_tx (references "FK_FB_USER_DEPT" user_department db_departments) ;;;
  of_tx (references "FK_FB_TARGET_DEPT" target_department db_departments) ;;;
  of_tx (append_feedback
           {| FB_ID := id;
              FB_USER_ID := user_id;
              FB_USER_NAME := user_name;
              FB_USER_EMAIL := user_email;
              FB_USER_DEPARTMENT := user_department;
              FB_TARGET_DEPARTMENT := target_department;
              FB_QUESTIONS := Some questions;
              FB_ADDITIONAL_COMMENT := or_null (r_additionalComment body);
              FB_CREATED_AT := now |}) ;;;
  ins_ret id.

(** The body of the loop: the bind values are read off [question], which
    throws for null, and [INSERT INTO feedback_questions (...) VALUES (...)]
    runs against the constraints of the table. *)
Definition insert_feedback_question_keyed (now : Z) (feedbackId : string)
    (question : option SubmittedQuestion) : Ins unit :=
  match question with
  | None =>
      ins_fail (Raised (TypeError "Cannot read properties of null (reading 'text')"))
  | Some question =>
      n <- of_tx feedback_question_seq_NEXTVAL ;;
      let id := question_id n in
      text <- of_tx (not_null "TEXT" None (sq_text question)) ;;
      rating <- of_tx (not_null_number "RATING" (sq_rating question)) ;;
      primary_key "FEEDBACK_QUESTIONS_PK" id
        (fun db => map FQ_ID (db_feedback_questions db)) ;;;
      of_tx (references "FK_FQ_FEEDBACK" feedbackId
               (fun db => map FB_ID (db_feedbacks db))) ;;;
      of_tx (append_feedback_question
               {| FQ_ID := id;
                  FQ_FEEDBACK_ID := feedbackId;
                  FQ_TEXT := text;
                  FQ_RATING := rating;
                  FQ_COMMENTS := or_null (sq_comment question);
                  FQ_CREATED_AT := now |})
  end.

(** The statements between [getConnection] and [commit]. *)
Definition submit_transaction_keyed (now : Z) (body : ReceivedBody) : Ins string :=
  feedbackId <- insert_feedback_keyed now body ;;
  match iterate (r_questions body) with
  | Some elements =>
      ins_for_each elements (insert_feedback_question_keyed now feedbackId)
  | None => ins_fail (Raised (TypeError "questions is not iterable"))
  end ;;;
  ins_ret feedbackId.

(** The handler: commit and answer with the new identifier, or roll back
    and answer 500. *)
Definition post_feedbacks_keyed (now : Z) (body : ReceivedBody) (db : Db)
    : ReceivedResponse * Db :=
  match submit_transaction_keyed now body db with
  | (inr feedbackId, db') =>
      (ReceivedOk feedbackId "Feedback submitted successfully", db')
  | (inl err, db') => (ReceivedError 500 err, rollback db db')
  end.

(** The strings of the header are present, non-empty and within their
    columns, and the user and the two departments exist. *)
Definition header_fields_fit (body : ReceivedBody) (db : Db) : bool :=
  fits (Some 36%nat) (r_userId body)
  && fits (Some 255%nat) (r_userName body)
  && fits (Some 255%nat) (r_userEmail body)
  && fits (Some 100%nat) (r_userDepartment body)
  && fits (Some 100%nat) (r_targetDepartment body)
  && fits None (stringify_value (r_questions body))
  && existsb (String.eqb (or_empty (r_userId body))) (map U_ID (db_users db))
  && existsb (String.eqb (or_empty (r_userDepartment body))) (db_departments db)
  && existsb (String.eqb (or_empty (r_targetDepartment body))) (db_departments db).

(** No stored feedback has the identifier of the next sequence value. *)
Definition feedback_key_free (db : Db) : bool :=
  negb (existsb (String.eqb (feedback_id (db_feedback_seq db)))
          (map FB_ID (db_feedbacks db))).

(** The element is an object with a non-empty text and a rating. *)
Definition element_fits (element : option SubmittedQuestion) : bool :=
  match element with
  | Some question => question_fits question
  | None => false
  end.

(** The identifiers of the next [count] sequence values, from [next] on,
    are not among [taken] and differ from each other. *)
Fixpoint question_keys_free (next : N) (count : nat) (taken : list string) : bool :=
  match count with
  | O => true
  | S count' =>
      negb (existsb (String.eqb (question_id next)) taken)
      && question_keys_free (N.succ next) count' (taken ++ [question_id next])
  end.

(** The conditions under which the statements of a submission all
    succeed: the header fits and its key is free, and the questions are
    iterated as elements that all fit, with free keys. *)
Definition submittable (body : ReceivedBody) (db : Db) : bool :=
  header_fields_fit body db
  && feedback_key_free db
  && match iterate (r_questions body) with
     | Some elements =>
         forallb element_fits elements
         && question_keys_free (db_feedback_question_seq db) (List.length elements)
              (map FQ_ID (db_feedback_questions db))
     | None => false
     end.

(** The header row stored for a body that fits. *)
Definition received_header (now : Z) (n : N) (body : ReceivedBody) : FeedbackRow :=
  {| FB_ID := feedback_id n;
     FB_USER_ID := or_empty (r_userId body);
     FB_USER_NAME := or_empty (r_userName body);
     FB_USER_EMAIL := or_empty (r_userEmail body);
     FB_USER_DEPARTMENT := or_empty (r_userDepartment body);
     FB_TARGET_DEPARTMENT := or_empty (r_targetDepartment body);
     FB_QUESTIONS := Some (or_empty (stringify_value (r_questions body)));
     FB_ADDITIONAL_COMMENT := or_null (r_additionalComment body);
     FB_CREATED_AT := now |}.

(** The question row stored for an element that fits. *)
Definition received_question_row (now : Z) (n : N) (feedbackId : string)
    (element : option SubmittedQuestion) : FeedbackQuestionRow :=
  {| FQ_ID := question_id n;
     FQ_FEEDBACK_ID := feedbackId;
     FQ_TEXT := or_empty (match element with Some q => sq_text q | None => None end);
     FQ_RATING :=
       match element with
       | Some q => match sq_rating q with Some r => r | None => 0 end
       | None => 0
       end;
     FQ_COMMENTS := or_null (match element with Some q => sq_comment q | None => None end);
     FQ_CREATED_AT := now |}.

(** The question rows stored for the elements, from the sequence value
    [n] on. *)
Fixpoint received_question_rows (now : Z) (n : N) (feedbackId : string)
    (elements : list (option SubmittedQuestion)) : list FeedbackQuestionRow :=
  match elements with
  | [] => []
  | element :: elements' =>
      received_question_row now n feedbackId element
      :: received_question_rows now (N.succ n) feedbackId elements'
  end.

End ReceivedHandler.

(** The serializer of an array of question objects, from the one of any
    array. *)
Definition stringify_objects `{JsonStringify (list (option SubmittedQuestion))}
    : JsonStringify (list SubmittedQuestion) :=
  fun questions => JSON_stringify (map Some questions).

(** The body whose [questions] are an array of the given question objects,
    as a [SubmitBody]. *)
Definition with_objects (body : ReceivedBody) (questions : list SubmittedQuestion)
    : SubmitBody :=
  {| b_userId := r_userId body;
     b_userName := r_userName body;
     b_userEmail := r_userEmail body;
     b_userDepartment := r_userDepartment body;
     b_targetDepartment := r_targetDepartment body;
     b_questions := Some questions;
     b_additionalComment := r_additionalComment body |}.

(** Every question row carries the identifier of a sequence value already
    drawn. *)
Definition question_ids_from_sequence (db : Db) : Prop :=
  forall row, In row (db_feedback_questions db) ->
    exists k, (k < db_feedback_question_seq db)%N /\ FQ_ID row = question_id k.

(** The body of a submission with the given value for [questions]. *)
Definition sample_received (questions : QuestionsValue) : ReceivedBody :=
  {| r_userId := Some "U1"; r_userName := Some "Asha";
     r_userEmail := Some "asha@example.com"; r_userDepartment := Some "IT";
     r_targetDepartment := Some "HR";
     r_questions := questions;
     r_additionalComment := None |}.

Definition sample_JSON_stringify_elements
    : JsonStringify (list (option SubmittedQuestion)) :=
  fun elements =>
    String.concat EmptyString
      ["["; String.concat ","
              (map (fun element =>
                      match element with
                      | Some _ => "{}"
                      | None => "null"
                      end)
                   elements); "]"].

(** No character of the examples needs an escape. *)
Definition sample_escape (text : string) : string := text.

(** * Properties *)

(** ** Loops that push *)

Lemma fold_left_push {A B : Type} (f : A -> B) (l : list A) (acc : list B) :
  fold_left (fun out x => out ++ [f x]) l acc = acc ++ map f l.
Proof.
  revert acc; induction l as [|x l IH]; intros acc; simpl.
  - now rewrite app_nil_r.
  - rewrite IH, <- app_assoc; reflexivity.
Qed.

Lemma departmentStats_map (feedbacks : list Feedback) :
  departmentStats feedbacks = map (department_stat feedbacks) departments.
Proof. unfold departmentStats; now rewrite fold_left_push. Qed.

Lemma push_question_stats_map (m : JsMap.t QuestionTotals) :
  push_question_stats m = map question_stat_of (JsMap.values m).
Proof. unfold push_question_stats; now rewrite fold_left_push. Qed.

Lemma department_stat_department (feedbacks : list Feedback) (dept : string) :
  department (department_stat feedbacks dept) = dept.
Proof.
  unfold department_stat.
  destruct (Nat.eqb _ 0); [reflexivity|].
  destruct (overall_totals _); reflexivity.
Qed.

Lemma stat_for_map (feedbacks : list Feedback) (dept : string) (l : list string) :
  In dept l ->
  stat_for (map (department_stat feedbacks) l) dept
  = Some (department_stat feedbacks dept).
Proof.
  unfold stat_for; induction l as [|d l IH]; intros Hin; [destruct Hin|].
  simpl. rewrite department_stat_department.
  destruct (String.eqb_spec d dept) as [->|Hne]; [reflexivity|].
  destruct Hin as [->|Hin]; [congruence|auto].
Qed.

Lemma stat_for_department (feedbacks : list Feedback) (dept : string) :
  In dept departments ->
  stat_for (departmentStats feedbacks) dept = Some (department_stat feedbacks dept).
Proof. rewrite departmentStats_map; apply stat_for_map. Qed.

Lemma departments_NoDup : NoDup departments.
Proof.
  unfold departments.
  repeat (constructor; [simpl; intros H; repeat (destruct H as [H|H]; [discriminate H|]); exact H|]).
  constructor.
Qed.

Lemma count_department (feedbacks : list Feedback) (dept : string) (l : list string) :
  List.length (filter (fun e => String.eqb (department e) dept)
                      (map (department_stat feedbacks) l))
  = List.length (filter (fun d => String.eqb d dept) l).
Proof.
  induction l as [|d l IH]; [reflexivity|].
  simpl. rewrite department_stat_department.
  destruct (String.eqb d dept); simpl; now rewrite IH.
Qed.

Lemma count_NoDup (dept : string) (l : list string) :
  NoDup l -> In dept l ->
  List.length (filter (fun d => String.eqb d dept) l) = 1%nat.
Proof.
  induction 1 as [|d l Hnotin Hnd IH]; intros Hin; [destruct Hin|].
  simpl. destruct (String.eqb_spec d dept) as [->|Hne].
  - simpl. f_equal.
    assert (Hnone : filter (fun d => String.eqb d dept) l = []).
    { clear -Hnotin. induction l as [|x l IHl]; [reflexivity|].
      simpl. destruct (String.eqb_spec x dept) as [->|_].
      - exfalso; apply Hnotin; now left.
      - apply IHl. intros H; apply Hnotin; now right. }
    now rewrite Hnone.
  - destruct Hin as [->|Hin]; [congruence|auto].
Qed.

(** C2: whatever the feedbacks, [departmentStats] lists the departments of
    the fixed list in the order of that list, each of them exactly once; in
    particular the order of the entries is the same for any two inputs, so
    for any reordering of the feedbacks. *)
Theorem departmentStats_one_entry_per_department (feedbacks : list Feedback) :
  map department (departmentStats feedbacks) = departments
  /\ (forall dept, In dept departments ->
        List.length (filter (fun e => String.eqb (department e) dept)
                            (departmentStats feedbacks)) = 1%nat)
  /\ (forall feedbacks' : list Feedback,
        map department (departmentStats feedbacks')
        = map department (departmentStats feedbacks)).
Proof.
  assert (Hmap : forall fs, map department (departmentStats fs) = departments).
  { intros fs. rewrite departmentStats_map, map_map.
    rewrite (map_ext _ (fun d => d)); [apply map_id|].
    intros d; apply department_stat_department. }
  split; [apply Hmap|split].
  - intros dept Hin. rewrite departmentStats_map, count_department.
    apply count_NoDup; [apply departments_NoDup|exact Hin].
  - intros fs'. now rewrite !Hmap.
Qed.

(** ** The overall totals *)

Lemma sum_ratings_cons (q : FeedbackQuestion) (qs : list FeedbackQuestion) :
  sum_ratings (q :: qs) = q_rating q + sum_ratings qs.
Proof. reflexivity. Qed.

Lemma sum_ratings_app (qs qs' : list FeedbackQuestion) :
  sum_ratings (qs ++ qs') = sum_ratings qs + sum_ratings qs'.
Proof.
  induction qs as [|q qs IH]; [reflexivity|].
  simpl app. rewrite !sum_ratings_cons, IH. lia.
Qed.

Lemma totals_of_questions (qs : list FeedbackQuestion) (total n : Z) :
  fold_left
    (fun '(totalRating, totalQuestions) question =>
       (totalRating + q_rating question, totalQuestions + 1))
    qs (total, n)
  = (total + sum_ratings qs, n + Z.of_nat (List.length qs)).
Proof.
  revert total n; induction qs as [|q qs IH]; intros total n.
  - simpl. f_equal; unfold sum_ratings; simpl; lia.
  - simpl fold_left. rewrite IH, sum_ratings_cons. simpl List.length.
    f_equal; lia.
Qed.

Lemma overall_totals_from (dfs : list Feedback) (total n : Z) :
  fold_left
    (fun acc feedback =>
       fold_left
         (fun '(totalRating, totalQuestions) question =>
            (totalRating + q_rating question, totalQuestions + 1))
         (questions feedback) acc)
    dfs (total, n)
  = (total + sum_ratings (flat_map questions dfs),
     n + Z.of_nat (List.length (flat_map questions dfs))).
Proof.
  revert total n; induction dfs as [|f dfs IH]; intros total n.
  - simpl. f_equal; unfold sum_ratings; simpl; lia.
  - simpl fold_left. rewrite totals_of_questions, IH.
    simpl flat_map. rewrite sum_ratings_app, length_app. f_equal; lia.
Qed.

Lemma overall_totals_spec (dfs : list Feedback) :
  overall_totals dfs
  = (sum_ratings (flat_map questions dfs),
     Z.of_nat (List.length (flat_map questions dfs))).
Proof. unfold overall_totals. now rewrite overall_totals_from. Qed.

Lemma guarded_quotient_spec (total : Z) (n : nat) :
  guarded_quotient total (Z.of_nat n) = spec_average total n.
Proof.
  unfold guarded_quotient, spec_average. destruct n as [|n]; [reflexivity|].
  replace (0 <? Z.of_nat (S n)) with true by (symmetry; apply Z.ltb_lt; lia).
  f_equal. simpl. now rewrite Pos.of_nat_succ.
Qed.

Lemma spec_average_Qdiv (total : Z) (n : nat) :
  (spec_average total n == inject_Z total / inject_Z (Z.of_nat n))%Q.
Proof.
  unfold spec_average. destruct n as [|n].
  - simpl. unfold Qdiv, Qinv; simpl. now rewrite Qmult_0_r.
  - rewrite Qmake_Qdiv. rewrite <- Pos.of_nat_succ.
    apply Qeq_refl.
Qed.

(** The entry of a department that some feedback targets. *)
Lemma department_stat_nonempty (feedbacks : list Feedback) (dept : string) :
  departmentFeedbacks_of feedbacks dept <> [] ->
  department_stat feedbacks dept
  = {| department := dept;
       averageRating :=
         spec_average (sum_ratings (partition_ratings feedbacks dept))
                      (List.length (partition_ratings feedbacks dept));
       totalFeedbacks := List.length (departmentFeedbacks_of feedbacks dept);
       questionStats :=
         push_question_stats
           (collect_questions (departmentFeedbacks_of feedbacks dept)) |}.
Proof.
  intros Hne. unfold department_stat, partition_ratings.
  destruct (departmentFeedbacks_of feedbacks dept) as [|f dfs] eqn:E; [congruence|].
  cbv zeta. replace (Nat.eqb (List.length (f :: dfs)) 0) with false by reflexivity.
  rewrite overall_totals_spec, guarded_quotient_spec. reflexivity.
Qed.

(** The entry of a department that no feedback targets. *)
Lemma department_stat_empty (feedbacks : list Feedback) (dept : string) :
  departmentFeedbacks_of feedbacks dept = [] ->
  department_stat feedbacks dept
  = {| department := dept; averageRating := 0%Q;
       totalFeedbacks := 0%nat; questionStats := [] |}.
Proof. intros E. unfold department_stat. now rewrite E. Qed.

Lemma departmentFeedbacks_of_none (feedbacks : list Feedback) (dept : string) :
  (forall f, In f feedbacks -> targetDepartment f <> dept) ->
  departmentFeedbacks_of feedbacks dept = [].
Proof.
  intros H. unfold departmentFeedbacks_of.
  induction feedbacks as [|f fs IH]; [reflexivity|].
  simpl. destruct (String.eqb_spec (targetDepartment f) dept) as [E|_].
  - exfalso. apply (H f); [now left|exact E].
  - apply IH. intros g Hg. apply H. now right.
Qed.

(** ** The map of totals *)

Lemma JsMap_has_keys {V : Type} (g : string -> V) (ks : list string) (k : string) :
  JsMap.has (map (fun k' => (k', g k')) ks) k = existsb (fun k' => String.eqb k' k) ks.
Proof.
  induction ks as [|k' ks IH]; [reflexivity|].
  simpl. destruct (String.eqb k' k); [reflexivity|exact IH].
Qed.

Lemma JsMap_set_fresh {V : Type} (m : JsMap.t V) (k : string) (v : V) :
  JsMap.has m k = false -> JsMap.set m k v = m ++ [(k, v)].
Proof.
  induction m as [|[k' v'] m IH]; intros Hfresh; [reflexivity|].
  simpl in *. destruct (String.eqb k' k); [discriminate|].
  now rewrite IH.
Qed.

Lemma map_get_set_fresh {V : Type} (m : JsMap.t V) (k : string) (v : V) :
  JsMap.has m k = false -> map_get (JsMap.set m k v) k = Some v.
Proof.
  induction m as [|[k' v'] m IH]; simpl.
  - intros _. now rewrite String.eqb_refl.
  - destruct (String.eqb_spec k' k) as [->|Hne]; [discriminate|].
    intros Hm. simpl. destruct (String.eqb_spec k' k) as [E|_]; [contradiction|].
    now apply IH.
Qed.

Lemma existsb_eqb_false (ks : list string) (k : string) :
  existsb (fun k' => String.eqb k' k) ks = false <-> ~ In k ks.
Proof.
  split.
  - intros Hex Hin. apply Bool.not_true_iff_false in Hex. apply Hex.
    apply existsb_exists. exists k. split; [exact Hin|apply String.eqb_refl].
  - intros Hnotin. apply Bool.not_true_iff_false. intros Hex.
    apply existsb_exists in Hex. destruct Hex as [k' [Hin Heq]].
    apply String.eqb_eq in Heq. subst k'. contradiction.
Qed.

Lemma JsMap_mutate_keys {V : Type} (g : string -> V) (f : V -> V)
    (ks : list string) (k : string) :
  NoDup ks ->
  JsMap.mutate (map (fun k' => (k', g k')) ks) k f
  = map (fun k' => (k', if String.eqb k' k then f (g k') else g k')) ks.
Proof.
  induction 1 as [|k' ks Hnotin Hnd IH]; [reflexivity|].
  simpl. destruct (String.eqb_spec k' k) as [->|Hne].
  - f_equal. apply map_ext_in. intros k'' Hin.
    destruct (String.eqb_spec k'' k) as [->|_]; [contradiction|reflexivity].
  - now rewrite IH.
Qed.

Lemma first_encounters_In (ids : list string) (k : string) :
  In k (first_encounters ids) <-> In k ids.
Proof.
  induction ids as [|k' ids IH]; [reflexivity|].
  simpl. rewrite filter_In, IH.
  destruct (String.eqb_spec k' k) as [->|Hne]; simpl.
  - split; [intros _; now left|intros _; now left].
  - split.
    + intros [H|[H _]]; [now left|now right].
    + intros [H|H]; [now left|right; now split].
Qed.

Lemma NoDup_filter {A : Type} (p : A -> bool) (l : list A) :
  NoDup l -> NoDup (filter p l).
Proof.
  induction 1 as [|x l Hnotin Hnd IH]; [constructor|].
  simpl. destruct (p x); [constructor|]; auto.
  intros Hin. apply filter_In in Hin. now destruct Hin.
Qed.

Lemma NoDup_snoc {A : Type} (l : list A) (x : A) :
  NoDup l -> ~ In x l -> NoDup (l ++ [x]).
Proof.
  induction 1 as [|y l Hnotin Hnd IH]; intros Hx; simpl.
  - constructor; [intros []|constructor].
  - constructor.
    + rewrite in_app_iff. intros [H|[H|[]]]; [contradiction|].
      apply Hx. now left.
    + apply IH. intros H. apply Hx. now right.
Qed.

Lemma first_encounters_NoDup (ids : list string) : NoDup (first_encounters ids).
Proof.
  induction ids as [|k ids IH]; [constructor|].
  simpl. constructor.
  - intros Hin. apply filter_In in Hin. destruct Hin as [_ Hne].
    now rewrite String.eqb_refl in Hne.
  - now apply NoDup_filter.
Qed.

Lemma first_encounters_snoc (ids : list string) (k : string) :
  first_encounters (ids ++ [k])
  = if existsb (fun k' => String.eqb k' k) ids then first_encounters ids
    else first_encounters ids ++ [k].
Proof.
  induction ids as [|k' ids IH]; [reflexivity|].
  simpl. rewrite IH.
  destruct (String.eqb_spec k' k) as [->|Hne]; simpl.
  - destruct (existsb _ ids); [reflexivity|].
    rewrite filter_app. simpl. rewrite String.eqb_refl. simpl.
    now rewrite app_nil_r.
  - destruct (existsb _ ids); [reflexivity|].
    rewrite filter_app. simpl.
    destruct (String.eqb_spec k' k) as [E|_]; [contradiction|reflexivity].
Qed.

Lemma group_of_snoc (k : string) (qs : list FeedbackQuestion) (q : FeedbackQuestion) :
  group_of k (qs ++ [q])
  = group_of k qs ++ (if String.eqb (q_id q) k then [q] else []).
Proof. unfold group_of. rewrite filter_app. reflexivity. Qed.

Lemma group_of_absent (k : string) (qs : list FeedbackQuestion) :
  ~ In k (map q_id qs) -> group_of k qs = [].
Proof.
  intros Hnotin. unfold group_of.
  induction qs as [|q qs IH]; [reflexivity|].
  simpl. destruct (String.eqb_spec (q_id q) k) as [E|_].
  - exfalso. apply Hnotin. now left.
  - apply IH. intros H. apply Hnotin. now right.
Qed.

Lemma group_of_present (k : string) (qs : list FeedbackQuestion) :
  In k (map q_id qs) -> group_of k qs <> [].
Proof.
  intros Hin E. apply in_map_iff in Hin. destruct Hin as [q [Hid Hq]].
  assert (Hg : In q (group_of k qs)).
  { apply filter_In. split; [exact Hq|]. now apply String.eqb_eq. }
  rewrite E in Hg. destruct Hg.
Qed.

Lemma totals_of_other (qs : list FeedbackQuestion) (q : FeedbackQuestion) (k : string) :
  q_id q <> k -> totals_of (qs ++ [q]) k = totals_of qs k.
Proof.
  intros Hne. unfold totals_of, first_text. rewrite group_of_snoc.
  destruct (String.eqb_spec (q_id q) k) as [E|_]; [contradiction|].
  now rewrite app_nil_r.
Qed.

Lemma totals_of_again (qs : list FeedbackQuestion) (q : FeedbackQuestion) :
  In (q_id q) (map q_id qs) ->
  totals_of (qs ++ [q]) (q_id q)
  = {| questionId := questionId (totals_of qs (q_id q));
       questionText := questionText (totals_of qs (q_id q));
       totalRating := totalRating (totals_of qs (q_id q)) + q_rating q;
       count := count (totals_of qs (q_id q)) + 1 |}.
Proof.
  intros Hin. apply group_of_present in Hin.
  unfold totals_of, first_text. simpl. rewrite group_of_snoc, String.eqb_refl.
  destruct (group_of (q_id q) qs) as [|q0 g] eqn:E; [congruence|].
  rewrite sum_ratings_app, length_app. simpl List.length.
  f_equal; [unfold sum_ratings; simpl; lia|lia].
Qed.

Lemma totals_of_first (qs : list FeedbackQuestion) (q : FeedbackQuestion) :
  ~ In (q_id q) (map q_id qs) ->
  totals_of (qs ++ [q]) (q_id q)
  = {| questionId := q_id q; questionText := q_text q;
       totalRating := 0 + q_rating q; count := 0 + 1 |}.
Proof.
  intros Hnotin. apply group_of_absent in Hnotin.
  unfold totals_of, first_text. rewrite group_of_snoc, String.eqb_refl, Hnotin.
  simpl. f_equal. unfold sum_ratings; simpl; lia.
Qed.

(** One step of the first pass keeps the map equal to the grouping. *)
Lemma collect_question_totals (qs : list FeedbackQuestion) (q : FeedbackQuestion) :
  collect_question (totals_map qs) q = totals_map (qs ++ [q]).
Proof.
  unfold collect_question, totals_map.
  replace (map q_id (qs ++ [q])) with (map q_id qs ++ [q_id q])
    by (now rewrite map_app).
  rewrite JsMap_has_keys, first_encounters_snoc.
  assert (Hex : existsb (fun k' => String.eqb k' (q_id q))
                        (first_encounters (map q_id qs))
                = existsb (fun k' => String.eqb k' (q_id q)) (map q_id qs)).
  { destruct (existsb (fun k' => String.eqb k' (q_id q)) (map q_id qs)) eqn:E.
    - apply existsb_exists. apply existsb_exists in E.
      destruct E as [k [Hin Hk]]. exists k. split; [|exact Hk].
      now apply first_encounters_In.
    - apply existsb_eqb_false. apply existsb_eqb_false in E.
      now rewrite first_encounters_In. }
  rewrite Hex.
  destruct (existsb (fun k' => String.eqb k' (q_id q)) (map q_id qs)) eqn:E; simpl negb; cbv iota.
  - assert (Hin : In (q_id q) (map q_id qs)).
    { apply existsb_exists in E. destruct E as [k [Hin Hk]].
      apply String.eqb_eq in Hk. now subst k. }
    rewrite JsMap_mutate_keys by apply first_encounters_NoDup.
    apply map_ext. intros k.
    destruct (String.eqb_spec k (q_id q)) as [->|Hne].
    + now rewrite totals_of_again.
    + rewrite totals_of_other; [reflexivity|congruence].
  - apply existsb_eqb_false in E.
    rewrite JsMap_set_fresh
      by (rewrite JsMap_has_keys; exact Hex).
    set (init := {| questionId := q_id q; questionText := q_text q;
                    totalRating := 0; count := 0 |}).
    assert (Hm : map (fun k => (k, totals_of qs k)) (first_encounters (map q_id qs))
                 ++ [(q_id q, init)]
               = map (fun k => (k, if String.eqb k (q_id q) then init else totals_of qs k))
                     (first_encounters (map q_id qs) ++ [q_id q])).
    { rewrite map_app. simpl. rewrite String.eqb_refl. f_equal.
      apply map_ext_in. intros k Hk.
      destruct (String.eqb_spec k (q_id q)) as [->|_]; [|reflexivity].
      apply (proj1 (first_encounters_In _ _)) in Hk. contradiction. }
    rewrite Hm.
    rewrite JsMap_mutate_keys.
    + apply map_ext. intros k.
      destruct (String.eqb_spec k (q_id q)) as [->|Hne].
      * rewrite totals_of_first by exact E. reflexivity.
      * rewrite totals_of_other; [reflexivity|congruence].
    + apply NoDup_snoc; [apply first_encounters_NoDup|].
      now rewrite first_encounters_In.
Qed.

Lemma collect_from_totals (qs more : list FeedbackQuestion) :
  fold_left collect_question more (totals_map qs) = totals_map (qs ++ more).
Proof.
  revert qs; induction more as [|q more IH]; intros qs; simpl.
  - now rewrite app_nil_r.
  - rewrite collect_question_totals, IH, <- app_assoc. reflexivity.
Qed.

Lemma collect_questions_from (dfs : list Feedback) (qs : list FeedbackQuestion) :
  fold_left
    (fun questionMap feedback =>
       fold_left collect_question (questions feedback) questionMap)
    dfs (totals_map qs)
  = totals_map (qs ++ flat_map questions dfs).
Proof.
  revert qs; induction dfs as [|f dfs IH]; intros qs; simpl.
  - now rewrite app_nil_r.
  - rewrite collect_from_totals, IH, <- app_assoc. reflexivity.
Qed.

Lemma collect_questions_totals (dfs : list Feedback) :
  collect_questions dfs = totals_map (flat_map questions dfs).
Proof.
  unfold collect_questions. exact (collect_questions_from dfs []).
Qed.

Lemma push_question_stats_totals (qs : list FeedbackQuestion) :
  push_question_stats (totals_map qs) = spec_questionStats qs.
Proof.
  rewrite push_question_stats_map. unfold JsMap.values, totals_map, spec_questionStats.
  rewrite !map_map. apply map_ext. intros k.
  unfold question_stat_of, totals_of. simpl.
  now rewrite guarded_quotient_spec.
Qed.

Lemma department_stat_questionStats (feedbacks : list Feedback) (dept : string) :
  questionStats (department_stat feedbacks dept)
  = spec_questionStats (partition_ratings feedbacks dept).
Proof.
  destruct (departmentFeedbacks_of feedbacks dept) as [|f dfs] eqn:E.
  - rewrite department_stat_empty by exact E.
    unfold partition_ratings. now rewrite E.
  - rewrite department_stat_nonempty by (rewrite E; discriminate).
    simpl. rewrite collect_questions_totals, push_question_stats_totals.
    reflexivity.
Qed.

Lemma department_stat_averageRating (feedbacks : list Feedback) (dept : string) :
  averageRating (department_stat feedbacks dept)
  = spec_average (sum_ratings (partition_ratings feedbacks dept))
                 (List.length (partition_ratings feedbacks dept)).
Proof.
  destruct (departmentFeedbacks_of feedbacks dept) as [|f dfs] eqn:E.
  - rewrite department_stat_empty by exact E.
    unfold partition_ratings. now rewrite E.
  - rewrite department_stat_nonempty by (rewrite E; discriminate).
    reflexivity.
Qed.

Lemma department_stat_totalFeedbacks (feedbacks : list Feedback) (dept : string) :
  totalFeedbacks (department_stat feedbacks dept)
  = List.length (departmentFeedbacks_of feedbacks dept).
Proof.
  destruct (departmentFeedbacks_of feedbacks dept) as [|f dfs] eqn:E.
  - rewrite department_stat_empty by exact E. reflexivity.
  - rewrite department_stat_nonempty by (rewrite E; discriminate).
    simpl. now rewrite E.
Qed.

(** ** StatsAggregator *)

(** C1: for a department of the fixed list that some feedback targets, the
    reported [averageRating] is the sum of all ratings of all questions of
    the feedbacks that target it divided by the number of those ratings
    (the quotient of rationals, which is 0 when there is no rating at all);
    when the partition is F1 = {5, 3} and F2 = {1} the average is 3. *)
Theorem overall_average_is_sum_over_ratings
    (feedbacks : list Feedback) (dept : string)
    (Hdept : In dept departments)
    (Htargeted : exists f, In f feedbacks /\ targetDepartment f = dept) :
  exists e,
    stat_for (departmentStats feedbacks) dept = Some e
    /\ averageRating e
       = spec_average (sum_ratings (partition_ratings feedbacks dept))
                      (List.length (partition_ratings feedbacks dept))
    /\ (averageRating e
        == inject_Z (sum_ratings (partition_ratings feedbacks dept))
           / inject_Z (Z.of_nat (List.length (partition_ratings feedbacks dept))))%Q
    /\ (forall f1 f2,
          departmentFeedbacks_of feedbacks dept = [f1; f2] ->
          map q_rating (questions f1) = [5; 3] ->
          map q_rating (questions f2) = [1] ->
          averageRating e = Qmake (5 + 3 + 1) 3 /\ (averageRating e == 3)%Q).
Proof.
  exists (department_stat feedbacks dept).
  split; [now apply stat_for_department|].
  rewrite department_stat_averageRating.
  split; [reflexivity|]. split; [apply spec_average_Qdiv|].
  intros f1 f2 Hpart H1 H2.
  unfold partition_ratings. rewrite Hpart. simpl flat_map.
  rewrite app_nil_r.
  assert (Hlen : List.length (questions f1 ++ questions f2) = 3%nat).
  { rewrite length_app, <- (length_map q_rating (questions f1)),
      <- (length_map q_rating (questions f2)), H1, H2. reflexivity. }
  assert (Hsum : sum_ratings (questions f1 ++ questions f2) = 5 + 3 + 1).
  { rewrite sum_ratings_app. unfold sum_ratings. rewrite H1, H2. reflexivity. }
  rewrite Hlen, Hsum. split; reflexivity.
Qed.

Lemma overall_average_is_sum_over_ratings_witness :
  exists e,
    stat_for (departmentStats sample_feedbacks) "HR" = Some e
    /\ averageRating e = Qmake 9 3.
Proof.
  assert (Hdept : In "HR" departments) by (simpl; tauto).
  assert (Htargeted : exists f, In f sample_feedbacks /\ targetDepartment f = "HR").
  { exists F1. split; [simpl; tauto|reflexivity]. }
  destruct (overall_average_is_sum_over_ratings sample_feedbacks "HR" Hdept Htargeted)
    as [e [He [_ [_ Hex]]]].
  exists e. split; [exact He|].
  apply (Hex F1 F2); reflexivity.
Defined.

(** C4: within the partition of a department the question-rating pairs are
    grouped by question identifier; each group reports the identifier, the
    text of its first pair, and the sum of its ratings divided by their
    number; the groups come in the order in which their identifiers are
    first met; the guarded division gives 0 for a count of 0. *)
Theorem questionStats_group_by_question
    (feedbacks : list Feedback) (dept : string)
    (Hdept : In dept departments) :
  exists e,
    stat_for (departmentStats feedbacks) dept = Some e
    /\ questionStats e = spec_questionStats (partition_ratings feedbacks dept)
    /\ map qs_questionId (questionStats e)
       = first_encounters (map q_id (partition_ratings feedbacks dept))
    /\ (forall s, In s (questionStats e) ->
          let group := group_of (qs_questionId s) (partition_ratings feedbacks dept) in
          group <> []
          /\ (qs_averageRating s
              == inject_Z (sum_ratings group) / inject_Z (Z.of_nat (List.length group)))%Q)
    /\ (forall total, guarded_quotient total 0 = 0%Q).
Proof.
  exists (department_stat feedbacks dept).
  split; [now apply stat_for_department|].
  rewrite department_stat_questionStats.
  split; [reflexivity|]. split; [|split; [|reflexivity]].
  - unfold spec_questionStats. rewrite map_map. apply map_id.
  - intros s Hs. unfold spec_questionStats in Hs.
    apply in_map_iff in Hs. destruct Hs as [k [<- Hk]]. simpl.
    split.
    + apply group_of_present. now apply first_encounters_In.
    + apply spec_average_Qdiv.
Qed.

Lemma questionStats_group_by_question_witness :
  exists e,
    stat_for (departmentStats sample_feedbacks) "HR" = Some e
    /\ questionStats e
       = [ {| qs_questionId := "q1"; qs_questionText := "Question q1";
              qs_averageRating := Qmake 6 2 |};
           {| qs_questionId := "q2"; qs_questionText := "Question q2";
              qs_averageRating := Qmake 3 1 |} ].
Proof.
  assert (Hdept : In "HR" departments) by (simpl; tauto).
  destruct (questionStats_group_by_question sample_feedbacks "HR" Hdept)
    as [e [He [Hq _]]].
  exists e. split; [exact He|]. rewrite Hq. reflexivity.
Defined.

(** C5: a department of the fixed list that no feedback targets is reported
    with [averageRating = 0], [totalFeedbacks = 0] and [questionStats = []]. *)
Theorem department_without_feedback
    (feedbacks : list Feedback) (dept : string)
    (Hdept : In dept departments)
    (Hnone : forall f, In f feedbacks -> targetDepartment f <> dept) :
  stat_for (departmentStats feedbacks) dept
  = Some {| department := dept; averageRating := 0%Q;
            totalFeedbacks := 0%nat; questionStats := [] |}.
Proof.
  rewrite stat_for_department by exact Hdept.
  f_equal. apply department_stat_empty. now apply departmentFeedbacks_of_none.
Qed.

Lemma department_without_feedback_witness :
  stat_for (departmentStats sample_feedbacks) "Safety"
  = Some {| department := "Safety"; averageRating := 0%Q;
            totalFeedbacks := 0%nat; questionStats := [] |}.
Proof.
  apply department_without_feedback.
  - simpl; tauto.
  - intros f Hf. simpl in Hf.
    destruct Hf as [<-|[<-|[<-|[]]]]; simpl; discriminate.
Defined.

Section RowsToStats.

Context `{JsonParse (list FeedbackQuestion)}.

Lemma departmentFeedbacks_of_rows (rows : list FeedbackRow) (dept : string) :
  departmentFeedbacks_of (map feedback_of_row rows) dept
  = map feedback_of_row
      (filter (fun row => String.eqb (FB_TARGET_DEPARTMENT row) dept) rows).
Proof.
  unfold departmentFeedbacks_of.
  induction rows as [|row rows IH]; [reflexivity|].
  simpl. destruct (String.eqb (FB_TARGET_DEPARTMENT row) dept); simpl; now rewrite IH.
Qed.

Lemma partition_ratings_without (before after : list Feedback) (f : Feedback)
    (dept : string) :
  questions f = [] ->
  partition_ratings (before ++ f :: after) dept
  = partition_ratings (before ++ after) dept.
Proof.
  intros Hq. unfold partition_ratings, departmentFeedbacks_of.
  rewrite !filter_app, !flat_map_app. f_equal.
  simpl. destruct (String.eqb (targetDepartment f) dept); [|reflexivity].
  simpl. now rewrite Hq.
Qed.

Lemma flat_map_no_questions (fs : list Feedback) :
  (forall f, In f fs -> questions f = []) -> flat_map questions fs = [].
Proof.
  induction fs as [|f fs IH]; intros Hall; [reflexivity|].
  simpl. rewrite (Hall f) by now left. apply IH.
  intros g Hg. apply Hall. now right.
Qed.

(** C10: [totalFeedbacks] of a department is the number of rows that
    target it, whatever their question data; when rows target it and none
    of them yields a question (empty list, missing or unparseable text),
    the entry still has [totalFeedbacks > 0], with [averageRating = 0] and
    [questionStats = []]. *)
Theorem totalFeedbacks_counts_records
    (rows : list FeedbackRow) (dept : string)
    (Hdept : In dept departments) :
  exists e,
    stat_for (r_departmentStats (feedbacks_response rows)) dept = Some e
    /\ totalFeedbacks e
       = List.length
           (filter (fun row => String.eqb (FB_TARGET_DEPARTMENT row) dept) rows)
    /\ ((exists row, In row rows /\ FB_TARGET_DEPARTMENT row = dept) ->
        (forall row, In row rows -> FB_TARGET_DEPARTMENT row = dept ->
                     parse_clob (FB_QUESTIONS row) = @nil FeedbackQuestion) ->
        (0 < totalFeedbacks e)%nat
        /\ averageRating e = 0%Q
        /\ questionStats e = []).
Proof.
  exists (department_stat (map feedback_of_row rows) dept).
  unfold feedbacks_response. cbn [r_departmentStats].
  split; [now apply stat_for_department|].
  rewrite department_stat_totalFeedbacks, departmentFeedbacks_of_rows, length_map.
  split; [reflexivity|].
  intros [row [Hin Htarget]] Hnoq.
  assert (Hpart : partition_ratings (map feedback_of_row rows) dept = []).
  { unfold partition_ratings. apply flat_map_no_questions.
    intros f Hf. rewrite departmentFeedbacks_of_rows in Hf.
    apply in_map_iff in Hf. destruct Hf as [r [<- Hr]].
    apply filter_In in Hr. destruct Hr as [Hr Ht].
    apply String.eqb_eq in Ht. simpl. now apply Hnoq. }
  rewrite department_stat_averageRating, department_stat_questionStats, Hpart.
  split; [|split; reflexivity].
  assert (Hrow : In row (filter (fun row => String.eqb (FB_TARGET_DEPARTMENT row) dept) rows)).
  { apply filter_In. split; [exact Hin|]. now apply String.eqb_eq. }
  destruct (filter _ rows); [destruct Hrow|simpl; lia].
Qed.

(** C8: a row whose question text does not parse is decoded as a feedback
    without questions; the aggregation still returns its entry for every
    department, and in every entry the average and the question
    statistics are those of the aggregation without that row; only the
    count of feedbacks of the row's own target sees it. *)
Theorem unparseable_questions_are_isolated
    (before after : list FeedbackRow) (bad : FeedbackRow) (text : string)
    (Hclob : FB_QUESTIONS bad = Some text)
    (Hsyntax : JSON_parse text = @None (list FeedbackQuestion)) :
  questions (feedback_of_row bad) = []
  /\ r_feedbacks (feedbacks_response (before ++ bad :: after))
     = map feedback_of_row before ++ feedback_of_row bad :: map feedback_of_row after
  /\ map department (r_departmentStats (feedbacks_response (before ++ bad :: after)))
     = departments
  /\ (forall dept, In dept departments ->
      exists e e',
        stat_for (r_departmentStats (feedbacks_response (before ++ bad :: after))) dept
        = Some e
        /\ stat_for (r_departmentStats (feedbacks_response (before ++ after))) dept
           = Some e'
        /\ averageRating e = averageRating e'
        /\ questionStats e = questionStats e'
        /\ totalFeedbacks e
           = (totalFeedbacks e'
              + if String.eqb (FB_TARGET_DEPARTMENT bad) dept then 1 else 0)%nat).
Proof.
  assert (Hbad : questions (feedback_of_row bad) = []).
  { simpl. unfold parse_clob. now rewrite Hclob, Hsyntax. }
  split; [exact Hbad|]. split; [|split].
  - simpl. now rewrite map_app.
  - unfold feedbacks_response. cbn [r_departmentStats].
    rewrite departmentStats_map, map_map.
    rewrite (map_ext _ (fun d => d)); [apply map_id|].
    intros d. apply department_stat_department.
  - intros dept Hdept. unfold feedbacks_response. cbn [r_departmentStats].
    exists (department_stat (map feedback_of_row (before ++ bad :: after)) dept).
    exists (department_stat (map feedback_of_row (before ++ after)) dept).
    split; [now apply stat_for_department|].
    split; [now apply stat_for_department|].
    rewrite !department_stat_averageRating, !department_stat_questionStats,
      !department_stat_totalFeedbacks.
    rewrite !map_app. simpl map.
    rewrite partition_ratings_without by exact Hbad.
    split; [reflexivity|]. split; [reflexivity|].
    unfold departmentFeedbacks_of. rewrite !filter_app, !length_app. simpl.
    destruct (String.eqb (FB_TARGET_DEPARTMENT bad) dept); simpl; lia.
Qed.

End RowsToStats.

Lemma totalFeedbacks_counts_records_witness :
  exists e,
    stat_for (r_departmentStats
                (feedbacks_response (H := sample_JSON_parse) [bad_row])) "HR" = Some e
    /\ totalFeedbacks e = 1%nat
    /\ averageRating e = 0%Q
    /\ questionStats e = [].
Proof.
  assert (Hdept : In "HR" departments) by (simpl; tauto).
  destruct (totalFeedbacks_counts_records (H := sample_JSON_parse) [bad_row] "HR" Hdept)
    as [e [He [Hn Hzero]]].
  exists e. split; [exact He|]. split; [exact Hn|].
  apply Hzero.
  - exists bad_row. split; [simpl; tauto|reflexivity].
  - intros row [<-|[]] _. reflexivity.
Defined.

Lemma unparseable_questions_are_isolated_witness :
  questions (feedback_of_row (H := sample_JSON_parse) bad_row) = []
  /\ exists e e',
       stat_for (r_departmentStats
                   (feedbacks_response (H := sample_JSON_parse) [good_row; bad_row])) "HR"
       = Some e
       /\ stat_for (r_departmentStats
                      (feedbacks_response (H := sample_JSON_parse) [good_row])) "HR"
          = Some e'
       /\ averageRating e = averageRating e'
       /\ questionStats e = questionStats e'
       /\ totalFeedbacks e = (totalFeedbacks e' + 1)%nat.
Proof.
  destruct (unparseable_questions_are_isolated (H := sample_JSON_parse)
              [good_row] [] bad_row "[{id:" eq_refl eq_refl)
    as [Hq [_ [_ Hall]]].
  split; [exact Hq|].
  apply (Hall "HR"). simpl; tauto.
Defined.

(** ** AvailabilityFilter *)

Lemma includes_In (xs : list string) (x : string) :
  includes xs x = true <-> In x xs.
Proof.
  unfold includes. rewrite existsb_exists. split.
  - intros [y [Hin Heq]]. apply String.eqb_eq in Heq. now subst y.
  - intros Hin. exists x. split; [exact Hin|apply String.eqb_refl].
Qed.

Lemma filter_filter {A : Type} (p q : A -> bool) (l : list A) :
  filter q (filter p l) = filter (fun x => p x && q x) l.
Proof.
  induction l as [|x l IH]; [reflexivity|].
  simpl. destruct (p x); simpl; [destruct (q x)|]; now rewrite IH.
Qed.

Lemma AvailabilityFilter_filter (periods : list FeedbackPeriod)
    (submitted : list string) (currentUser : User) :
  AvailabilityFilter periods submitted currentUser
  = filter (fun period =>
              negb (String.eqb (fp_department period) (u_department currentUser))
              && negb (includes submitted (fp_department period)))
           periods.
Proof.
  unfold AvailabilityFilter, availablePeriods, filteredPeriods. simpl.
  apply filter_filter.
Qed.

(** What the component lists after a successful fetch is the filter. *)
Lemma availablePeriods_after_fetch (currentUser : User) (data : AvailableData)
    (st : AvailableState) :
  u_id currentUser <> EmptyString ->
  availablePeriods (fetchAvailableFeedbacks (Some currentUser) (Some data) st)
  = AvailabilityFilter (d_feedbackPeriods data) (d_submittedDepartments data) currentUser.
Proof.
  intros Hid. unfold fetchAvailableFeedbacks.
  destruct (String.eqb_spec (u_id currentUser) EmptyString) as [E|_]; [contradiction|].
  reflexivity.
Qed.

(** C3: the periods listed are exactly those of the input whose department
    is neither the user's own nor among the submitted ones, in the order of
    the input; a period of the user's own department is never listed. *)
Theorem AvailabilityFilter_exact
    (periods : list FeedbackPeriod) (submitted : list string) (currentUser : User) :
  AvailabilityFilter periods submitted currentUser
  = filter (fun period =>
              negb (String.eqb (fp_department period) (u_department currentUser))
              && negb (includes submitted (fp_department period)))
           periods
  /\ (forall period,
        In period (AvailabilityFilter periods submitted currentUser)
        <-> In period periods
            /\ fp_department period <> u_department currentUser
            /\ ~ In (fp_department period) submitted)
  /\ (forall period,
        In period (AvailabilityFilter periods submitted currentUser) ->
        fp_department period <> u_department currentUser)
  /\ AvailabilityFilter
       [sample_period "FP00000001" "IT"; sample_period "FP00000002" "HR"]
       ["IT"] currentUser
     = filter (fun period =>
                 negb (String.eqb (fp_department period) (u_department currentUser)))
              [sample_period "FP00000002" "HR"].
Proof.
  assert (Hiff : forall period,
        In period (AvailabilityFilter periods submitted currentUser)
        <-> In period periods
            /\ fp_department period <> u_department currentUser
            /\ ~ In (fp_department period) submitted).
  { intros period. rewrite AvailabilityFilter_filter, filter_In.
    rewrite Bool.andb_true_iff, !Bool.negb_true_iff.
    rewrite <- !Bool.not_true_iff_false, includes_In, String.eqb_eq.
    tauto. }
  split; [apply AvailabilityFilter_filter|]. split; [exact Hiff|]. split.
  - intros period Hin. now apply Hiff in Hin.
  - rewrite AvailabilityFilter_filter. unfold includes, sample_period.
    cbn -[String.eqb].
    change (String.eqb "IT" "IT") with true.
    change (String.eqb "IT" "HR") with false.
    rewrite Bool.andb_false_r. cbn -[String.eqb]. rewrite Bool.andb_true_r.
    reflexivity.
Qed.

(** ** No hidden state *)

(** *** Cells of the store *)

Lemma read_lt (s : Store.t) (r : Store.ref) (o : Store.object) :
  Store.read s r = Some o -> (r < List.length s)%nat.
Proof.
  unfold Store.read. intros Hread. apply nth_error_Some. congruence.
Qed.

Lemma read_alloc_new (s : Store.t) (o : Store.object) :
  Store.read (s ++ [o]) (List.length s) = Some o.
Proof.
  unfold Store.read. rewrite nth_error_app2 by lia. now rewrite Nat.sub_diag.
Qed.

Lemma read_app_old (s added : Store.t) (r : Store.ref) (o : Store.object) :
  Store.read s r = Some o -> Store.read (s ++ added) r = Some o.
Proof.
  intros Hread. unfold Store.read. rewrite nth_error_app1 by now apply (read_lt s r o).
  exact Hread.
Qed.

Lemma write_length (s : Store.t) (r : Store.ref) (o : Store.object) :
  List.length (Store.write s r o) = List.length s.
Proof.
  revert r; induction s as [|x s IH]; intros [|r]; simpl; try reflexivity.
  now rewrite IH.
Qed.

Lemma read_write_same (s : Store.t) (r : Store.ref) (o : Store.object) :
  (r < List.length s)%nat -> Store.read (Store.write s r o) r = Some o.
Proof.
  revert r; induction s as [|x s IH]; intros [|r] Hlt; simpl in *; try lia.
  - reflexivity.
  - apply IH. lia.
Qed.

Lemma read_write_other (s : Store.t) (r r' : Store.ref) (o : Store.object) :
  r <> r' -> Store.read (Store.write s r o) r' = Store.read s r'.
Proof.
  revert r r'; induction s as [|x s IH]; intros [|r] [|r'] Hne; simpl;
    try reflexivity; try congruence.
  apply IH. congruence.
Qed.

Lemma firstn_write (base : nat) (s : Store.t) (r : Store.ref) (o : Store.object) :
  (base <= r)%nat -> firstn base (Store.write s r o) = firstn base s.
Proof.
  revert base r; induction s as [|x s IH]; intros [|base] [|r] Hle; simpl;
    try reflexivity; try lia.
  f_equal. apply IH. lia.
Qed.

Lemma firstn_alloc (base : nat) (s : Store.t) (o : Store.object) :
  (base <= List.length s)%nat -> firstn base (s ++ [o]) = firstn base s.
Proof.
  intros Hle. rewrite firstn_app.
  replace (base - List.length s)%nat with 0%nat by lia.
  simpl. apply app_nil_r.
Qed.

Lemma read_firstn (base : nat) (s : Store.t) (r : Store.ref) :
  (r < base)%nat -> Store.read (firstn base s) r = Store.read s r.
Proof.
  intros Hlt. unfold Store.read. rewrite nth_error_firstn.
  destruct (Nat.ltb_spec r base); [reflexivity|lia].
Qed.

(** A store that kept its first [base] cells reads them as before. *)
Lemma read_kept (base : nat) (s s' : Store.t) (r : Store.ref) (o : Store.object) :
  firstn base s' = firstn base s -> (base <= List.length s)%nat ->
  (r < base)%nat -> Store.read s r = Some o -> Store.read s' r = Some o.
Proof.
  intros Hkept Hbase Hlt Hread.
  rewrite <- (read_firstn base s') by exact Hlt.
  rewrite Hkept, read_firstn by exact Hlt. exact Hread.
Qed.

(** *** Runs *)

Lemma js_bind_run {A B : Type} (m : Js A) (k : A -> Js B) (s s' : Store.t) (a : A) :
  m s = Some (a, s') -> js_bind m k s = k a s'.
Proof. unfold js_bind. now intros ->. Qed.

Lemma read_feedback_run (s : Store.t) (r : Store.ref) (f : Feedback) :
  Store.read s r = Some (Store.FeedbackObject f) -> read_feedback r s = Some (f, s).
Proof. intros Hread. unfold read_feedback, js_bind, js_read. now rewrite Hread. Qed.

Lemma read_totals_run (s : Store.t) (r : Store.ref) (v : QuestionTotals) :
  Store.read s r = Some (Store.TotalsObject v) -> read_totals r s = Some (v, s).
Proof. intros Hread. unfold read_totals, js_bind, js_read. now rewrite Hread. Qed.

Lemma read_array_run (s : Store.t) (r : Store.ref) (elements : list Store.ref) :
  Store.read s r = Some (Store.ArrayObject elements) ->
  read_array r s = Some (elements, s).
Proof. intros Hread. unfold read_array, js_bind, js_read. now rewrite Hread. Qed.

Lemma read_period_run (s : Store.t) (r : Store.ref) (p : FeedbackPeriod) :
  Store.read s r = Some (Store.PeriodObject p) -> read_period r s = Some (p, s).
Proof. intros Hread. unfold read_period, js_bind, js_read. now rewrite Hread. Qed.

Lemma read_strings_run (s : Store.t) (r : Store.ref) (xs : list string) :
  Store.read s r = Some (Store.StringsObject xs) -> read_strings r s = Some (xs, s).
Proof. intros Hread. unfold read_strings, js_bind, js_read. now rewrite Hread. Qed.

(** *** The first pass *)

Lemma tracks_has (base : nat) (s : Store.t) (m : JsMap.t Store.ref)
    (mp : JsMap.t QuestionTotals) (k : string) :
  tracks base s m mp -> JsMap.has m k = JsMap.has mp k.
Proof.
  intros [Hall _]. induction Hall as [|[k1 r] [k2 v] m mp [Hk _] _ IH]; [reflexivity|].
  simpl in *. subst k2. now rewrite IH.
Qed.

Lemma Forall2_In_left {A B : Type} (R : A -> B -> Prop) (l : list A) (l' : list B)
    (x : A) :
  Forall2 R l l' -> In x l -> exists y, In y l' /\ R x y.
Proof.
  induction 1 as [|a b l l' Hab _ IH]; intros Hin; [destruct Hin|].
  destruct Hin as [<-|Hin].
  - exists b. split; [now left|exact Hab].
  - destruct (IH Hin) as [y [Hy Hxy]]. exists y. split; [now right|exact Hxy].
Qed.

Lemma tracks_snoc (base : nat) (s : Store.t) (m : JsMap.t Store.ref)
    (mp : JsMap.t QuestionTotals) (k : string) (v : QuestionTotals) :
  (base <= List.length s)%nat -> tracks base s m mp ->
  tracks base (s ++ [Store.TotalsObject v]) (m ++ [(k, List.length s)]) (mp ++ [(k, v)]).
Proof.
  intros Hbase [Hall Hnd]. split.
  - apply Forall2_app.
    + revert Hall. apply Forall2_impl. intros e ep (Hk & Hr & Hread).
      repeat split; try assumption. now apply read_app_old.
    + constructor; [|constructor]. cbn. repeat split; [exact Hbase|].
      apply read_alloc_new.
  - rewrite map_app. cbn. apply NoDup_snoc; [exact Hnd|].
    intros Hin. apply in_map_iff in Hin. destruct Hin as [[k' r] [Hr Hin]].
    cbn in Hr. subst r.
    destruct (Forall2_In_left _ _ _ _ Hall Hin) as (ep & _ & _ & _ & Hread).
    apply read_lt in Hread. cbn in Hread. lia.
Qed.

Lemma tracks_write (base : nat) (s : Store.t) (m : JsMap.t Store.ref)
    (mp : JsMap.t QuestionTotals) (k : string) (r : Store.ref) :
  tracks base s m mp -> map_get m k = Some r ->
  exists v,
    Store.read s r = Some (Store.TotalsObject v)
    /\ (base <= r)%nat
    /\ forall f,
         tracks base (Store.write s r (Store.TotalsObject (f v))) m
           (JsMap.mutate mp k f).
Proof.
  intros [Hall Hnd]. revert Hnd.
  induction Hall as [|[k1 r1] [k2 v1] m mp (Hk & Hr & Hread) Hall IH];
    intros Hnd Hget; [discriminate|].
  cbn in Hk, Hr, Hread. subst k2. cbn [map] in Hnd.
  inversion Hnd as [|? ? Hfresh Hnd']. subst.
  cbn [map_get] in Hget. cbn [JsMap.mutate].
  destruct (String.eqb k1 k) eqn:Hk1.
  - injection Hget as <-. exists v1. split; [exact Hread|]. split; [exact Hr|].
    intros f. split; [|exact Hnd].
    constructor.
    + cbn. repeat split; [exact Hr|].
      apply read_write_same. now apply (read_lt s r1 _ Hread).
    + clear IH. revert Hall Hfresh. clear.
      induction 1 as [|[k' r'] [k'' v'] m mp (Hk & Hr & Hread) Hall IH];
        intros Hfresh; constructor.
      * cbn in *. repeat split; try assumption.
        rewrite read_write_other; [exact Hread|]. intros E. apply Hfresh. now left.
      * apply IH. intros Hin. apply Hfresh. now right.
  - destruct (IH Hnd' Hget) as (v & Hv & Hbase & Hrest).
    exists v. split; [exact Hv|]. split; [exact Hbase|].
    intros f. destruct (Hrest f) as [Hall' _]. split; [|exact Hnd].
    constructor; [|exact Hall'].
    cbn. repeat split; [exact Hr|].
    rewrite read_write_other; [exact Hread|].
    intros E. subst r1. apply Hfresh.
    clear - Hget. induction m as [|[k' r'] m IHm]; [discriminate|].
    cbn in *. destruct (String.eqb k' k); [injection Hget as <-; now left|].
    right. now apply IHm.
Qed.

Lemma map_get_snoc_fresh {V : Type} (m : JsMap.t V) (k : string) (v : V) :
  JsMap.has m k = false -> map_get (m ++ [(k, v)]) k = Some v.
Proof.
  intros Hfresh. rewrite <- (JsMap_set_fresh m k v Hfresh).
  now apply map_get_set_fresh.
Qed.

Lemma map_get_has {V : Type} (m : JsMap.t V) (k : string) :
  JsMap.has m k = true -> exists v, map_get m k = Some v.
Proof.
  induction m as [|[k' v'] m IH]; simpl; [discriminate|].
  destruct (String.eqb k' k); [eauto|exact IH].
Qed.

(** One step of the first pass over the store does to the cells behind
    [questionMap] what the step by value does to the accumulators, and
    leaves the cells below [base] alone. *)
Lemma collect_question_in_tracks (base : nat) (s : Store.t)
    (m : JsMap.t Store.ref) (mp : JsMap.t QuestionTotals) (q : FeedbackQuestion) :
  (base <= List.length s)%nat -> tracks base s m mp ->
  exists m' s',
    collect_question_in m q s = Some (m', s')
    /\ tracks base s' m' (collect_question mp q)
    /\ firstn base s' = firstn base s
    /\ (List.length s <= List.length s')%nat.
Proof.
  intros Hbase Htracks. unfold collect_question_in, collect_question.
  rewrite <- (tracks_has base s m mp (q_id q) Htracks).
  destruct (JsMap.has m (q_id q)) eqn:Hhas; cbn [negb].
  - rewrite (js_bind_run _ _ s s m eq_refl).
    destruct (map_get_has m (q_id q) Hhas) as [r Hget]. rewrite Hget.
    destruct (tracks_write base s m mp (q_id q) r Htracks Hget)
      as (v & Hread & Hr & Hrest).
    rewrite (js_bind_run _ _ _ _ _ (read_totals_run _ _ _ Hread)).
    unfold js_bind, js_write, js_ret.
    eexists. eexists. split; [reflexivity|].
    split;
      [exact (Hrest (fun stats =>
                       {| questionId := questionId stats;
                          questionText := questionText stats;
                          totalRating := totalRating stats + q_rating q;
                          count := count stats + 1 |}))|].
    split; [now apply firstn_write|]. rewrite write_length. lia.
  - set (init := {| questionId := q_id q; questionText := q_text q;
                    totalRating := 0; count := 0 |}).
    rewrite (js_bind_run _ _ s (s ++ [Store.TotalsObject init])
               (JsMap.set m (q_id q) (List.length s)) eq_refl).
    rewrite (JsMap_set_fresh m _ _ Hhas).
    pose proof Hhas as Hhas'. rewrite (tracks_has base s m mp _ Htracks) in Hhas'.
    rewrite (JsMap_set_fresh mp _ _ Hhas').
    pose proof (tracks_snoc base s m mp (q_id q) init Hbase Htracks) as Hgrown.
    rewrite (map_get_snoc_fresh m _ _ Hhas).
    destruct (tracks_write base _ _ _ (q_id q) (List.length s) Hgrown
                (map_get_snoc_fresh m _ _ Hhas))
      as (v & Hread & Hr & Hrest).
    rewrite (js_bind_run _ _ _ _ _ (read_totals_run _ _ _ Hread)).
    unfold js_bind, js_write, js_ret.
    eexists. eexists. split; [reflexivity|].
    split;
      [exact (Hrest (fun stats =>
                       {| questionId := questionId stats;
                          questionText := questionText stats;
                          totalRating := totalRating stats + q_rating q;
                          count := count stats + 1 |}))|].
    split.
    + rewrite firstn_write by exact Hr. now apply firstn_alloc.
    + rewrite write_length, length_app. simpl. lia.
Qed.

Lemma collect_questions_of_feedback (base : nat) (qs : list FeedbackQuestion)
    (s : Store.t) (m : JsMap.t Store.ref) (mp : JsMap.t QuestionTotals) :
  (base <= List.length s)%nat -> tracks base s m mp ->
  exists m' s',
    js_fold collect_question_in qs m s = Some (m', s')
    /\ tracks base s' m' (fold_left collect_question qs mp)
    /\ firstn base s' = firstn base s
    /\ (List.length s <= List.length s')%nat.
Proof.
  revert s m mp. induction qs as [|q qs IH]; intros s m mp Hbase Htracks.
  - exists m, s. split; [reflexivity|]. split; [exact Htracks|]. split; [reflexivity|lia].
  - destruct (collect_question_in_tracks base s m mp q Hbase Htracks)
      as (m1 & s1 & Hstep & Htracks1 & Hkept1 & Hlen1).
    destruct (IH s1 m1 (collect_question mp q)) as (m2 & s2 & Hrest & Htracks2 & Hkept2 & Hlen2);
      [lia|exact Htracks1|].
    exists m2, s2. cbn [js_fold fold_left]. unfold js_bind. rewrite Hstep.
    split; [exact Hrest|]. split; [exact Htracks2|].
    split; [congruence|lia].
Qed.

(** The feedback objects behind the elements of [departmentFeedbacks], all
    below [base]. *)
Definition feedbacks_at (base : nat) (s : Store.t) (elements : list Store.ref)
    (fs : list Feedback) : Prop :=
  Forall2
    (fun r f => (r < base)%nat /\ Store.read s r = Some (Store.FeedbackObject f))
    elements fs.

Lemma feedbacks_at_kept (base : nat) (s s' : Store.t) (elements : list Store.ref)
    (fs : list Feedback) :
  firstn base s' = firstn base s -> (base <= List.length s)%nat ->
  feedbacks_at base s elements fs -> feedbacks_at base s' elements fs.
Proof.
  intros Hkept Hbase. apply Forall2_impl. intros r f [Hlt Hread].
  split; [exact Hlt|]. now apply (read_kept base s s').
Qed.

Lemma collect_questions_in_tracks (base : nat) (elements : list Store.ref)
    (fs : list Feedback) (s : Store.t) (m : JsMap.t Store.ref)
    (mp : JsMap.t QuestionTotals) :
  (base <= List.length s)%nat -> feedbacks_at base s elements fs ->
  tracks base s m mp ->
  exists m' s',
    js_fold
      (fun questionMap feedback =>
         js_bind (read_feedback feedback)
           (fun f => js_fold collect_question_in (questions f) questionMap))
      elements m s
    = Some (m', s')
    /\ tracks base s' m'
         (fold_left
            (fun questionMap feedback =>
               fold_left collect_question (questions feedback) questionMap)
            fs mp)
    /\ firstn base s' = firstn base s
    /\ (List.length s <= List.length s')%nat.
Proof.
  intros Hbase Hat. revert fs s m mp Hbase Hat.
  induction elements as [|r elements IH]; intros fs s m mp Hbase Hat Htracks;
    inversion Hat as [|? f ? fs' [Hlt Hread] Hrest]; subst.
  - exists m, s. split; [reflexivity|]. split; [exact Htracks|]. split; [reflexivity|lia].
  - destruct (collect_questions_of_feedback base (questions f) s m mp Hbase Htracks)
      as (m1 & s1 & Hstep & Htracks1 & Hkept1 & Hlen1).
    destruct (IH fs' s1 m1 (fold_left collect_question (questions f) mp))
      as (m2 & s2 & Hfold & Htracks2 & Hkept2 & Hlen2);
      [lia|now apply (feedbacks_at_kept base s s1)|exact Htracks1|].
    exists m2, s2. cbn [js_fold fold_left].
    assert (Hbody : js_bind (read_feedback r)
                      (fun f => js_fold collect_question_in (questions f) m) s
                    = Some (m1, s1)).
    { rewrite (js_bind_run _ _ _ _ _ (read_feedback_run _ _ _ Hread)). exact Hstep. }
    rewrite (js_bind_run _ _ _ _ _ Hbody).
    split; [exact Hfold|]. split; [exact Htracks2|].
    split; [congruence|lia].
Qed.

(** *** The passes that only read *)

Lemma push_question_stats_in_tracks (base : nat) (s : Store.t)
    (m : JsMap.t Store.ref) (mp : JsMap.t QuestionTotals) :
  tracks base s m mp ->
  push_question_stats_in m s = Some (push_question_stats mp, s).
Proof.
  intros [Hall _]. unfold push_question_stats_in, push_question_stats, JsMap.values.
  assert (Hfrom : forall acc,
    js_fold
      (fun questionStats stats =>
         js_bind (read_totals stats)
           (fun t => js_ret (questionStats ++ [question_stat_of t])))
      (map snd m) acc s
    = Some
        (fold_left
           (fun questionStats stats => questionStats ++ [question_stat_of stats])
           (map snd mp) acc,
         s)).
  { induction Hall as [|[k r] [k' v] m mp (_ & _ & Hread) _ IH]; intros acc;
      [reflexivity|].
    cbn [map snd js_fold fold_left]. cbn [snd] in Hread.
    rewrite (js_bind_run _ _ s s (acc ++ [question_stat_of v]));
      [apply IH|].
    now rewrite (js_bind_run _ _ _ _ _ (read_totals_run _ _ _ Hread)). }
  apply Hfrom.
Qed.

Lemma overall_totals_in_reads (base : nat) (s : Store.t)
    (elements : list Store.ref) (fs : list Feedback) (acc : Z * Z) :
  feedbacks_at base s elements fs ->
  js_fold
    (fun acc feedback =>
       js_bind (read_feedback feedback)
         (fun f =>
            js_ret
              (fold_left
                 (fun '(totalRating, totalQuestions) question =>
                    (totalRating + q_rating question, totalQuestions + 1))
                 (questions f) acc)))
    elements acc s
  = Some
      (fold_left
         (fun acc feedback =>
            fold_left
              (fun '(totalRating, totalQuestions) question =>
                 (totalRating + q_rating question, totalQuestions + 1))
              (questions feedback) acc)
         fs acc,
       s).
Proof.
  intros Hat. revert acc.
  induction Hat as [|r f elements fs [_ Hread] _ IH]; intros acc; [reflexivity|].
  cbn [js_fold fold_left].
  rewrite (js_bind_run _ _ s s
             (fold_left
                (fun '(totalRating, totalQuestions) question =>
                   (totalRating + q_rating question, totalQuestions + 1))
                (questions f) acc));
    [apply IH|].
  now rewrite (js_bind_run _ _ _ _ _ (read_feedback_run _ _ _ Hread)).
Qed.

(** *** [filter] *)

Lemma filter_fold (keep : Store.ref -> Js bool) (p : Store.object -> bool)
    (s : Store.t) (elements : list Store.ref) (values : list Store.object)
    (acc : list Store.ref) :
  Forall2 (fun r o => Store.read s r = Some o /\ keep r s = Some (p o, s))
          elements values ->
  exists kept,
    js_fold
      (fun kept element =>
         js_bind (keep element)
           (fun b => js_ret (if b then kept ++ [element] else kept)))
      elements acc s
    = Some (acc ++ kept, s)
    /\ Forall2 (fun r o => Store.read s r = Some o) kept (filter p values).
Proof.
  intros Hall. revert acc.
  induction Hall as [|r o elements values [Hread Hkeep] _ IH]; intros acc.
  - exists []. split; [now rewrite app_nil_r|constructor].
  - cbn [js_fold filter].
    rewrite (js_bind_run _ _ s s (if p o then acc ++ [r] else acc))
      by (now rewrite (js_bind_run _ _ _ _ _ Hkeep)).
    destruct (p o).
    + destruct (IH (acc ++ [r])) as (kept & Hfold & Hkept).
      exists (r :: kept). split; [now rewrite Hfold, <- app_assoc|].
      now constructor.
    + destruct (IH acc) as (kept & Hfold & Hkept).
      exists kept. now split.
Qed.

(** [filter] leaves every cell as it was and adds one, the new array, which
    holds the references of the elements kept. *)
Lemma array_filter_holds (keep : Store.ref -> Js bool) (p : Store.object -> bool)
    (s : Store.t) (array : Store.ref) (values : list Store.object) :
  holds s array values ->
  (forall r o, Store.read s r = Some o -> In o values -> keep r s = Some (p o, s)) ->
  exists kept,
    array_filter keep array s
    = Some (List.length s, s ++ [Store.ArrayObject kept])
    /\ Forall2 (fun r o => Store.read s r = Some o) kept (filter p values).
Proof.
  intros (elements & Harray & Hall) Hkeep.
  assert (Hall' : Forall2 (fun r o => Store.read s r = Some o
                                      /\ keep r s = Some (p o, s))
                          elements values).
  { clear Harray. induction Hall as [|r o elements values Hread Hall IH];
      constructor.
    - split; [exact Hread|]. apply Hkeep; [exact Hread|now left].
    - apply IH. intros r' o' Hr' Ho'. apply Hkeep; [exact Hr'|now right]. }
  destruct (filter_fold keep p s elements values [] Hall') as (kept & Hfold & Hkept).
  exists kept. split; [|exact Hkept].
  unfold array_filter.
  rewrite (js_bind_run _ _ _ _ _ (read_array_run _ _ _ Harray)).
  rewrite (js_bind_run _ _ _ _ _ Hfold). reflexivity.
Qed.

Lemma holds_app (s added : Store.t) (array : Store.ref) (values : list Store.object) :
  holds s array values -> holds (s ++ added) array values.
Proof.
  intros (elements & Harray & Hall). exists elements.
  split; [now apply read_app_old|].
  revert Hall. apply Forall2_impl. intros r o. apply read_app_old.
Qed.

Lemma holds_new (s : Store.t) (kept : list Store.ref) (values : list Store.object) :
  Forall2 (fun r o => Store.read s r = Some o) kept values ->
  holds (s ++ [Store.ArrayObject kept]) (List.length s) values.
Proof.
  intros Hall. exists kept. split; [apply read_alloc_new|].
  revert Hall. apply Forall2_impl. intros r o. apply read_app_old.
Qed.

Lemma Forall2_map_right {A B C : Type} (R : A -> C -> Prop) (g : B -> C)
    (l : list A) (l' : list B) :
  Forall2 R l (map g l') <-> Forall2 (fun a b => R a (g b)) l l'.
Proof.
  revert l'. induction l as [|a l IH]; intros [|b l']; simpl; split; intros Hall;
    try constructor; try inversion Hall; subst; try assumption; now apply IH.
Qed.

Lemma filter_feedback_objects (fs : list Feedback) (dept : string) :
  filter
    (fun o =>
       match o with
       | Store.FeedbackObject f => String.eqb (targetDepartment f) dept
       | _ => false
       end)
    (map Store.FeedbackObject fs)
  = map Store.FeedbackObject (departmentFeedbacks_of fs dept).
Proof.
  unfold departmentFeedbacks_of. induction fs as [|f fs IH]; [reflexivity|].
  simpl. destruct (String.eqb (targetDepartment f) dept); simpl; now rewrite IH.
Qed.

(** *** One department *)

(** The body of the loop over the departments computes the entry of the
    department and only adds cells to the store. *)
Lemma department_stat_in_run (s : Store.t) (feedbacks : Store.ref)
    (fs : list Feedback) (dept : string) :
  holds s feedbacks (map Store.FeedbackObject fs) ->
  exists added,
    department_stat_in feedbacks dept s
    = Some (department_stat fs dept, s ++ added).
Proof.
  intros Hholds. unfold department_stat_in.
  destruct (array_filter_holds
              (fun r => js_bind (read_feedback r)
                          (fun f => js_ret (String.eqb (targetDepartment f) dept)))
              (fun o =>
                 match o with
                 | Store.FeedbackObject f => String.eqb (targetDepartment f) dept
                 | _ => false
                 end)
              s feedbacks _ Hholds)
    as (kept & Hfilter & Hkept).
  { intros r o Hread Hin. apply in_map_iff in Hin. destruct Hin as [f [<- _]].
    now rewrite (js_bind_run _ _ _ _ _ (read_feedback_run _ _ _ Hread)). }
  rewrite filter_feedback_objects in Hkept.
  apply Forall2_map_right in Hkept.
  rewrite (js_bind_run _ _ _ _ _ Hfilter).
  set (s1 := s ++ [Store.ArrayObject kept]).
  rewrite (js_bind_run _ _ _ _ _
             (read_array_run s1 _ _ (read_alloc_new s (Store.ArrayObject kept)))).
  unfold department_stat.
  rewrite <- (Forall2_length Hkept).
  destruct (Nat.eqb (List.length kept) 0); [now exists [Store.ArrayObject kept]|].
  set (dfs := departmentFeedbacks_of fs dept) in *.
  assert (Hat : feedbacks_at (List.length s1) s1 kept dfs).
  { revert Hkept. apply Forall2_impl. intros r f Hread. split.
    - apply read_lt in Hread. unfold s1. rewrite length_app. simpl. lia.
    - now apply read_app_old. }
  assert (Hempty : tracks (List.length s1) s1 JsMap.empty JsMap.empty)
    by (split; constructor).
  destruct (collect_questions_in_tracks (List.length s1) kept dfs s1
              JsMap.empty JsMap.empty (le_n _) Hat Hempty)
    as (m & s2 & Hfirst & Htracks & Hsame & Hlen).
  unfold collect_questions_in. rewrite (js_bind_run _ _ _ _ _ Hfirst).
  rewrite (js_bind_run _ _ _ _ _
             (push_question_stats_in_tracks _ _ _ _ Htracks)).
  unfold overall_totals_in.
  rewrite (js_bind_run _ _ _ _ _
             (overall_totals_in_reads (List.length s1) s2 kept dfs (0, 0)
                (feedbacks_at_kept _ s1 s2 _ _ Hsame (le_n _) Hat))).
  exists ([Store.ArrayObject kept] ++ skipn (List.length s1) s2).
  unfold js_ret. do 2 f_equal.
  - fold (collect_questions dfs). fold (overall_totals dfs).
    now destruct (overall_totals dfs).
  - rewrite app_assoc. fold s1.
    rewrite <- (firstn_all s1) at 1. rewrite <- Hsame.
    symmetry. apply firstn_skipn.
Qed.

(** *** The aggregation *)

(** StatsAggregator over the store computes the [departmentStats] of the
    feedbacks behind the array and only adds cells to the store. *)
Lemma departmentStats_in_run (s : Store.t) (feedbacks : Store.ref)
    (fs : list Feedback) :
  holds s feedbacks (map Store.FeedbackObject fs) ->
  exists added,
    departmentStats_in feedbacks s = Some (departmentStats fs, s ++ added).
Proof.
  intros Hholds. unfold departmentStats_in, departmentStats.
  generalize departments. intros ds.
  assert (Hfrom : forall acc added0,
    exists added,
      js_fold
        (fun departmentStats dept =>
           js_bind (department_stat_in feedbacks dept)
             (fun e => js_ret (departmentStats ++ [e])))
        ds acc (s ++ added0)
      = Some
          (fold_left
             (fun departmentStats dept => departmentStats ++ [department_stat fs dept])
             ds acc,
           s ++ added)).
  { induction ds as [|d ds IH]; intros acc added0.
    - now exists added0.
    - destruct (department_stat_in_run (s ++ added0) feedbacks fs d
                  (holds_app _ _ _ _ Hholds)) as (added1 & Hrun).
      destruct (IH (acc ++ [department_stat fs d]) (added0 ++ added1))
        as (added & Hrest).
      exists added. cbn [js_fold fold_left].
      rewrite (js_bind_run _ _ (s ++ added0) ((s ++ added0) ++ added1)
                 (acc ++ [department_stat fs d]));
        [now rewrite <- app_assoc|].
      now rewrite (js_bind_run _ _ _ _ _ Hrun). }
  destruct (Hfrom [] []) as (added & Hrun).
  exists added. now rewrite app_nil_r in Hrun.
Qed.

(** *** The filter *)

Lemma filter_period_objects (p : FeedbackPeriod -> bool) (ps : list FeedbackPeriod) :
  filter
    (fun o =>
       match o with
       | Store.PeriodObject period => p period
       | _ => false
       end)
    (map Store.PeriodObject ps)
  = map Store.PeriodObject (filter p ps).
Proof.
  induction ps as [|period ps IH]; [reflexivity|].
  simpl. destruct (p period); simpl; now rewrite IH.
Qed.

(** AvailabilityFilter over the store returns a new array that holds the
    periods of the filter by value, and only adds cells to the store. *)
Lemma AvailabilityFilter_in_run (s : Store.t) (periods submitted : Store.ref)
    (currentUser : User) (ps : list FeedbackPeriod) (ds : list string) :
  holds s periods (map Store.PeriodObject ps) ->
  Store.read s submitted = Some (Store.StringsObject ds) ->
  exists available added,
    AvailabilityFilter_in periods submitted currentUser s
    = Some (available, s ++ added)
    /\ holds (s ++ added) available
         (map Store.PeriodObject (AvailabilityFilter ps ds currentUser)).
Proof.
  intros Hholds Hsubmitted. unfold AvailabilityFilter_in.
  destruct (array_filter_holds
              (fun r => js_bind (read_period r)
                          (fun period =>
                             js_ret (negb (String.eqb (fp_department period)
                                                      (u_department currentUser)))))
              (fun o =>
                 match o with
                 | Store.PeriodObject period =>
                     negb (String.eqb (fp_department period) (u_department currentUser))
                 | _ => false
                 end)
              s periods _ Hholds)
    as (kept1 & Hfilter1 & Hkept1).
  { intros r o Hread Hin. apply in_map_iff in Hin. destruct Hin as [period [<- _]].
    now rewrite (js_bind_run _ _ _ _ _ (read_period_run _ _ _ Hread)). }
  rewrite filter_period_objects in Hkept1.
  rewrite (js_bind_run _ _ _ _ _ Hfilter1).
  set (s1 := s ++ [Store.ArrayObject kept1]).
  pose proof (holds_new s kept1 _ Hkept1) as Hholds1. fold s1 in Hholds1.
  assert (Hsubmitted1 : Store.read s1 submitted = Some (Store.StringsObject ds))
    by (now apply read_app_old).
  destruct (array_filter_holds
              (fun r => js_bind (read_period r)
                          (fun period =>
                             js_bind (read_strings submitted)
                               (fun submittedDepartments =>
                                  js_ret (negb (includes submittedDepartments
                                                         (fp_department period))))))
              (fun o =>
                 match o with
                 | Store.PeriodObject period =>
                     negb (includes ds (fp_department period))
                 | _ => false
                 end)
              s1 (List.length s) _ Hholds1)
    as (kept2 & Hfilter2 & Hkept2).
  { intros r o Hread Hin. apply in_map_iff in Hin. destruct Hin as [period [<- _]].
    rewrite (js_bind_run _ _ _ _ _ (read_period_run _ _ _ Hread)).
    now rewrite (js_bind_run _ _ _ _ _ (read_strings_run _ _ _ Hsubmitted1)). }
  rewrite filter_period_objects in Hkept2.
  exists (List.length s1), ([Store.ArrayObject kept1] ++ [Store.ArrayObject kept2]).
  rewrite app_assoc. fold s1. split; [exact Hfilter2|].
  now apply holds_new.
Qed.

(** C9: StatsAggregator and AvailabilityFilter keep no state between runs
    and change none that they find.  Run over a store that holds the
    snapshot (the array of feedback objects; the arrays of periods and of
    submitted departments), each returns what the computation by value
    gives for the values of the snapshot and leaves a store that is the one
    it found with new cells behind it: no cell that existed is written.
    Run again on the same snapshot, in the store that the first run left,
    each returns the same output. *)
Theorem aggregation_and_filter_are_repeatable :
  (forall s feedbacks fs,
     holds s feedbacks (map Store.FeedbackObject fs) ->
     exists added1 added2,
       departmentStats_in feedbacks s
       = Some (departmentStats fs, s ++ added1)
       /\ departmentStats_in feedbacks (s ++ added1)
          = Some (departmentStats fs, (s ++ added1) ++ added2))
  /\ (forall s periods submitted currentUser ps ds,
        holds s periods (map Store.PeriodObject ps) ->
        Store.read s submitted = Some (Store.StringsObject ds) ->
        exists available1 added1 available2 added2,
          AvailabilityFilter_in periods submitted currentUser s
          = Some (available1, s ++ added1)
          /\ AvailabilityFilter_in periods submitted currentUser (s ++ added1)
             = Some (available2, (s ++ added1) ++ added2)
          /\ holds (s ++ added1) available1
               (map Store.PeriodObject (AvailabilityFilter ps ds currentUser))
          /\ holds ((s ++ added1) ++ added2) available2
               (map Store.PeriodObject (AvailabilityFilter ps ds currentUser))
          /\ holds ((s ++ added1) ++ added2) available1
               (map Store.PeriodObject (AvailabilityFilter ps ds currentUser))).
Proof.
  split.
  - intros s feedbacks fs Hholds.
    destruct (departmentStats_in_run s feedbacks fs Hholds) as (added1 & Hrun1).
    destruct (departmentStats_in_run (s ++ added1) feedbacks fs
                (holds_app _ _ _ _ Hholds)) as (added2 & Hrun2).
    now exists added1, added2.
  - intros s periods submitted currentUser ps ds Hholds Hsubmitted.
    destruct (AvailabilityFilter_in_run s periods submitted currentUser ps ds
                Hholds Hsubmitted) as (available1 & added1 & Hrun1 & Hout1).
    destruct (AvailabilityFilter_in_run (s ++ added1) periods submitted currentUser
                ps ds (holds_app _ _ _ _ Hholds) (read_app_old _ _ _ _ Hsubmitted))
      as (available2 & added2 & Hrun2 & Hout2).
    exists available1, added1, available2, added2.
    repeat split; try assumption. now apply holds_app.
Qed.

Lemma aggregation_and_filter_are_repeatable_witness :
  exists added1 added2,
    departmentStats_in 2%nat sample_store
    = Some (departmentStats [F1; F2], sample_store ++ added1)
    /\ departmentStats_in 2%nat (sample_store ++ added1)
       = Some (departmentStats [F1; F2], (sample_store ++ added1) ++ added2).
Proof.
  destruct aggregation_and_filter_are_repeatable as [Haggregation _].
  apply (Haggregation sample_store 2%nat [F1; F2]).
  exists [0%nat; 1%nat]. split; [reflexivity|].
  repeat constructor.
Defined.

(** ** Transactions *)

Lemma tx_bind_ok {A B : Type} (m : Tx A) (k : A -> Tx B) (db db2 : Db) (b : B) :
  tx_bind m k db = (inr b, db2) ->
  exists a db1, m db = (inr a, db1) /\ k a db1 = (inr b, db2).
Proof.
  unfold tx_bind. destruct (m db) as [[e|a] db1]; intros Hk; [discriminate|].
  now exists a, db1.
Qed.

Lemma tx_bind_run {A B : Type} (m : Tx A) (k : A -> Tx B) (db db1 : Db) (a : A) :
  m db = (inr a, db1) -> tx_bind m k db = k a db1.
Proof. unfold tx_bind. now intros ->. Qed.

Lemma not_null_ok (column : string) (size : option nat) (v : option string)
    (db db' : Db) (s : string) :
  not_null column size v db = (inr s, db') ->
  v = Some s /\ s <> EmptyString /\ db' = db
  /\ (forall d, not_null column size v d = (inr s, d)).
Proof.
  unfold not_null, tx_fail, tx_ret.
  destruct v as [[|c s']|]; [discriminate| |discriminate].
  destruct size as [n|].
  - destruct (Nat.leb _ n); [|discriminate].
    intros Heq. injection Heq as <- <-. repeat split; discriminate.
  - intros Heq. injection Heq as <- <-. repeat split; discriminate.
Qed.

Lemma not_null_number_ok (column : string) (v : option Z) (db db' : Db) (n : Z) :
  not_null_number column v db = (inr n, db') ->
  v = Some n /\ db' = db /\ (forall d, not_null_number column v d = (inr n, d)).
Proof.
  unfold not_null_number, tx_fail, tx_ret. destruct v as [z|]; [|discriminate].
  intros Heq. injection Heq as <- <-. now repeat split.
Qed.

Lemma references_ok (constraint v : string) (keys : Db -> list string)
    (db db' : Db) (u : unit) :
  references constraint v keys db = (inr u, db') ->
  db' = db /\ existsb (String.eqb v) (keys db) = true.
Proof.
  unfold references. destruct (existsb _ (keys db)); [|discriminate].
  intros Heq. injection Heq as <-. now split.
Qed.

Lemma references_run (constraint v : string) (keys : Db -> list string) (db : Db) :
  existsb (String.eqb v) (keys db) = true ->
  references constraint v keys db = (inr tt, db).
Proof. unfold references. now intros ->. Qed.

Ltac db_simpl :=
  cbn [db_users db_departments db_feedback_periods db_feedbacks
       db_feedback_questions db_feedback_seq db_feedback_question_seq] in *.

Ltac tx_step H a d Hstep :=
  apply tx_bind_ok in H; destruct H as (a & d & Hstep & H); cbv zeta in H.

Section SubmitProofs.

Context `{JsonStringify (list SubmittedQuestion)}.

(** A successful header insertion: what it stored, and that it succeeds
    again from any database with the same users and departments. *)
Lemma insert_feedback_ok (now : Z) (body : SubmitBody) (db db1 : Db) (id : string) :
  insert_feedback now body db = (inr id, db1) ->
  exists user target json,
    b_userId body = Some user
    /\ user <> EmptyString
    /\ b_targetDepartment body = Some target
    /\ db1 = with_feedback db (header_row now (db_feedback_seq db) body user target json)
    /\ id = FB_ID (header_row now (db_feedback_seq db) body user target json)
    /\ (forall now' db',
          db_users db' = db_users db ->
          db_departments db' = db_departments db ->
          insert_feedback now' body db'
          = (inr (FB_ID (header_row now' (db_feedback_seq db') body user target json)),
             with_feedback db'
               (header_row now' (db_feedback_seq db') body user target json))).
Proof.
  intros Hrun. unfold insert_feedback in Hrun.
  tx_step Hrun n d0 Hseq.
  unfold feedback_seq_NEXTVAL in Hseq. injection Hseq as <- <-.
  tx_step Hrun user d1 Huser. apply not_null_ok in Huser.
  destruct Huser as (Huser & Hnonempty & -> & Ruser).
  tx_step Hrun name d2 Hname. apply not_null_ok in Hname.
  destruct Hname as (Hname & _ & -> & Rname).
  tx_step Hrun email d3 Hemail. apply not_null_ok in Hemail.
  destruct Hemail as (Hemail & _ & -> & Remail).
  tx_step Hrun udept d4 Hudept. apply not_null_ok in Hudept.
  destruct Hudept as (Hudept & _ & -> & Rudept).
  tx_step Hrun target d5 Htarget. apply not_null_ok in Htarget.
  destruct Htarget as (Htarget & _ & -> & Rtarget).
  tx_step Hrun json d6 Hjson. apply not_null_ok in Hjson.
  destruct Hjson as (Hjson & _ & -> & Rjson).
  tx_step Hrun u1 d7 Hfk1. apply references_ok in Hfk1. destruct Hfk1 as (-> & Hfk1).
  tx_step Hrun u2 d8 Hfk2. apply references_ok in Hfk2. destruct Hfk2 as (-> & Hfk2).
  tx_step Hrun u3 d9 Hfk3. apply references_ok in Hfk3. destruct Hfk3 as (-> & Hfk3).
  tx_step Hrun u4 d10 Happend.
  unfold append_feedback in Happend. injection Happend as _ <-.
  unfold tx_ret in Hrun. injection Hrun as <- <-.
  exists user, target, json.
  split; [exact Huser|]. split; [exact Hnonempty|]. split; [exact Htarget|].
  split; [unfold with_feedback, header_row; db_simpl;
          now rewrite Hname, Hemail, Hudept|].
  split; [reflexivity|].
  intros now' db' Husers Hdepts.
  unfold insert_feedback.
  rewrite (tx_bind_run feedback_seq_NEXTVAL _ db' _ (db_feedback_seq db') eq_refl).
  cbv zeta.
  rewrite (tx_bind_run _ _ _ _ _ (Ruser _)).
  rewrite (tx_bind_run _ _ _ _ _ (Rname _)).
  rewrite (tx_bind_run _ _ _ _ _ (Remail _)).
  rewrite (tx_bind_run _ _ _ _ _ (Rudept _)).
  rewrite (tx_bind_run _ _ _ _ _ (Rtarget _)).
  rewrite (tx_bind_run _ _ _ _ _ (Rjson _)).
  rewrite (tx_bind_run _ _ _ _ tt)
    by (apply references_run; db_simpl; now rewrite Husers).
  rewrite (tx_bind_run _ _ _ _ tt)
    by (apply references_run; db_simpl; now rewrite Hdepts).
  rewrite (tx_bind_run _ _ _ _ tt)
    by (apply references_run; db_simpl; now rewrite Hdepts).
  unfold tx_bind, append_feedback, tx_ret, with_feedback, header_row. db_simpl.
  now rewrite Hname, Hemail, Hudept.
Qed.

Lemma insert_feedback_question_ok (now : Z) (fid : string)
    (q : SubmittedQuestion) (d d' : Db) (u : unit) :
  insert_feedback_question now fid q d = (inr u, d') ->
  exists text r,
    sq_text q = Some text
    /\ sq_rating q = Some r
    /\ d' = with_questions d [question_row now (db_feedback_question_seq d) fid text r q]
    /\ (forall now' fid' d2,
          existsb (String.eqb fid') (map FB_ID (db_feedbacks d2)) = true ->
          insert_feedback_question now' fid' q d2
          = (inr tt,
             with_questions d2
               [question_row now' (db_feedback_question_seq d2) fid' text r q])).
Proof.
  intros Hrun. unfold insert_feedback_question in Hrun.
  tx_step Hrun n d0 Hseq.
  unfold feedback_question_seq_NEXTVAL in Hseq. injection Hseq as <- <-.
  tx_step Hrun text d1 Htext. apply not_null_ok in Htext.
  destruct Htext as (Htext & _ & -> & Rtext).
  tx_step Hrun r d2 Hrating. apply not_null_number_ok in Hrating.
  destruct Hrating as (Hrating & -> & Rrating).
  tx_step Hrun u1 d3 Hfk. apply references_ok in Hfk. destruct Hfk as (-> & Hfk).
  unfold append_feedback_question in Hrun. injection Hrun as _ <-.
  exists text, r. split; [exact Htext|]. split; [exact Hrating|].
  split.
  - unfold with_questions, question_row. db_simpl. f_equal.
    cbn [List.length N.of_nat Pos.of_succ_nat]. lia.
  - intros now' fid' d2' Hpresent. unfold insert_feedback_question.
    rewrite (tx_bind_run feedback_question_seq_NEXTVAL _ d2' _
               (db_feedback_question_seq d2') eq_refl).
    cbv zeta.
    rewrite (tx_bind_run _ _ _ _ _ (Rtext _)).
    rewrite (tx_bind_run _ _ _ _ _ (Rrating _)).
    rewrite (tx_bind_run _ _ _ _ tt) by (apply references_run; db_simpl; exact Hpresent).
    unfold append_feedback_question, with_questions, question_row. db_simpl.
    do 2 f_equal. cbn [List.length N.of_nat Pos.of_succ_nat]. lia.
Qed.

Lemma with_questions_cons (d : Db) (row : FeedbackQuestionRow)
    (rows : list FeedbackQuestionRow) :
  with_questions (with_questions d [row]) rows = with_questions d (row :: rows).
Proof.
  unfold with_questions. db_simpl. f_equal.
  - now rewrite <- app_assoc.
  - cbn [List.length]. lia.
Qed.

(** A successful loop: the rows it appended carry the submitted ratings,
    and it succeeds again wherever the feedback identifier is present. *)
Lemma insert_questions_ok (now : Z) (fid : string)
    (qs : list SubmittedQuestion) (d d' : Db) (u : unit) :
  tx_for_each qs (insert_feedback_question now fid) d = (inr u, d') ->
  exists rows,
    d' = with_questions d rows
    /\ map (fun row => Some (FQ_RATING row)) rows = map sq_rating qs
    /\ (forall now' fid' d2,
          existsb (String.eqb fid') (map FB_ID (db_feedbacks d2)) = true ->
          exists rows',
            tx_for_each qs (insert_feedback_question now' fid') d2
            = (inr tt, with_questions d2 rows')
            /\ map FQ_RATING rows' = map FQ_RATING rows).
Proof.
  revert d d' u. induction qs as [|q qs IH]; intros d d' u Hrun.
  - simpl in Hrun. unfold tx_ret in Hrun. injection Hrun as _ <-.
    exists []. split; [|split; [reflexivity|]].
    + unfold with_questions. destruct d; db_simpl. f_equal.
      * now rewrite app_nil_r.
      * simpl; lia.
    + intros now' fid' d2 _. exists []. split; [|reflexivity].
      simpl. unfold tx_ret, with_questions. destruct d2; db_simpl. do 2 f_equal.
      * now rewrite app_nil_r.
      * simpl; lia.
  - simpl in Hrun. tx_step Hrun u1 d1 Hq.
    apply insert_feedback_question_ok in Hq.
    destruct Hq as (text & r & Htext & Hrating & -> & Rq).
    apply IH in Hrun. destruct Hrun as (rows & -> & Hratings & Rrows).
    exists (question_row now (db_feedback_question_seq d) fid text r q :: rows).
    split; [apply with_questions_cons|]. split.
    + simpl. now rewrite Hratings, Hrating.
    + intros now' fid' d2 Hpresent.
      destruct (Rrows now' fid'
                  (with_questions d2
                     [question_row now' (db_feedback_question_seq d2) fid' text r q]))
        as (rows' & Hrows' & Hsame); [exact Hpresent|].
      exists (question_row now' (db_feedback_question_seq d2) fid' text r q :: rows').
      split.
      * simpl. rewrite (tx_bind_run _ _ _ _ _ (Rq now' fid' d2 Hpresent)).
        rewrite Hrows'. now rewrite with_questions_cons.
      * simpl. now rewrite Hsame.
Qed.

Lemma feedback_id_present (db : Db) (row : FeedbackRow) :
  existsb (String.eqb (FB_ID row)) (map FB_ID (db_feedbacks (with_feedback db row)))
  = true.
Proof.
  unfold with_feedback. db_simpl. rewrite map_app, existsb_app. simpl.
  rewrite String.eqb_refl. now rewrite Bool.orb_true_r.
Qed.

(** An accepted submission: what it stored, and that the same body is
    accepted again by any database with the same users and departments. *)
Lemma post_feedbacks_ok (now : Z) (body : SubmitBody) (db db1 : Db)
    (id message : string) :
  post_feedbacks now body db = (SubmitOk id message, db1) ->
  exists user target json qs rows,
    b_userId body = Some user
    /\ user <> EmptyString
    /\ b_targetDepartment body = Some target
    /\ b_questions body = Some qs
    /\ db1 = with_questions
               (with_feedback db
                  (header_row now (db_feedback_seq db) body user target json))
               rows
    /\ map (fun row => Some (FQ_RATING row)) rows = map sq_rating qs
    /\ (forall now' db',
          db_users db' = db_users db ->
          db_departments db' = db_departments db ->
          exists rows',
            post_feedbacks now' body db'
            = (SubmitOk
                 (FB_ID (header_row now' (db_feedback_seq db') body user target json))
                 message,
               with_questions
                 (with_feedback db'
                    (header_row now' (db_feedback_seq db') body user target json))
                 rows')).
Proof.
  unfold post_feedbacks.
  destruct (submit_transaction now body db) as [[e|fid] d] eqn:Hrun; [discriminate|].
  intros Heq. injection Heq as <- <- <-.
  unfold submit_transaction in Hrun.
  tx_step Hrun fid0 d0 Hheader.
  apply insert_feedback_ok in Hheader.
  destruct Hheader as (user & target & json & Huser & Hnonempty & Htarget & -> & -> & Rheader).
  tx_step Hrun u d1 Hloop.
  destruct (b_questions body) as [qs|] eqn:Hqs; [|discriminate].
  apply insert_questions_ok in Hloop.
  destruct Hloop as (rows & -> & Hratings & Rloop).
  unfold tx_ret in Hrun. injection Hrun as <- <-.
  exists user, target, json, qs, rows.
  repeat (split; [assumption || reflexivity|]).
  intros now' db' Husers Hdepts.
  set (row' := header_row now' (db_feedback_seq db') body user target json).
  destruct (Rloop now' (FB_ID row') (with_feedback db' row')) as (rows' & Hrows' & _).
  { apply feedback_id_present. }
  exists rows'. unfold submit_transaction.
  rewrite (tx_bind_run _ _ _ _ _ (Rheader now' db' Husers Hdepts)).
  rewrite Hqs. fold row'.
  rewrite (tx_bind_run _ _ _ _ _ Hrows'). reflexivity.
Qed.

End SubmitProofs.

(** ** Submissions *)



Section PairRule.

Context `{JsonStringify (list SubmittedQuestion)} `{JsonParse (list Question)}.


End PairRule.


(** ** Ratings *)

Lemma parseInt_radio_value (r : string) :
  In r radio_values -> exists v, parseInt r = Some v /\ 1 <= v <= 5.
Proof.
  intros Hin. vm_compute in Hin.
  destruct Hin as [<-|[<-|[<-|[<-|[<-|[]]]]]].
  - exists 1. split; [reflexivity|lia].
  - exists 2. split; [reflexivity|lia].
  - exists 3. split; [reflexivity|lia].
  - exists 4. split; [reflexivity|lia].
  - exists 5. split; [reflexivity|lia].
Qed.

Lemma map_throwing_In {A B : Type} (f : A -> option B) (xs : list A) (ys : list B) :
  map_throwing f xs = Some ys ->
  forall y, In y ys -> exists x, In x xs /\ f x = Some y.
Proof.
  revert ys; induction xs as [|x xs IH]; intros ys Hmap y Hy; simpl in Hmap.
  - injection Hmap as <-. destruct Hy.
  - destruct (f x) as [y0|] eqn:Hfx; [|discriminate].
    destruct (map_throwing f xs) as [ys0|]; [|discriminate].
    injection Hmap as <-. destruct Hy as [<-|Hy].
    + exists x. split; [now left|exact Hfx].
    + destruct (IH ys0 eq_refl y Hy) as [x' [Hx' Hfx']].
      exists x'. split; [now right|exact Hfx'].
Qed.

Lemma onSubmit_questions (currentUser : option User)
    (feedbackPeriod : option FeedbackPeriod) (data : FormValues) (body : SubmitBody) :
  onSubmit currentUser feedbackPeriod data = Some body ->
  exists period qs,
    feedbackPeriod = Some period
    /\ b_questions body = Some qs
    /\ map_throwing (feedback_question_of data) (fp_questions period) = Some qs.
Proof.
  unfold onSubmit. destruct currentUser as [user|]; [|discriminate].
  destruct feedbackPeriod as [period|]; [|discriminate].
  destruct (map_throwing _ _) as [qs|] eqn:Hqs; [|discriminate].
  destruct (_ || _); [discriminate|].
  destruct (String.eqb _ _); [discriminate|].
  intros Heq. injection Heq as <-. now exists period, qs.
Qed.

(** A rating produced by the form from a radio value. *)
Lemma feedback_question_of_rating (data : FormValues) (question : Question)
    (sq : SubmittedQuestion) :
  (forall k formQuestion r,
     by_question data k = Some formQuestion ->
     rating formQuestion = Some r -> In r radio_values) ->
  feedback_question_of data question = Some sq ->
  exists v, sq_rating sq = Some v /\ 1 <= v <= 5.
Proof.
  intros Hradio. unfold feedback_question_of.
  destruct (by_question data (qn_id question)) as [formQuestion|] eqn:Hform; [|discriminate].
  destruct (rating formQuestion) as [r|] eqn:Hr; [|discriminate].
  destruct (parseInt_radio_value r (Hradio _ _ _ Hform Hr)) as [v [Hv Hrange]].
  destruct r as [|c r']; [discriminate|].
  intros Heq. injection Heq as <-. exists v. now split.
Qed.

Section Ratings.

Context `{JsonStringify (list SubmittedQuestion)}.

(** C7, as the code has it: an accepted submission stores, for each
    question of the body, one row that carries the rating of that question
    as it was received; when the body comes from [onSubmit] of the form and
    every selected rating is one of its radio values, each stored rating
    is an integer between 1 and 5. *)
Theorem ratings_stored_as_received
    (now : Z) (body : SubmitBody) (db db1 : Db) (id message : string)
    (Haccepted : post_feedbacks now body db = (SubmitOk id message, db1)) :
  exists qs rows,
    b_questions body = Some qs
    /\ db_feedback_questions db1 = db_feedback_questions db ++ rows
    /\ map (fun row => Some (FQ_RATING row)) rows = map sq_rating qs
    /\ (forall currentUser feedbackPeriod data,
          onSubmit currentUser feedbackPeriod data = Some body ->
          (forall k formQuestion r,
             by_question data k = Some formQuestion ->
             rating formQuestion = Some r -> In r radio_values) ->
          forall row, In row rows -> 1 <= FQ_RATING row <= 5).
Proof.
  apply post_feedbacks_ok in Haccepted.
  destruct Haccepted
    as (user & target & json & qs & rows & _ & _ & _ & Hqs & -> & Hratings & _).
  exists qs, rows. split; [exact Hqs|]. split; [reflexivity|].
  split; [exact Hratings|].
  intros currentUser feedbackPeriod data Hsubmit Hradio row Hrow.
  apply onSubmit_questions in Hsubmit.
  destruct Hsubmit as (period & qs' & _ & Hqs' & Hmap).
  rewrite Hqs in Hqs'. injection Hqs' as <-.
  assert (Hin : In (Some (FQ_RATING row)) (map sq_rating qs)).
  { rewrite <- Hratings. apply in_map_iff. now exists row. }
  apply in_map_iff in Hin. destruct Hin as (sq & Hsq & Hsqin).
  destruct (map_throwing_In _ _ _ Hmap sq Hsqin) as (question & _ & Hquestion).
  destruct (feedback_question_of_rating data question sq Hradio Hquestion)
    as (v & Hv & Hrange).
  rewrite Hv in Hsq. injection Hsq as <-. exact Hrange.
Qed.

End Ratings.

Lemma ratings_stored_as_received_witness :
  onSubmit (Some sample_user) (Some sample_form_period) sample_form_values
  = Some (sample_body_of_form)
  /\ exists rows,
       db_feedback_questions
         (snd (post_feedbacks (H := sample_JSON_stringify) 10 sample_body_of_form sample_db))
       = rows
       /\ map FQ_RATING rows = [4]
       /\ forall row, In row rows -> 1 <= FQ_RATING row <= 5.
Proof.
  split; [reflexivity|].
  assert (Haccepted :
    post_feedbacks (H := sample_JSON_stringify) 10 sample_body_of_form sample_db
    = (SubmitOk "FB00000001" "Feedback submitted successfully",
       snd (post_feedbacks (H := sample_JSON_stringify) 10 sample_body_of_form sample_db)))
    by reflexivity.
  destruct (ratings_stored_as_received (H := sample_JSON_stringify)
              10 sample_body_of_form sample_db _ _ _ Haccepted)
    as (qs & rows & Hqs & Hrows & Hratings & Hrange).
  exists rows. split; [exact Hrows|]. split.
  - injection Hqs as <-. simpl in Hratings.
    destruct rows as [|row [|row' rows]]; try discriminate Hratings.
    injection Hratings as Hrating. simpl. now rewrite Hrating.
  - apply (Hrange (Some sample_user) (Some sample_form_period) sample_form_values eq_refl).
    intros k formQuestion r Hk Hr. simpl in Hk.
    destruct (String.eqb k "q1"); [|discriminate].
    injection Hk as <-. injection Hr as <-. vm_compute. tauto.
Defined.

(** C7 as stated fails: the backend accepts a body whose rating is 7 and
    stores it. *)
Lemma rating_outside_range_is_accepted :
  fst (post_feedbacks (H := sample_JSON_stringify) 10 (sample_body 7) sample_db)
  = SubmitOk "FB00000001" "Feedback submitted successfully"
  /\ map FQ_RATING
       (db_feedback_questions
          (snd (post_feedbacks (H := sample_JSON_stringify) 10 (sample_body 7) sample_db)))
     = [7]
  /\ ~ (1 <= 7 <= 5).
Proof. split; [reflexivity|]. split; [reflexivity|lia]. Qed.

(** * Further properties *)

(** ** Counting feedbacks over the departments *)

Lemma stats_total_from (stats : list DepartmentStat) (n : nat) :
  fold_left (fun acc curr => (acc + totalFeedbacks curr)%nat) stats n
  = (n + list_sum (map totalFeedbacks stats))%nat.
Proof.
  revert n; induction stats as [|e stats IH]; intros n; simpl.
  - lia.
  - rewrite IH. lia.
Qed.

Lemma stats_total_sum (stats : list DepartmentStat) :
  stats_total stats = list_sum (map totalFeedbacks stats).
Proof. unfold stats_total. now rewrite stats_total_from. Qed.

Lemma list_sum_map_add {A : Type} (g h : A -> nat) (l : list A) :
  list_sum (map (fun d => (g d + h d)%nat) l)
  = (list_sum (map g l) + list_sum (map h l))%nat.
Proof. induction l as [|d l IH]; simpl; [reflexivity|rewrite IH; lia]. Qed.

Lemma sum_indicator (x : string) (l : list string) :
  NoDup l ->
  list_sum (map (fun d => if String.eqb x d then 1%nat else 0%nat) l)
  = if includes l x then 1%nat else 0%nat.
Proof.
  unfold includes. induction 1 as [|d l Hnotin Hnd IH]; [reflexivity|].
  simpl. rewrite IH. rewrite (String.eqb_sym x d).
  destruct (String.eqb_spec d x) as [->|Hne]; simpl; [|reflexivity].
  apply existsb_eqb_false in Hnotin. now rewrite Hnotin.
Qed.

Lemma count_targets (feedbacks : list Feedback) (l : list string) :
  NoDup l ->
  list_sum (map (fun d => List.length (departmentFeedbacks_of feedbacks d)) l)
  = List.length (filter (fun f => includes l (targetDepartment f)) feedbacks).
Proof.
  intros Hnd. induction feedbacks as [|f fs IH].
  - simpl. induction l as [|d l IHl]; [reflexivity|].
    simpl. apply IHl. now inversion Hnd.
  - rewrite (map_ext _
      (fun d => ((if String.eqb (targetDepartment f) d then 1 else 0)
                 + List.length (departmentFeedbacks_of fs d))%nat)).
    + rewrite list_sum_map_add, IH, sum_indicator by exact Hnd.
      simpl. destruct (includes l (targetDepartment f)); reflexivity.
    + intros d. unfold departmentFeedbacks_of. simpl.
      destruct (String.eqb (targetDepartment f) d); reflexivity.
Qed.

Lemma length_filter_le {A : Type} (p : A -> bool) (l : list A) :
  (List.length (filter p l) <= List.length l)%nat.
Proof. induction l as [|x l IH]; simpl; [lia|destruct (p x); simpl; lia]. Qed.

(** X1: the total the dashboard divides by, the sum of [totalFeedbacks] over
    the entries, is the number of feedbacks whose target department is in the
    fixed list; it never exceeds the [totalFeedbacks] of the response, and
    equals it when every feedback targets a listed department. *)
Theorem stats_total_counts_listed_targets (feedbacks : list Feedback) :
  stats_total (departmentStats feedbacks)
  = List.length (filter (fun f => includes departments (targetDepartment f)) feedbacks)
  /\ (stats_total (departmentStats feedbacks) <= List.length feedbacks)%nat
  /\ ((forall f, In f feedbacks -> In (targetDepartment f) departments) ->
      stats_total (departmentStats feedbacks) = List.length feedbacks).
Proof.
  assert (Hsum : stats_total (departmentStats feedbacks)
    = List.length (filter (fun f => includes departments (targetDepartment f)) feedbacks)).
  { rewrite stats_total_sum, departmentStats_map, map_map.
    rewrite (map_ext _ (fun d => List.length (departmentFeedbacks_of feedbacks d)))
      by (intros d; apply department_stat_totalFeedbacks).
    apply count_targets, departments_NoDup. }
  split; [exact Hsum|]. split.
  - rewrite Hsum. apply length_filter_le.
  - intros Hall. rewrite Hsum. f_equal.
    rewrite (filter_ext_in _ (fun _ => true)); [apply filter_true|].
    intros f Hf. apply includes_In. now apply Hall.
Qed.

(** ** Bounds on the averages *)

(** ** Sums within the safe integers *)

Lemma sum_abs_ratings_cons (q : FeedbackQuestion) (qs : list FeedbackQuestion) :
  sum_abs_ratings (q :: qs) = Z.abs (q_rating q) + sum_abs_ratings qs.
Proof. reflexivity. Qed.

Lemma sum_abs_ratings_app (qs qs' : list FeedbackQuestion) :
  sum_abs_ratings (qs ++ qs') = sum_abs_ratings qs + sum_abs_ratings qs'.
Proof.
  induction qs as [|q qs IH]; [reflexivity|].
  simpl app. rewrite !sum_abs_ratings_cons, IH. lia.
Qed.

Lemma sum_abs_ratings_nonneg (qs : list FeedbackQuestion) : 0 <= sum_abs_ratings qs.
Proof.
  induction qs as [|q qs IH]; [unfold sum_abs_ratings; simpl; lia|].
  rewrite sum_abs_ratings_cons. lia.
Qed.

Lemma sum_ratings_abs (qs : list FeedbackQuestion) :
  Z.abs (sum_ratings qs) <= sum_abs_ratings qs.
Proof.
  induction qs as [|q qs IH]; [unfold sum_ratings, sum_abs_ratings; simpl; lia|].
  rewrite sum_ratings_cons, sum_abs_ratings_cons. lia.
Qed.

Lemma sum_abs_ratings_filter (p : FeedbackQuestion -> bool) (qs : list FeedbackQuestion) :
  sum_abs_ratings (filter p qs) <= sum_abs_ratings qs.
Proof.
  induction qs as [|q qs IH]; simpl; [lia|].
  destruct (p q); rewrite ?sum_abs_ratings_cons; lia.
Qed.

Lemma sum_abs_ratings_Permutation (qs qs' : list FeedbackQuestion) :
  Permutation qs qs' -> sum_abs_ratings qs = sum_abs_ratings qs'.
Proof.
  induction 1 as [|x l l' Hperm IH|x y l|l l' l'' H1 IH1 H2 IH2].
  - reflexivity.
  - rewrite !sum_abs_ratings_cons. now rewrite IH.
  - rewrite !sum_abs_ratings_cons. lia.
  - congruence.
Qed.

Lemma exactly_summable_prefix (qs more : list FeedbackQuestion) :
  exactly_summable (qs ++ more) -> exactly_summable qs.
Proof.
  unfold exactly_summable. rewrite length_app, sum_abs_ratings_app.
  pose proof (sum_abs_ratings_nonneg more). lia.
Qed.

Lemma exactly_summable_Permutation (qs qs' : list FeedbackQuestion) :
  Permutation qs qs' -> exactly_summable qs -> exactly_summable qs'.
Proof.
  unfold exactly_summable. intros Hperm.
  now rewrite (Permutation_length Hperm), (sum_abs_ratings_Permutation _ _ Hperm).
Qed.

Lemma exact_add_safe (a b : Z) :
  Z.abs a + Z.abs b <= MAX_SAFE_INTEGER -> exact_add a b = Some (a + b).
Proof.
  intros Hsum. unfold exact_add, safe_integer.
  rewrite !(proj2 (Z.leb_le _ _)) by lia. reflexivity.
Qed.

Lemma map_get_keys {V : Type} (g : string -> V) (ks : list string) (k : string) :
  In k ks -> map_get (map (fun k' => (k', g k')) ks) k = Some (g k).
Proof.
  induction ks as [|k' ks IH]; intros Hin; [destruct Hin|].
  simpl. destruct (String.eqb_spec k' k) as [->|Hne]; [reflexivity|].
  destruct Hin as [E|Hin]; [contradiction|now apply IH].
Qed.

Lemma mutate_at_get {V : Type} (m : JsMap.t V) (k : string) (v : V) (f g : V -> V) :
  map_get m k = Some v -> f v = g v -> JsMap.mutate m k f = JsMap.mutate m k g.
Proof.
  induction m as [|[k' v'] m IH]; simpl; [discriminate|].
  destruct (String.eqb k' k).
  - intros Hget Hfg. injection Hget as ->. now rewrite Hfg.
  - intros Hget Hfg. now rewrite (IH Hget Hfg).
Qed.

Lemma group_of_length (k : string) (qs : list FeedbackQuestion) :
  (List.length (group_of k qs) <= List.length qs)%nat.
Proof.
  unfold group_of. induction qs as [|q qs IH]; simpl; [lia|].
  destruct (String.eqb (q_id q) k); simpl; lia.
Qed.

(** The accumulator that the first pass reads for [q], after the pairs
    [qs]: its sums are bounded by those over [qs]. *)
Lemma collect_question_reads (qs : list FeedbackQuestion) (q : FeedbackQuestion) :
  exists stats,
    map_get
      (if negb (JsMap.has (totals_map qs) (q_id q)) then
         JsMap.set (totals_map qs) (q_id q)
           {| questionId := q_id q; questionText := q_text q;
              totalRating := 0; count := 0 |}
       else totals_map qs)
      (q_id q)
    = Some stats
    /\ Z.abs (totalRating stats) <= sum_abs_ratings qs
    /\ 0 <= count stats <= Z.of_nat (List.length qs).
Proof.
  destruct (JsMap.has (totals_map qs) (q_id q)) eqn:Hhas; cbn [negb].
  - exists (totals_of qs (q_id q)). split; [|split].
    + unfold totals_map. apply (map_get_keys (totals_of qs)).
      unfold totals_map in Hhas. rewrite JsMap_has_keys in Hhas.
      apply existsb_exists in Hhas. destruct Hhas as [k [Hin Hk]].
      apply String.eqb_eq in Hk. now subst k.
    + cbn [totals_of totalRating].
      apply (Z.le_trans _ _ _ (sum_ratings_abs _)).
      apply sum_abs_ratings_filter.
    + cbn [totals_of count]. pose proof (group_of_length (q_id q) qs). lia.
  - eexists. split; [now apply map_get_set_fresh|].
    cbn [totalRating count]. pose proof (sum_abs_ratings_nonneg qs). lia.
Qed.

Lemma collect_question_exact_totals (qs : list FeedbackQuestion) (q : FeedbackQuestion) :
  exactly_summable (qs ++ [q]) ->
  collect_question_exact (totals_map qs) q = Some (totals_map (qs ++ [q])).
Proof.
  intros Hsum. rewrite <- collect_question_totals.
  unfold exactly_summable in Hsum.
  rewrite length_app, sum_abs_ratings_app, sum_abs_ratings_cons in Hsum.
  cbn [List.length] in Hsum. change (sum_abs_ratings []) with 0 in Hsum.
  unfold collect_question_exact, collect_question.
  destruct (collect_question_reads qs q) as (stats & Hget & Htotal & Hcount).
  rewrite Hget.
  rewrite (exact_add_safe (totalRating stats) (q_rating q)) by lia.
  rewrite (exact_add_safe (count stats) 1) by lia.
  f_equal. now apply (mutate_at_get _ _ stats).
Qed.

Lemma collect_from_exact (qs more : list FeedbackQuestion) :
  exactly_summable (qs ++ more) ->
  fold_left
    (fun questionMap q =>
       match questionMap with
       | Some m => collect_question_exact m q
       | None => None
       end)
    more (Some (totals_map qs))
  = Some (totals_map (qs ++ more)).
Proof.
  revert qs; induction more as [|q more IH]; intros qs Hsum; simpl.
  - now rewrite app_nil_r.
  - rewrite collect_question_exact_totals
      by (apply (exactly_summable_prefix _ more); now rewrite <- app_assoc).
    rewrite IH by (now rewrite <- app_assoc).
    now rewrite <- app_assoc.
Qed.

Lemma collect_questions_exact_from (dfs : list Feedback) (qs : list FeedbackQuestion) :
  exactly_summable (qs ++ flat_map questions dfs) ->
  fold_left
    (fun questionMap feedback =>
       fold_left
         (fun questionMap q =>
            match questionMap with
            | Some m => collect_question_exact m q
            | None => None
            end)
         (questions feedback) questionMap)
    dfs (Some (totals_map qs))
  = Some (totals_map (qs ++ flat_map questions dfs)).
Proof.
  revert qs; induction dfs as [|f dfs IH]; intros qs Hsum; simpl.
  - now rewrite app_nil_r.
  - simpl in Hsum. rewrite app_assoc in Hsum.
    rewrite collect_from_exact by (now apply exactly_summable_prefix in Hsum).
    rewrite IH by exact Hsum. now rewrite <- app_assoc.
Qed.

Lemma overall_exact_questions (qs : list FeedbackQuestion) (total n : Z) :
  0 <= n ->
  Z.abs total + n + Z.of_nat (List.length qs) + sum_abs_ratings qs
  <= MAX_SAFE_INTEGER ->
  fold_left
    (fun acc question =>
       match acc with
       | Some (totalRating, totalQuestions) =>
           match exact_add totalRating (q_rating question),
                 exact_add totalQuestions 1 with
           | Some total, Some n => Some (total, n)
           | _, _ => None
           end
       | None => None
       end)
    qs (Some (total, n))
  = Some (total + sum_ratings qs, n + Z.of_nat (List.length qs)).
Proof.
  revert total n; induction qs as [|q qs IH]; intros total n Hn Hsum.
  - simpl. do 2 f_equal; unfold sum_ratings; simpl; lia.
  - rewrite sum_abs_ratings_cons in Hsum. cbn [List.length] in Hsum.
    pose proof (sum_abs_ratings_nonneg qs) as Hpos.
    simpl fold_left.
    rewrite (exact_add_safe total (q_rating q)) by lia.
    rewrite (exact_add_safe n 1) by lia.
    rewrite IH by lia. rewrite sum_ratings_cons. cbn [List.length].
    do 2 f_equal; lia.
Qed.

Lemma overall_exact_from (dfs : list Feedback) (total n : Z) :
  0 <= n ->
  Z.abs total + n + Z.of_nat (List.length (flat_map questions dfs))
  + sum_abs_ratings (flat_map questions dfs)
  <= MAX_SAFE_INTEGER ->
  fold_left
    (fun acc feedback =>
       fold_left
         (fun acc question =>
            match acc with
            | Some (totalRating, totalQuestions) =>
                match exact_add totalRating (q_rating question),
                      exact_add totalQuestions 1 with
                | Some total, Some n => Some (total, n)
                | _, _ => None
                end
            | None => None
            end)
         (questions feedback) acc)
    dfs (Some (total, n))
  = Some (total + sum_ratings (flat_map questions dfs),
          n + Z.of_nat (List.length (flat_map questions dfs))).
Proof.
  revert total n; induction dfs as [|f dfs IH]; intros total n Hn Hsum.
  - simpl. do 2 f_equal; unfold sum_ratings; simpl; lia.
  - simpl flat_map in *. rewrite length_app, sum_abs_ratings_app in Hsum.
    pose proof (sum_abs_ratings_nonneg (questions f)) as Hf.
    pose proof (sum_abs_ratings_nonneg (flat_map questions dfs)) as Hrest.
    pose proof (sum_ratings_abs (questions f)) as Habs.
    simpl fold_left. rewrite overall_exact_questions by lia.
    rewrite IH by lia.
    rewrite sum_ratings_app, length_app. do 2 f_equal; lia.
Qed.

(** While the ratings are exactly summable, every [+=] and [++] of the two
    passes is exact: the checked loops end with the sums of the loops. *)
Lemma passes_are_exact (dfs : list Feedback) :
  exactly_summable (flat_map questions dfs) ->
  collect_questions_exact dfs = Some (collect_questions dfs)
  /\ overall_totals_exact dfs = Some (overall_totals dfs).
Proof.
  intros Hsum. split.
  - unfold collect_questions_exact. rewrite collect_questions_totals.
    exact (collect_questions_exact_from dfs [] Hsum).
  - unfold overall_totals_exact. rewrite overall_totals_spec.
    unfold exactly_summable in Hsum.
    rewrite overall_exact_from by (simpl; lia). reflexivity.
Qed.

Lemma sum_ratings_bounds (qs : list FeedbackQuestion) (lo hi : Z) :
  (forall q, In q qs -> lo <= q_rating q <= hi) ->
  lo * Z.of_nat (List.length qs) <= sum_ratings qs <= hi * Z.of_nat (List.length qs).
Proof.
  induction qs as [|q qs IH]; intros Hall.
  - unfold sum_ratings; simpl; lia.
  - rewrite sum_ratings_cons. simpl List.length.
    assert (Hq : lo <= q_rating q <= hi) by (apply Hall; now left).
    assert (Hrest : lo * Z.of_nat (List.length qs) <= sum_ratings qs
                    <= hi * Z.of_nat (List.length qs))
      by (apply IH; intros q' Hq'; apply Hall; now right).
    lia.
Qed.

Lemma spec_average_bounds (qs : list FeedbackQuestion) (lo hi : Z) :
  qs <> [] ->
  (forall q, In q qs -> lo <= q_rating q <= hi) ->
  (inject_Z lo <= spec_average (sum_ratings qs) (List.length qs) <= inject_Z hi)%Q.
Proof.
  intros Hne Hall. pose proof (sum_ratings_bounds qs lo hi Hall) as Hsum.
  destruct qs as [|q qs]; [congruence|].
  unfold spec_average. simpl List.length in *.
  assert (Hpos : Zpos (Pos.of_nat (S (List.length qs)))
                 = Z.of_nat (S (List.length qs))).
  { rewrite <- Pos.of_nat_succ. rewrite Zpos_P_of_succ_nat. lia. }
  unfold Qle, inject_Z. cbn [Qnum Qden]. rewrite Hpos. lia.
Qed.

Lemma partition_ratings_In (feedbacks : list Feedback) (dept : string)
    (q : FeedbackQuestion) :
  In q (partition_ratings feedbacks dept)
  <-> exists f, In f feedbacks /\ targetDepartment f = dept /\ In q (questions f).
Proof.
  unfold partition_ratings, departmentFeedbacks_of. rewrite in_flat_map. split.
  - intros [f [Hf Hq]]. apply filter_In in Hf. destruct Hf as [Hf Ht].
    apply String.eqb_eq in Ht. now exists f.
  - intros [f [Hf [Ht Hq]]]. exists f. split; [|exact Hq].
    apply filter_In. split; [exact Hf|]. now apply String.eqb_eq.
Qed.

(** *** Rounded quotients *)

Lemma rounded_between (round : Q -> Q) (a b : Z) (x : Q) :
  keeps_order round -> keeps_safe_integers round ->
  Z.abs a <= MAX_SAFE_INTEGER -> Z.abs b <= MAX_SAFE_INTEGER ->
  (inject_Z a <= x <= inject_Z b)%Q ->
  (inject_Z a <= round x <= inject_Z b)%Q.
Proof.
  intros Horder Hsafe Ha Hb [Hlo Hhi]. split.
  - rewrite <- (Hsafe a Ha). now apply Horder.
  - rewrite <- (Hsafe b Hb). now apply Horder.
Qed.

Lemma exactly_summable_safe (qs : list FeedbackQuestion) (q : FeedbackQuestion) :
  exactly_summable qs -> In q qs -> Z.abs (q_rating q) <= MAX_SAFE_INTEGER.
Proof.
  unfold exactly_summable. intros Hsum Hin.
  assert (Hle : Z.abs (q_rating q) <= sum_abs_ratings qs).
  { clear Hsum. induction qs as [|q' qs IH]; [destruct Hin|].
    rewrite sum_abs_ratings_cons. pose proof (sum_abs_ratings_nonneg qs).
    destruct Hin as [->|Hin]; [lia|]. specialize (IH Hin). lia. }
  lia.
Qed.

Lemma sample_round_keeps_order : keeps_order sample_round.
Proof.
  intros x y Hxy. unfold sample_round.
  assert (Hfloor : Qfloor (x * inject_Z 1024) <= Qfloor (y * inject_Z 1024)).
  { apply Qfloor_resp_le. apply Qmult_le_compat_r; [exact Hxy|]. discriminate. }
  unfold Qle. cbn [Qnum Qden]. lia.
Qed.

Lemma sample_round_keeps_safe_integers : keeps_safe_integers sample_round.
Proof.
  intros n _. unfold sample_round.
  rewrite <- inject_Z_mult, Qfloor_Z. unfold Qeq. cbn [Qnum Qden inject_Z]. lia.
Qed.

(** The rounded average of safe integers between [lo] and [hi] lies
    between [lo] and [hi]. *)
Lemma rounded_average_bounds (round : Q -> Q) (qs : list FeedbackQuestion) (lo hi : Z) :
  keeps_order round -> keeps_safe_integers round ->
  qs <> [] ->
  (forall q, In q qs -> Z.abs (q_rating q) <= MAX_SAFE_INTEGER) ->
  (forall q, In q qs -> lo <= q_rating q <= hi) ->
  (inject_Z lo <= round (spec_average (sum_ratings qs) (List.length qs))
   <= inject_Z hi)%Q.
Proof.
  intros Horder Hsafe Hne Hsafes Hall.
  set (a := Z.max lo (- MAX_SAFE_INTEGER)).
  set (b := Z.min hi MAX_SAFE_INTEGER).
  assert (Hin : forall q, In q qs -> a <= q_rating q <= b).
  { intros q Hq. specialize (Hsafes q Hq). specialize (Hall q Hq). unfold a, b. lia. }
  assert (Hab : Z.abs a <= MAX_SAFE_INTEGER /\ Z.abs b <= MAX_SAFE_INTEGER).
  { destruct qs as [|q qs']; [congruence|].
    specialize (Hin q (or_introl eq_refl)). specialize (Hsafes q (or_introl eq_refl)).
    unfold a, b in *. lia. }
  destruct (rounded_between round a b _ Horder Hsafe (proj1 Hab) (proj2 Hab)
              (spec_average_bounds qs a b Hne Hin)) as [Hlo Hhi].
  split.
  - apply (Qle_trans _ (inject_Z a)); [|exact Hlo]. rewrite <- Zle_Qle. unfold a. lia.
  - apply (Qle_trans _ (inject_Z b)); [exact Hhi|]. rewrite <- Zle_Qle. unfold b. lia.
Qed.

(** X2: for integer ratings that are exactly summable (their number and
    their absolute values sum to at most [MAX_SAFE_INTEGER]), every [+=]
    and [++] of the two passes over a department gives the exact sum; and
    when every rating given to the department lies between [lo] and [hi]
    and there is at least one, the department's average and the average of
    each of its questions lie between [lo] and [hi], as exact quotients
    and as the numbers that the quotients are rounded to. *)
Theorem averages_within_rating_bounds
    (feedbacks : list Feedback) (dept : string) (lo hi : Z)
    (Hdept : In dept departments)
    (Hsome : partition_ratings feedbacks dept <> [])
    (Hexact : exactly_summable (partition_ratings feedbacks dept))
    (Hrange : forall f q, In f feedbacks -> targetDepartment f = dept ->
                          In q (questions f) -> lo <= q_rating q <= hi) :
  collect_questions_exact (departmentFeedbacks_of feedbacks dept)
  = Some (collect_questions (departmentFeedbacks_of feedbacks dept))
  /\ overall_totals_exact (departmentFeedbacks_of feedbacks dept)
     = Some (overall_totals (departmentFeedbacks_of feedbacks dept))
  /\ exists e,
       stat_for (departmentStats feedbacks) dept = Some e
       /\ (inject_Z lo <= averageRating e <= inject_Z hi)%Q
       /\ (forall s, In s (questionStats e) ->
             (inject_Z lo <= qs_averageRating s <= inject_Z hi)%Q)
       /\ (forall round, keeps_order round -> keeps_safe_integers round ->
             (inject_Z lo <= round (averageRating e) <= inject_Z hi)%Q
             /\ forall s, In s (questionStats e) ->
                  (inject_Z lo <= round (qs_averageRating s) <= inject_Z hi)%Q).
Proof.
  destruct (passes_are_exact (departmentFeedbacks_of feedbacks dept) Hexact)
    as [Hfirst Hsecond].
  split; [exact Hfirst|]. split; [exact Hsecond|].
  assert (Hall : forall q, In q (partition_ratings feedbacks dept) ->
                           lo <= q_rating q <= hi).
  { intros q Hq. apply partition_ratings_In in Hq.
    destruct Hq as [f [Hf [Ht Hq]]]. now apply (Hrange f q). }
  exists (department_stat feedbacks dept).
  split; [now apply stat_for_department|].
  rewrite department_stat_averageRating, department_stat_questionStats.
  split; [now apply spec_average_bounds|]. split.
  - intros s Hs. unfold spec_questionStats in Hs.
    apply in_map_iff in Hs. destruct Hs as [k [<- Hk]]. simpl.
    apply spec_average_bounds.
    + apply group_of_present. now apply first_encounters_In.
    + intros q Hq. apply filter_In in Hq. now apply Hall.
  - intros round Horder Hsafe. split.
    + apply rounded_average_bounds; try assumption.
      intros q Hq. now apply (exactly_summable_safe _ q Hexact).
    + intros s Hs. unfold spec_questionStats in Hs.
      apply in_map_iff in Hs. destruct Hs as [k [<- Hk]]. simpl.
      apply rounded_average_bounds; try assumption.
      * apply group_of_present. now apply first_encounters_In.
      * intros q Hq. apply filter_In in Hq.
        now apply (exactly_summable_safe _ q Hexact).
      * intros q Hq. apply filter_In in Hq. now apply Hall.
Qed.

Lemma averages_within_rating_bounds_witness :
  exists e,
    stat_for (departmentStats sample_feedbacks) "HR" = Some e
    /\ (inject_Z 1 <= averageRating e <= inject_Z 5)%Q
    /\ (inject_Z 1 <= sample_round (averageRating e) <= inject_Z 5)%Q.
Proof.
  destruct (averages_within_rating_bounds sample_feedbacks "HR" 1 5)
    as (_ & _ & e & He & Hb & _ & Hrounded).
  - simpl; tauto.
  - discriminate.
  - unfold exactly_summable. vm_compute. discriminate.
  - intros f q Hf Ht Hq. simpl in Hf.
    destruct Hf as [<-|[<-|[<-|[]]]]; simpl in Hq;
      repeat (destruct Hq as [<-|Hq]; [simpl; lia|]); destruct Hq.
  - exists e. split; [exact He|]. split; [exact Hb|].
    apply (Hrounded sample_round);
      [exact sample_round_keeps_order|exact sample_round_keeps_safe_integers].
Defined.

(** ** Question identifiers *)

(** X3: the question statistics of a department name each question
    identifier at most once, and name exactly the identifiers that occur in
    the feedbacks targeting the department. *)
Theorem questionStats_identifiers
    (feedbacks : list Feedback) (dept : string)
    (Hdept : In dept departments) :
  exists e,
    stat_for (departmentStats feedbacks) dept = Some e
    /\ NoDup (map qs_questionId (questionStats e))
    /\ (forall k,
          In k (map qs_questionId (questionStats e))
          <-> exists f q, In f feedbacks /\ targetDepartment f = dept
                          /\ In q (questions f) /\ q_id q = k).
Proof.
  exists (department_stat feedbacks dept).
  split; [now apply stat_for_department|].
  rewrite department_stat_questionStats.
  assert (Hids : map qs_questionId (spec_questionStats (partition_ratings feedbacks dept))
                 = first_encounters (map q_id (partition_ratings feedbacks dept))).
  { unfold spec_questionStats. rewrite map_map. apply map_id. }
  rewrite Hids. split; [apply first_encounters_NoDup|].
  intros k. rewrite first_encounters_In, in_map_iff. split.
  - intros [q [Hk Hq]]. apply partition_ratings_In in Hq.
    destruct Hq as [f [Hf [Ht Hq]]]. now exists f, q.
  - intros [f [q [Hf [Ht [Hq Hk]]]]]. exists q. split; [exact Hk|].
    apply partition_ratings_In. now exists f.
Qed.

Lemma questionStats_identifiers_witness :
  exists e,
    stat_for (departmentStats sample_feedbacks) "HR" = Some e
    /\ NoDup (map qs_questionId (questionStats e)).
Proof.
  destruct (questionStats_identifiers sample_feedbacks "HR") as [e [He [Hnd _]]].
  - simpl; tauto.
  - now exists e.
Defined.

(** ** Sorting *)

Lemma insert_by_Permutation {A : Type} (before : A -> A -> bool) (x : A) (l : list A) :
  Permutation (insert_by before x l) (x :: l).
Proof.
  induction l as [|y l IH]; simpl; [reflexivity|].
  destruct (before x y); [reflexivity|].
  rewrite IH. apply perm_swap.
Qed.

Lemma order_by_Permutation {A : Type} (before : A -> A -> bool) (l : list A) :
  Permutation (order_by before l) l.
Proof.
  unfold order_by. induction l as [|x l IH]; simpl; [reflexivity|].
  rewrite insert_by_Permutation. now constructor.
Qed.

Lemma order_by_In {A : Type} (before : A -> A -> bool) (l : list A) (x : A) :
  In x (order_by before l) <-> In x l.
Proof.
  split; apply Permutation_in;
    [apply order_by_Permutation|symmetry; apply order_by_Permutation].
Qed.

Section Ordered.

Context {A : Type} (before : A -> A -> bool).
Hypothesis before_total : forall x y, before x y = true \/ before y x = true.
Hypothesis before_trans :
  forall x y z, before x y = true -> before y z = true -> before x z = true.

Lemma insert_by_sorted (x : A) (l : list A) :
  StronglySorted (fun a b => before a b = true) l ->
  StronglySorted (fun a b => before a b = true) (insert_by before x l).
Proof.
  induction 1 as [|y l Hsorted IH Hall]; simpl.
  - constructor; constructor.
  - destruct (before x y) eqn:Hxy.
    + constructor; [now constructor|].
      constructor; [exact Hxy|].
      apply Forall_forall. intros z Hz.
      apply (before_trans x y z Hxy).
      now apply (proj1 (Forall_forall _ _) Hall).
    + constructor; [exact IH|].
      apply Forall_forall. intros z Hz.
      apply (Permutation_in _ (insert_by_Permutation before x l)) in Hz.
      destruct Hz as [<-|Hz].
      * destruct (before_total x y) as [H|H]; [congruence|exact H].
      * now apply (proj1 (Forall_forall _ _) Hall).
Qed.

Lemma order_by_sorted (l : list A) :
  StronglySorted (fun a b => before a b = true) (order_by before l).
Proof.
  unfold order_by. induction l as [|x l IH]; simpl; [constructor|].
  now apply insert_by_sorted.
Qed.

End Ordered.

(** ** The order of the rows

    Figures that do not depend on the order in which the rows come. *)

Lemma Permutation_filter_own {A : Type} (p : A -> bool) (l l' : list A) :
  Permutation l l' -> Permutation (filter p l) (filter p l').
Proof.
  induction 1 as [|x l l' Hperm IH|x y l|l l' l'' H1 IH1 H2 IH2]; simpl.
  - constructor.
  - destruct (p x); [now constructor|exact IH].
  - destruct (p x), (p y); try reflexivity. apply perm_swap.
  - now transitivity (filter p l').
Qed.

Lemma Permutation_flat_map_own {A B : Type} (g : A -> list B) (l l' : list A) :
  Permutation l l' -> Permutation (flat_map g l) (flat_map g l').
Proof.
  induction 1 as [|x l l' Hperm IH|x y l|l l' l'' H1 IH1 H2 IH2]; simpl.
  - constructor.
  - now apply Permutation_app_head.
  - rewrite !app_assoc. apply Permutation_app_tail, Permutation_app_comm.
  - now transitivity (flat_map g l').
Qed.

Lemma sum_ratings_Permutation (qs qs' : list FeedbackQuestion) :
  Permutation qs qs' -> sum_ratings qs = sum_ratings qs'.
Proof.
  induction 1 as [|x l l' Hperm IH|x y l|l l' l'' H1 IH1 H2 IH2].
  - reflexivity.
  - rewrite !sum_ratings_cons. now rewrite IH.
  - rewrite !sum_ratings_cons. lia.
  - congruence.
Qed.

Lemma partition_ratings_Permutation (feedbacks feedbacks' : list Feedback) (dept : string) :
  Permutation feedbacks feedbacks' ->
  Permutation (partition_ratings feedbacks dept) (partition_ratings feedbacks' dept).
Proof.
  intros Hperm. unfold partition_ratings, departmentFeedbacks_of.
  now apply Permutation_flat_map_own, Permutation_filter_own.
Qed.

Lemma spec_average_Permutation (qs qs' : list FeedbackQuestion) :
  Permutation qs qs' ->
  spec_average (sum_ratings qs) (List.length qs)
  = spec_average (sum_ratings qs') (List.length qs').
Proof.
  intros Hperm. now rewrite (sum_ratings_Permutation _ _ Hperm), (Permutation_length Hperm).
Qed.

(** X4: for integer ratings that are exactly summable (their number and
    their absolute values sum to at most [MAX_SAFE_INTEGER]), the figures
    of a department do not depend on the order of the feedback rows: in
    either order every [+=] and [++] of the two passes gives the exact sum,
    the overall average and the number of feedbacks are the same, and every
    question keeps its average: the quotient of the same sum by the same
    count, and so the same number (its text, taken from the first row
    met, may differ). *)
Theorem figures_independent_of_row_order
    (feedbacks feedbacks' : list Feedback) (dept : string)
    (Hdept : In dept departments)
    (Hexact : exactly_summable (partition_ratings feedbacks dept))
    (Hperm : Permutation feedbacks feedbacks') :
  (overall_totals_exact (departmentFeedbacks_of feedbacks dept)
   = Some (overall_totals (departmentFeedbacks_of feedbacks dept))
   /\ overall_totals_exact (departmentFeedbacks_of feedbacks' dept)
      = Some (overall_totals (departmentFeedbacks_of feedbacks' dept))
   /\ collect_questions_exact (departmentFeedbacks_of feedbacks dept)
      = Some (collect_questions (departmentFeedbacks_of feedbacks dept))
   /\ collect_questions_exact (departmentFeedbacks_of feedbacks' dept)
      = Some (collect_questions (departmentFeedbacks_of feedbacks' dept)))
  /\ exists e e',
       stat_for (departmentStats feedbacks) dept = Some e
       /\ stat_for (departmentStats feedbacks') dept = Some e'
       /\ averageRating e = averageRating e'
       /\ totalFeedbacks e = totalFeedbacks e'
       /\ (forall s, In s (questionStats e) ->
             exists s', In s' (questionStats e')
                        /\ qs_questionId s' = qs_questionId s
                        /\ qs_averageRating s' = qs_averageRating s).
Proof.
  pose proof (partition_ratings_Permutation _ _ dept Hperm) as Hpart.
  pose proof (exactly_summable_Permutation _ _ Hpart Hexact) as Hexact'.
  destruct (passes_are_exact (departmentFeedbacks_of feedbacks dept) Hexact)
    as [Hfirst Hsecond].
  destruct (passes_are_exact (departmentFeedbacks_of feedbacks' dept) Hexact')
    as [Hfirst' Hsecond'].
  split; [now repeat split|].
  exists (department_stat feedbacks dept), (department_stat feedbacks' dept).
  split; [now apply stat_for_department|].
  split; [now apply stat_for_department|].
  rewrite !department_stat_averageRating, !department_stat_totalFeedbacks,
    !department_stat_questionStats.
  split; [now apply spec_average_Permutation|]. split.
  - apply Permutation_length. unfold departmentFeedbacks_of.
    now apply Permutation_filter_own.
  - intros s Hs. unfold spec_questionStats in Hs.
    apply in_map_iff in Hs. destruct Hs as [k [<- Hk]].
    eexists. split; [|split].
    + unfold spec_questionStats. apply in_map_iff. exists k. split; [reflexivity|].
      apply (proj2 (first_encounters_In _ _)).
      apply (proj1 (first_encounters_In _ _)) in Hk.
      revert Hk. apply Permutation_in. now apply Permutation_map.
    + reflexivity.
    + simpl. symmetry. apply spec_average_Permutation.
      unfold group_of. now apply Permutation_filter_own.
Qed.

Lemma figures_independent_of_row_order_witness :
  exists e e',
    stat_for (departmentStats [F1; F3; F2]) "HR" = Some e
    /\ stat_for (departmentStats [F2; F1; F3]) "HR" = Some e'
    /\ averageRating e = averageRating e'
    /\ totalFeedbacks e = totalFeedbacks e'.
Proof.
  destruct (figures_independent_of_row_order [F1; F3; F2] [F2; F1; F3] "HR")
    as (_ & e & e' & He & He' & Havg & Hn & _).
  - simpl; tauto.
  - unfold exactly_summable. vm_compute. discriminate.
  - apply Permutation_sym. apply (Permutation_cons_app [F1; F3] []). reflexivity.
  - now exists e, e'.
Defined.

(** ** The administrator's dashboard *)

Lemma find_department_Permutation (stats stats' : list DepartmentStat) (dept : string) :
  Permutation stats stats' ->
  NoDup (map department stats) ->
  selected_stats (Some dept) stats = selected_stats (Some dept) stats'.
Proof.
  unfold selected_stats.
  induction 1 as [|x l l' Hperm IH|x y l|l l' l'' H1 IH1 H2 IH2]; intros Hnd.
  - reflexivity.
  - simpl. destruct (String.eqb (department x) dept); [reflexivity|].
    apply IH. now inversion Hnd.
  - simpl.
    destruct (String.eqb_spec (department y) dept) as [Hy|_];
      destruct (String.eqb_spec (department x) dept) as [Hx|_]; try reflexivity.
    exfalso. simpl in Hnd. inversion Hnd as [|? ? Hnotin _]. apply Hnotin.
    left. congruence.
  - rewrite IH1 by exact Hnd. apply IH2.
    apply (Permutation_NoDup (Permutation_map department H1) Hnd).
Qed.

Lemma departmentStats_departments (feedbacks : list Feedback) :
  map department (departmentStats feedbacks) = departments.
Proof.
  rewrite departmentStats_map, map_map.
  rewrite (map_ext _ (fun d => d)); [apply map_id|].
  intros d; apply department_stat_department.
Qed.

(** X5: on the feedback tab, for a listed department, the statistics handed
    to the list are the entry of that department, whether or not the
    overview has already sorted the array in place, and its [totalFeedbacks]
    is the number of feedbacks that the list shows; with 'all' selected no
    statistics are handed over and every feedback is shown. *)
Theorem dashboard_selection_matches_list
    (feedbacks : list Feedback) (dept : string)
    (Hdept : In dept departments) :
  exists e,
    selected_stats (Some dept) (departmentStats feedbacks) = Some e
    /\ selected_stats (Some dept) (sort_by_totalFeedbacks (departmentStats feedbacks))
       = Some e
    /\ department e = dept
    /\ totalFeedbacks e = List.length (filteredFeedbacks (Some dept) feedbacks)
    /\ selected_stats None (departmentStats feedbacks) = None
    /\ filteredFeedbacks None feedbacks = feedbacks.
Proof.
  exists (department_stat feedbacks dept).
  assert (Hsel : selected_stats (Some dept) (departmentStats feedbacks)
                 = Some (department_stat feedbacks dept)).
  { apply (stat_for_department feedbacks dept Hdept). }
  split; [exact Hsel|]. split; [|split; [|split; [|split]]].
  - rewrite <- Hsel. symmetry. apply find_department_Permutation.
    + symmetry. apply order_by_Permutation.
    + rewrite departmentStats_departments. apply departments_NoDup.
  - apply department_stat_department.
  - apply department_stat_totalFeedbacks.
  - unfold selected_stats. generalize (departmentStats feedbacks).
    intros l. induction l as [|x l IH]; [reflexivity|exact IH].
  - reflexivity.
Qed.

Lemma dashboard_selection_matches_list_witness :
  exists e,
    selected_stats (Some "HR") (sort_by_totalFeedbacks (departmentStats sample_feedbacks))
    = Some e
    /\ totalFeedbacks e = 2%nat.
Proof.
  destruct (dashboard_selection_matches_list sample_feedbacks "HR")
    as [e [_ [He [_ [Hn _]]]]].
  - simpl; tauto.
  - exists e. split; [exact He|exact Hn].
Defined.

Lemma departmentFeedbacks_of_existsb (feedbacks : list Feedback) (dept : string) :
  (0 <? List.length (departmentFeedbacks_of feedbacks dept))%nat
  = existsb (fun f => String.eqb (targetDepartment f) dept) feedbacks.
Proof.
  unfold departmentFeedbacks_of. induction feedbacks as [|f fs IH]; [reflexivity|].
  simpl. destruct (String.eqb (targetDepartment f) dept); [reflexivity|exact IH].
Qed.

Lemma StronglySorted_impl_own {A : Type} (R R' : A -> A -> Prop) (l : list A) :
  (forall a b, R a b -> R' a b) -> StronglySorted R l -> StronglySorted R' l.
Proof.
  intros Himpl. induction 1 as [|x l Hsorted IH Hall]; constructor; [exact IH|].
  revert Hall. apply Forall_impl. intros b. apply Himpl.
Qed.

(** X6: the overview table lists every department of the fixed list exactly
    once, those with more feedbacks first; and the card "Departments with
    Feedback" counts the listed departments that some feedback targets. *)
Theorem dashboard_overview (feedbacks : list Feedback) :
  Permutation (map department (sort_by_totalFeedbacks (departmentStats feedbacks)))
              departments
  /\ StronglySorted (fun a b => (totalFeedbacks b <= totalFeedbacks a)%nat)
       (sort_by_totalFeedbacks (departmentStats feedbacks))
  /\ departments_with_feedback (departmentStats feedbacks)
     = List.length
         (filter (fun dept =>
                    existsb (fun f => String.eqb (targetDepartment f) dept) feedbacks)
                 departments).
Proof.
  split; [|split].
  - apply (Permutation_trans
             (Permutation_map department
                (order_by_Permutation _ (departmentStats feedbacks)))).
    now rewrite departmentStats_departments.
  - unfold sort_by_totalFeedbacks.
    eapply StronglySorted_impl_own; [|apply order_by_sorted].
    + intros a b Hab. now apply Nat.leb_le in Hab.
    + intros x y.
      destruct (Nat.leb_spec (totalFeedbacks y) (totalFeedbacks x)); [now left|].
      right. apply Nat.leb_le. lia.
    + intros x y z Hxy Hyz. apply Nat.leb_le in Hxy, Hyz. apply Nat.leb_le. lia.
  - unfold departments_with_feedback. rewrite departmentStats_map.
    induction departments as [|d l IH]; [reflexivity|].
    simpl. rewrite department_stat_totalFeedbacks, departmentFeedbacks_of_existsb.
    destruct (existsb _ feedbacks); simpl; now rewrite IH.
Qed.

Lemma stats_weighted_from (stats : list DepartmentStat) (acc : Q) :
  (fold_left
     (fun acc curr =>
        acc + averageRating curr * inject_Z (Z.of_nat (totalFeedbacks curr)))
     stats acc
   == acc + stats_weighted stats)%Q.
Proof.
  unfold stats_weighted. revert acc.
  induction stats as [|e stats IH]; intros acc; simpl.
  - ring.
  - rewrite IH. rewrite (IH (0 + _)%Q). ring.
Qed.

Lemma stats_weighted_bounds (stats : list DepartmentStat) (hi : Q) :
  (forall e, In e stats -> 0 <= averageRating e <= hi)%Q ->
  (0 <= stats_weighted stats
   /\ stats_weighted stats <= hi * inject_Z (Z.of_nat (stats_total stats)))%Q.
Proof.
  induction stats as [|e stats IH]; intros Hall.
  - unfold stats_weighted, stats_total. simpl. split; [apply Qle_refl|].
    rewrite Qmult_0_r. apply Qle_refl.
  - assert (He : (0 <= averageRating e <= hi)%Q) by (apply Hall; now left).
    assert (Hrest : (0 <= stats_weighted stats
                     /\ stats_weighted stats
                        <= hi * inject_Z (Z.of_nat (stats_total stats)))%Q).
    { apply IH. intros e' He'. apply Hall. now right. }
    assert (Hn : (0 <= inject_Z (Z.of_nat (totalFeedbacks e)))%Q).
    { change 0%Q with (inject_Z 0). rewrite <- Zle_Qle. lia. }
    assert (Hw : (stats_weighted (e :: stats)
                  == averageRating e * inject_Z (Z.of_nat (totalFeedbacks e))
                     + stats_weighted stats)%Q).
    { unfold stats_weighted at 1. simpl. rewrite stats_weighted_from. ring. }
    assert (Ht : (inject_Z (Z.of_nat (stats_total (e :: stats)))
                  == inject_Z (Z.of_nat (totalFeedbacks e))
                     + inject_Z (Z.of_nat (stats_total stats)))%Q).
    { rewrite !stats_total_sum. simpl. rewrite Nat2Z.inj_add, inject_Z_plus.
      apply Qeq_refl. }
    rewrite Hw, Ht.
    generalize dependent (inject_Z (Z.of_nat (totalFeedbacks e))).
    generalize dependent (inject_Z (Z.of_nat (stats_total stats))).
    generalize dependent (stats_weighted stats).
    generalize dependent (averageRating e).
    intros a Ha w t Hrest n Hn. split; nra.
Qed.

Lemma exactly_summable_partition (feedbacks : list Feedback) (dept : string) :
  exactly_summable (flat_map questions feedbacks) ->
  exactly_summable (partition_ratings feedbacks dept).
Proof.
  assert (Hle : (List.length (partition_ratings feedbacks dept)
                 <= List.length (flat_map questions feedbacks))%nat
                /\ sum_abs_ratings (partition_ratings feedbacks dept)
                   <= sum_abs_ratings (flat_map questions feedbacks)).
  { unfold partition_ratings, departmentFeedbacks_of.
    induction feedbacks as [|f fs IH]; [simpl; lia|].
    simpl. rewrite length_app, sum_abs_ratings_app.
    pose proof (sum_abs_ratings_nonneg (questions f)).
    destruct (String.eqb (targetDepartment f) dept); simpl.
    - rewrite length_app, sum_abs_ratings_app. lia.
    - lia. }
  unfold exactly_summable. lia.
Qed.



Lemma stats_total_firstn (stats : list DepartmentStat) (k : nat) :
  (stats_total (firstn k stats) <= stats_total stats)%nat.
Proof.
  rewrite !stats_total_sum. revert k.
  induction stats as [|e stats IH]; intros [|k]; simpl; try lia.
  specialize (IH k). lia.
Qed.

Lemma stats_total_counts_at_most (feedbacks : list Feedback) :
  (stats_total (departmentStats feedbacks) <= List.length feedbacks)%nat.
Proof.
  rewrite stats_total_sum, departmentStats_map, map_map.
  rewrite (map_ext _ (fun d => List.length (departmentFeedbacks_of feedbacks d)))
    by (intros d; apply department_stat_totalFeedbacks).
  rewrite count_targets by apply departments_NoDup.
  apply length_filter_le.
Qed.

(** The weighted sum on numbers stays between 0 and [hi] times the number
    of feedbacks counted so far, which is a safe integer. *)
Lemma stats_weighted_rounded_bounds (round : Q -> Q) (hi : Z)
    (stats : list DepartmentStat) :
  keeps_order round -> keeps_safe_integers round -> 0 <= hi ->
  hi * Z.of_nat (list_sum (map totalFeedbacks stats)) <= MAX_SAFE_INTEGER ->
  (forall e, In e stats -> (0 <= round (averageRating e) <= inject_Z hi)%Q) ->
  (inject_Z 0 <= stats_weighted_rounded round stats
   <= inject_Z (hi * Z.of_nat (list_sum (map totalFeedbacks stats))))%Q.
Proof.
  intros Horder Hsafe Hhi Hmax Hall. unfold stats_weighted_rounded.
  assert (Hfrom : forall (acc : Q) (counted : nat),
    hi * Z.of_nat (counted + list_sum (map totalFeedbacks stats)) <= MAX_SAFE_INTEGER ->
    (inject_Z 0 <= acc <= inject_Z (hi * Z.of_nat counted))%Q ->
    (inject_Z 0
     <= fold_left
          (fun acc curr =>
             round (acc + round (round (averageRating curr)
                                 * inject_Z (Z.of_nat (totalFeedbacks curr))))%Q)
          stats acc
     <= inject_Z (hi * Z.of_nat (counted + list_sum (map totalFeedbacks stats))))%Q).
  { clear Hmax. induction stats as [|e stats IH]; intros acc counted Hmax Hacc.
    - simpl. now rewrite Nat.add_0_r.
    - cbn [fold_left map] in *.
      change (list_sum (totalFeedbacks e :: map totalFeedbacks stats))
        with (totalFeedbacks e + list_sum (map totalFeedbacks stats))%nat in *.
      replace (counted + (totalFeedbacks e + list_sum (map totalFeedbacks stats)))%nat
        with ((counted + totalFeedbacks e) + list_sum (map totalFeedbacks stats))%nat
        in * by lia.
      apply IH; [intros e' He'; apply Hall; now right|exact Hmax|].
      destruct (Hall e (or_introl eq_refl)) as [Hlo Hup].
      set (n := totalFeedbacks e) in *.
      assert (Hn : (0 <= inject_Z (Z.of_nat n))%Q)
        by (change 0%Q with (inject_Z 0); rewrite <- Zle_Qle; lia).
      assert (Hproduct :
        (inject_Z 0
         <= round (round (averageRating e) * inject_Z (Z.of_nat n))
         <= inject_Z (hi * Z.of_nat n))%Q).
      { apply rounded_between; try assumption; [simpl; unfold MAX_SAFE_INTEGER; lia|nia|].
        rewrite inject_Z_mult. change (inject_Z 0) with 0%Q. split; nra. }
      apply rounded_between; try assumption; [simpl; unfold MAX_SAFE_INTEGER; lia|nia|].
      destruct Hacc as [Hacc0 Hacc1]. destruct Hproduct as [Hp0 Hp1].
      rewrite Nat2Z.inj_add, Z.mul_add_distr_l, inject_Z_plus.
      change (inject_Z 0) with 0%Q in *. split; lra. }
  apply (Hfrom 0%Q 0%nat); [exact Hmax|].
  rewrite Z.mul_0_r. split; apply Qle_refl.
Qed.

(** X7: for integer ratings between 0 and [hi] that are exactly summable,
    with [hi] times the number of feedbacks at most [MAX_SAFE_INTEGER],
    every [+=] and [++] of the two passes gives the exact sum for every
    department, every partial sum of the dashboard's weighted sum lies
    between 0 and [MAX_SAFE_INTEGER], and the figure "Average Rating
    Overall", the department averages weighted by their numbers of
    feedbacks, lies between 0 and [hi], as the exact quotient and as the
    number computed with every quotient, product and sum rounded; the
    guard [Math.max(1, _)] makes it 0 when no feedback targets a listed
    department. *)
Theorem dashboard_overall_average_bounds
    (feedbacks : list Feedback) (hi : Z)
    (Hhi : 0 <= hi)
    (Hexact : exactly_summable (flat_map questions feedbacks))
    (Hweights : hi * Z.of_nat (List.length feedbacks) <= MAX_SAFE_INTEGER)
    (Hrange : forall f q, In f feedbacks -> In q (questions f) ->
                          0 <= q_rating q <= hi) :
  (forall dept,
     collect_questions_exact (departmentFeedbacks_of feedbacks dept)
     = Some (collect_questions (departmentFeedbacks_of feedbacks dept))
     /\ overall_totals_exact (departmentFeedbacks_of feedbacks dept)
        = Some (overall_totals (departmentFeedbacks_of feedbacks dept)))
  /\ (forall k,
        (0 <= stats_weighted (firstn k (departmentStats feedbacks))
         <= inject_Z MAX_SAFE_INTEGER)%Q)
  /\ (0 <= average_rating_overall (departmentStats feedbacks) <= inject_Z hi)%Q
  /\ (stats_total (departmentStats feedbacks) = 0%nat ->
      (average_rating_overall (departmentStats feedbacks) == 0)%Q)
  /\ (forall round, keeps_order round -> keeps_safe_integers round ->
        (0 <= average_rating_overall_rounded round (departmentStats feedbacks)
         <= inject_Z hi)%Q).
Proof.
  split.
  { intros dept. apply passes_are_exact.
    now apply (exactly_summable_partition feedbacks dept). }
  assert (Hrounded : forall round, keeps_order round -> keeps_safe_integers round ->
    (0 <= average_rating_overall_rounded round (departmentStats feedbacks)
     <= inject_Z hi)%Q).
  { intros round Horder Hsafe.
    assert (Hzero : (round 0 == 0)%Q)
      by (apply (Hsafe 0); simpl; unfold MAX_SAFE_INTEGER; lia).
    assert (Heach : forall e, In e (departmentStats feedbacks) ->
                              (0 <= round (averageRating e) <= inject_Z hi)%Q).
    { intros e He. rewrite departmentStats_map in He.
      apply in_map_iff in He. destruct He as [d [<- _]].
      rewrite department_stat_averageRating.
      destruct (partition_ratings feedbacks d) as [|q qs] eqn:Hpart.
      - simpl. rewrite Hzero. split; [apply Qle_refl|].
        change 0%Q with (inject_Z 0). rewrite <- Zle_Qle. exact Hhi.
      - rewrite <- Hpart. change 0%Q with (inject_Z 0).
        apply rounded_average_bounds; try assumption.
        + rewrite Hpart. discriminate.
        + intros q' Hq'.
          apply (exactly_summable_safe (partition_ratings feedbacks d)); [|exact Hq'].
          now apply exactly_summable_partition.
        + intros q' Hq'. apply partition_ratings_In in Hq'.
          destruct Hq' as [f [Hf [_ Hq']]]. now apply (Hrange f q'). }
    pose proof (stats_total_counts_at_most feedbacks) as Htotal.
    rewrite stats_total_sum in Htotal.
    destruct (stats_weighted_rounded_bounds round hi (departmentStats feedbacks)
                Horder Hsafe Hhi) as [Hlo Hup]; [nia|exact Heach|].
    unfold average_rating_overall_rounded. rewrite stats_total_sum.
    set (total := list_sum (map totalFeedbacks (departmentStats feedbacks))) in *.
    set (weighted := stats_weighted_rounded round (departmentStats feedbacks)) in *.
    assert (Hpos : (0 < inject_Z (Z.of_nat (Nat.max 1 total)))%Q).
    { change 0%Q with (inject_Z 0). rewrite <- Zlt_Qlt. lia. }
    change (inject_Z 0) with 0%Q in Hlo.
    destruct total as [|total'].
    - assert (Hcase : (inject_Z 0 <= round (weighted / inject_Z (Z.of_nat (Nat.max 1 0)))
                       <= inject_Z 0)%Q).
      { apply rounded_between; try assumption;
          try (simpl; unfold MAX_SAFE_INTEGER; lia).
        rewrite Z.mul_0_r in Hup. change (inject_Z 0) with 0%Q in *. split.
        - apply Qle_shift_div_l; [exact Hpos|]. lra.
        - apply Qle_shift_div_r; [exact Hpos|]. lra. }
      change (inject_Z 0) with 0%Q in Hcase. destruct Hcase as [Hc0 Hc1].
      split; [exact Hc0|]. apply (Qle_trans _ 0); [exact Hc1|].
      change 0%Q with (inject_Z 0). rewrite <- Zle_Qle. exact Hhi.
    - change 0%Q with (inject_Z 0).
      apply rounded_between; try assumption;
        [simpl; unfold MAX_SAFE_INTEGER; lia|nia|].
      rewrite inject_Z_mult in Hup.
      replace (Nat.max 1 (S total')) with (S total') in * by lia.
      change (inject_Z 0) with 0%Q. split.
      + apply Qle_shift_div_l; [exact Hpos|]. lra.
      + apply Qle_shift_div_r; [exact Hpos|]. exact Hup. }
  assert (Hall : forall e, In e (departmentStats feedbacks) ->
                           (0 <= averageRating e <= inject_Z hi)%Q).
  { intros e He. rewrite departmentStats_map in He.
    apply in_map_iff in He. destruct He as [d [<- _]].
    rewrite department_stat_averageRating.
    destruct (partition_ratings feedbacks d) as [|q qs] eqn:Hpart.
    - simpl. split; [lra|]. change 0%Q with (inject_Z 0). rewrite <- Zle_Qle. exact Hhi.
    - rewrite <- Hpart. change 0%Q with (inject_Z 0).
      apply spec_average_bounds; [rewrite Hpart; discriminate|].
      intros q' Hq'. apply partition_ratings_In in Hq'.
      destruct Hq' as [f [Hf [_ Hq']]]. now apply (Hrange f q'). }
  split.
  { intros k.
    assert (Hk : forall e, In e (firstn k (departmentStats feedbacks)) ->
                           (0 <= averageRating e <= inject_Z hi)%Q).
    { intros e He. apply Hall.
      rewrite <- (firstn_skipn k (departmentStats feedbacks)).
      apply in_or_app. now left. }
    destruct (stats_weighted_bounds _ _ Hk) as [Hlo Hup].
    split; [exact Hlo|]. apply (Qle_trans _ _ _ Hup).
    rewrite <- inject_Z_mult, <- Zle_Qle.
    pose proof (stats_total_firstn (departmentStats feedbacks) k) as Hprefix.
    pose proof (stats_total_counts_at_most feedbacks) as Htotal.
    nia. }
  destruct (stats_weighted_bounds _ _ Hall) as [Hlo Hup].
  set (stats := departmentStats feedbacks) in *.
  assert (Hmax : (inject_Z (Z.of_nat (stats_total stats))
                  <= inject_Z (Z.of_nat (Nat.max 1 (stats_total stats))))%Q).
  { rewrite <- Zle_Qle. lia. }
  assert (Hpos : (0 < inject_Z (Z.of_nat (Nat.max 1 (stats_total stats))))%Q).
  { change 0%Q with (inject_Z 0). rewrite <- Zlt_Qlt. lia. }
  assert (Hhi' : (0 <= inject_Z hi)%Q).
  { change 0%Q with (inject_Z 0). now rewrite <- Zle_Qle. }
  unfold average_rating_overall. split; [split|split; [|exact Hrounded]].
  - apply Qle_shift_div_l; [exact Hpos|]. lra.
  - apply Qle_shift_div_r; [exact Hpos|]. nra.
  - intros Hzero. rewrite Hzero in Hup.
    assert (Hw : (stats_weighted stats == 0)%Q).
    { apply Qle_antisym; [|exact Hlo].
      apply (Qle_trans _ _ _ Hup). change (inject_Z (Z.of_nat 0)) with 0%Q.
      rewrite Qmult_0_r. apply Qle_refl. }
    rewrite Hw. unfold Qdiv. apply Qmult_0_l.
Qed.

Lemma dashboard_overall_average_bounds_witness :
  (0 <= average_rating_overall (departmentStats sample_feedbacks) <= inject_Z 5)%Q
  /\ (0 <= average_rating_overall_rounded sample_round (departmentStats sample_feedbacks)
      <= inject_Z 5)%Q.
Proof.
  destruct (dashboard_overall_average_bounds sample_feedbacks 5)
    as (_ & _ & Hfigure & _ & Hrounded).
  - lia.
  - unfold exactly_summable. vm_compute. discriminate.
  - vm_compute. discriminate.
  - intros f q Hf Hq. simpl in Hf.
    destruct Hf as [<-|[<-|[<-|[]]]]; simpl in Hq;
      repeat (destruct Hq as [<-|Hq]; [simpl; lia|]); destruct Hq.
  - split; [exact Hfigure|].
    apply Hrounded;
      [exact sample_round_keeps_order|exact sample_round_keeps_safe_integers].
Defined.

(** ** Accepted and rejected submissions *)

Lemma tx_bind_fail {A B : Type} (m : Tx A) (k : A -> Tx B) (db db1 : Db) (e : Failure) :
  m db = (inl e, db1) -> tx_bind m k db = (inl e, db1).
Proof. unfold tx_bind. now intros ->. Qed.

Lemma not_null_cases (column : string) (size : option nat) (v : option string) (db : Db) :
  (fits size v = true /\ not_null column size v db = (inr (or_empty v), db))
  \/ (fits size v = false /\ exists e, not_null column size v db = (inl e, db)).
Proof.
  unfold fits, not_null, tx_ret, tx_fail.
  destruct v as [[|c s]|].
  - right. split; [reflexivity|eexists; reflexivity].
  - change (String.eqb (String c s) EmptyString) with false. cbn [negb andb or_empty].
    destruct size as [n|]; [|now left].
    destruct (Nat.leb (String.length (String c s)) n);
      [now left|right; split; [reflexivity|eexists; reflexivity]].
  - right. split; [reflexivity|eexists; reflexivity].
Qed.

Lemma references_cases (constraint v : string) (keys : Db -> list string) (db : Db) :
  (existsb (String.eqb v) (keys db) = true
   /\ references constraint v keys db = (inr tt, db))
  \/ (existsb (String.eqb v) (keys db) = false
      /\ exists e, references constraint v keys db = (inl e, db)).
Proof.
  unfold references. destruct (existsb _ (keys db)); [now left|right].
  split; [reflexivity|eauto].
Qed.

Section Acceptance.

Context `{JsonStringify (list SubmittedQuestion)}.

Lemma insert_feedback_question_cases (now : Z) (fid : string)
    (q : SubmittedQuestion) (d : Db) :
  existsb (String.eqb fid) (map FB_ID (db_feedbacks d)) = true ->
  (question_fits q = true
   /\ exists row,
        insert_feedback_question now fid q d = (inr tt, with_questions d [row]))
  \/ (question_fits q = false
      /\ exists e d', insert_feedback_question now fid q d = (inl e, d')).
Proof.
  intros Hfid. unfold question_fits, insert_feedback_question.
  rewrite (tx_bind_run feedback_question_seq_NEXTVAL _ d _
             (db_feedback_question_seq d) eq_refl).
  cbv zeta.
  destruct (not_null_cases "TEXT" None (sq_text q)
              {| db_users := db_users d;
                 db_departments := db_departments d;
                 db_feedback_periods := db_feedback_periods d;
                 db_feedbacks := db_feedbacks d;
                 db_feedback_questions := db_feedback_questions d;
                 db_feedback_seq := db_feedback_seq d;
                 db_feedback_question_seq := N.succ (db_feedback_question_seq d) |})
    as [[Hfit Hrun]|[Hfit [e Hrun]]]; rewrite Hfit.
  - rewrite (tx_bind_run _ _ _ _ _ Hrun).
    destruct (sq_rating q) as [r|]; simpl andb.
    + left. split; [reflexivity|].
      unfold not_null_number.
      rewrite (tx_bind_run (tx_ret r) _ _ _ r eq_refl).
      rewrite (tx_bind_run _ _ _ _ tt) by (apply references_run; db_simpl; exact Hfid).
      eexists. unfold append_feedback_question, with_questions. db_simpl.
      do 2 f_equal. cbn [List.length N.of_nat Pos.of_succ_nat]. lia.
    + right. split; [reflexivity|].
      unfold not_null_number. eexists. eexists.
      apply tx_bind_fail. reflexivity.
  - right. split; [reflexivity|]. eexists. eexists.
    apply tx_bind_fail. exact Hrun.
Qed.

Lemma insert_questions_cases (now : Z) (fid : string)
    (qs : list SubmittedQuestion) (d : Db) :
  existsb (String.eqb fid) (map FB_ID (db_feedbacks d)) = true ->
  (forallb question_fits qs = true
   /\ exists rows,
        tx_for_each qs (insert_feedback_question now fid) d
        = (inr tt, with_questions d rows))
  \/ (forallb question_fits qs = false
      /\ exists e d', tx_for_each qs (insert_feedback_question now fid) d = (inl e, d')).
Proof.
  revert d. induction qs as [|q qs IH]; intros d Hfid.
  - left. split; [reflexivity|]. exists []. simpl. unfold tx_ret, with_questions.
    destruct d; db_simpl. do 2 f_equal; [now rewrite app_nil_r|simpl; lia].
  - simpl.
    destruct (insert_feedback_question_cases now fid q d Hfid)
      as [[Hfit [row Hrun]]|[Hfit [e [d' Hrun]]]]; rewrite Hfit; simpl andb.
    + rewrite (tx_bind_run _ _ _ _ _ Hrun).
      destruct (IH (with_questions d [row]) Hfid)
        as [[Hall [rows Hrest]]|[Hall [e [d' Hrest]]]]; rewrite Hall.
      * left. split; [reflexivity|]. exists (row :: rows).
        rewrite Hrest. now rewrite with_questions_cons.
      * right. split; [reflexivity|]. now exists e, d'.
    + right. split; [reflexivity|]. exists e, d'. now apply tx_bind_fail.
Qed.

Ltac header_fail R :=
  right; split; [reflexivity|]; eexists; eexists;
  repeat (first [ apply tx_bind_fail; exact R
                | erewrite tx_bind_run by eassumption ]).

Lemma insert_feedback_cases (now : Z) (body : SubmitBody) (db : Db) :
  (header_fits body db = true
   /\ insert_feedback now body db
      = (inr (FB_ID (stored_header now (db_feedback_seq db) body)),
         with_feedback db (stored_header now (db_feedback_seq db) body)))
  \/ (header_fits body db = false
      /\ exists e db1, insert_feedback now body db = (inl e, db1)).
Proof.
  unfold header_fits, insert_feedback.
  rewrite (tx_bind_run feedback_seq_NEXTVAL _ db _ (db_feedback_seq db) eq_refl).
  cbv zeta.
  set (d0 := {| db_users := db_users db;
                db_departments := db_departments db;
                db_feedback_periods := db_feedback_periods db;
                db_feedbacks := db_feedbacks db;
                db_feedback_questions := db_feedback_questions db;
                db_feedback_seq := N.succ (db_feedback_seq db);
                db_feedback_question_seq := db_feedback_question_seq db |}).
  destruct (not_null_cases "USER_ID" (Some 36%nat) (b_userId body) d0)
    as [[H1 R1]|[H1 [e R1]]]; rewrite H1; [|header_fail R1].
  destruct (not_null_cases "USER_NAME" (Some 255%nat) (b_userName body) d0)
    as [[H2 R2]|[H2 [e R2]]]; rewrite H2; [|header_fail R2].
  destruct (not_null_cases "USER_EMAIL" (Some 255%nat) (b_userEmail body) d0)
    as [[H3 R3]|[H3 [e R3]]]; rewrite H3; [|header_fail R3].
  destruct (not_null_cases "USER_DEPARTMENT" (Some 100%nat) (b_userDepartment body) d0)
    as [[H4 R4]|[H4 [e R4]]]; rewrite H4; [|header_fail R4].
  destruct (not_null_cases "TARGET_DEPARTMENT" (Some 100%nat) (b_targetDepartment body) d0)
    as [[H5 R5]|[H5 [e R5]]]; rewrite H5; [|header_fail R5].
  destruct (not_null_cases "QUESTIONS" None
              (option_map JSON_stringify (b_questions body)) d0)
    as [[H6 R6]|[H6 [e R6]]]; rewrite H6; [|header_fail R6].
  cbn [andb].
  destruct (references_cases "FK_FB_USER" (or_empty (b_userId body))
              (fun db => map U_ID (db_users db)) d0)
    as [[H7 R7]|[H7 [e R7]]]; pose proof H7 as H7'; unfold d0 in H7'; db_simpl;
    rewrite H7'; [|header_fail R7].
  destruct (references_cases "FK_FB_USER_DEPT" (or_empty (b_userDepartment body))
              db_departments d0)
    as [[H8 R8]|[H8 [e R8]]]; pose proof H8 as H8'; unfold d0 in H8'; db_simpl;
    rewrite H8'; [|header_fail R8].
  destruct (references_cases "FK_FB_TARGET_DEPT" (or_empty (b_targetDepartment body))
              db_departments d0)
    as [[H9 R9]|[H9 [e R9]]]; pose proof H9 as H9'; unfold d0 in H9'; db_simpl;
    rewrite H9'; [|header_fail R9].
  left. split; [reflexivity|].
  rewrite (tx_bind_run _ _ _ _ _ R1), (tx_bind_run _ _ _ _ _ R2),
    (tx_bind_run _ _ _ _ _ R3), (tx_bind_run _ _ _ _ _ R4),
    (tx_bind_run _ _ _ _ _ R5), (tx_bind_run _ _ _ _ _ R6),
    (tx_bind_run _ _ _ _ _ R7), (tx_bind_run _ _ _ _ _ R8),
    (tx_bind_run _ _ _ _ _ R9).
  reflexivity.
Qed.

Lemma submit_transaction_cases (now : Z) (body : SubmitBody) (db : Db) :
  (acceptable body db = true
   /\ exists rows,
        submit_transaction now body db
        = (inr (FB_ID (stored_header now (db_feedback_seq db) body)),
           with_questions
             (with_feedback db (stored_header now (db_feedback_seq db) body)) rows))
  \/ (acceptable body db = false
      /\ exists e db1, submit_transaction now body db = (inl e, db1)).
Proof.
  unfold acceptable, submit_transaction.
  destruct (insert_feedback_cases now body db)
    as [[Hfit Hheader]|[Hfit [e [db1 Hheader]]]]; rewrite Hfit.
  - rewrite (tx_bind_run _ _ _ _ _ Hheader). cbn [andb].
    set (row := stored_header now (db_feedback_seq db) body).
    destruct (b_questions body) as [qs|].
    + destruct (insert_questions_cases now (FB_ID row) qs (with_feedback db row)
                  (feedback_id_present db row))
        as [[Hall [rows Hrun]]|[Hall [e [d' Hrun]]]]; rewrite Hall.
      * left. split; [reflexivity|]. exists rows.
        now rewrite (tx_bind_run _ _ _ _ _ Hrun).
      * right. split; [reflexivity|]. exists e, d'. now apply tx_bind_fail.
    + right. split; [reflexivity|]. eexists. eexists.
      apply tx_bind_fail. reflexivity.
  - right. split; [reflexivity|]. exists e, db1. now apply tx_bind_fail.
Qed.

End Acceptance.

(** ** Decimal texts and identifiers *)

Lemma string_length_append (s t : string) :
  String.length (String.append s t) = (String.length s + String.length t)%nat.
Proof. induction s as [|c s IH]; simpl; [reflexivity|now rewrite IH]. Qed.

Lemma string_of_list_ascii_length (l : list ascii) :
  String.length (string_of_list_ascii l) = List.length l.
Proof. induction l as [|c l IH]; simpl; [reflexivity|now rewrite IH]. Qed.

Lemma substring_length (s : string) (n : nat) :
  (n <= String.length s)%nat -> String.length (substring 0 n s) = n.
Proof.
  revert n; induction s as [|c s IH]; intros [|n] Hn; simpl in *; try reflexivity.
  - lia.
  - rewrite IH; [reflexivity|lia].
Qed.

Lemma substring_all (s : string) : substring 0 (String.length s) s = s.
Proof. induction s as [|c s IH]; simpl; [reflexivity|now rewrite IH]. Qed.

Lemma LPAD_length (s : string) (n : nat) (pad : ascii) :
  String.length (LPAD s n pad) = n.
Proof.
  unfold LPAD. destruct (Nat.leb_spec n (String.length s)) as [Hle|Hlt].
  - now apply substring_length.
  - rewrite string_length_append, string_of_list_ascii_length, repeat_length. lia.
Qed.

Lemma LPAD_fits (s : string) (n : nat) (pad : ascii) :
  (String.length s <= n)%nat ->
  LPAD s n pad
  = String.append (string_of_list_ascii (repeat pad (n - String.length s))) s.
Proof.
  intros Hle. unfold LPAD. destruct (Nat.leb_spec n (String.length s)) as [Hge|Hlt].
  - assert (Heq : n = String.length s) by lia. subst n.
    rewrite substring_all, Nat.sub_diag. reflexivity.
  - reflexivity.
Qed.

Lemma decimal_length_digits (d : Decimal.uint) :
  String.length (NilEmpty.string_of_uint d) = Decimal.nb_digits d.
Proof. induction d; simpl; congruence. Qed.

Lemma of_uint_acc_lower (d : Decimal.uint) (acc : positive) :
  Zpos acc * 10 ^ Z.of_nat (Decimal.nb_digits d) <= Zpos (Pos.of_uint_acc d acc).
Proof.
  revert acc; induction d; intros acc; simpl Decimal.nb_digits;
    [simpl; lia|..];
    rewrite Nat2Z.inj_succ, Z.pow_succ_r by lia;
    cbn [Pos.of_uint_acc];
    (eapply Z.le_trans; [|apply IHd]);
    rewrite ?Pos2Z.inj_add, ?Pos2Z.inj_mul;
    assert (0 <= 10 ^ Z.of_nat (Decimal.nb_digits d)) by (apply Z.pow_nonneg; lia);
    nia.
Qed.

Lemma unorm_fixed_shape (d : Decimal.uint) :
  Decimal.unorm d = d ->
  d = Decimal.D0 Decimal.Nil \/ (forall d', d <> Decimal.D0 d') /\ d <> Decimal.Nil.
Proof.
  intros Hfix. destruct d; try (right; split; [intros d'|]; discriminate).
  left. rewrite DecimalFacts.unorm_D0 in Hfix.
  unfold Decimal.unorm in Hfix.
  destruct (Decimal.nzhead d) eqn:Hnz; try discriminate Hfix.
  - now injection Hfix as <-.
  - exfalso. exact (DecimalFacts.nzhead_nonzero _ _ Hnz).
Qed.

Lemma to_uint_fixed (n : N) : Decimal.unorm (N.to_uint n) = N.to_uint n.
Proof.
  rewrite <- (DecimalN.Unsigned.of_to n) at 2.
  symmetry. apply DecimalN.Unsigned.to_of.
Qed.

Lemma of_uint_lower (d : Decimal.uint) :
  (forall d', d <> Decimal.D0 d') -> d <> Decimal.Nil ->
  10 ^ Z.of_nat (Decimal.nb_digits d - 1) <= Z.of_N (N.of_uint d).
Proof.
  intros Hnz Hnn.
  destruct d; try congruence; try (exfalso; now apply (Hnz d));
    cbn [Decimal.nb_digits];
    replace (S (Decimal.nb_digits d) - 1)%nat with (Decimal.nb_digits d) by lia;
    unfold N.of_uint; cbn [Pos.of_uint Z.of_N];
    (eapply Z.le_trans; [|apply of_uint_acc_lower]);
    assert (0 <= 10 ^ Z.of_nat (Decimal.nb_digits d)) by (apply Z.pow_nonneg; lia);
    nia.
Qed.

Lemma decimal_length (n : N) :
  (n < 10 ^ 8)%N -> (String.length (decimal n) <= 8)%nat.
Proof.
  intros Hlt. unfold decimal. rewrite decimal_length_digits.
  destruct (unorm_fixed_shape _ (to_uint_fixed n)) as [Hz|[Hnz Hnn]].
  - rewrite Hz. simpl. lia.
  - pose proof (of_uint_lower _ Hnz Hnn) as Hlow.
    rewrite DecimalN.Unsigned.of_to in Hlow.
    destruct (Nat.le_gt_cases (Decimal.nb_digits (N.to_uint n)) 8) as [Hle|Hgt];
      [exact Hle|exfalso].
    assert (Hpow : 10 ^ 8 <= 10 ^ Z.of_nat (Decimal.nb_digits (N.to_uint n) - 1)).
    { apply Z.pow_le_mono_r; lia. }
    assert (Hn : Z.of_N n < 10 ^ 8).
    { change (10 ^ 8) with (Z.of_N (10 ^ 8)). lia. }
    lia.
Qed.

Ltac digit_step :=
  cbn [NilEmpty.string_of_uint parse_digits];
  match goal with
  | |- context [digit_of ?c] =>
      let v := eval vm_compute in (digit_of c) in change (digit_of c) with v
  end;
  cbv beta iota.

Lemma parse_digits_acc (d : Decimal.uint) (acc : positive) :
  parse_digits (NilEmpty.string_of_uint d) (Some (Zpos acc))
  = Some (Zpos (Pos.of_uint_acc d acc)).
Proof.
  revert acc; induction d; intros acc; [reflexivity|..];
    digit_step; cbn [Pos.of_uint_acc]; rewrite <- IHd; do 2 f_equal; lia.
Qed.

Lemma parse_digits_zero (d : Decimal.uint) :
  parse_digits (NilEmpty.string_of_uint d) (Some 0) = Some (Z.of_N (Pos.of_uint d)).
Proof.
  induction d; [reflexivity|..]; digit_step; cbn [Pos.of_uint];
    [exact IHd|..]; cbn [Z.of_N]; rewrite <- parse_digits_acc; reflexivity.
Qed.

Lemma parse_digits_start (d : Decimal.uint) :
  d <> Decimal.Nil ->
  parse_digits (NilEmpty.string_of_uint d) None = Some (Z.of_N (Pos.of_uint d)).
Proof.
  intros Hnn. rewrite <- parse_digits_zero.
  destruct d; [congruence|..]; digit_step; reflexivity.
Qed.

Lemma to_uint_nonnil (n : N) : N.to_uint n <> Decimal.Nil.
Proof. rewrite <- to_uint_fixed. apply DecimalFacts.unorm_nonnil. Qed.

Lemma parse_digits_decimal (n : N) :
  parse_digits (decimal n) None = Some (Z.of_N n)
  /\ parse_digits (decimal n) (Some 0) = Some (Z.of_N n).
Proof.
  unfold decimal. rewrite parse_digits_start by apply to_uint_nonnil.
  rewrite parse_digits_zero.
  change (Pos.of_uint (N.to_uint n)) with (N.of_uint (N.to_uint n)).
  now rewrite DecimalN.Unsigned.of_to.
Qed.

Lemma parse_digits_zeros (k : nat) (s : string) :
  parse_digits (String.append (string_of_list_ascii (repeat "0"%char k)) s) (Some 0)
  = parse_digits s (Some 0).
Proof. induction k as [|k IH]; [reflexivity|]. simpl. exact IH. Qed.

Lemma parse_digits_padded (n : N) :
  (n < 10 ^ 8)%N ->
  parse_digits (LPAD (decimal n) 8 "0") None = Some (Z.of_N n).
Proof.
  intros Hlt. rewrite LPAD_fits by now apply decimal_length.
  destruct (8 - String.length (decimal n))%nat as [|k].
  - apply parse_digits_decimal.
  - simpl repeat. simpl string_of_list_ascii. simpl String.append.
    cbn [parse_digits]. change (digit_of "0") with (Some 0). cbv beta iota.
    change (10 * 0 + 0) with 0. rewrite parse_digits_zeros.
    apply parse_digits_decimal.
Qed.

Lemma feedback_id_inj (n m : N) :
  (n < 10 ^ 8)%N -> (m < 10 ^ 8)%N -> feedback_id n = feedback_id m -> n = m.
Proof.
  intros Hn Hm Heq. unfold feedback_id in Heq. simpl in Heq.
  injection Heq as Heq.
  pose proof (parse_digits_padded n Hn) as Pn.
  pose proof (parse_digits_padded m Hm) as Pm.
  rewrite Heq in Pn. rewrite Pn in Pm. injection Pm as Pm. lia.
Qed.

(** A text that starts with a digit is parsed from its first character. *)
Definition starts_with_digit (s : string) : Prop :=
  exists v, match s with
            | String c _ => digit_of c = Some v
            | EmptyString => False
            end.

Lemma parseInt_digits (s : string) :
  starts_with_digit s -> parseInt s = parse_digits s None.
Proof.
  intros [v Hv]. destruct s as [|c s]; [destruct Hv|].
  unfold parseInt. cbn [trim_start].
  destruct c as [b0 b1 b2 b3 b4 b5 b6 b7].
  destruct b0, b1, b2, b3, b4, b5, b6, b7; try discriminate Hv; reflexivity.
Qed.

Lemma decimal_starts_with_digit (n : N) : starts_with_digit (decimal n).
Proof.
  unfold decimal. pose proof (to_uint_nonnil n) as Hnn.
  destruct (N.to_uint n); [congruence|..]; eexists; simpl; reflexivity.
Qed.

(** X9: the identifier of a feedback is ['FB'] followed by exactly eight
    characters; below 10^8 these are the decimal text of the sequence value
    behind zeros, and distinct sequence values give distinct identifiers;
    from 10^8 on [LPAD] cuts the text, and the value 10^8 gets the
    identifier of 10^7. *)
Theorem feedback_id_properties :
  (forall n, String.length (feedback_id n) = 10%nat)
  /\ (forall n, (n < 10 ^ 8)%N ->
        feedback_id n
        = String.append "FB"
            (String.append
               (string_of_list_ascii (repeat "0"%char (8 - String.length (decimal n))))
               (decimal n)))
  /\ (forall n m, (n < 10 ^ 8)%N -> (m < 10 ^ 8)%N ->
        feedback_id n = feedback_id m -> n = m)
  /\ feedback_id (10 ^ 8) = feedback_id (10 ^ 7).
Proof.
  split; [|split; [|split]].
  - intros n. unfold feedback_id. rewrite string_length_append, LPAD_length.
    reflexivity.
  - intros n Hn. unfold feedback_id. now rewrite LPAD_fits by now apply decimal_length.
  - apply feedback_id_inj.
  - reflexivity.
Qed.

Section Identifiers.

Context `{JsonStringify (list SubmittedQuestion)}.

(** X10: while fewer than 10^8 feedback identifiers have been drawn, an
    accepted submission gets an identifier that no stored feedback has, and
    the feedbacks table keeps pairwise distinct identifiers that all come
    from sequence values already drawn. *)
Theorem accepted_submission_keeps_ids_distinct
    (now : Z) (body : SubmitBody) (db db1 : Db) (id message : string)
    (Hinv : feedback_ids_from_sequence db)
    (Hseq : (db_feedback_seq db < 10 ^ 8)%N)
    (Haccepted : post_feedbacks now body db = (SubmitOk id message, db1)) :
  id = feedback_id (db_feedback_seq db)
  /\ ~ In id (map FB_ID (db_feedbacks db))
  /\ db_feedback_seq db1 = N.succ (db_feedback_seq db)
  /\ feedback_ids_from_sequence db1.
Proof.
  destruct Hinv as [Hnd Hrows].
  assert (Hfresh : ~ In (feedback_id (db_feedback_seq db)) (map FB_ID (db_feedbacks db))).
  { intros Hin. apply in_map_iff in Hin. destruct Hin as [row [Hid Hrow]].
    destruct (Hrows row Hrow) as [k [Hk Hidk]].
    rewrite Hidk in Hid. apply feedback_id_inj in Hid; lia. }
  unfold post_feedbacks in Haccepted.
  destruct (submit_transaction_cases now body db)
    as [[_ [rows Hrun]]|[_ [e [d Hrun]]]]; rewrite Hrun in Haccepted;
    [|discriminate].
  injection Haccepted as <- _ <-.
  split; [reflexivity|]. split; [exact Hfresh|]. split; [reflexivity|].
  unfold feedback_ids_from_sequence, with_questions, with_feedback. db_simpl.
  split.
  - rewrite map_app. simpl. now apply NoDup_snoc.
  - intros row Hrow. apply in_app_or in Hrow. destruct Hrow as [Hrow|[<-|[]]].
    + destruct (Hrows row Hrow) as [k [Hk Hidk]]. exists k. split; [lia|exact Hidk].
    + exists (db_feedback_seq db). split; [lia|reflexivity].
Qed.

End Identifiers.

Lemma accepted_submission_keeps_ids_distinct_witness :
  feedback_ids_from_sequence
    (snd (post_feedbacks (H := sample_JSON_stringify) 10 (sample_body 4) sample_db)).
Proof.
  assert (Haccepted :
    post_feedbacks (H := sample_JSON_stringify) 10 (sample_body 4) sample_db
    = (SubmitOk "FB00000001" "Feedback submitted successfully",
       snd (post_feedbacks (H := sample_JSON_stringify) 10 (sample_body 4) sample_db)))
    by reflexivity.
  assert (Hinv : feedback_ids_from_sequence sample_db).
  { split; [constructor|]. intros row []. }
  assert (Hseq : (db_feedback_seq sample_db < 10 ^ 8)%N) by reflexivity.
  destruct (accepted_submission_keeps_ids_distinct (H := sample_JSON_stringify)
              10 (sample_body 4) sample_db _ _ _ Hinv Hseq Haccepted)
    as (_ & _ & _ & Hinv').
  exact Hinv'.
Defined.

(** ** The forms offered to an employee *)

Lemma StronglySorted_filter {A : Type} (R : A -> A -> Prop) (p : A -> bool) (l : list A) :
  StronglySorted R l -> StronglySorted R (filter p l).
Proof.
  induction 1 as [|x l Hsorted IH Hall]; simpl; [constructor|].
  destruct (p x); [|exact IH]. constructor; [exact IH|].
  apply Forall_forall. intros y Hy. apply filter_In in Hy.
  now apply (proj1 (Forall_forall _ _) Hall).
Qed.

Lemma StronglySorted_map {A B : Type} (R : A -> A -> Prop) (R' : B -> B -> Prop)
    (g : A -> B) (l : list A) :
  (forall a b, R a b -> R' (g a) (g b)) ->
  StronglySorted R l -> StronglySorted R' (map g l).
Proof.
  intros Himpl. induction 1 as [|x l Hsorted IH Hall]; simpl; constructor;
    [exact IH|].
  apply Forall_forall. intros y Hy. apply in_map_iff in Hy.
  destruct Hy as [a [<- Ha]]. apply Himpl.
  now apply (proj1 (Forall_forall _ _) Hall).
Qed.

Section Offered.

Context `{JsonParse (list Question)}.

Lemma select_active_periods_In (now : Z) (db : Db) (row : FeedbackPeriodRow) :
  In row (select_active_periods now db)
  <-> In row (db_feedback_periods db) /\ FP_ACTIVE row = 1 /\ now < FP_END_DATE row.
Proof.
  unfold select_active_periods. rewrite order_by_In, filter_In.
  rewrite Bool.andb_true_iff, Z.eqb_eq, Z.ltb_lt. tauto.
Qed.

Lemma select_active_periods_sorted (now : Z) (db : Db) :
  StronglySorted (fun x y => FP_END_DATE x <= FP_END_DATE y)
    (select_active_periods now db).
Proof.
  unfold select_active_periods.
  eapply StronglySorted_impl_own; [|apply order_by_sorted].
  - intros a b Hab. now apply Z.leb_le in Hab.
  - intros x y. destruct (Z.leb_spec (FP_END_DATE x) (FP_END_DATE y)); [now left|].
    right. apply Z.leb_le. lia.
  - intros x y z Hxy Hyz. apply Z.leb_le in Hxy, Hyz. apply Z.leb_le. lia.
Qed.

Lemma offered_periods_In (now : Z) (db : Db) (currentUser : User)
    (period : FeedbackPeriod) :
  In period
     (AvailabilityFilter
        (map period_of_row (select_active_periods now db))
        (map FB_TARGET_DEPARTMENT (select_submitted (u_id currentUser) db))
        currentUser)
  <-> exists row,
        In row (db_feedback_periods db)
        /\ period = period_of_row row
        /\ FP_ACTIVE row = 1
        /\ now < FP_END_DATE row
        /\ FP_DEPARTMENT row <> u_department currentUser
        /\ (forall f, In f (db_feedbacks db) ->
                      FB_USER_ID f = u_id currentUser ->
                      FB_TARGET_DEPARTMENT f <> FP_DEPARTMENT row).
Proof.
  rewrite AvailabilityFilter_filter, filter_In.
  rewrite in_map_iff, Bool.andb_true_iff, !Bool.negb_true_iff.
  rewrite <- !Bool.not_true_iff_false, includes_In, String.eqb_eq, in_map_iff.
  split.
  - intros [[row [<- Hrow]] [Hown Hsub]].
    apply select_active_periods_In in Hrow. destruct Hrow as [Hrow [Hact Hend]].
    exists row. repeat split; try assumption.
    intros f Hf Huser Htarget. apply Hsub. exists f. split; [exact Htarget|].
    unfold select_submitted. apply filter_In. split; [exact Hf|].
    now apply String.eqb_eq.
  - intros [row [Hrow [-> [Hact [Hend [Hown Hsub]]]]]].
    split; [|split; [exact Hown|]].
    + exists row. split; [reflexivity|].
      apply select_active_periods_In. tauto.
    + intros [f [Htarget Hf]]. unfold select_submitted in Hf.
      apply filter_In in Hf. destruct Hf as [Hf Huser].
      apply String.eqb_eq in Huser. now apply (Hsub f Hf Huser).
Qed.

Lemma get_available_feedbacks_ok (now : Z) (user : string) (db : Db) :
  user <> EmptyString ->
  get_available_feedbacks now (Some user) db
  = (AvailableOk
       {| d_feedbackPeriods := map period_of_row (select_active_periods now db);
          d_submittedDepartments :=
            map FB_TARGET_DEPARTMENT (select_submitted user db) |}, db).
Proof.
  intros Hne. unfold get_available_feedbacks.
  destruct user as [|c s]; [contradiction|reflexivity].
Qed.

(** X11: what a signed-in employee is offered.  The handler answers with
    the database untouched; the component then lists a period exactly when
    its row is active, ends after the time of the request, belongs to
    another department than the employee's, and the employee has no
    feedback stored for that department; the list is in ascending order of
    end date. *)
Theorem offered_forms_exact
    (now : Z) (db : Db) (currentUser : User) (st : AvailableState)
    (Hid : u_id currentUser <> EmptyString) :
  exists data,
    get_available_feedbacks now (Some (u_id currentUser)) db = (AvailableOk data, db)
    /\ (forall period,
          In period
             (availablePeriods
                (fetchAvailableFeedbacks (Some currentUser) (Some data) st))
          <-> exists row,
                In row (db_feedback_periods db)
                /\ period = period_of_row row
                /\ FP_ACTIVE row = 1
                /\ now < FP_END_DATE row
                /\ FP_DEPARTMENT row <> u_department currentUser
                /\ (forall f, In f (db_feedbacks db) ->
                              FB_USER_ID f = u_id currentUser ->
                              FB_TARGET_DEPARTMENT f <> FP_DEPARTMENT row))
    /\ StronglySorted (fun p q => fp_endDate p <= fp_endDate q)
         (availablePeriods
            (fetchAvailableFeedbacks (Some currentUser) (Some data) st)).
Proof.
  exists {| d_feedbackPeriods := map period_of_row (select_active_periods now db);
            d_submittedDepartments :=
              map FB_TARGET_DEPARTMENT (select_submitted (u_id currentUser) db) |}.
  split; [|split].
  - unfold get_available_feedbacks.
    destruct (u_id currentUser) as [|c s]; [contradiction|reflexivity].
  - intros period.
    rewrite availablePeriods_after_fetch by exact Hid.
    apply offered_periods_In.
  - rewrite availablePeriods_after_fetch by exact Hid.
    rewrite AvailabilityFilter_filter. cbn [d_feedbackPeriods].
    apply StronglySorted_filter.
    apply (StronglySorted_map (fun x y => FP_END_DATE x <= FP_END_DATE y)).
    + intros a b Hab. exact Hab.
    + apply select_active_periods_sorted.
Qed.

(** X12: a request without a user identifier, or with an empty one, is
    answered 400 and reads nothing; and whatever the identifier, the periods
    of an answer are all active and unexpired, whoever asks. *)
Theorem available_feedbacks_answers (now : Z) (userId : option string) (db : Db) :
  snd (get_available_feedbacks now userId db) = db
  /\ ((userId = None \/ userId = Some EmptyString) ->
      fst (get_available_feedbacks now userId db)
      = AvailableBadRequest "User ID is required")
  /\ (forall data,
        fst (get_available_feedbacks now userId db) = AvailableOk data ->
        (exists user, userId = Some user /\ user <> EmptyString
           /\ d_submittedDepartments data
              = map FB_TARGET_DEPARTMENT
                  (filter (fun row => String.eqb (FB_USER_ID row) user)
                          (db_feedbacks db)))
        /\ (forall period, In period (d_feedbackPeriods data) ->
              fp_active period = true /\ now < fp_endDate period)).
Proof.
  unfold get_available_feedbacks.
  destruct userId as [[|c s]|]; simpl; (split; [reflexivity|]); split;
    try (intros _; reflexivity); try (intros data Hd; discriminate Hd).
  - intros [Hu|Hu]; discriminate Hu.
  - intros data Hd. injection Hd as <-. split.
    + exists (String c s). repeat split. discriminate.
    + intros period Hp. cbn [d_feedbackPeriods] in Hp. apply in_map_iff in Hp.
      destruct Hp as [row [<- Hrow]]. apply select_active_periods_In in Hrow.
      destruct Hrow as [_ [Hact Hend]]. simpl. split; [|exact Hend].
      now apply Z.eqb_eq.
Qed.

End Offered.

Lemma offered_forms_exact_witness :
  exists data,
    get_available_feedbacks (H := sample_JSON_parse_questions) 10 (Some "U1") sample_db
    = (AvailableOk data, sample_db)
    /\ map fp_department
         (availablePeriods
            (fetchAvailableFeedbacks (Some sample_user) (Some data) initial_state))
       = ["HR"].
Proof.
  assert (Hid : u_id sample_user <> EmptyString) by discriminate.
  destruct (offered_forms_exact (H := sample_JSON_parse_questions)
              10 sample_db sample_user initial_state Hid) as [data [Hget _]].
  exists data. split; [exact Hget|].
  injection Hget as <-. reflexivity.
Defined.

(** ** The feedback form *)

Lemma map_throwing_Forall2 {A B : Type} (f : A -> option B) (xs : list A) (ys : list B) :
  map_throwing f xs = Some ys -> Forall2 (fun x y => f x = Some y) xs ys.
Proof.
  revert ys; induction xs as [|x xs IH]; intros ys Hmap; simpl in Hmap.
  - injection Hmap as <-. constructor.
  - destruct (f x) as [y|] eqn:Hfx; [|discriminate].
    destruct (map_throwing f xs) as [ys0|]; [|discriminate].
    injection Hmap as <-. constructor; [exact Hfx|now apply IH].
Qed.

Lemma map_throwing_None {A B : Type} (f : A -> option B) (xs : list A) :
  map_throwing f xs = None <-> exists x, In x xs /\ f x = None.
Proof.
  induction xs as [|x xs IH]; simpl.
  - split; [discriminate|intros [x [[] _]]].
  - destruct (f x) as [y|] eqn:Hfx.
    + destruct (map_throwing f xs) as [ys|].
      * split; [discriminate|]. intros [x' [[<-|Hx'] Hnone]]; [congruence|].
        exfalso. assert (Hs : Some ys = None) by (apply IH; now exists x').
        discriminate Hs.
      * split; [intros _|reflexivity].
        destruct (proj1 IH eq_refl) as [x' [Hx' Hnone]]. exists x'. split; [now right|exact Hnone].
    + split; [intros _|reflexivity]. exists x. split; [now left|exact Hfx].
Qed.

Lemma parseInt_decimal (n : N) : parseInt (decimal n) = Some (Z.of_N n).
Proof.
  rewrite parseInt_digits by apply decimal_starts_with_digit.
  apply parse_digits_decimal.
Qed.

Lemma parseInt_radio (v : Z) : 0 <= v -> parseInt (radio_value v) = Some v.
Proof.
  intros Hv. unfold radio_value. rewrite parseInt_decimal. f_equal. lia.
Qed.

(** A question of the form is answered: it has an entry with a non-empty
    rating. *)
Definition answered (data : FormValues) (question : Question) : Prop :=
  exists formQuestion r,
    by_question data (qn_id question) = Some formQuestion
    /\ rating formQuestion = Some r /\ r <> EmptyString.

Lemma feedback_question_of_None (data : FormValues) (question : Question) :
  feedback_question_of data question = None <-> ~ answered data question.
Proof.
  unfold feedback_question_of, answered.
  destruct (by_question data (qn_id question)) as [formQuestion|].
  - destruct (rating formQuestion) as [[|c r]|] eqn:Hr.
    + split; [|reflexivity]. intros _ [fq [r [Hfq [Hr' Hne]]]].
      injection Hfq as <-. congruence.
    + split; [discriminate|]. intros Hnot. exfalso. apply Hnot.
      exists formQuestion, (String c r). repeat split; [exact Hr|discriminate].
    + split; [|reflexivity]. intros _ [fq [r [Hfq [Hr' Hne]]]].
      injection Hfq as <-. congruence.
  - split; [|reflexivity]. intros _ [fq [r [Hfq _]]]. discriminate.
Qed.

Lemma digit_of_range (c : ascii) (d : Z) : digit_of c = Some d -> 0 <= d <= 9.
Proof.
  unfold digit_of. cbv zeta.
  destruct ((48 <=? nat_of_ascii c)%nat && (nat_of_ascii c <=? 57)%nat) eqn:Hrange;
    [|discriminate].
  apply Bool.andb_true_iff in Hrange. destruct Hrange as [Hlo Hhi].
  apply Nat.leb_le in Hlo. apply Nat.leb_le in Hhi.
  intros Heq. injection Heq as <-. lia.
Qed.

(** The digits of a text of [n] decimal digits extend the number read so
    far by less than [10 ^ n]. *)
Lemma parse_digits_bound (s : string) :
  decimal_digits s = true ->
  forall a, 0 <= a ->
    exists v, parse_digits s (Some a) = Some v
              /\ 0 <= v < (a + 1) * 10 ^ Z.of_nat (String.length s).
Proof.
  unfold decimal_digits.
  induction s as [|c s IH]; intros Hdigits a Ha.
  - exists a. split; [reflexivity|]. simpl. lia.
  - cbn [list_ascii_of_string forallb] in Hdigits.
    apply Bool.andb_true_iff in Hdigits. destruct Hdigits as [Hc Hs].
    cbn [parse_digits String.length].
    destruct (digit_of c) as [d|] eqn:Hd; [|discriminate Hc].
    pose proof (digit_of_range c d Hd) as Hrange.
    destruct (IH Hs (10 * a + d)) as (v & Hv & Hbound); [lia|].
    exists v. split; [exact Hv|].
    rewrite Nat2Z.inj_succ, Z.pow_succ_r by lia.
    assert (0 < 10 ^ Z.of_nat (String.length s)) by (apply Z.pow_pos_nonneg; lia).
    nia.
Qed.

(** [parseInt] of at most 15 decimal digits is a safe integer. *)
Lemma parseInt_decimal_digits (c : ascii) (s : string) :
  (String.length (String c s) <= 15)%nat ->
  decimal_digits (String c s) = true ->
  exists v, parseInt (String c s) = Some v /\ 0 <= v <= MAX_SAFE_INTEGER.
Proof.
  intros Hlen Hdigits.
  assert (Hfirst : exists d, digit_of c = Some d).
  { unfold decimal_digits in Hdigits. cbn [list_ascii_of_string forallb] in Hdigits.
    apply Bool.andb_true_iff in Hdigits. destruct Hdigits as [Hc _].
    destruct (digit_of c) as [d|]; [now exists d|discriminate Hc]. }
  rewrite parseInt_digits by exact Hfirst.
  destruct (parse_digits_bound (String c s) Hdigits 0 (Z.le_refl 0))
    as (v & Hv & Hbound).
  exists v. split.
  - destruct Hfirst as [d Hd]. cbn [parse_digits] in Hv |- *.
    rewrite Hd in Hv |- *. exact Hv.
  - assert (Hpow : 10 ^ Z.of_nat (String.length (String c s)) <= 10 ^ 15)
      by (apply Z.pow_le_mono_r; lia).
    unfold MAX_SAFE_INTEGER. lia.
Qed.

(** X13: what [onSubmit] sends when it sends.  The body names the signed-in
    user and the department of the period, and carries one answer per
    question of the period, in the period's order, with the question's
    identifier and text.  For a selected value of at most 15 decimal
    digits the rating of the answer is [parseInt] of the value, an integer
    that a number holds exactly; for the radio button of an integer [v]
    between 0 and [MAX_SAFE_INTEGER], whose value is the decimal text of
    [v], the rating is [v] itself. *)
Theorem onSubmit_sends_what_was_selected
    (user : User) (period : FeedbackPeriod) (data : FormValues) (body : SubmitBody)
    (Hsubmit : onSubmit (Some user) (Some period) data = Some body) :
  b_userId body = Some (u_id user)
  /\ b_userDepartment body = Some (u_department user)
  /\ b_targetDepartment body = Some (fp_department period)
  /\ exists qs,
       b_questions body = Some qs
       /\ Forall2
            (fun question sq =>
               sq_id sq = Some (qn_id question)
               /\ sq_text sq = Some (qn_text question)
               /\ exists formQuestion r,
                    by_question data (qn_id question) = Some formQuestion
                    /\ rating formQuestion = Some r
                    /\ ((String.length r <= 15)%nat -> decimal_digits r = true ->
                        exists v, parseInt r = Some v
                                  /\ sq_rating sq = Some v
                                  /\ 0 <= v <= MAX_SAFE_INTEGER)
                    /\ (forall v, 0 <= v <= MAX_SAFE_INTEGER ->
                                  r = radio_value v -> sq_rating sq = Some v))
            (fp_questions period) qs.
Proof.
  unfold onSubmit in Hsubmit.
  destruct (map_throwing _ _) as [qs|] eqn:Hqs; [|discriminate].
  destruct (_ || _); [discriminate|].
  destruct (String.eqb _ _); [discriminate|].
  injection Hsubmit as <-. cbn.
  repeat (split; [reflexivity|]).
  exists qs. split; [reflexivity|].
  apply map_throwing_Forall2 in Hqs.
  revert Hqs. apply Forall2_impl. intros question sq Hq.
  unfold feedback_question_of in Hq.
  destruct (by_question data (qn_id question)) as [formQuestion|]; [|discriminate].
  destruct (rating formQuestion) as [[|c r]|] eqn:Hr; try discriminate.
  injection Hq as <-. cbn. split; [reflexivity|]. split; [reflexivity|].
  exists formQuestion, (String c r). split; [reflexivity|]. split; [exact Hr|]. split.
  - intros Hlen Hdigits.
    destruct (parseInt_decimal_digits c r Hlen Hdigits) as (v & Hv & Hbound).
    exists v. now rewrite Hv.
  - intros v Hv ->. apply parseInt_radio. lia.
Qed.

Lemma onSubmit_sends_what_was_selected_witness :
  exists body,
    onSubmit (Some sample_user) (Some sample_form_period) sample_form_values = Some body
    /\ b_targetDepartment body = Some "HR".
Proof.
  exists sample_body_of_form. split; [reflexivity|].
  destruct (onSubmit_sends_what_was_selected sample_user sample_form_period
              sample_form_values sample_body_of_form eq_refl) as (_ & _ & Htarget & _).
  exact Htarget.
Defined.

(** X14: [onSubmit], whenever [handleSubmit] calls it, sends no request
    exactly when nobody is signed in, no period is loaded, some question of
    the period has no rating among the values it is called with, a field of
    the user is empty, or the period has no department.  (Whether
    [handleSubmit] calls it at all is decided by the rules of the
    registered fields, which are not part of this statement.) *)
Theorem onSubmit_sends_nothing_iff
    (currentUser : option User) (feedbackPeriod : option FeedbackPeriod)
    (data : FormValues) :
  onSubmit currentUser feedbackPeriod data = None
  <-> currentUser = None
      \/ feedbackPeriod = None
      \/ exists user period,
           currentUser = Some user /\ feedbackPeriod = Some period
           /\ ((exists question, In question (fp_questions period)
                                 /\ ~ answered data question)
               \/ u_id user = EmptyString \/ u_name user = EmptyString
               \/ u_email user = EmptyString \/ u_department user = EmptyString
               \/ fp_department period = EmptyString).
Proof.
  unfold onSubmit.
  destruct currentUser as [user|]; [|split; [now left|reflexivity]].
  destruct feedbackPeriod as [period|]; [|split; [right; now left|reflexivity]].
  destruct (map_throwing (feedback_question_of data) (fp_questions period))
    as [qs|] eqn:Hqs.
  - assert (Hall : ~ exists question, In question (fp_questions period)
                                      /\ ~ answered data question).
    { intros [question [Hin Hnot]].
      apply feedback_question_of_None in Hnot.
      assert (Hnone : map_throwing (feedback_question_of data) (fp_questions period) = None)
        by (apply map_throwing_None; now exists question).
      congruence. }
    destruct (String.eqb_spec (u_id user) EmptyString) as [E1|N1];
      [split; [|reflexivity]; intros _; right; right; exists user, period; tauto|].
    destruct (String.eqb_spec (u_name user) EmptyString) as [E2|N2];
      [split; [|reflexivity]; intros _; right; right; exists user, period; tauto|].
    destruct (String.eqb_spec (u_email user) EmptyString) as [E3|N3];
      [split; [|reflexivity]; intros _; right; right; exists user, period; tauto|].
    destruct (String.eqb_spec (u_department user) EmptyString) as [E4|N4];
      [split; [|reflexivity]; intros _; right; right; exists user, period; tauto|].
    cbn [orb].
    destruct (String.eqb_spec (fp_department period) EmptyString) as [E5|N5];
      [split; [|reflexivity]; intros _; right; right; exists user, period; tauto|].
    split; [discriminate|].
    intros [Hu|[Hp|[user' [period' [Hu [Hp Hcases]]]]]]; try discriminate.
    injection Hu as <-. injection Hp as <-. exfalso. tauto.
  - split; [intros _|reflexivity]. right. right. exists user, period.
    split; [reflexivity|]. split; [reflexivity|]. left.
    apply map_throwing_None in Hqs. destruct Hqs as [question [Hin Hnone]].
    exists question. split; [exact Hin|]. now apply feedback_question_of_None.
Qed.


Lemma existsb_eqb_In (x : string) (l : list string) :
  In x l -> existsb (String.eqb x) l = true.
Proof.
  intros Hin. apply existsb_exists. exists x. split; [exact Hin|apply String.eqb_refl].
Qed.

Lemma existsb_eqb_notin (x : string) (l : list string) :
  existsb (String.eqb x) l = false <-> ~ In x l.
Proof.
  split.
  - intros Hf Hin. apply existsb_eqb_In in Hin. congruence.
  - intros Hnot. destruct (existsb (String.eqb x) l) eqn:E; [|reflexivity].
    exfalso. apply Hnot. apply existsb_exists in E. destruct E as [y [Hy Heq]].
    apply String.eqb_eq in Heq. now subst y.
Qed.

(** ** Submissions against the keys *)

Lemma ins_bind_run {A B : Type} (m : Ins A) (k : A -> Ins B) (db db1 : Db) (a : A) :
  m db = (inr a, db1) -> ins_bind m k db = k a db1.
Proof. unfold ins_bind. now intros ->. Qed.

Lemma ins_bind_fail {A B : Type} (m : Ins A) (k : A -> Ins B) (db db1 : Db)
    (e : InsertFailure) :
  m db = (inl e, db1) -> ins_bind m k db = (inl e, db1).
Proof. unfold ins_bind. now intros ->. Qed.

Lemma of_tx_run {A : Type} (m : Tx A) (db db1 : Db) (a : A) :
  m db = (inr a, db1) -> of_tx m db = (inr a, db1).
Proof. unfold of_tx. now intros ->. Qed.

Lemma of_tx_fail {A : Type} (m : Tx A) (db db1 : Db) (e : Failure) :
  m db = (inl e, db1) -> of_tx m db = (inl (Raised e), db1).
Proof. unfold of_tx. now intros ->. Qed.

Lemma primary_key_cases (constraint v : string) (keys : Db -> list string) (db : Db) :
  (existsb (String.eqb v) (keys db) = false
   /\ primary_key constraint v keys db = (inr tt, db))
  \/ (existsb (String.eqb v) (keys db) = true
      /\ primary_key constraint v keys db = (inl (ORA_00001 constraint), db)).
Proof. unfold primary_key. destruct (existsb _ (keys db)); [now right|now left]. Qed.

Lemma question_id_inj (n m : N) :
  (n < 10 ^ 8)%N -> (m < 10 ^ 8)%N -> question_id n = question_id m -> n = m.
Proof.
  intros Hn Hm Heq. unfold question_id in Heq. simpl in Heq.
  injection Heq as Heq.
  pose proof (parse_digits_padded n Hn) as Pn.
  pose proof (parse_digits_padded m Hm) as Pm.
  rewrite Heq in Pn. rewrite Pn in Pm. injection Pm as Pm. lia.
Qed.

(** Identifiers that all come from sequence values already drawn leave the
    next ones free, while the sequence stays below 10^8. *)
Lemma question_keys_free_from_sequence (next : N) (count : nat) (taken : list string) :
  (forall id, In id taken -> exists k, (k < next)%N /\ id = question_id k) ->
  (next + N.of_nat count <= 10 ^ 8)%N ->
  question_keys_free next count taken = true.
Proof.
  revert next taken. induction count as [|count IH]; intros next taken Htaken Hle;
    [reflexivity|].
  cbn [question_keys_free]. apply Bool.andb_true_iff. split.
  - apply Bool.negb_true_iff. apply existsb_eqb_notin. intros Hin.
    destruct (Htaken _ Hin) as [k [Hk Hid]].
    apply question_id_inj in Hid; lia.
  - apply IH; [|lia]. intros id Hin. apply in_app_or in Hin.
    destruct Hin as [Hin|[<-|[]]].
    + destruct (Htaken _ Hin) as [k [Hk Hid]]. exists k. split; [lia|exact Hid].
    + exists next. split; [lia|reflexivity].
Qed.

Lemma feedback_key_free_from_sequence (db : Db) :
  feedback_ids_from_sequence db -> (db_feedback_seq db < 10 ^ 8)%N ->
  feedback_key_free db = true.
Proof.
  intros [_ Hrows] Hseq. unfold feedback_key_free.
  apply Bool.negb_true_iff. apply existsb_eqb_notin. intros Hin.
  apply in_map_iff in Hin. destruct Hin as [row [Hid Hrow]].
  destruct (Hrows row Hrow) as [k [Hk Hidk]].
  rewrite Hidk in Hid. apply feedback_id_inj in Hid; lia.
Qed.

Section ReceivedSubmissions.

Context `{JsonStringify (list (option SubmittedQuestion))}.

Variable escape : string -> string.

Ltac keyed_fail R :=
  right; split; [reflexivity|]; eexists; eexists;
  repeat (first [ apply ins_bind_fail; exact R
                | erewrite ins_bind_run by eassumption ]).

Lemma insert_feedback_keyed_cases (now : Z) (body : ReceivedBody) (db : Db) :
  (header_fields_fit escape body db && feedback_key_free db = true
   /\ insert_feedback_keyed escape now body db
      = (inr (feedback_id (db_feedback_seq db)),
         with_feedback db (received_header escape now (db_feedback_seq db) body)))
  \/ (header_fields_fit escape body db && feedback_key_free db = false
      /\ exists e db1, insert_feedback_keyed escape now body db = (inl e, db1)).
Proof.
  unfold header_fields_fit, feedback_key_free, insert_feedback_keyed.
  rewrite (ins_bind_run (of_tx feedback_seq_NEXTVAL) _ db _ (db_feedback_seq db) eq_refl).
  cbv zeta.
  set (d0 := {| db_users := db_users db;
                db_departments := db_departments db;
                db_feedback_periods := db_feedback_periods db;
                db_feedbacks := db_feedbacks db;
                db_feedback_questions := db_feedback_questions db;
                db_feedback_seq := N.succ (db_feedback_seq db);
                db_feedback_question_seq := db_feedback_question_seq db |}).
  destruct (not_null_cases "USER_ID" (Some 36%nat) (r_userId body) d0)
    as [[H1 R1]|[H1 [e R1]]];
    [apply of_tx_run in R1|apply of_tx_fail in R1]; rewrite H1; [|keyed_fail R1].
  destruct (not_null_cases "USER_NAME" (Some 255%nat) (r_userName body) d0)
    as [[H2 R2]|[H2 [e R2]]];
    [apply of_tx_run in R2|apply of_tx_fail in R2]; rewrite H2; [|keyed_fail R2].
  destruct (not_null_cases "USER_EMAIL" (Some 255%nat) (r_userEmail body) d0)
    as [[H3 R3]|[H3 [e R3]]];
    [apply of_tx_run in R3|apply of_tx_fail in R3]; rewrite H3; [|keyed_fail R3].
  destruct (not_null_cases "USER_DEPARTMENT" (Some 100%nat) (r_userDepartment body) d0)
    as [[H4 R4]|[H4 [e R4]]];
    [apply of_tx_run in R4|apply of_tx_fail in R4]; rewrite H4; [|keyed_fail R4].
  destruct (not_null_cases "TARGET_DEPARTMENT" (Some 100%nat) (r_targetDepartment body) d0)
    as [[H5 R5]|[H5 [e R5]]];
    [apply of_tx_run in R5|apply of_tx_fail in R5]; rewrite H5; [|keyed_fail R5].
  destruct (not_null_cases "QUESTIONS" None
              (stringify_value escape (r_questions body)) d0)
    as [[H6 R6]|[H6 [e R6]]];
    [apply of_tx_run in R6|apply of_tx_fail in R6]; rewrite H6; [|keyed_fail R6].
  cbn [andb].
  destruct (primary_key_cases "FEEDBACKS_PK" (feedback_id (db_feedback_seq db))
              (fun db => map FB_ID (db_feedbacks db)) d0)
    as [[H0 R0]|[H0 R0]]; pose proof H0 as H0'; unfold d0 in H0'; db_simpl;
    rewrite H0'; cbn [negb];
    [rewrite Bool.andb_true_r
    |rewrite Bool.andb_false_r; right; split; [reflexivity|]; eexists; eexists;
     repeat (first [ apply ins_bind_fail; exact R0
                   | erewrite ins_bind_run by eassumption ])].
  destruct (references_cases "FK_FB_USER" (or_empty (r_userId body))
              (fun db => map U_ID (db_users db)) d0)
    as [[H7 R7]|[H7 [e R7]]];
    [apply of_tx_run in R7|apply of_tx_fail in R7];
    pose proof H7 as H7'; unfold d0 in H7'; db_simpl;
    rewrite H7'; [|keyed_fail R7].
  destruct (references_cases "FK_FB_USER_DEPT" (or_empty (r_userDepartment body))
              db_departments d0)
    as [[H8 R8]|[H8 [e R8]]];
    [apply of_tx_run in R8|apply of_tx_fail in R8];
    pose proof H8 as H8'; unfold d0 in H8'; db_simpl;
    rewrite H8'; [|keyed_fail R8].
  destruct (references_cases "FK_FB_TARGET_DEPT" (or_empty (r_targetDepartment body))
              db_departments d0)
    as [[H9 R9]|[H9 [e R9]]];
    [apply of_tx_run in R9|apply of_tx_fail in R9];
    pose proof H9 as H9'; unfold d0 in H9'; db_simpl;
    rewrite H9'; [|keyed_fail R9].
  left. split; [reflexivity|].
  rewrite (ins_bind_run _ _ _ _ _ R1), (ins_bind_run _ _ _ _ _ R2),
    (ins_bind_run _ _ _ _ _ R3), (ins_bind_run _ _ _ _ _ R4),
    (ins_bind_run _ _ _ _ _ R5), (ins_bind_run _ _ _ _ _ R6),
    (ins_bind_run _ _ _ _ _ R0),
    (ins_bind_run _ _ _ _ _ R7), (ins_bind_run _ _ _ _ _ R8),
    (ins_bind_run _ _ _ _ _ R9).
  reflexivity.
Qed.

Lemma insert_feedback_question_keyed_cases (now : Z) (fid : string)
    (element : option SubmittedQuestion) (d : Db) :
  existsb (String.eqb fid) (map FB_ID (db_feedbacks d)) = true ->
  (element_fits element
   && negb (existsb (String.eqb (question_id (db_feedback_question_seq d)))
              (map FQ_ID (db_feedback_questions d))) = true
   /\ insert_feedback_question_keyed now fid element d
      = (inr tt,
         with_questions d
           [received_question_row now (db_feedback_question_seq d) fid element]))
  \/ (element_fits element
      && negb (existsb (String.eqb (question_id (db_feedback_question_seq d)))
                 (map FQ_ID (db_feedback_questions d))) = false
      /\ exists e d', insert_feedback_question_keyed now fid element d = (inl e, d')).
Proof.
  intros Hfid. unfold element_fits, insert_feedback_question_keyed.
  destruct element as [q|];
    [|right; split; [reflexivity|]; eexists; eexists; reflexivity].
  unfold question_fits.
  rewrite (ins_bind_run (of_tx feedback_question_seq_NEXTVAL) _ d _
             (db_feedback_question_seq d) eq_refl).
  cbv zeta.
  set (d0 := {| db_users := db_users d;
                db_departments := db_departments d;
                db_feedback_periods := db_feedback_periods d;
                db_feedbacks := db_feedbacks d;
                db_feedback_questions := db_feedback_questions d;
                db_feedback_seq := db_feedback_seq d;
                db_feedback_question_seq := N.succ (db_feedback_question_seq d) |}).
  destruct (not_null_cases "TEXT" None (sq_text q) d0) as [[H1 R1]|[H1 [e R1]]];
    [apply of_tx_run in R1|apply of_tx_fail in R1]; rewrite H1;
    [|right; split; [reflexivity|]; eexists; eexists; apply ins_bind_fail; exact R1].
  rewrite (ins_bind_run _ _ _ _ _ R1).
  destruct (sq_rating q) as [r|] eqn:Hrating; cbn [andb];
    [|right; split; [reflexivity|]; eexists; eexists; apply ins_bind_fail; reflexivity].
  rewrite (ins_bind_run (of_tx (not_null_number "RATING" (Some r))) _ d0 d0 r eq_refl).
  destruct (primary_key_cases "FEEDBACK_QUESTIONS_PK"
              (question_id (db_feedback_question_seq d))
              (fun db => map FQ_ID (db_feedback_questions db)) d0)
    as [[H0 R0]|[H0 R0]]; pose proof H0 as H0'; unfold d0 in H0'; db_simpl;
    rewrite H0'; cbn [negb];
    [|right; split; [reflexivity|]; eexists; eexists; apply ins_bind_fail; exact R0].
  left. split; [reflexivity|].
  rewrite (ins_bind_run _ _ _ _ _ R0).
  rewrite (ins_bind_run _ _ d0 d0 tt)
    by (apply of_tx_run; apply references_run; unfold d0; db_simpl; exact Hfid).
  unfold of_tx, append_feedback_question, with_questions, received_question_row, d0.
  db_simpl. rewrite Hrating. do 2 f_equal.
  cbn [List.length N.of_nat Pos.of_succ_nat]. lia.
Qed.

Lemma insert_elements_cases (now : Z) (fid : string)
    (elements : list (option SubmittedQuestion)) (d : Db) :
  existsb (String.eqb fid) (map FB_ID (db_feedbacks d)) = true ->
  (forallb element_fits elements
   && question_keys_free (db_feedback_question_seq d) (List.length elements)
        (map FQ_ID (db_feedback_questions d)) = true
   /\ ins_for_each elements (insert_feedback_question_keyed now fid) d
      = (inr tt,
         with_questions d
           (received_question_rows now (db_feedback_question_seq d) fid elements)))
  \/ (forallb element_fits elements
      && question_keys_free (db_feedback_question_seq d) (List.length elements)
           (map FQ_ID (db_feedback_questions d)) = false
      /\ exists e d',
           ins_for_each elements (insert_feedback_question_keyed now fid) d
           = (inl e, d')).
Proof.
  revert d. induction elements as [|element elements IH]; intros d Hfid.
  - left. split; [reflexivity|]. simpl. unfold ins_ret, with_questions.
    destruct d; db_simpl. do 2 f_equal; [now rewrite app_nil_r|simpl; lia].
  - cbn [forallb List.length question_keys_free ins_for_each received_question_rows].
    destruct (insert_feedback_question_keyed_cases now fid element d Hfid)
      as [[Hfit Hrun]|[Hfit [e [d' Hrun]]]].
    + apply Bool.andb_true_iff in Hfit. destruct Hfit as [Hfit Hfree].
      rewrite Hfit, Hfree. cbn [andb].
      rewrite (ins_bind_run _ _ _ _ _ Hrun).
      set (row := received_question_row now (db_feedback_question_seq d) fid element).
      destruct (IH (with_questions d [row]) Hfid)
        as [[Hall Hrest]|[Hall [e [d' Hrest]]]];
        unfold with_questions at 1 2 in Hall; db_simpl;
        cbn [List.length N.of_nat Pos.of_succ_nat] in Hall;
        rewrite N.add_1_r, map_app in Hall; cbn [map] in Hall;
        change (FQ_ID row) with (question_id (db_feedback_question_seq d)) in Hall;
        rewrite Hall.
      * left. split; [reflexivity|]. rewrite Hrest.
        rewrite with_questions_cons. do 3 f_equal.
        unfold with_questions. db_simpl.
        cbn [List.length N.of_nat Pos.of_succ_nat]. now rewrite N.add_1_r.
      * right. split; [reflexivity|]. now exists e, d'.
    + right. split; [|exists e, d'; now apply ins_bind_fail].
      apply Bool.andb_false_iff in Hfit. destruct Hfit as [Hfit|Hfree].
      * now rewrite Hfit.
      * rewrite Hfree. cbn [andb]. apply Bool.andb_false_r.
Qed.

Lemma submit_transaction_keyed_cases (now : Z) (body : ReceivedBody) (db : Db) :
  (submittable escape body db = true
   /\ exists elements,
        iterate (r_questions body) = Some elements
        /\ submit_transaction_keyed escape now body db
           = (inr (feedback_id (db_feedback_seq db)),
              with_questions
                (with_feedback db (received_header escape now (db_feedback_seq db) body))
                (received_question_rows now (db_feedback_question_seq db)
                   (feedback_id (db_feedback_seq db)) elements)))
  \/ (submittable escape body db = false
      /\ exists e db1, submit_transaction_keyed escape now body db = (inl e, db1)).
Proof.
  unfold submittable, submit_transaction_keyed.
  destruct (insert_feedback_keyed_cases now body db)
    as [[Hfit Hheader]|[Hfit [e [db1 Hheader]]]]; rewrite Hfit.
  - rewrite (ins_bind_run _ _ _ _ _ Hheader). cbn [andb].
    set (row := received_header escape now (db_feedback_seq db) body).
    destruct (iterate (r_questions body)) as [elements|].
    + destruct (insert_elements_cases now (feedback_id (db_feedback_seq db)) elements
                  (with_feedback db row) (feedback_id_present db row))
        as [[Hall Hrun]|[Hall [e [d' Hrun]]]];
        unfold with_feedback at 1 2 in Hall; db_simpl; rewrite Hall.
      * left. split; [reflexivity|]. exists elements. split; [reflexivity|].
        now rewrite (ins_bind_run _ _ _ _ _ Hrun).
      * right. split; [reflexivity|]. exists e, d'. now apply ins_bind_fail.
    + right. split; [reflexivity|]. eexists. eexists.
      apply ins_bind_fail. reflexivity.
  - right. split; [reflexivity|]. exists e, db1. now apply ins_bind_fail.
Qed.

(** For an array of question objects and free keys, the handler with the
    keys accepts what the handler without them accepts, under the same
    identifier. *)
Lemma keyed_agrees_for_objects (now : Z) (body : ReceivedBody)
    (questions : list SubmittedQuestion) (db : Db) (id : string) :
  r_questions body = QuestionsElements (map Some questions) ->
  feedback_key_free db = true ->
  question_keys_free (db_feedback_question_seq db) (List.length questions)
    (map FQ_ID (db_feedback_questions db)) = true ->
  (exists db1,
     post_feedbacks_keyed escape now body db
     = (ReceivedOk id "Feedback submitted successfully", db1))
  <-> (exists db1,
         post_feedbacks (H := stringify_objects) now (with_objects body questions) db
         = (SubmitOk id "Feedback submitted successfully", db1)).
Proof.
  intros Hquestions Hfree Hfrees.
  assert (Hsame : submittable escape body db
                  = acceptable (H := stringify_objects) (with_objects body questions) db).
  { unfold submittable, acceptable, header_fields_fit, header_fits, with_objects.
    cbn [b_userId b_userName b_userEmail b_userDepartment b_targetDepartment
         b_questions option_map].
    rewrite Hquestions, Hfree. cbn [iterate stringify_value].
    rewrite length_map, Hfrees, !Bool.andb_true_r.
    unfold stringify_objects, JSON_stringify at 2. f_equal.
    clear. induction questions as [|q qs IH]; [reflexivity|].
    cbn [map forallb element_fits]. now rewrite IH. }
  unfold post_feedbacks_keyed, post_feedbacks.
  destruct (submit_transaction_keyed_cases now body db)
    as [[Hacc [elements [_ Hrun]]]|[Hacc [e [db1 Hrun]]]]; rewrite Hrun;
    destruct (submit_transaction_cases (H := stringify_objects) now
                (with_objects body questions) db)
      as [[Hacc' [rows Hrun']]|[Hacc' [e' [db1' Hrun']]]]; rewrite Hrun';
    try (rewrite Hsame in Hacc; congruence).
  - split; intros [db1 Heq]; injection Heq as <- _; eauto.
  - split; intros [db2 Heq]; discriminate Heq.
Qed.

(** X8: [POST /api/feedbacks], with the primary keys of the tables and with
    any value for [questions], where the other fields are strings and the
    ratings integers.  It answers 200 exactly when every required string is
    present, non-empty and within its column, the user and both
    departments exist, the identifier drawn for the feedback is not stored
    yet, and [questions] is iterated as elements that are all objects with
    a non-empty text and a rating, for which the identifiers drawn are
    free; it then stores the header row and one row per element.  Any
    other body is answered 500 and leaves every table as it was.  A string
    for [questions] is accepted exactly when it is the empty string and the
    header can be stored (no row is stored for a question then); for null
    and for a value that is not iterable the header row is inserted first
    and removed by the rollback, the sequence value staying drawn.  While
    the stored identifiers come from the sequences and fewer than 10^8
    values have been drawn, the identifiers drawn are free. *)
Theorem submission_accepted_iff (now : Z) (body : ReceivedBody) (db : Db) :
  ((exists id db1,
      post_feedbacks_keyed escape now body db
      = (ReceivedOk id "Feedback submitted successfully", db1))
   <-> submittable escape body db = true)
  /\ (submittable escape body db = true ->
      exists elements,
        iterate (r_questions body) = Some elements
        /\ post_feedbacks_keyed escape now body db
           = (ReceivedOk (feedback_id (db_feedback_seq db))
                "Feedback submitted successfully",
              with_questions
                (with_feedback db (received_header escape now (db_feedback_seq db) body))
                (received_question_rows now (db_feedback_question_seq db)
                   (feedback_id (db_feedback_seq db)) elements)))
  /\ (submittable escape body db = false ->
      exists e db1,
        post_feedbacks_keyed escape now body db = (ReceivedError 500 e, db1)
        /\ same_tables db db1)
  /\ (forall text,
        r_questions body = QuestionsString text ->
        (submittable escape body db = true
         <-> header_fields_fit escape body db = true
             /\ feedback_key_free db = true
             /\ text = EmptyString))
  /\ (iterate (r_questions body) = None ->
      header_fields_fit escape body db = true ->
      feedback_key_free db = true ->
      post_feedbacks_keyed escape now body db
      = (ReceivedError 500 (Raised (TypeError "questions is not iterable")),
         rollback db
           (with_feedback db (received_header escape now (db_feedback_seq db) body))))
  /\ (feedback_ids_from_sequence db -> (db_feedback_seq db < 10 ^ 8)%N ->
      feedback_key_free db = true)
  /\ (question_ids_from_sequence db ->
      forall count,
        (db_feedback_question_seq db + N.of_nat count <= 10 ^ 8)%N ->
        question_keys_free (db_feedback_question_seq db) count
          (map FQ_ID (db_feedback_questions db)) = true).
Proof.
  split; [|split; [|split; [|split; [|split; [|split]]]]].
  - unfold post_feedbacks_keyed.
    destruct (submit_transaction_keyed_cases now body db)
      as [[Hacc [elements [_ Hrun]]]|[Hacc [e [db1 Hrun]]]]; rewrite Hrun, Hacc.
    + split; [reflexivity|]. intros _. eauto.
    + split; [|discriminate]. intros [id [db2 Heq]]. discriminate.
  - unfold post_feedbacks_keyed.
    destruct (submit_transaction_keyed_cases now body db)
      as [[Hacc [elements [Hiter Hrun]]]|[Hacc [e [db1 Hrun]]]]; rewrite Hrun, Hacc;
      [|discriminate].
    intros _. exists elements. now split.
  - unfold post_feedbacks_keyed.
    destruct (submit_transaction_keyed_cases now body db)
      as [[Hacc [elements [_ Hrun]]]|[Hacc [e [db1 Hrun]]]]; rewrite Hrun, Hacc;
      [discriminate|].
    intros _. exists e, (rollback db db1). split; [reflexivity|].
    unfold same_tables, rollback. db_simpl. repeat split.
  - intros text Htext. unfold submittable. rewrite Htext. cbn [iterate].
    destruct text as [|c text].
    + cbn [list_ascii_of_string map forallb List.length question_keys_free andb].
      rewrite Bool.andb_true_r, Bool.andb_true_iff. tauto.
    + cbn [list_ascii_of_string map forallb element_fits].
      change (question_fits no_fields) with false. cbn [andb].
      rewrite Bool.andb_false_r. split; [discriminate|].
      intros (_ & _ & Hempty). discriminate Hempty.
  - intros Hiter Hfields Hfree. unfold post_feedbacks_keyed, submit_transaction_keyed.
    destruct (insert_feedback_keyed_cases now body db)
      as [[_ Hheader]|[Hfit _]];
      [|rewrite Hfields, Hfree in Hfit; discriminate Hfit].
    rewrite (ins_bind_run _ _ _ _ _ Hheader), Hiter. reflexivity.
  - apply feedback_key_free_from_sequence.
  - intros Hrows count Hle. apply question_keys_free_from_sequence; [|exact Hle].
    intros id Hin. apply in_map_iff in Hin. destruct Hin as [row [<- Hrow]].
    destruct (Hrows row Hrow) as [k [Hk Hid]]. now exists k.
Qed.

End ReceivedSubmissions.

Lemma submission_accepted_iff_witness :
  post_feedbacks_keyed (H := sample_JSON_stringify_elements) sample_escape 10
    (sample_received (QuestionsString EmptyString)) sample_db
  = (ReceivedOk "FB00000001" "Feedback submitted successfully",
     with_feedback sample_db
       (received_header (H := sample_JSON_stringify_elements) sample_escape 10 1
          (sample_received (QuestionsString EmptyString)))).
Proof.
  destruct (submission_accepted_iff (H := sample_JSON_stringify_elements) sample_escape
              10 (sample_received (QuestionsString EmptyString)) sample_db)
    as (_ & Hstored & _ & Htext & _).
  assert (Hacc : submittable (H := sample_JSON_stringify_elements) sample_escape
                   (sample_received (QuestionsString EmptyString)) sample_db = true).
  { apply (Htext EmptyString eq_refl). repeat split. }
  destruct (Hstored Hacc) as (elements & Hiter & Hrun).
  injection Hiter as <-. exact Hrun.
Defined.

Section FormToBackend.

Context `{JsonStringify (list SubmittedQuestion)}.


End FormToBackend.


(** ** Feedbacks of one department *)

Lemma JsMap_has_app {V : Type} (m m' : JsMap.t V) (k : string) :
  JsMap.has (m ++ m') k = JsMap.has m k || JsMap.has m' k.
Proof.
  induction m as [|[k' v] m IH]; [reflexivity|].
  simpl. destruct (String.eqb k' k); [reflexivity|exact IH].
Qed.

Lemma JsMap_mutate_last {V : Type} (m : JsMap.t V) (k : string) (v : V) (f : V -> V) :
  JsMap.has m k = false ->
  JsMap.mutate (m ++ [(k, v)]) k f = m ++ [(k, f v)].
Proof.
  induction m as [|[k' v'] m IH]; intros Hfresh; simpl in *.
  - now rewrite String.eqb_refl.
  - destruct (String.eqb k' k); [discriminate|]. now rewrite IH.
Qed.

Lemma JsMap_has_last {V : Type} (m : JsMap.t V) (k : string) (v : V) :
  JsMap.has (m ++ [(k, v)]) k = true.
Proof.
  rewrite JsMap_has_app. simpl. rewrite String.eqb_refl. apply Bool.orb_true_r.
Qed.

(** Rows of one feedback that follow its first row: each pushes its
    question, if it has an identifier. *)
Lemma collect_rows_same (f : FeedbackRow) (qs : list FeedbackQuestionRow)
    (m : JsMap.t DepartmentFeedback) (e : DepartmentFeedback) :
  JsMap.has m (FB_ID f) = false ->
  fold_left collect_row
    (map (fun q => {| j_feedback := f; j_question := Some q |}) qs)
    (m ++ [(FB_ID f, e)])
  = m ++ [(FB_ID f,
           fold_left (fun acc q =>
                        if negb (String.eqb (FQ_ID q) EmptyString)
                        then push_question q acc else acc)
                     qs e)].
Proof.
  intros Hfresh. revert e. induction qs as [|q qs IH]; intros e; [reflexivity|].
  simpl. unfold collect_row at 2. cbn [j_feedback j_question].
  rewrite JsMap_has_last. cbn [negb].
  destruct (negb (String.eqb (FQ_ID q) EmptyString)).
  - rewrite JsMap_mutate_last by exact Hfresh. apply IH.
  - apply IH.
Qed.

Lemma push_questions_from (qs : list FeedbackQuestionRow) (e : DepartmentFeedback) :
  fold_left (fun acc q =>
               if negb (String.eqb (FQ_ID q) EmptyString)
               then push_question q acc else acc)
            qs e
  = {| df_id := df_id e;
       df_userId := df_userId e;
       df_userName := df_userName e;
       df_userEmail := df_userEmail e;
       df_userDepartment := df_userDepartment e;
       df_targetDepartment := df_targetDepartment e;
       df_additionalComment := df_additionalComment e;
       df_createdAt := df_createdAt e;
       df_questions :=
         df_questions e
         ++ map department_question_of
              (filter (fun q => negb (String.eqb (FQ_ID q) EmptyString)) qs) |}.
Proof.
  revert e. induction qs as [|q qs IH]; intros e; simpl.
  - rewrite app_nil_r. now destruct e.
  - destruct (negb (String.eqb (FQ_ID q) EmptyString)); rewrite IH; [|reflexivity].
    simpl. now rewrite <- app_assoc.
Qed.

Lemma collect_join (questions : list FeedbackQuestionRow) (f : FeedbackRow)
    (m : JsMap.t DepartmentFeedback) :
  JsMap.has m (FB_ID f) = false ->
  fold_left collect_row (join_questions questions f) m
  = m ++ [(FB_ID f, grouped_feedback questions f)].
Proof.
  intros Hfresh. unfold join_questions, grouped_feedback.
  destruct (filter (fun q => String.eqb (FB_ID f) (FQ_FEEDBACK_ID q)) questions)
    as [|q qs].
  - simpl. unfold collect_row. cbn [j_feedback j_question].
    rewrite Hfresh. cbn [negb]. now rewrite JsMap_set_fresh by exact Hfresh.
  - cbn [map fold_left]. unfold collect_row at 2. cbn [j_feedback j_question].
    rewrite Hfresh. cbn [negb]. rewrite JsMap_set_fresh by exact Hfresh.
    assert (Hfirst :
      (if negb (String.eqb (FQ_ID q) EmptyString)
       then JsMap.mutate
              (m ++ [(FB_ID f,
                      department_feedback_of {| j_feedback := f; j_question := Some q |})])
              (FB_ID f) (push_question q)
       else m ++ [(FB_ID f,
                   department_feedback_of {| j_feedback := f; j_question := Some q |})])
      = m ++ [(FB_ID f,
               if negb (String.eqb (FQ_ID q) EmptyString)
               then push_question q
                      (department_feedback_of {| j_feedback := f; j_question := Some q |})
               else department_feedback_of {| j_feedback := f; j_question := Some q |})]).
    { destruct (negb (String.eqb (FQ_ID q) EmptyString)); [|reflexivity].
      now apply JsMap_mutate_last. }
    rewrite Hfirst, collect_rows_same by exact Hfresh.
    rewrite push_questions_from.
    cbn [filter]. destruct (negb (String.eqb (FQ_ID q) EmptyString)); reflexivity.
Qed.

Lemma JsMap_has_grouped (questions : list FeedbackQuestionRow)
    (fs : list FeedbackRow) (k : string) :
  JsMap.has (map (fun f => (FB_ID f, grouped_feedback questions f)) fs) k
  = existsb (fun id => String.eqb id k) (map FB_ID fs).
Proof.
  induction fs as [|f fs IH]; [reflexivity|].
  simpl. destruct (String.eqb (FB_ID f) k); [reflexivity|exact IH].
Qed.

Lemma collect_joins (questions : list FeedbackQuestionRow)
    (fs done : list FeedbackRow) :
  NoDup (map FB_ID (done ++ fs)) ->
  fold_left collect_row (flat_map (join_questions questions) fs)
    (map (fun f => (FB_ID f, grouped_feedback questions f)) done)
  = map (fun f => (FB_ID f, grouped_feedback questions f)) (done ++ fs).
Proof.
  revert done. induction fs as [|f fs IH]; intros done Hnd.
  - simpl. now rewrite app_nil_r.
  - simpl flat_map. rewrite fold_left_app, collect_join.
    + replace (done ++ f :: fs) with ((done ++ [f]) ++ fs)
        by (now rewrite <- app_assoc).
      rewrite <- IH by (now rewrite <- app_assoc).
      now rewrite map_app.
    + rewrite JsMap_has_grouped. apply existsb_eqb_false.
      rewrite map_app in Hnd. simpl in Hnd.
      apply NoDup_remove_2 in Hnd. intros Hin. apply Hnd.
      apply in_or_app. now left.
Qed.

(** X16: when the identifiers of the feedbacks table are pairwise distinct,
    [GET /api/feedbacks/department/:department] answers with exactly one
    object per feedback that targets the department, newest first, each
    with the question rows of that feedback that carry an identifier, in
    table order; a feedback without question rows is listed with no
    questions; the database is left as it was. *)
Theorem department_feedbacks_grouped (dept : string) (db : Db)
    (Hids : NoDup (map FB_ID (db_feedbacks db))) :
  snd (get_department_feedbacks dept db) = db
  /\ fst (get_department_feedbacks dept db)
     = map (grouped_feedback (db_feedback_questions db))
         (order_by (fun x y => FB_CREATED_AT y <=? FB_CREATED_AT x)
            (filter (fun f => String.eqb (FB_TARGET_DEPARTMENT f) dept)
                    (db_feedbacks db)))
  /\ (forall f, In f (db_feedbacks db) -> FB_TARGET_DEPARTMENT f = dept ->
        In (grouped_feedback (db_feedback_questions db) f)
           (fst (get_department_feedbacks dept db)))
  /\ (forall e, In e (fst (get_department_feedbacks dept db)) ->
        df_targetDepartment e = dept
        /\ map dq_rating (df_questions e)
           = map FQ_RATING
               (filter (fun q => negb (String.eqb (FQ_ID q) EmptyString))
                  (filter (fun q => String.eqb (df_id e) (FQ_FEEDBACK_ID q))
                          (db_feedback_questions db))))
  /\ StronglySorted (fun a b => df_createdAt b <= df_createdAt a)
       (fst (get_department_feedbacks dept db)).
Proof.
  set (sorted := order_by (fun x y => FB_CREATED_AT y <=? FB_CREATED_AT x)
                   (filter (fun f => String.eqb (FB_TARGET_DEPARTMENT f) dept)
                           (db_feedbacks db))).
  assert (Hresp : fst (get_department_feedbacks dept db)
                  = map (grouped_feedback (db_feedback_questions db)) sorted).
  { unfold get_department_feedbacks, department_feedbacks_response,
      select_department_feedbacks. cbn [fst]. fold sorted.
    change (@JsMap.empty DepartmentFeedback)
      with (map (fun f => (FB_ID f, grouped_feedback (db_feedback_questions db) f)) []).
    rewrite collect_joins.
    - unfold JsMap.values. simpl app. rewrite map_map. reflexivity.
    - simpl app. unfold sorted.
      apply (Permutation_NoDup
               (l := map FB_ID (filter (fun f => String.eqb (FB_TARGET_DEPARTMENT f) dept)
                                       (db_feedbacks db)))).
      + apply Permutation_map. symmetry. apply order_by_Permutation.
      + clear sorted. induction (db_feedbacks db) as [|f fs IH]; [constructor|].
        simpl in *. inversion Hids as [|? ? Hnotin Hnd]. subst.
        destruct (String.eqb (FB_TARGET_DEPARTMENT f) dept); [|now apply IH].
        simpl. constructor; [|now apply IH].
        intros Hin. apply Hnotin. apply in_map_iff in Hin.
        destruct Hin as [g [Hg Hin]]. apply filter_In in Hin.
        apply in_map_iff. exists g. tauto. }
  split; [reflexivity|]. split; [exact Hresp|]. rewrite Hresp. split; [|split].
  - intros f Hf Ht. apply in_map. unfold sorted. apply order_by_In.
    apply filter_In. split; [exact Hf|]. now apply String.eqb_eq.
  - intros e He. apply in_map_iff in He. destruct He as [f [<- Hf]].
    unfold sorted in Hf. apply order_by_In in Hf. apply filter_In in Hf.
    destruct Hf as [_ Ht]. apply String.eqb_eq in Ht.
    split; [exact Ht|]. cbn [grouped_feedback df_questions df_id].
    rewrite map_map. reflexivity.
  - apply (StronglySorted_map (fun x y => FB_CREATED_AT y <= FB_CREATED_AT x)).
    + intros a b Hab. exact Hab.
    + unfold sorted. eapply StronglySorted_impl_own; [|apply order_by_sorted].
      * intros a b Hab. now apply Z.leb_le in Hab.
      * intros x y. destruct (Z.leb_spec (FB_CREATED_AT y) (FB_CREATED_AT x)); [now left|].
        right. apply Z.leb_le. lia.
      * intros x y z Hxy Hyz. apply Z.leb_le in Hxy, Hyz. apply Z.leb_le. lia.
Qed.

Lemma department_feedbacks_grouped_witness :
  map (fun e => (df_id e, map dq_rating (df_questions e)))
      (fst (get_department_feedbacks "HR"
              (snd (post_feedbacks (H := sample_JSON_stringify) 10 (sample_body 4)
                      sample_db))))
  = [("FB00000001", [4])].
Proof.
  destruct (department_feedbacks_grouped "HR"
              (snd (post_feedbacks (H := sample_JSON_stringify) 10 (sample_body 4)
                      sample_db)))
    as (_ & Hresp & _).
  - simpl. constructor; [intros []|constructor].
  - rewrite Hresp. reflexivity.
Defined.

(** ** Feedback periods *)

Section Periods.

Context `{JsonParse (list Question)} `{JsonStringify (list Question)}.

Variable bind_date : option Z -> option Z.

Lemma fits_true (size : option nat) (v : option string) :
  fits size v = true
  <-> exists s, v = Some s /\ s <> EmptyString
                /\ match size with
                   | Some n => (String.length s <= n)%nat
                   | None => True
                   end.
Proof.
  unfold fits. destruct v as [s|].
  - destruct (String.eqb_spec s EmptyString) as [->|Hne]; cbn [negb andb].
    + split; [discriminate|]. intros (s & Hs & Hne & _). injection Hs as <-. congruence.
    + destruct size as [n|].
      * rewrite Nat.leb_le. split.
        -- intros Hle. now exists s.
        -- intros (s' & Hs & _ & Hle). now injection Hs as <-.
      * split; [intros _; now exists s|reflexivity].
  - split; [discriminate|]. intros (s & Hs & _). discriminate.
Qed.

(** The [INSERT] succeeds exactly under [period_insertable], and then
    appends [created_row]. *)
Lemma insert_period_cases (periodId : string) (now : Z) (body : PeriodBody) (db : Db) :
  (period_insertable bind_date periodId body db = true
   /\ insert_period bind_date now periodId (pb_department body)
        (new_Date (pb_startDate body)) (new_Date (pb_endDate body))
        (stringify_questions (pb_questions body)) db
      = inr (with_period db (created_row bind_date periodId now body)))
  \/ (period_insertable bind_date periodId body db = false
      /\ exists e,
           insert_period bind_date now periodId (pb_department body)
             (new_Date (pb_startDate body)) (new_Date (pb_endDate body))
             (stringify_questions (pb_questions body)) db
           = inl e).
Proof.
  unfold period_insertable, insert_period, created_row.
  destruct (not_null_cases "ID" (Some 36%nat) (Some periodId) db)
    as [[H1 R1]|[H1 [e R1]]]; rewrite H1, R1; cbn [raised pf_bind andb];
    [|right; split; [reflexivity|eauto]].
  destruct (not_null_cases "DEPARTMENT" (Some 100%nat) (pb_department body) db)
    as [[H2 R2]|[H2 [e R2]]]; rewrite H2, R2; cbn [raised pf_bind andb];
    [|right; split; [now rewrite Bool.andb_false_r|eauto]].
  destruct (bind_date (new_Date (pb_startDate body))) as [startDate|];
    cbn [pf_bind];
    [|right; split; [now rewrite !Bool.andb_false_r|eauto]].
  destruct (bind_date (new_Date (pb_endDate body))) as [endDate|];
    cbn [pf_bind];
    [|right; split; [now rewrite !Bool.andb_false_r|eauto]].
  destruct (not_null_cases "QUESTIONS" None
              (stringify_questions (pb_questions body)) db)
    as [[H3 R3]|[H3 [e R3]]]; rewrite H3, R3; cbn [raised pf_bind andb or_empty];
    [|right; split; [now rewrite !Bool.andb_false_r|eauto]].
  destruct (existsb (String.eqb periodId) (map FP_ID (db_feedback_periods db)) );
    cbn [negb pf_bind andb];
    [right; split; [reflexivity|eauto]|].
  destruct (references_cases "FK_FP_DEPARTMENT" (or_empty (pb_department body))
              db_departments db)
    as [[H4 R4]|[H4 [e R4]]]; rewrite H4, R4; cbn [raised pf_bind andb];
    [|right; split; [reflexivity|eauto]].
  destruct (startDate <? endDate); cbn [pf_bind];
    [left|right]; split; try reflexivity; [|eauto].
  do 2 f_equal.
  destruct (stringify_questions (pb_questions body)); [reflexivity|discriminate H3].
Qed.

(** X17: [POST /api/feedback-periods] stores a period exactly when the
    identifier is new, the department is a text of at most 100 characters
    that names a department, [JSON.stringify] gives the questions a
    non-empty text, and both dates reach their columns as timestamps with
    the end after the start; a date that is [null] counts as the epoch and
    questions that are [null] as the text [null].  It then answers 201 and
    appends one active row; otherwise it answers 500 and stores nothing.
    Creation keeps every stored period ending after it starts. *)
Theorem create_period_checks
    (periodId : string) (now : Z) (body : PeriodBody) (db : Db) :
  ((exists created db1,
      create_period bind_date periodId now body db = (PeriodCreated 201 created, db1))
   <-> exists department startDate endDate questions,
         periodId <> EmptyString /\ (String.length periodId <= 36)%nat
         /\ ~ In periodId (map FP_ID (db_feedback_periods db))
         /\ pb_department body = Some department
         /\ department <> EmptyString /\ (String.length department <= 100)%nat
         /\ In department (db_departments db)
         /\ stringify_questions (pb_questions body) = Some questions
         /\ questions <> EmptyString
         /\ bind_date (new_Date (pb_startDate body)) = Some startDate
         /\ bind_date (new_Date (pb_endDate body)) = Some endDate
         /\ startDate < endDate)
  /\ (forall status created db1,
        create_period bind_date periodId now body db
        = (PeriodCreated status created, db1) ->
        status = 201
        /\ cp_id created = periodId /\ cp_active created = true
        /\ cp_questions created = pb_questions body
        /\ db1 = with_period db (created_row bind_date periodId now body)
        /\ FP_ACTIVE (created_row bind_date periodId now body) = 1
        /\ FP_START_DATE (created_row bind_date periodId now body)
           < FP_END_DATE (created_row bind_date periodId now body))
  /\ (forall status error db1,
        create_period bind_date periodId now body db
        = (PeriodError status error, db1) ->
        status = 500 /\ db1 = db)
  /\ (pb_startDate body = DateNull ->
      forall status created db1,
        create_period bind_date periodId now body db
        = (PeriodCreated status created, db1) ->
        cp_startDate created = Some 0
        /\ bind_date (Some 0)
           = Some (FP_START_DATE (created_row bind_date periodId now body)))
  /\ (pb_questions body = QuestionsNull ->
      FP_QUESTIONS (created_row bind_date periodId now body) = Some "null")
  /\ (periods_end_after_start db ->
      periods_end_after_start (snd (create_period bind_date periodId now body db))).
Proof.
  assert (Hdates : period_insertable bind_date periodId body db = true ->
            exists startDate endDate,
              bind_date (new_Date (pb_startDate body)) = Some startDate
              /\ bind_date (new_Date (pb_endDate body)) = Some endDate
              /\ startDate < endDate).
  { unfold period_insertable. intros Hins.
    apply Bool.andb_true_iff in Hins. destruct Hins as [_ Hins].
    destruct (bind_date (new_Date (pb_startDate body))) as [startDate|]; [|discriminate].
    destruct (bind_date (new_Date (pb_endDate body))) as [endDate|]; [|discriminate].
    exists startDate, endDate. repeat split. now apply Z.ltb_lt. }
  assert (Hrow : period_insertable bind_date periodId body db = true ->
            FP_START_DATE (created_row bind_date periodId now body)
            < FP_END_DATE (created_row bind_date periodId now body)).
  { intros Hins. destruct (Hdates Hins) as (startDate & endDate & Hs & He & Hlt).
    unfold created_row. cbn. now rewrite Hs, He. }
  unfold create_period.
  destruct (insert_period_cases periodId now body db)
    as [[Hins Hrun]|[Hins [e Hrun]]]; rewrite Hrun.
  - split; [|split; [|split; [|split; [|split]]]].
    + split; [intros _|intros _; eauto].
      destruct (Hdates Hins) as (startDate & endDate & Hs & He & Hlt).
      unfold period_insertable in Hins.
      do 5 (apply Bool.andb_true_iff in Hins; destruct Hins as [Hins ?]).
      match goal with
      | Hx : fits (Some 100%nat) _ = true |- _ => rename Hx into Hd
      end.
      match goal with
      | Hx : fits None _ = true |- _ => rename Hx into Hq
      end.
      match goal with
      | Hx : negb (existsb (String.eqb periodId) _) = true |- _ => rename Hx into Hpk
      end.
      match goal with
      | Hx : existsb _ (db_departments db) = true |- _ => rename Hx into Hfk
      end.
      apply fits_true in Hd. destruct Hd as (department & Hd & Hdne & Hdlen).
      apply fits_true in Hq. destruct Hq as (questions & Hq & Hqne & _).
      apply fits_true in Hins. destruct Hins as (id & Hid & Hidne & Hidlen).
      injection Hid as <-.
      apply Bool.negb_true_iff in Hpk. apply existsb_eqb_notin in Hpk.
      rewrite Hd in Hfk. cbn [or_empty] in Hfk.
      apply existsb_exists in Hfk. destruct Hfk as [d [Hd1 Hd2]].
      apply String.eqb_eq in Hd2. subst d.
      exists department, startDate, endDate, questions.
      now repeat split.
    + intros status created db1 Heq. injection Heq as <- <- <-.
      cbn. repeat split. now apply Hrow.
    + discriminate.
    + intros Hnull status created db1 Heq. injection Heq as <- <- <-.
      cbn [cp_startDate]. rewrite Hnull. cbn [new_Date]. split; [reflexivity|].
      destruct (Hdates Hins) as (startDate & endDate & Hs & _).
      unfold created_row. cbn [FP_START_DATE]. rewrite Hnull in *. cbn [new_Date] in *.
      now rewrite Hs.
    + intros Hnull. unfold created_row. cbn [FP_QUESTIONS]. now rewrite Hnull.
    + intros Hinv row Hin. cbn [snd with_period db_feedback_periods] in Hin.
      apply in_app_or in Hin. destruct Hin as [Hin|[<-|[]]]; [now apply Hinv|].
      now apply Hrow.
  - split; [|split; [|split; [|split; [|split]]]].
    + split; [intros (created & db1 & Heq); discriminate|].
      intros (department & startDate & endDate & questions & Hidne & Hidlen & Hpk
              & Hd & Hdne & Hdlen & Hfk & Hq & Hqne & Hs & He & Hlt).
      exfalso. apply Bool.not_true_iff_false in Hins. apply Hins.
      unfold period_insertable. rewrite Hs, He, Hd, Hq. cbn [or_empty].
      rewrite (proj2 (fits_true (Some 36%nat) (Some periodId)))
        by (exists periodId; now repeat split).
      rewrite (proj2 (fits_true (Some 100%nat) (Some department)))
        by (exists department; now repeat split).
      rewrite (proj2 (fits_true None (Some questions)))
        by (exists questions; now repeat split).
      rewrite (proj2 (existsb_eqb_notin _ _) Hpk).
      rewrite (existsb_eqb_In _ _ Hfk).
      cbn [negb andb]. now apply Z.ltb_lt.
    + discriminate.
    + intros status error db1 Heq. injection Heq as <- _ <-. now split.
    + discriminate.
    + intros Hnull. unfold created_row. cbn [FP_QUESTIONS]. now rewrite Hnull.
    + intros Hinv. exact Hinv.
Qed.

Lemma order_by_map_rows {A : Type} (before : A -> A -> bool) (g : A -> A) (l : list A) :
  (forall x y, before (g x) (g y) = before x y) ->
  order_by before (map g l) = map g (order_by before l).
Proof.
  intros Hg. unfold order_by. induction l as [|x l IH]; [reflexivity|].
  simpl. rewrite IH. generalize (fold_right (insert_by before) [] l). intros s.
  induction s as [|y s IHs]; [reflexivity|].
  simpl. rewrite Hg. destruct (before x y); [reflexivity|]. simpl. now rewrite IHs.
Qed.

Lemma insert_by_filter {A : Type} (before : A -> A -> bool) (p : A -> bool)
    (x : A) (l : list A) :
  (forall a b c, before a b = true -> before b c = true -> before a c = true) ->
  StronglySorted (fun a b => before a b = true) l ->
  filter p (insert_by before x l)
  = if p x then insert_by before x (filter p l) else filter p l.
Proof.
  intros Htrans. induction 1 as [|y l Hsorted IH Hall]; simpl.
  - now destruct (p x).
  - destruct (before x y) eqn:Hxy.
    + simpl. destruct (p x) eqn:Hpx; [|reflexivity].
      destruct (p y) eqn:Hpy.
      * simpl. now rewrite Hxy.
      * assert (Hrest : forall z, In z (filter p l) -> before x z = true).
        { intros z Hz. apply filter_In in Hz. destruct Hz as [Hz _].
          apply (Htrans x y z Hxy).
          now apply (proj1 (Forall_forall _ _) Hall). }
        destruct (filter p l) as [|z s]; [reflexivity|].
        simpl. now rewrite (Hrest z) by now left.
    + simpl. rewrite IH. destruct (p y) eqn:Hpy; destruct (p x) eqn:Hpx; simpl;
        rewrite ?Hxy; reflexivity.
Qed.

Lemma order_by_filter {A : Type} (before : A -> A -> bool) (p : A -> bool) (l : list A) :
  (forall a b, before a b = true \/ before b a = true) ->
  (forall a b c, before a b = true -> before b c = true -> before a c = true) ->
  order_by before (filter p l) = filter p (order_by before l).
Proof.
  intros Htotal Htrans. induction l as [|x l IH]; [reflexivity|].
  simpl. change (fold_right (insert_by before) [] l) with (order_by before l).
  rewrite insert_by_filter by (try exact Htrans; now apply order_by_sorted).
  destruct (p x); [|exact IH].
  simpl. change (fold_right (insert_by before) [] (filter p l))
    with (order_by before (filter p l)).
  now rewrite IH.
Qed.

Lemma created_desc_total (x y : FeedbackPeriodRow) :
  (FP_CREATED_AT y <=? FP_CREATED_AT x) = true
  \/ (FP_CREATED_AT x <=? FP_CREATED_AT y) = true.
Proof.
  destruct (Z.leb_spec (FP_CREATED_AT y) (FP_CREATED_AT x)); [now left|].
  right. apply Z.leb_le. lia.
Qed.

Lemma created_desc_trans (x y z : FeedbackPeriodRow) :
  (FP_CREATED_AT y <=? FP_CREATED_AT x) = true ->
  (FP_CREATED_AT z <=? FP_CREATED_AT y) = true ->
  (FP_CREATED_AT z <=? FP_CREATED_AT x) = true.
Proof. intros Hxy Hyz. apply Z.leb_le in Hxy, Hyz. apply Z.leb_le. lia. Qed.

(** X18: a toggle sets the flag of the rows with the given identifier to
    the opposite of the [currentActive] that the client sent, whatever was
    stored, and touches nothing else; the list that the manager component
    keeps after a successful toggle is the list the server would send
    again; a period switched off is served neither to the form nor to any
    employee's list. *)
Theorem toggle_period_effect (id : string) (currentActive : bool) (db : Db) :
  fst (toggle_period id currentActive db) = true
  /\ list_periods (snd (toggle_period id currentActive db))
     = manager_toggled id currentActive (list_periods db)
  /\ (forall row, In row (db_feedback_periods (snd (toggle_period id currentActive db))) ->
        FP_ID row = id -> FP_ACTIVE row = if currentActive then 0 else 1)
  /\ (~ In id (map FP_ID (db_feedback_periods db)) ->
      snd (toggle_period id currentActive db) = db)
  /\ snd (toggle_period id currentActive (snd (toggle_period id currentActive db)))
     = snd (toggle_period id currentActive db)
  /\ (currentActive = true ->
      forall userId now user,
        get_period id userId (snd (toggle_period id currentActive db)) = None
        /\ forall data,
             fst (get_available_feedbacks now (Some user)
                    (snd (toggle_period id currentActive db)))
             = AvailableOk data ->
             ~ In id (map fp_id (d_feedbackPeriods data))).
Proof.
  set (upd := fun row =>
    if String.eqb (FP_ID row) id then
      {| FP_ID := FP_ID row; FP_DEPARTMENT := FP_DEPARTMENT row;
         FP_START_DATE := FP_START_DATE row; FP_END_DATE := FP_END_DATE row;
         FP_QUESTIONS := FP_QUESTIONS row;
         FP_ACTIVE := if currentActive then 0 else 1;
         FP_CREATED_AT := FP_CREATED_AT row |}
    else row).
  assert (Hupd_id : forall row, FP_ID (upd row) = FP_ID row).
  { intros row. unfold upd. now destruct (String.eqb (FP_ID row) id). }
  assert (Hupd_created : forall row, FP_CREATED_AT (upd row) = FP_CREATED_AT row).
  { intros row. unfold upd. now destruct (String.eqb (FP_ID row) id). }
  assert (Hupd_active : forall row, FP_ID row = id ->
            FP_ACTIVE (upd row) = if currentActive then 0 else 1).
  { intros row Hid. unfold upd. now rewrite Hid, String.eqb_refl. }
  assert (Hdb : snd (toggle_period id currentActive db)
                = set_periods db (map upd (db_feedback_periods db))) by reflexivity.
  split; [reflexivity|]. rewrite Hdb. split; [|split; [|split; [|split]]].
  - unfold list_periods, manager_toggled. cbn [set_periods db_feedback_periods].
    rewrite order_by_map_rows by (intros x y; now rewrite !Hupd_created).
    rewrite !map_map. apply map_ext. intros row.
    unfold period_of_row, upd. cbn [fp_id].
    destruct (String.eqb (FP_ID row) id); [|reflexivity].
    cbn. f_equal. now destruct currentActive.
  - intros row Hrow Hid. cbn [set_periods db_feedback_periods] in Hrow.
    apply in_map_iff in Hrow. destruct Hrow as [row0 [<- Hrow0]].
    apply Hupd_active. now rewrite <- Hupd_id.
  - intros Hnotin. unfold set_periods. destruct db as [us ds ps fs qs s1 s2].
    cbn in *. f_equal. rewrite <- (map_id ps) at 2. apply map_ext_in.
    intros row Hrow. unfold upd.
    destruct (String.eqb_spec (FP_ID row) id) as [E|_]; [|reflexivity].
    exfalso. apply Hnotin. apply in_map_iff. now exists row.
  - assert (Hidem : forall row, upd (upd row) = upd row).
    { intros row. unfold upd.
      destruct (String.eqb (FP_ID row) id) eqn:E; cbn; now rewrite E. }
    change (toggle_period id currentActive
              (set_periods db (map upd (db_feedback_periods db))))
      with (true, set_periods (set_periods db (map upd (db_feedback_periods db)))
                    (map upd (map upd (db_feedback_periods db)))).
    cbn [snd]. unfold set_periods. cbn. f_equal.
    rewrite map_map. apply map_ext. exact Hidem.
  - intros -> userId now user.
    assert (Hoff : forall row, In row (map upd (db_feedback_periods db)) ->
              String.eqb (FP_ID row) id && (FP_ACTIVE row =? 1) = false).
    { intros row Hrow. apply in_map_iff in Hrow. destruct Hrow as [row0 [<- Hrow0]].
      destruct (String.eqb_spec (FP_ID (upd row0)) id) as [E|_]; [|reflexivity].
      rewrite Hupd_id in E. now rewrite (Hupd_active row0 E). }
    split.
    + unfold get_period. cbn [set_periods db_feedback_periods].
      rewrite (filter_ext_in _ (fun _ => false)) by exact Hoff.
      now rewrite filter_false.
    + intros data Hdata Hin. unfold get_available_feedbacks in Hdata.
      destruct user as [|c s]; [discriminate|]. cbn [fst] in Hdata.
      injection Hdata as <-. cbn [d_feedbackPeriods] in Hin.
      rewrite map_map in Hin. apply in_map_iff in Hin.
      destruct Hin as [row [Hid Hrow]]. cbn [period_of_row fp_id] in Hid.
      apply select_active_periods_In in Hrow.
      destruct Hrow as [Hrow [Hact _]]. cbn [set_periods db_feedback_periods] in Hrow.
      pose proof (Hoff row Hrow) as Hfalse.
      rewrite Hid, String.eqb_refl, Hact in Hfalse. discriminate.
Qed.

(** X19: a deletion removes the rows with the given identifier and no
    other; afterwards the period is not listed, is not served to the form,
    and the list that the manager component keeps is the list the server
    would send again; deleting an unknown identifier changes nothing and is
    still answered with success. *)
Theorem delete_period_effect (id : string) (db : Db) :
  fst (delete_period id db) = true
  /\ list_periods (snd (delete_period id db)) = manager_deleted id (list_periods db)
  /\ ~ In id (map fp_id (list_periods (snd (delete_period id db))))
  /\ (forall userId, get_period id userId (snd (delete_period id db)) = None)
  /\ (forall row, In row (db_feedback_periods db) -> FP_ID row <> id ->
        In row (db_feedback_periods (snd (delete_period id db))))
  /\ (~ In id (map FP_ID (db_feedback_periods db)) -> snd (delete_period id db) = db).
Proof.
  assert (Hlist : list_periods (snd (delete_period id db))
                  = manager_deleted id (list_periods db)).
  { unfold list_periods, manager_deleted, delete_period.
    cbn [snd set_periods db_feedback_periods].
    rewrite order_by_filter by (intros; first [apply created_desc_total
                                              |eapply created_desc_trans; eassumption]).
    generalize (order_by (fun x y => FP_CREATED_AT y <=? FP_CREATED_AT x)
                  (db_feedback_periods db)).
    intros rows. induction rows as [|row rows IH]; [reflexivity|].
    simpl. cbn [fp_id period_of_row].
    destruct (String.eqb (FP_ID row) id); simpl; now rewrite IH. }
  split; [reflexivity|]. split; [exact Hlist|]. split; [|split; [|split]].
  - rewrite Hlist. unfold manager_deleted. intros Hin. apply in_map_iff in Hin.
    destruct Hin as [period [Hid Hin]]. apply filter_In in Hin.
    destruct Hin as [_ Hne]. rewrite Hid, String.eqb_refl in Hne. discriminate.
  - intros userId. unfold get_period, delete_period.
    cbn [snd set_periods db_feedback_periods].
    rewrite filter_filter.
    rewrite (filter_ext _ (fun _ => false)); [now rewrite filter_false|].
    intros row. destruct (String.eqb (FP_ID row) id); reflexivity.
  - intros row Hrow Hne. unfold delete_period. cbn [snd set_periods db_feedback_periods].
    apply filter_In. split; [exact Hrow|].
    apply Bool.negb_true_iff. now apply String.eqb_neq.
  - intros Hnotin. unfold delete_period, set_periods. cbn [snd].
    destruct db as [us ds ps fs qs s1 s2]. cbn in *. f_equal.
    rewrite (filter_ext_in _ (fun _ => true)); [apply filter_true|].
    intros row Hrow. apply Bool.negb_true_iff. apply String.eqb_neq.
    intros E. apply Hnotin. apply in_map_iff. now exists row.
Qed.

End Periods.

Lemma create_period_checks_witness :
  exists created db1,
    create_period (H0 := sample_JSON_stringify_questions) sample_bind_date "FP-2" 50
      {| pb_department := Some "Civil"; pb_startDate := DateNull;
         pb_endDate := DateValue 200; pb_questions := QuestionsNull |}
      sample_db
    = (PeriodCreated 201 created, db1).
Proof.
  destruct (create_period_checks (H0 := sample_JSON_stringify_questions)
              sample_bind_date "FP-2" 50
              {| pb_department := Some "Civil"; pb_startDate := DateNull;
                 pb_endDate := DateValue 200; pb_questions := QuestionsNull |}
              sample_db) as (Hiff & _).
  apply Hiff. exists "Civil", 0, 200, "null".
  repeat split; try discriminate; try (simpl; lia).
  - intros [Hin|[]]. discriminate Hin.
  - simpl. tauto.
Defined.

Section PeriodsOffered.

Context `{JsonParse (list Question)} `{JsonStringify (list Question)}
        `{JsonStringify (list SubmittedQuestion)}.

Variable bind_date : option Z -> option Z.

Lemma get_period_found (id : string) (userId : option string) (db : Db)
    (row : FeedbackPeriodRow) :
  NoDup (map FP_ID (db_feedback_periods db)) ->
  In row (db_feedback_periods db) -> FP_ID row = id -> FP_ACTIVE row = 1 ->
  get_period id userId db = Some (period_of_row row).
Proof.
  intros Hnd Hrow Hid Hact. unfold get_period.
  induction (db_feedback_periods db) as [|r rows IH]; [destruct Hrow|].
  simpl in Hnd. inversion Hnd as [|? ? Hnotin Hnd']. subst.
  destruct Hrow as [->|Hrow].
  - simpl. now rewrite String.eqb_refl, Hact.
  - simpl. destruct (String.eqb_spec (FP_ID r) (FP_ID row)) as [E|_].
    + exfalso. apply Hnotin. rewrite E. now apply in_map.
    + now apply IH.
Qed.

(** X20: a period that has just been created is served to the form under
    its identifier, and is offered to every signed-in employee of another
    department who has no feedback stored for the period's department, at
    any time before its end. *)
Theorem created_period_is_offered
    (periodId : string) (now : Z) (body : PeriodBody) (db : Db)
    (department : string) (endDate : Z)
    (Hins : period_insertable bind_date periodId body db = true)
    (Hdept : pb_department body = Some department)
    (Hend : bind_date (new_Date (pb_endDate body)) = Some endDate) :
  (forall userId,
     exists period,
       get_period periodId userId (snd (create_period bind_date periodId now body db))
       = Some period
       /\ fp_id period = periodId /\ fp_department period = department
       /\ fp_endDate period = endDate /\ fp_active period = true)
  /\ (forall now' currentUser st,
        u_id currentUser <> EmptyString ->
        now' < endDate ->
        u_department currentUser <> department ->
        (forall f, In f (db_feedbacks db) -> FB_USER_ID f = u_id currentUser ->
                   FB_TARGET_DEPARTMENT f <> department) ->
        exists data,
          get_available_feedbacks now' (Some (u_id currentUser))
            (snd (create_period bind_date periodId now body db))
          = (AvailableOk data, snd (create_period bind_date periodId now body db))
          /\ In periodId
               (map fp_id
                    (availablePeriods
                       (fetchAvailableFeedbacks (Some currentUser) (Some data) st)))).
Proof.
  set (row := created_row bind_date periodId now body).
  assert (Hdb : snd (create_period bind_date periodId now body db) = with_period db row).
  { unfold create_period.
    destruct (insert_period_cases bind_date periodId now body db)
      as [[_ Hrun]|[Hno _]]; [now rewrite Hrun|congruence]. }
  assert (Hrow_id : FP_ID row = periodId) by reflexivity.
  assert (Hrow_dept : FP_DEPARTMENT row = department).
  { unfold row, created_row. cbn [FP_DEPARTMENT]. now rewrite Hdept. }
  assert (Hrow_end : FP_END_DATE row = endDate).
  { unfold row, created_row. cbn [FP_END_DATE]. now rewrite Hend. }
  assert (Hrow_active : FP_ACTIVE row = 1) by reflexivity.
  assert (Hpk : existsb (String.eqb periodId) (map FP_ID (db_feedback_periods db)) = false).
  { unfold period_insertable in Hins.
    do 4 (apply Bool.andb_true_iff in Hins; destruct Hins as [Hins _]).
    apply Bool.andb_true_iff in Hins. destruct Hins as [_ Hins].
    now apply Bool.negb_true_iff in Hins. }
  rewrite Hdb. clearbody row.
  assert (Hrow : In row (db_feedback_periods (with_period db row))).
  { cbn [with_period db_feedback_periods]. apply in_or_app. right. now left. }
  split.
  - intros userId. exists (period_of_row row). split.
    + unfold get_period. cbn [with_period db_feedback_periods].
      rewrite filter_app.
      assert (Hfresh : filter (fun r => String.eqb (FP_ID r) periodId && (FP_ACTIVE r =? 1))
                              (db_feedback_periods db) = []).
      { rewrite (filter_ext_in _ (fun _ => false)); [apply filter_false|].
        intros r Hr. destruct (String.eqb_spec (FP_ID r) periodId) as [E|_]; [|reflexivity].
        exfalso. apply Bool.not_true_iff_false in Hpk. apply Hpk.
        apply existsb_exists. exists (FP_ID r). split;
          [now apply in_map|rewrite E; apply String.eqb_refl]. }
      rewrite Hfresh. simpl. now rewrite Hrow_id, String.eqb_refl, Hrow_active.
    + cbn [period_of_row fp_id fp_department fp_endDate fp_active].
      now rewrite Hrow_id, Hrow_dept, Hrow_end, Hrow_active.
  - intros now' currentUser st Hid Hnow Hother Hnone.
    rewrite get_available_feedbacks_ok by exact Hid.
    eexists. split; [reflexivity|].
    rewrite availablePeriods_after_fetch by exact Hid.
    cbn [d_feedbackPeriods d_submittedDepartments].
    apply in_map_iff. exists (period_of_row row). split; [exact Hrow_id|].
    apply offered_periods_In. exists row.
    split; [exact Hrow|]. split; [reflexivity|]. split; [exact Hrow_active|].
    split; [now rewrite Hrow_end|]. split; [now rewrite Hrow_dept|].
    intros f Hf. rewrite Hrow_dept. now apply Hnone.
Qed.

(** X21: the form endpoint serves an active period by its identifier
    whoever asks and whatever its dates, and answers 404 exactly when no
    active row has the identifier; an accepted feedback submission leaves
    the periods as they are, so the period is served again afterwards. *)
Theorem form_period_served
    (id : string) (userId : option string) (db : Db) :
  (get_period id userId db = None
   <-> forall row, In row (db_feedback_periods db) -> FP_ID row = id ->
                   FP_ACTIVE row <> 1)
  /\ (forall userId', get_period id userId' db = get_period id userId db)
  /\ (forall row,
        NoDup (map FP_ID (db_feedback_periods db)) ->
        In row (db_feedback_periods db) -> FP_ID row = id -> FP_ACTIVE row = 1 ->
        get_period id userId db = Some (period_of_row row))
  /\ (forall now body fid message db1,
        post_feedbacks now body db = (SubmitOk fid message, db1) ->
        get_period id userId db1 = get_period id userId db).
Proof.
  split; [|split; [|split]].
  - unfold get_period.
    destruct (filter _ (db_feedback_periods db)) as [|r rows] eqn:Hf.
    + split; [|reflexivity]. intros _ row Hrow Hid Hact.
      assert (Hin : In row (filter (fun row => String.eqb (FP_ID row) id
                                               && (FP_ACTIVE row =? 1))
                                   (db_feedback_periods db))).
      { apply filter_In. split; [exact Hrow|].
        rewrite Hid, String.eqb_refl, Hact. reflexivity. }
      rewrite Hf in Hin. destruct Hin.
    + split; [discriminate|]. intros Hall. exfalso.
      assert (Hin : In r (filter (fun row => String.eqb (FP_ID row) id
                                             && (FP_ACTIVE row =? 1))
                                 (db_feedback_periods db)))
        by (rewrite Hf; now left).
      apply filter_In in Hin. destruct Hin as [Hr Hc].
      apply Bool.andb_true_iff in Hc. destruct Hc as [Hid Hact].
      apply String.eqb_eq in Hid. apply Z.eqb_eq in Hact.
      now apply (Hall r Hr Hid).
  - reflexivity.
  - intros row. apply get_period_found.
  - intros now body fid message db1 Hpost.
    apply post_feedbacks_ok in Hpost.
    destruct Hpost as (user & target & json & qs & rows & _ & _ & _ & _ & -> & _).
    reflexivity.
Qed.

End PeriodsOffered.

Lemma created_period_is_offered_witness :
  exists data,
    get_available_feedbacks (H := sample_JSON_parse_questions) 60 (Some "U1")
      (snd (create_period (H0 := sample_JSON_stringify_questions) sample_bind_date
              "FP-2" 50 sample_period_body sample_db))
    = (AvailableOk data,
       snd (create_period (H0 := sample_JSON_stringify_questions) sample_bind_date
              "FP-2" 50 sample_period_body sample_db))
    /\ In "FP-2"
          (map fp_id
               (availablePeriods
                  (fetchAvailableFeedbacks (Some sample_user) (Some data) initial_state))).
Proof.
  destruct (created_period_is_offered
              (H := sample_JSON_parse_questions) (H0 := sample_JSON_stringify_questions)
              sample_bind_date "FP-2" 50 sample_period_body sample_db "Civil" 200
              eq_refl eq_refl eq_refl) as [_ Hoffer].
  apply (Hoffer 60 sample_user initial_state).
  - discriminate.
  - lia.
  - discriminate.
  - intros f [].
Defined.

(** ** Accounts *)

Lemma filter_key_nil {A : Type} (key : A -> string) (k : string) (rows : list A) :
  filter (fun r => String.eqb (key r) k) rows = [] <-> ~ In k (map key rows).
Proof.
  induction rows as [|r rows IH]; simpl; [tauto|].
  destruct (String.eqb_spec (key r) k) as [E|N].
  - split; [discriminate|]. intros Hnot. exfalso. apply Hnot. now left.
  - rewrite IH. tauto.
Qed.

Lemma filter_key_In {A : Type} (key : A -> string) (k : string) (rows : list A)
    (row : A) (rest : list A) :
  filter (fun r => String.eqb (key r) k) rows = row :: rest ->
  In row rows /\ key row = k.
Proof.
  intros Hf.
  assert (Hin : In row (filter (fun r => String.eqb (key r) k) rows))
    by (rewrite Hf; now left).
  apply filter_In in Hin. destruct Hin as [Hin Hk].
  apply String.eqb_eq in Hk. now split.
Qed.

Lemma filter_key_unique {A : Type} (key : A -> string) (rows : list A) (row : A) :
  NoDup (map key rows) -> In row rows ->
  filter (fun r => String.eqb (key r) (key row)) rows = [row].
Proof.
  induction rows as [|r rows IH]; intros Hnd Hin; [destruct Hin|].
  simpl in Hnd. inversion Hnd as [|? ? Hnotin Hnd']. subst.
  destruct Hin as [->|Hin]; simpl.
  - rewrite String.eqb_refl. f_equal. now apply filter_key_nil.
  - destruct (String.eqb_spec (key r) (key row)) as [E|_].
    + exfalso. apply Hnotin. rewrite E. now apply in_map.
    + now apply IH.
Qed.

Lemma user_id_inj (n m : N) :
  (n < 10 ^ 8)%N -> (m < 10 ^ 8)%N -> user_id n = user_id m -> n = m.
Proof.
  intros Hn Hm Heq. unfold user_id in Heq. simpl in Heq.
  injection Heq as Heq.
  pose proof (parse_digits_padded n Hn) as Pn.
  pose proof (parse_digits_padded m Hm) as Pm.
  rewrite Heq in Pn. rewrite Pn in Pm. injection Pm as Pm. lia.
Qed.

Lemma split_on_space_nonempty (s : string) : split_on_space s <> [].
Proof.
  destruct s as [|c s]; simpl; [discriminate|].
  destruct (Ascii.eqb c " "); [discriminate|].
  destruct (split_on_space s); discriminate.
Qed.

Lemma split_on_space_word (word rest : string) :
  contains_space word = false ->
  split_on_space (String.append word (String " " rest)) = word :: split_on_space rest.
Proof.
  induction word as [|c word IH]; intros Hword; [reflexivity|].
  simpl in Hword. apply Bool.orb_false_iff in Hword. destruct Hword as [Hc Hword].
  simpl. rewrite Hc, (IH Hword). reflexivity.
Qed.

Lemma split_on_space_single (word : string) :
  contains_space word = false -> split_on_space word = [word].
Proof.
  induction word as [|c word IH]; intros Hword; [reflexivity|].
  simpl in Hword. apply Bool.orb_false_iff in Hword. destruct Hword as [Hc Hword].
  simpl. rewrite Hc, (IH Hword). reflexivity.
Qed.

Lemma token_of_header_scheme (scheme token : string) :
  contains_space scheme = false -> contains_space token = false ->
  token_of_header (Some (String.append scheme (String " " token))) = Some token.
Proof.
  intros Hscheme Htoken. unfold token_of_header.
  destruct (String.eqb_spec (String.append scheme (String " " token)) EmptyString)
    as [E|_].
  - destruct scheme; discriminate E.
  - rewrite split_on_space_word by exact Hscheme.
    rewrite split_on_space_single by exact Htoken. reflexivity.
Qed.

Section Accounts.

Variable bcrypt_hash : string -> string -> string.
Variable bcrypt_compare : string -> string -> bool.
Variable jwt_sign : Z -> TokenPayload -> string.
Variable jwt_verify : Z -> string -> option TokenPayload.

Lemma signup_ok (salt : string) (now : Z) (body : SignupBody) (acc acc1 : Accounts)
    (token : string) (user : AuthUser) :
  signup bcrypt_hash jwt_sign salt now body acc = (AuthOk token user, acc1) ->
  missing (sb_email body) = false /\ missing (sb_password body) = false
  /\ ~ In (or_empty (sb_email body)) (map (fun r => U_EMAIL (A_USER r)) (acc_users acc))
  /\ ~ In (user_id (acc_user_id_seq acc)) (map (fun r => U_ID (A_USER r)) (acc_users acc))
  /\ user = {| au_id := user_id (acc_user_id_seq acc);
               au_email := or_empty (sb_email body);
               au_name := or_empty (sb_name body);
               au_department := or_empty (sb_department body);
               au_isAdmin := false; au_role := None |}
  /\ token = jwt_sign now
               {| tp_id := user_id (acc_user_id_seq acc);
                  tp_email := or_empty (sb_email body);
                  tp_name := Some (or_empty (sb_name body));
                  tp_department := or_empty (sb_department body);
                  tp_isAdmin := false; tp_role := None |}
  /\ acc1 = with_account acc (N.succ (acc_user_id_seq acc))
              (acc_users acc ++ [signed_up_row bcrypt_hash salt body acc]).
Proof.
  unfold signup. intros Hs.
  destruct (missing (sb_email body)) eqn:He; [discriminate|].
  destruct (missing (sb_password body)) eqn:Hp; [discriminate|].
  cbn [orb] in Hs.
  destruct (missing (sb_name body) || missing (sb_department body));
    [discriminate|].
  destruct (filter _ (acc_users acc)) eqn:Hf; [|discriminate].
  destruct (account_insertable _ _ _ _ _ acc) eqn:Hins; [|discriminate].
  injection Hs as <- <- <-.
  apply (filter_key_nil (fun r => U_EMAIL (A_USER r))) in Hf.
  unfold account_insertable in Hins.
  repeat (apply Bool.andb_true_iff in Hins; destruct Hins as [Hins ?]).
  match goal with
  | Hid : negb (existsb (String.eqb (user_id _)) _) = true |- _ =>
      apply Bool.negb_true_iff in Hid; apply existsb_eqb_notin in Hid
  end.
  repeat split; assumption.
Qed.

Lemma signup_rows (salt : string) (now : Z) (body : SignupBody) (acc : Accounts) :
  snd (signup bcrypt_hash jwt_sign salt now body acc) = acc
  \/ snd (signup bcrypt_hash jwt_sign salt now body acc)
     = with_account acc (N.succ (acc_user_id_seq acc)) (acc_users acc)
  \/ exists token user,
       signup bcrypt_hash jwt_sign salt now body acc
       = (AuthOk token user,
          with_account acc (N.succ (acc_user_id_seq acc))
            (acc_users acc ++ [signed_up_row bcrypt_hash salt body acc])).
Proof.
  unfold signup.
  destruct (missing (sb_email body) || missing (sb_password body)
            || missing (sb_name body) || missing (sb_department body));
    [now left|].
  destruct (filter _ (acc_users acc)); [|now left].
  destruct (account_insertable _ _ _ _ _ acc); [|right; now left].
  right; right. eexists. eexists. reflexivity.
Qed.

(** X22: signing up keeps the accounts consistent (no two share an e-mail
    address or an identifier, every identifier comes from a sequence value
    already drawn) while fewer than 10^8 identifiers have been drawn, and it
    never adds or changes an administrator; an accepted sign-up stores one
    new row, under an address and an identifier that no account had, with
    the hash of the password and not as an administrator. *)
Theorem signup_keeps_accounts_consistent
    (salt : string) (now : Z) (body : SignupBody) (acc : Accounts)
    (Hinv : accounts_consistent acc)
    (Hseq : (acc_user_id_seq acc < 10 ^ 8)%N) :
  accounts_consistent (snd (signup bcrypt_hash jwt_sign salt now body acc))
  /\ administrators (snd (signup bcrypt_hash jwt_sign salt now body acc))
     = administrators acc
  /\ forall token user,
       fst (signup bcrypt_hash jwt_sign salt now body acc) = AuthOk token user ->
       au_isAdmin user = false
       /\ ~ In (au_email user) (map (fun r => U_EMAIL (A_USER r)) (acc_users acc))
       /\ ~ In (au_id user) (map (fun r => U_ID (A_USER r)) (acc_users acc))
       /\ acc_users (snd (signup bcrypt_hash jwt_sign salt now body acc))
          = acc_users acc
            ++ [{| A_USER := {| U_ID := au_id user; U_EMAIL := au_email user;
                                U_NAME := au_name user;
                                U_DEPARTMENT := au_department user;
                                U_IS_ADMIN := 0 |};
                   A_PASSWORD := bcrypt_hash salt (or_empty (sb_password body)) |}].
Proof.
  destruct Hinv as (Hemails & Hids & Hrows).
  split; [|split].
  - destruct (signup_rows salt now body acc) as [->|[->|(token & user & Hs)]].
    + now repeat split.
    + split; [exact Hemails|]. split; [exact Hids|].
      intros row Hrow. destruct (Hrows row Hrow) as [k [Hk Hid]].
      exists k. cbn [with_account acc_user_id_seq]. split; [lia|exact Hid].
    + pose proof (signup_ok _ _ _ _ _ _ _ Hs) as (_ & _ & Hemail & Hid & _).
      rewrite Hs. cbn [snd]. unfold accounts_consistent.
      cbn [with_account acc_users acc_user_id_seq]. rewrite !map_app.
      split; [now apply NoDup_snoc|]. split; [now apply NoDup_snoc|].
      intros row Hrow. apply in_app_or in Hrow. destruct Hrow as [Hrow|[<-|[]]].
      * destruct (Hrows row Hrow) as [k [Hk Hidk]]. exists k. split; [lia|exact Hidk].
      * exists (acc_user_id_seq acc). split; [lia|reflexivity].
  - destruct (signup_rows salt now body acc) as [->|[->|(token & user & Hs)]];
      [reflexivity|reflexivity|].
    rewrite Hs. unfold administrators. cbn [snd with_account acc_users].
    rewrite filter_app. simpl. apply app_nil_r.
  - intros token user Hfst.
    destruct (signup bcrypt_hash jwt_sign salt now body acc) as [response acc1] eqn:Hs.
    cbn [fst] in Hfst. subst response.
    pose proof (signup_ok _ _ _ _ _ _ _ Hs) as (_ & _ & Hemail & Hid & -> & _ & ->).
    cbn [snd au_isAdmin au_email au_id au_name au_department with_account acc_users].
    now repeat split.
Qed.

Lemma login_found (now : Z) (body : LoginBody) (acc : Accounts) (row : AccountRow) :
  missing (lb_email body) = false -> missing (lb_password body) = false ->
  NoDup (map (fun r => U_EMAIL (A_USER r)) (acc_users acc)) ->
  In row (acc_users acc) -> U_EMAIL (A_USER row) = or_empty (lb_email body) ->
  login bcrypt_compare jwt_sign now body acc
  = if bcrypt_compare (or_empty (lb_password body)) (A_PASSWORD row) then
      AuthOk
        (jwt_sign now
           {| tp_id := U_ID (A_USER row); tp_email := U_EMAIL (A_USER row);
              tp_name := None; tp_department := U_DEPARTMENT (A_USER row);
              tp_isAdmin := U_IS_ADMIN (A_USER row) =? 1;
              tp_role := Some (role_of (U_IS_ADMIN (A_USER row) =? 1)) |})
        {| au_id := U_ID (A_USER row); au_email := U_EMAIL (A_USER row);
           au_name := U_NAME (A_USER row);
           au_department := U_DEPARTMENT (A_USER row);
           au_isAdmin := U_IS_ADMIN (A_USER row) =? 1;
           au_role := Some (role_of (U_IS_ADMIN (A_USER row) =? 1)) |}
    else AuthError 401 "Invalid email or password".
Proof.
  intros He Hp Hnd Hin Hemail. unfold login. rewrite He, Hp. cbn [orb].
  rewrite <- Hemail.
  rewrite (filter_key_unique (fun r => U_EMAIL (A_USER r)) _ _ Hnd Hin).
  reflexivity.
Qed.

(** X23: someone who has just signed up can log in with the same address
    and password, provided [bcrypt.compare] accepts the password against
    the hash that [bcrypt.hash] made of it: the answer carries the
    identifier, name and department of the sign-up, the role ['user'] and
    no administrator flag; with a password that [bcrypt.compare] rejects
    the answer is 401. *)
Theorem signup_then_login
    (salt : string) (now now' : Z) (body : SignupBody) (acc acc1 : Accounts)
    (token : string) (user : AuthUser)
    (Hinv : accounts_consistent acc)
    (Hsignup : signup bcrypt_hash jwt_sign salt now body acc = (AuthOk token user, acc1))
    (Hcompare : bcrypt_compare (or_empty (sb_password body))
                  (bcrypt_hash salt (or_empty (sb_password body))) = true) :
  login bcrypt_compare jwt_sign now'
    {| lb_email := sb_email body; lb_password := sb_password body |} acc1
  = AuthOk
      (jwt_sign now'
         {| tp_id := au_id user; tp_email := au_email user; tp_name := None;
            tp_department := au_department user; tp_isAdmin := false;
            tp_role := Some "user" |})
      {| au_id := au_id user; au_email := au_email user; au_name := au_name user;
         au_department := au_department user; au_isAdmin := false;
         au_role := Some "user" |}
  /\ forall password,
       password <> EmptyString ->
       bcrypt_compare password (bcrypt_hash salt (or_empty (sb_password body))) = false ->
       login bcrypt_compare jwt_sign now'
         {| lb_email := sb_email body; lb_password := Some password |} acc1
       = AuthError 401 "Invalid email or password".
Proof.
  pose proof (signup_ok _ _ _ _ _ _ _ Hsignup)
    as (He & Hp & Hemail & Hid & -> & _ & ->).
  destruct Hinv as (Hemails & _).
  assert (Hnd : NoDup (map (fun r => U_EMAIL (A_USER r))
                           (acc_users acc ++ [signed_up_row bcrypt_hash salt body acc]))).
  { rewrite map_app. now apply NoDup_snoc. }
  assert (Hin : In (signed_up_row bcrypt_hash salt body acc)
                   (acc_users acc ++ [signed_up_row bcrypt_hash salt body acc])).
  { apply in_or_app. right. now left. }
  split.
  - rewrite (login_found now' _ _ (signed_up_row bcrypt_hash salt body acc));
      cbn [lb_email lb_password with_account acc_users]; try assumption;
      try reflexivity.
    cbn [signed_up_row A_USER A_PASSWORD]. rewrite Hcompare. reflexivity.
  - intros password Hne Hreject.
    rewrite (login_found now' _ _ (signed_up_row bcrypt_hash salt body acc));
      cbn [lb_email lb_password with_account acc_users or_empty]; try assumption;
      try reflexivity.
    + cbn [signed_up_row A_USER A_PASSWORD]. rewrite Hreject. reflexivity.
    + unfold missing. cbn [or_empty]. now apply String.eqb_neq.
Qed.

(** X24: logging in succeeds only for a stored account with the given
    address whose stored hash [bcrypt.compare] accepts, and then answers
    with that account's identifier and administrator flag; when no account
    with the address passes the comparison, whether the address is unknown
    or the password wrong, the answer is the same 401. *)
Theorem login_needs_matching_password
    (now : Z) (body : LoginBody) (acc : Accounts) :
  (forall token user,
     login bcrypt_compare jwt_sign now body acc = AuthOk token user ->
     exists row,
       In row (acc_users acc)
       /\ U_EMAIL (A_USER row) = or_empty (lb_email body)
       /\ bcrypt_compare (or_empty (lb_password body)) (A_PASSWORD row) = true
       /\ au_id user = U_ID (A_USER row)
       /\ au_isAdmin user = (U_IS_ADMIN (A_USER row) =? 1)
       /\ au_role user = Some (if U_IS_ADMIN (A_USER row) =? 1 then "admin" else "user"))
  /\ (missing (lb_email body) = false -> missing (lb_password body) = false ->
      (forall row, In row (acc_users acc) ->
                   U_EMAIL (A_USER row) = or_empty (lb_email body) ->
                   bcrypt_compare (or_empty (lb_password body)) (A_PASSWORD row) = false) ->
      login bcrypt_compare jwt_sign now body acc
      = AuthError 401 "Invalid email or password")
  /\ (missing (lb_email body) = true \/ missing (lb_password body) = true ->
      login bcrypt_compare jwt_sign now body acc
      = AuthError 400 "Email and password are required").
Proof.
  split; [|split].
  - intros token user. unfold login.
    destruct (missing (lb_email body) || missing (lb_password body)); [discriminate|].
    destruct (filter _ (acc_users acc)) as [|row rest] eqn:Hf; [discriminate|].
    destruct (bcrypt_compare _ (A_PASSWORD row)) eqn:Hc; [|discriminate].
    intros Hok. injection Hok as _ <-.
    apply (filter_key_In (fun r => U_EMAIL (A_USER r))) in Hf.
    destruct Hf as [Hin Hemail]. exists row. now repeat split.
  - intros He Hp Hall. unfold login. rewrite He, Hp. cbn [orb].
    destruct (filter _ (acc_users acc)) as [|row rest] eqn:Hf; [reflexivity|].
    apply (filter_key_In (fun r => U_EMAIL (A_USER r))) in Hf.
    destruct Hf as [Hin Hemail]. now rewrite (Hall row Hin Hemail).
  - intros Hmiss. unfold login.
    destruct Hmiss as [-> | ->]; [reflexivity|].
    now rewrite Bool.orb_true_r.
Qed.

(** X25: the middleware takes the second of the fields of the
    [Authorization] header that single spaces separate, whatever the first
    field is: a header made of a scheme and a token, neither containing a
    space and the token not empty, is answered 403 when [jwt.verify] rejects
    the token and passes the verified user on otherwise; a header with no
    space, or none at all, is answered 401. *)
Theorem authenticateToken_reads_second_field
    (now : Z) (scheme token : string)
    (Hscheme : contains_space scheme = false)
    (Htoken : contains_space token = false)
    (Hnonempty : token <> EmptyString) :
  authenticateToken jwt_verify now (Some (String.append scheme (String " " token)))
  = match jwt_verify now token with
    | Some user => inr user
    | None => inl (403, "Invalid or expired token")
    end
  /\ authenticateToken jwt_verify now (Some token)
     = inl (401, "Authentication token required")
  /\ authenticateToken jwt_verify now (Some (String.append scheme " "))
     = inl (401, "Authentication token required")
  /\ authenticateToken jwt_verify now None
     = inl (401, "Authentication token required").
Proof.
  split; [|split; [|split]].
  - unfold authenticateToken.
    rewrite token_of_header_scheme by assumption.
    unfold missing. cbn [or_empty].
    destruct (String.eqb_spec token EmptyString) as [E|_]; [contradiction|].
    reflexivity.
  - unfold authenticateToken, token_of_header.
    destruct (String.eqb_spec token EmptyString) as [E|_]; [contradiction|].
    rewrite split_on_space_single by exact Htoken. reflexivity.
  - unfold authenticateToken.
    rewrite token_of_header_scheme by (exact Hscheme || reflexivity).
    reflexivity.
  - reflexivity.
Qed.

Lemma verify_found (now : Z) (token : string) (payload : TokenPayload)
    (acc : Accounts) (row : AccountRow) :
  contains_space token = false -> token <> EmptyString ->
  jwt_verify now token = Some payload ->
  NoDup (map (fun r => U_ID (A_USER r)) (acc_users acc)) ->
  In row (acc_users acc) -> U_ID (A_USER row) = tp_id payload ->
  verify jwt_verify now (Some (String.append "Bearer " token)) acc
  = VerifyOk {| au_id := U_ID (A_USER row); au_email := U_EMAIL (A_USER row);
                au_name := U_NAME (A_USER row);
                au_department := U_DEPARTMENT (A_USER row);
                au_isAdmin := U_IS_ADMIN (A_USER row) =? 1; au_role := None |}.
Proof.
  intros Hspace Hne Hverify Hnd Hin Hid. unfold verify, authenticateToken.
  change (String.append "Bearer " token)
    with (String.append "Bearer" (String " " token)).
  rewrite token_of_header_scheme by (exact Hspace || reflexivity).
  unfold missing. cbn [or_empty].
  destruct (String.eqb_spec token EmptyString) as [E|_]; [contradiction|].
  rewrite Hverify, <- Hid.
  rewrite (filter_key_unique (fun r => U_ID (A_USER r)) _ _ Hnd Hin).
  reflexivity.
Qed.

(** X26: what a protected route shows is decided by the stored account and
    not by what the token says: for a stored token that [jwt.verify]
    accepts and whose user is in the table, a route that requires an
    administrator shows its children when the account's [is_admin] is 1 and
    sends to ["/"] otherwise, and a route that does not always shows its
    children; the token stays in the storage. *)
Theorem route_follows_stored_account
    (now : Z) (token : string) (payload : TokenPayload) (acc : Accounts)
    (row : AccountRow) (requireAdmin : bool)
    (Hspace : contains_space token = false)
    (Hne : token <> EmptyString)
    (Hverify : jwt_verify now token = Some payload)
    (Hnd : NoDup (map (fun r => U_ID (A_USER r)) (acc_users acc)))
    (Hin : In row (acc_users acc))
    (Hid : U_ID (A_USER row) = tp_id payload) :
  ProtectedRoute requireAdmin
    (fst (verifyAuth (Some token) (fetch_verify jwt_verify now acc) route_initial))
  = (if requireAdmin && negb (U_IS_ADMIN (A_USER row) =? 1)
     then Navigate "/" else Children)
  /\ snd (verifyAuth (Some token) (fetch_verify jwt_verify now acc) route_initial)
     = Some token.
Proof.
  unfold verifyAuth, missing. cbn [or_empty].
  destruct (String.eqb_spec token EmptyString) as [E|_]; [contradiction|].
  unfold fetch_verify.
  rewrite (verify_found now token payload acc row) by assumption.
  cbn [au_isAdmin fst snd]. split; [|reflexivity].
  unfold ProtectedRoute. cbn [rs_loading rs_isAuthenticated rs_isAdmin negb].
  reflexivity.
Qed.

(** X27: someone who has signed up and presents the token of the sign-up,
    while [jwt.verify] still accepts it and gives back the identifier that
    was signed, is shown the children of an ordinary protected route and is sent to ["/"]
    by one that requires an administrator. *)
Theorem signed_up_user_is_not_admin
    (salt : string) (now now' : Z) (body : SignupBody) (acc acc1 : Accounts)
    (token : string) (user : AuthUser) (payload : TokenPayload)
    (Hinv : accounts_consistent acc)
    (Hsignup : signup bcrypt_hash jwt_sign salt now body acc = (AuthOk token user, acc1))
    (Hspace : contains_space token = false)
    (Hne : token <> EmptyString)
    (Hverify : jwt_verify now' token = Some payload)
    (Hid : tp_id payload = au_id user) :
  ProtectedRoute false
    (fst (verifyAuth (Some token) (fetch_verify jwt_verify now' acc1) route_initial))
  = Children
  /\ ProtectedRoute true
       (fst (verifyAuth (Some token) (fetch_verify jwt_verify now' acc1) route_initial))
     = Navigate "/".
Proof.
  pose proof (signup_ok _ _ _ _ _ _ _ Hsignup)
    as (_ & _ & _ & Hfresh & -> & _ & ->).
  destruct Hinv as (_ & Hids & _).
  assert (Hfound :
    verify jwt_verify now' (Some (String.append "Bearer " token))
      (with_account acc (N.succ (acc_user_id_seq acc))
         (acc_users acc ++ [signed_up_row bcrypt_hash salt body acc]))
    = VerifyOk {| au_id := user_id (acc_user_id_seq acc);
                  au_email := or_empty (sb_email body);
                  au_name := or_empty (sb_name body);
                  au_department := or_empty (sb_department body);
                  au_isAdmin := false; au_role := None |}).
  { apply (verify_found now' token payload _ (signed_up_row bcrypt_hash salt body acc));
      try assumption.
    - cbn [with_account acc_users]. rewrite map_app. now apply NoDup_snoc.
    - cbn [with_account acc_users]. apply in_or_app. right. now left.
    - now rewrite Hid. }
  unfold verifyAuth, missing. cbn [or_empty].
  destruct (String.eqb_spec token EmptyString) as [E|_]; [contradiction|].
  unfold fetch_verify. rewrite Hfound. split; reflexivity.
Qed.

End Accounts.

(** X28: after its effect the route never shows the spinner; it shows its
    children exactly when a token is stored, the verification request
    comes back [ok], and the answer says administrator where the route
    requires one; the stored token is removed exactly when the request
    comes back not [ok]. *)
Theorem ProtectedRoute_decision
    (token : option string) (fetched : string -> VerifyFetch)
    (requireAdmin : bool) :
  ProtectedRoute requireAdmin (fst (verifyAuth token fetched route_initial))
  <> LoadingSpinner
  /\ (ProtectedRoute requireAdmin (fst (verifyAuth token fetched route_initial))
      = Children
      <-> missing token = false
          /\ exists isAdmin,
               fetched (String.append "Bearer " (or_empty token)) = FetchedOk isAdmin
               /\ (requireAdmin = true -> isAdmin = true))
  /\ (snd (verifyAuth token fetched route_initial) <> token
      <-> missing token = false
          /\ fetched (String.append "Bearer " (or_empty token)) = FetchedNotOk).
Proof.
  unfold verifyAuth.
  destruct (missing token) eqn:Hm.
  - cbn [fst snd]. split; [discriminate|]. split.
    + split; [discriminate|]. intros [Hf _]. discriminate.
    + split; [congruence|]. intros [Hf _]. discriminate.
  - destruct (fetched _) as [isAdmin| |] eqn:Hf; cbn [fst snd].
    + split; [|split].
      * unfold ProtectedRoute. cbn. destruct (requireAdmin && negb isAdmin); discriminate.
      * unfold ProtectedRoute. cbn. split.
        -- intros Hr. split; [reflexivity|]. exists isAdmin. split; [reflexivity|].
           intros ->. destruct isAdmin; [reflexivity|discriminate].
        -- intros [_ [a [Ha Hreq]]]. injection Ha as <-.
           destruct requireAdmin; [|reflexivity].
           now rewrite (Hreq eq_refl).
      * split; [congruence|]. intros [_ Hc]. discriminate.
    + split; [discriminate|]. split.
      * split; [discriminate|]. intros [_ [a [Ha _]]]. discriminate.
      * split; [now split|]. intros _ Heq.
        destruct token; [discriminate|]. discriminate Hm.
    + split; [discriminate|]. split.
      * split; [discriminate|]. intros [_ [a [Ha _]]]. discriminate.
      * split; [congruence|]. intros [_ Hc]. discriminate.
Qed.


Lemma sample_accounts_consistent : accounts_consistent sample_accounts.
Proof.
  unfold accounts_consistent. cbn [sample_accounts acc_users acc_user_id_seq map].
  split; [|split].
  - constructor; [intros []|constructor].
  - constructor; [intros []|constructor].
  - intros row [<-|[]]. exists 1%N. split; reflexivity.
Qed.

Lemma signup_keeps_accounts_consistent_witness :
  accounts_consistent
    (snd (signup sample_hash sample_sign "s" 10 sample_signup_body sample_accounts)).
Proof.
  assert (Hseq : (acc_user_id_seq sample_accounts < 10 ^ 8)%N) by reflexivity.
  destruct (signup_keeps_accounts_consistent sample_hash sample_sign
              "s" 10 sample_signup_body sample_accounts
              sample_accounts_consistent Hseq) as [Hinv _].
  exact Hinv.
Defined.

Lemma signup_then_login_witness :
  exists token user,
    login sample_compare sample_sign 20
      {| lb_email := Some "asha@example.com"; lb_password := Some "pw" |}
      (snd (signup sample_hash sample_sign "s" 10 sample_signup_body sample_accounts))
    = AuthOk token user
    /\ au_id user = "USR00000002" /\ au_isAdmin user = false.
Proof.
  assert (Hsignup :
    signup sample_hash sample_sign "s" 10 sample_signup_body sample_accounts
    = (AuthOk "USR00000002"
         {| au_id := "USR00000002"; au_email := "asha@example.com";
            au_name := "Asha"; au_department := "HR"; au_isAdmin := false;
            au_role := None |},
       snd (signup sample_hash sample_sign "s" 10 sample_signup_body sample_accounts)))
    by reflexivity.
  assert (Hcompare :
    sample_compare (or_empty (sb_password sample_signup_body))
      (sample_hash "s" (or_empty (sb_password sample_signup_body))) = true)
    by reflexivity.
  destruct (signup_then_login sample_hash sample_compare sample_sign
              "s" 10 20 sample_signup_body sample_accounts _ _ _
              sample_accounts_consistent Hsignup Hcompare) as [Hlogin _].
  eexists. eexists. split; [exact Hlogin|]. split; reflexivity.
Defined.

Lemma authenticateToken_reads_second_field_witness :
  authenticateToken sample_verify 20 (Some "Bearer USR00000001")
  = inr {| tp_id := "USR00000001"; tp_email := EmptyString; tp_name := None;
           tp_department := EmptyString; tp_isAdmin := false; tp_role := None |}.
Proof.
  assert (Hne : "USR00000001" <> EmptyString) by discriminate.
  destruct (authenticateToken_reads_second_field sample_verify 20
              "Bearer" "USR00000001" eq_refl eq_refl Hne) as [Hfield _].
  exact Hfield.
Defined.

Lemma route_follows_stored_account_witness :
  ProtectedRoute true
    (fst (verifyAuth (Some "USR00000001")
            (fetch_verify sample_verify 20 sample_accounts) route_initial))
  = Children.
Proof.
  assert (Hne : "USR00000001" <> EmptyString) by discriminate.
  assert (Hnd : NoDup (map (fun r => U_ID (A_USER r)) (acc_users sample_accounts)))
    by (constructor; [intros []|constructor]).
  assert (Hin : In {| A_USER := {| U_ID := "USR00000001"; U_EMAIL := "root@example.com";
                                   U_NAME := "Root"; U_DEPARTMENT := "IT";
                                   U_IS_ADMIN := 1 |};
                      A_PASSWORD := "s$secret" |}
                   (acc_users sample_accounts)) by (now left).
  destruct (route_follows_stored_account sample_verify 20 "USR00000001" _
              sample_accounts _ true eq_refl Hne eq_refl Hnd Hin eq_refl)
    as [Hroute _].
  exact Hroute.
Defined.

Lemma signed_up_user_is_not_admin_witness :
  ProtectedRoute true
    (fst (verifyAuth (Some "USR00000002")
            (fetch_verify sample_verify 20
               (snd (signup sample_hash sample_sign "s" 10 sample_signup_body
                       sample_accounts)))
            route_initial))
  = Navigate "/".
Proof.
  assert (Hsignup :
    signup sample_hash sample_sign "s" 10 sample_signup_body sample_accounts
    = (AuthOk "USR00000002"
         {| au_id := "USR00000002"; au_email := "asha@example.com";
            au_name := "Asha"; au_department := "HR"; au_isAdmin := false;
            au_role := None |},
       snd (signup sample_hash sample_sign "s" 10 sample_signup_body sample_accounts)))
    by reflexivity.
  assert (Hne : "USR00000002" <> EmptyString) by discriminate.
  destruct (signed_up_user_is_not_admin sample_hash sample_sign sample_verify
              "s" 10 20 sample_signup_body sample_accounts _ _ _ _
              sample_accounts_consistent Hsignup eq_refl Hne eq_refl eq_refl)
    as [_ Hroute].
  exact Hroute.
Defined.


(** ** Question templates *)

Section TemplateProofs.

Context `{JsonParse (list Question)} `{JsonStringify (list Question)}.

Lemma create_template_ok (now : Z) (body : TemplateBody) (tpl tpl1 : Templates)
    (status : Z) (template : Template) :
  create_template now body tpl = (TemplateCreated status template, tpl1) ->
  exists questions,
    tb_questions body = Some questions
    /\ missing (tb_department body) = false
    /\ questions <> []
    /\ forallb question_complete questions = true
    /\ ~ In (template_id (tpl_seq tpl)) (map QT_ID (tpl_rows tpl))
    /\ In (or_empty (tb_department body)) (tpl_departments tpl)
    /\ status = 201
    /\ template = {| t_id := template_id (tpl_seq tpl);
                     t_department := or_empty (tb_department body);
                     t_questions := questions; t_createdAt := now |}
    /\ tpl1 = with_templates tpl (N.succ (tpl_seq tpl))
                (tpl_rows tpl
                 ++ [{| QT_ID := template_id (tpl_seq tpl);
                        QT_DEPARTMENT := or_empty (tb_department body);
                        QT_QUESTIONS := Some (JSON_stringify questions);
                        QT_CREATED_AT := now |}]).
Proof.
  unfold create_template. intros Hc.
  destruct (tb_questions body) as [questions|]; [|discriminate].
  destruct (missing (tb_department body)) eqn:Hd; [discriminate|].
  cbn [orb] in Hc.
  destruct (Nat.eqb_spec (List.length questions) 0) as [E|Hlen]; [discriminate|].
  destruct (forallb question_complete questions) eqn:Hall; [|discriminate].
  cbn [negb] in Hc.
  destruct (template_insertable _ _ _ tpl) eqn:Hins; [|discriminate].
  injection Hc as <- <- <-.
  unfold template_insertable in Hins.
  repeat (apply Bool.andb_true_iff in Hins; destruct Hins as [Hins ?]).
  exists questions. split; [reflexivity|]. split; [reflexivity|].
  split; [intros ->; now apply Hlen|]. split; [exact Hall|].
  split.
  { match goal with
    | Hid : negb (existsb (String.eqb (template_id _)) _) = true |- _ =>
        apply Bool.negb_true_iff in Hid; now apply existsb_eqb_notin in Hid
    end. }
  split.
  { match goal with
    | Hdep : existsb (String.eqb (or_empty _)) (tpl_departments tpl) = true |- _ =>
        apply existsb_exists in Hdep; destruct Hdep as [d [Hd1 Hd2]];
        apply String.eqb_eq in Hd2; now rewrite Hd2
    end. }
  now repeat split.
Qed.

(** X29: a template that was created is served again: it is in the list of
    all templates, and, when the department had no template before, it is
    the one served for the department, with the questions that were sent
    whenever parsing reads back what was serialized; a created template
    has at least one question, each with an identifier, a text and a type,
    and the department is a known one. *)
Theorem created_template_is_served
    (now : Z) (body : TemplateBody) (tpl tpl1 : Templates)
    (status : Z) (template : Template)
    (Hcreated : create_template now body tpl = (TemplateCreated status template, tpl1))
    (Hparse : JSON_parse (JSON_stringify (t_questions template))
              = Some (t_questions template)) :
  t_questions template <> []
  /\ Forall (fun q => qn_id q <> EmptyString /\ qn_text q <> EmptyString
                      /\ qn_type q <> EmptyString)
            (t_questions template)
  /\ In (t_department template) (tpl_departments tpl)
  /\ ~ In (t_id template) (map QT_ID (tpl_rows tpl))
  /\ In template (list_templates tpl1)
  /\ (~ In (t_department template) (map QT_DEPARTMENT (tpl_rows tpl)) ->
      get_template (t_department template) tpl1 = Some template)
  /\ (forall department, department <> t_department template ->
        get_template department tpl1 = get_template department tpl).
Proof.
  destruct (create_template_ok _ _ _ _ _ _ Hcreated)
    as (questions & Hq & Hd & Hne & Hall & Hfresh & Hdept & -> & -> & ->).
  cbn [t_questions t_department t_id] in *.
  set (row := {| QT_ID := template_id (tpl_seq tpl);
                 QT_DEPARTMENT := or_empty (tb_department body);
                 QT_QUESTIONS := Some (JSON_stringify questions);
                 QT_CREATED_AT := now |}).
  assert (Hrow : template_of_row row
                 = {| t_id := template_id (tpl_seq tpl);
                      t_department := or_empty (tb_department body);
                      t_questions := questions; t_createdAt := now |}).
  { unfold template_of_row, row. cbn [QT_ID QT_DEPARTMENT QT_QUESTIONS QT_CREATED_AT].
    unfold parse_clob. now rewrite Hparse. }
  split; [exact Hne|]. split; [|split; [exact Hdept|split; [exact Hfresh|split; [|split]]]].
  - apply Forall_forall. intros q Hin.
    apply (proj1 (forallb_forall _ _) Hall) in Hin. unfold question_complete in Hin.
    apply Bool.andb_true_iff in Hin. destruct Hin as [Hin Htype].
    apply Bool.andb_true_iff in Hin. destruct Hin as [Hid Htext].
    apply Bool.negb_true_iff in Hid, Htext, Htype.
    apply String.eqb_neq in Hid, Htext, Htype. now repeat split.
  - unfold list_templates. cbn [with_templates tpl_rows].
    rewrite <- Hrow. apply in_map. apply order_by_In.
    apply in_or_app. right. now left.
  - intros Hfirst. unfold get_template. cbn [with_templates tpl_rows].
    rewrite filter_app.
    rewrite (proj2 (filter_key_nil QT_DEPARTMENT _ _) Hfirst).
    simpl. rewrite String.eqb_refl. now rewrite Hrow.
  - intros department Hother. unfold get_template. cbn [with_templates tpl_rows].
    rewrite filter_app. simpl.
    destruct (String.eqb_spec (or_empty (tb_department body)) department) as [E|_];
      [now elim Hother|].
    now rewrite app_nil_r.
Qed.

Lemma template_desc_total (x y : TemplateRow) :
  (QT_CREATED_AT y <=? QT_CREATED_AT x) = true
  \/ (QT_CREATED_AT x <=? QT_CREATED_AT y) = true.
Proof.
  destruct (Z.leb_spec (QT_CREATED_AT y) (QT_CREATED_AT x)); [now left|].
  right. apply Z.leb_le. lia.
Qed.

Lemma template_desc_trans (x y z : TemplateRow) :
  (QT_CREATED_AT y <=? QT_CREATED_AT x) = true ->
  (QT_CREATED_AT z <=? QT_CREATED_AT y) = true ->
  (QT_CREATED_AT z <=? QT_CREATED_AT x) = true.
Proof. intros Hxy Hyz. apply Z.leb_le in Hxy, Hyz. apply Z.leb_le. lia. Qed.

(** X30: deleting a template removes it from the list of all templates and
    leaves the other templates listed in the same order; a department whose
    only template it was is answered 404 afterwards, and the answer for a
    department none of whose templates has the identifier is unchanged;
    the templates are listed newest first, one with a text that does not
    parse with no questions. *)
Theorem delete_template_effect (id : string) (tpl : Templates) :
  list_templates (snd (delete_template id tpl))
  = filter (fun template => negb (String.eqb (t_id template) id)) (list_templates tpl)
  /\ ~ In id (map t_id (list_templates (snd (delete_template id tpl))))
  /\ (forall department,
        (forall row, In row (tpl_rows tpl) -> QT_DEPARTMENT row = department ->
                     QT_ID row = id) ->
        get_template department (snd (delete_template id tpl)) = None)
  /\ (forall department,
        (forall row, In row (tpl_rows tpl) -> QT_DEPARTMENT row = department ->
                     QT_ID row <> id) ->
        get_template department (snd (delete_template id tpl))
        = get_template department tpl)
  /\ StronglySorted (fun a b => t_createdAt b <= t_createdAt a) (list_templates tpl)
  /\ (forall row, In row (tpl_rows tpl) ->
        match QT_QUESTIONS row with
        | Some text => JSON_parse text = None
        | None => True
        end ->
        In {| t_id := QT_ID row; t_department := QT_DEPARTMENT row;
              t_questions := []; t_createdAt := QT_CREATED_AT row |}
           (list_templates tpl)).
Proof.
  assert (Hlist : list_templates (snd (delete_template id tpl))
                  = filter (fun template => negb (String.eqb (t_id template) id))
                           (list_templates tpl)).
  { unfold list_templates, delete_template. cbn [snd with_templates tpl_rows].
    rewrite order_by_filter by (intros; first [apply template_desc_total
                                              |eapply template_desc_trans; eassumption]).
    generalize (order_by (fun x y => QT_CREATED_AT y <=? QT_CREATED_AT x) (tpl_rows tpl)).
    intros rows. induction rows as [|row rows IH]; [reflexivity|].
    simpl. cbn [t_id template_of_row].
    destruct (String.eqb (QT_ID row) id); simpl; now rewrite IH. }
  split; [exact Hlist|]. split; [|split; [|split; [|split]]].
  - rewrite Hlist. intros Hin. apply in_map_iff in Hin.
    destruct Hin as [template [Hid Hin]]. apply filter_In in Hin.
    destruct Hin as [_ Hne]. rewrite Hid, String.eqb_refl in Hne. discriminate.
  - intros department Honly. unfold get_template, delete_template.
    cbn [snd with_templates tpl_rows]. rewrite filter_filter.
    rewrite (filter_ext_in _ (fun _ => false)); [now rewrite filter_false|].
    intros row Hrow.
    destruct (String.eqb_spec (QT_DEPARTMENT row) department) as [E|_];
      [|now rewrite Bool.andb_false_r].
    rewrite (Honly row Hrow E), String.eqb_refl. reflexivity.
  - intros department Hnone. unfold get_template, delete_template.
    cbn [snd with_templates tpl_rows]. rewrite filter_filter.
    rewrite (filter_ext_in _ (fun row => String.eqb (QT_DEPARTMENT row) department));
      [reflexivity|].
    intros row Hrow.
    destruct (String.eqb_spec (QT_DEPARTMENT row) department) as [E|_];
      [|now rewrite Bool.andb_false_r].
    apply (Hnone row Hrow) in E. apply String.eqb_neq in E. now rewrite E.
  - unfold list_templates.
    apply (StronglySorted_map
             (fun x y => (QT_CREATED_AT y <=? QT_CREATED_AT x) = true)).
    + intros a b Hab. cbn [template_of_row t_createdAt]. now apply Z.leb_le.
    + apply order_by_sorted.
      * intros a b. destruct (template_desc_total a b) as [E|E]; [now left|now right].
      * intros a b c. apply template_desc_trans.
  - intros row Hrow Hbad. unfold list_templates.
    apply in_map_iff. exists row. split; [|now apply order_by_In].
    unfold template_of_row, parse_clob. f_equal.
    destruct (QT_QUESTIONS row) as [text|]; [now rewrite Hbad|reflexivity].
Qed.

End TemplateProofs.

Lemma created_template_is_served_witness :
  exists template,
    get_template (H := sample_JSON_parse_template) "HR"
      (snd (create_template (H0 := sample_JSON_stringify_template)
              10 sample_template_body sample_templates))
    = Some template
    /\ t_id template = "QT00000002".
Proof.
  assert (Hcreated :
    create_template (H0 := sample_JSON_stringify_template)
      10 sample_template_body sample_templates
    = (TemplateCreated 201
         {| t_id := "QT00000002"; t_department := "HR";
            t_questions := [{| qn_id := "q1"; qn_text := "How clear were the answers?";
                               qn_type := "rating" |}];
            t_createdAt := 10 |},
       snd (create_template (H0 := sample_JSON_stringify_template)
              10 sample_template_body sample_templates)))
    by reflexivity.
  destruct (created_template_is_served
              (H := sample_JSON_parse_template) (H0 := sample_JSON_stringify_template)
              10 sample_template_body sample_templates _ _ _ Hcreated eq_refl)
    as (_ & _ & _ & _ & _ & Hserved & _).
  eexists. split; [apply Hserved|reflexivity].
  cbn. intros [E|[]]. discriminate E.
Defined.
